(** * Arm Ethos-U rpmsg driver: mailbox, requests and inference handle

    A shallow embedding of the host-side driver under
    [drivers/ethosu/ethosu_rpmsg]: the mailbox (message table, blocking
    sender), the response handlers and fail callbacks of the requests
    (version, capabilities, network info, cancel inference), the
    version check, and the buffer, network and inference handles.

    C integers are [Z]; pointers are addresses ([Z]) into one heap of
    driver objects; [0] is the NULL pointer.  Every function that runs
    with the device mutex held is a function on [device_state]. *)

From Stdlib Require Import ZArith List Bool Lia.
From stdpp Require Import base gmap list sorting.

Local Open Scope Z_scope.

(** ** Error numbers (include/uapi/asm-generic/errno*.h) *)

Module Errno.
Definition ENOENT : Z := 2.
Definition EINTR : Z := 4.
Definition EIO : Z := 5.
Definition E2BIG : Z := 7.
Definition EBADF : Z := 9.
Definition ENOMEM : Z := 12.
Definition EFAULT : Z := 14.
Definition ENODEV : Z := 19.
Definition EINVAL : Z := 22.
Definition EMFILE : Z := 24.
Definition ENFILE : Z := 23.
Definition ENOSPC : Z := 28.
Definition ETIME : Z := 62.
Definition EPROTO : Z := 71.
Definition EBADMSG : Z := 74.
Definition EMSGSIZE : Z := 90.
End Errno.
Import Errno.

Definition INT_MAX : Z := 2147483647.

(** [(int)x] for a 64-bit unsigned [x]: keep the low 32 bits, signed. *)
Definition to_int (x : Z) : Z := (x + 2 ^ 31) mod 2 ^ 32 - 2 ^ 31.

(** ** Wire protocol, rpmsg/ethosu_rpmsg.h *)

Definition ETHOSU_RPMSG_BUFFER_MAX : Z := 16.
Definition ETHOSU_RPMSG_PMU_MAX : Z := 8.
Definition ETHOSU_RPMSG_MAGIC : Z := 0x41457631.
Definition ETHOSU_RPMSG_VERSION_MAJOR : Z := 0.
Definition ETHOSU_RPMSG_VERSION_MINOR : Z := 2.
Definition ETHOSU_RPMSG_VERSION_PATCH : Z := 0.

(** enum ethosu_rpmsg_type *)
Definition ETHOSU_RPMSG_ERR : Z := 1.
Definition ETHOSU_RPMSG_PING : Z := 2.
Definition ETHOSU_RPMSG_PONG : Z := 3.
Definition ETHOSU_RPMSG_INFERENCE_REQ : Z := 4.
Definition ETHOSU_RPMSG_INFERENCE_RSP : Z := 5.
Definition ETHOSU_RPMSG_VERSION_REQ : Z := 6.
Definition ETHOSU_RPMSG_VERSION_RSP : Z := 7.
Definition ETHOSU_RPMSG_CAPABILITIES_REQ : Z := 8.
Definition ETHOSU_RPMSG_CAPABILITIES_RSP : Z := 9.
Definition ETHOSU_RPMSG_NETWORK_INFO_REQ : Z := 10.
Definition ETHOSU_RPMSG_NETWORK_INFO_RSP : Z := 11.
Definition ETHOSU_RPMSG_CANCEL_INFERENCE_REQ : Z := 12.
Definition ETHOSU_RPMSG_CANCEL_INFERENCE_RSP : Z := 13.

(** enum ethosu_rpmsg_status *)
Definition ETHOSU_RPMSG_STATUS_OK : Z := 0.
Definition ETHOSU_RPMSG_STATUS_ERROR : Z := 1.
Definition ETHOSU_RPMSG_STATUS_RUNNING : Z := 2.
Definition ETHOSU_RPMSG_STATUS_REJECTED : Z := 3.
Definition ETHOSU_RPMSG_STATUS_ABORTED : Z := 4.
Definition ETHOSU_RPMSG_STATUS_ABORTING : Z := 5.

(** enum ethosu_rpmsg_network_type *)
Definition ETHOSU_RPMSG_NETWORK_BUFFER : Z := 1.
Definition ETHOSU_RPMSG_NETWORK_INDEX : Z := 2.

Record ethosu_rpmsg_header := mk_header {
  hdr_magic : Z;
  hdr_type : Z;
  hdr_msg_id : Z
}.

Record ethosu_rpmsg_buffer := mk_rpmsg_buffer {
  rb_ptr : Z;
  rb_size : Z
}.

(** struct ethosu_rpmsg_network_buffer: a type tag and a union. *)
Inductive ethosu_rpmsg_network_buffer :=
  | NetworkBuffer (buffer : ethosu_rpmsg_buffer)
  | NetworkIndex (index : Z).

Record struct_ethosu_rpmsg_inference_req := mk_inference_req {
  ireq_ifm_count : Z;
  ireq_ifm : list ethosu_rpmsg_buffer;
  ireq_ofm_count : Z;
  ireq_ofm : list ethosu_rpmsg_buffer;
  ireq_network : ethosu_rpmsg_network_buffer;
  ireq_pmu_event_config : list Z;
  ireq_pmu_cycle_counter_enable : Z
}.

Record struct_ethosu_rpmsg_inference_rsp := mk_inference_rsp {
  irsp_ofm_count : Z;
  irsp_ofm_size : list Z;
  irsp_status : Z;
  irsp_pmu_event_config : list Z;
  irsp_pmu_event_count : list Z;
  irsp_pmu_cycle_counter_enable : Z;
  irsp_pmu_cycle_counter_count : Z
}.

Record struct_ethosu_rpmsg_network_info_rsp := mk_network_info_rsp {
  nrsp_desc : list Z;
  nrsp_ifm_count : Z;
  nrsp_ifm_size : list Z;
  nrsp_ofm_count : Z;
  nrsp_ofm_size : list Z;
  nrsp_status : Z
}.

Record struct_ethosu_rpmsg_version_rsp := mk_version_rsp {
  vrsp_major : Z;
  vrsp_minor : Z;
  vrsp_patch : Z
}.

Record struct_ethosu_rpmsg_capabilities_rsp := mk_capabilities_rsp {
  crsp_version_status : Z;
  crsp_version_minor : Z;
  crsp_version_major : Z;
  crsp_product_major : Z;
  crsp_arch_patch_rev : Z;
  crsp_arch_minor_rev : Z;
  crsp_arch_major_rev : Z;
  crsp_driver_patch_rev : Z;
  crsp_driver_minor_rev : Z;
  crsp_driver_major_rev : Z;
  crsp_macs_per_cc : Z;
  crsp_cmd_stream_version : Z;
  crsp_custom_dma : Z
}.

Record struct_ethosu_rpmsg_cancel_inference_rsp := mk_cancel_inference_rsp {
  xrsp_status : Z
}.

Record ethosu_rpmsg_err := mk_rpmsg_err {
  err_type : Z;
  err_msg : list Z
}.

(** struct ethosu_rpmsg: the header and the union of payloads.
    [PayloadNone] is the zero-initialised union of a header-only
    message. *)
Inductive rpmsg_payload :=
  | PayloadNone
  | PayloadInferenceReq (req : struct_ethosu_rpmsg_inference_req)
  | PayloadInferenceRsp (rsp : struct_ethosu_rpmsg_inference_rsp)
  | PayloadNetworkInfoReq (network : ethosu_rpmsg_network_buffer)
  | PayloadNetworkInfoRsp (rsp : struct_ethosu_rpmsg_network_info_rsp)
  | PayloadCapabilitiesRsp (rsp : struct_ethosu_rpmsg_capabilities_rsp)
  | PayloadCancelReq (inference_handle : Z)
  | PayloadCancelRsp (rsp : struct_ethosu_rpmsg_cancel_inference_rsp)
  | PayloadVersionRsp (rsp : struct_ethosu_rpmsg_version_rsp)
  | PayloadError (err : ethosu_rpmsg_err).

Record ethosu_rpmsg := mk_rpmsg {
  rpmsg_header : ethosu_rpmsg_header;
  rpmsg_payload_of : rpmsg_payload
}.

(** [sizeof] of the header and of each member of the union (natural
    alignment, as the structs are declared). *)
Definition sizeof_header : Z := 16.
Definition sizeof_inf_req : Z := 288.
Definition sizeof_inf_rsp : Z := 160.
Definition sizeof_net_info_req : Z := 12.
Definition sizeof_net_info_rsp : Z := 172.
Definition sizeof_cap_rsp : Z := 52.
Definition sizeof_cancel_req : Z := 8.
Definition sizeof_cancel_rsp : Z := 4.
Definition sizeof_version_rsp : Z := 4.
Definition sizeof_error : Z := 132.

(** [sizeof (rsp->desc)], which the driver checks at build time to be
    [sizeof (info->uapi->desc)] as well. *)
Definition sizeof_desc : nat := 32.

(** ** User API, uapi/ethosu.h *)

(** Modelled from the spec: the header uapi/ethosu.h is missing.
    "Limits. ... FD_MAX = 16". *)
Definition ETHOSU_FD_MAX : Z := 16.

(** Modelled from the spec: the header uapi/ethosu.h is missing.
    "Limits. ... PMU_EVENT_MAX = 4"; "PMU event slots: P = 4". *)
Definition ETHOSU_PMU_EVENT_MAX : Z := 4.

(** Modelled from the spec: the header uapi/ethosu.h is missing.
    "status in { OK, ERROR, RUNNING, REJECTED, ABORTED, ABORTING }",
    in the order of the codes "0=OK, 1=ERROR, 2=RUNNING, 3=REJECTED,
    4=ABORTED, 5=ABORTING". *)
Inductive ethosu_uapi_status :=
  | ETHOSU_UAPI_STATUS_OK
  | ETHOSU_UAPI_STATUS_ERROR
  | ETHOSU_UAPI_STATUS_RUNNING
  | ETHOSU_UAPI_STATUS_REJECTED
  | ETHOSU_UAPI_STATUS_ABORTED
  | ETHOSU_UAPI_STATUS_ABORTING.

Global Instance ethosu_uapi_status_eq_dec : EqDecision ethosu_uapi_status.
Proof. solve_decision. Defined.

(** Modelled from the spec: the header uapi/ethosu.h is missing;
    "kind in {USER_BUFFER, INDEX}".  The [type] word of struct
    ethosu_uapi_network_create, decoded; a value that is neither
    enumerator is [ETHOSU_UAPI_NETWORK_OTHER]. *)
Inductive ethosu_uapi_network_type :=
  | ETHOSU_UAPI_NETWORK_USER_BUFFER
  | ETHOSU_UAPI_NETWORK_INDEX
  | ETHOSU_UAPI_NETWORK_OTHER (raw : Z).

(** Modelled from the spec: the header uapi/ethosu.h is missing;
    "payload is either a user pointer + length or a bare index". *)
Record ethosu_uapi_network_create := mk_uapi_network_create {
  nc_type : ethosu_uapi_network_type;
  nc_data_ptr : Z;
  nc_size : Z;
  nc_index : Z
}.

(** Modelled from the spec: the header uapi/ethosu.h is missing; the
    "pmu_cfg" of inference_create, with the fields the driver reads. *)
Record ethosu_uapi_pmu_config := mk_uapi_pmu_config {
  pc_events : list Z;
  pc_cycle_count : Z
}.

(** Modelled from the spec: the header uapi/ethosu.h is missing;
    "inference_create ({ifm_fds[], ofm_fds[], pmu_cfg})". *)
Record ethosu_uapi_inference_create := mk_uapi_inference_create {
  ic_ifm_count : Z;
  ic_ifm_fd : list Z;
  ic_ofm_count : Z;
  ic_ofm_fd : list Z;
  ic_pmu_config : ethosu_uapi_pmu_config
}.

(** Modelled from the spec: the header uapi/ethosu.h is missing;
    "network_info -> info struct", with the fields the driver
    writes. *)
Record ethosu_uapi_network_info := mk_uapi_network_info {
  ni_desc : list Z;
  ni_ifm_count : Z;
  ni_ifm_size : list Z;
  ni_ofm_count : Z;
  ni_ofm_size : list Z
}.

(** Modelled from the spec: the header uapi/ethosu.h is missing; the
    device type the capabilities handler stores, and the value of a
    cleared struct. *)
Inductive ethosu_uapi_device_type :=
  | ETHOSU_UAPI_DEVICE_UNKNOWN
  | ETHOSU_UAPI_DEVICE_SUBSYSTEM.

(** Modelled from the spec: the header uapi/ethosu.h is missing; the
    "fixed struct with hardware version triplet, driver version
    triplet, product major, MAC count per cycle, command-stream
    version, custom-DMA flag". *)
Record ethosu_uapi_device_capabilities := mk_uapi_capabilities {
  dc_version_status : Z;
  dc_version_minor : Z;
  dc_version_major : Z;
  dc_product_major : Z;
  dc_arch_patch_rev : Z;
  dc_arch_minor_rev : Z;
  dc_arch_major_rev : Z;
  dc_driver_patch_rev : Z;
  dc_driver_minor_rev : Z;
  dc_driver_major_rev : Z;
  dc_macs_per_cc : Z;
  dc_cmd_stream_version : Z;
  dc_custom_dma : Z;
  dc_type : ethosu_uapi_device_type
}.

(** Modelled from the spec: the header uapi/ethosu.h is missing; the
    "user_status_out" of a cancel request. *)
Record ethosu_uapi_cancel_inference_status := mk_uapi_cancel_status {
  cs_status : ethosu_uapi_status
}.

(** ** Driver objects *)

(** struct ethosu_rpmsg_mailbox_msg.  The [fail] callback is fixed by
    the kind of the object that embeds the message (each constructor
    stores its own function), so it is not a field here. *)
Record ethosu_rpmsg_mailbox_msg := mk_msg {
  msg_id : Z;
  msg_type : Z
}.

(** struct ethosu_dma_mem; [dm_mem] is the contents behind [cpu_addr]. *)
Record ethosu_dma_mem := mk_dma_mem {
  dm_size : Z;
  dm_mem : list Z;
  dm_dma_addr : Z
}.

Record ethosu_buffer := mk_buffer {
  buf_kref : Z;
  buf_dma_mem : option ethosu_dma_mem
}.

Record ethosu_rpmsg_network := mk_network {
  net_kref : Z;
  net_dma_mem : option ethosu_dma_mem;
  net_index : Z
}.

Record ethosu_rpmsg_inference := mk_inference {
  inf_kref : Z;
  inf_waitq : list Z;
  inf_done : bool;
  inf_ifm_count : Z;
  inf_ifm : list Z;
  inf_ofm_count : Z;
  inf_ofm : list Z;
  inf_net : Z;
  inf_status : ethosu_uapi_status;
  inf_pmu_event_config : list Z;
  inf_pmu_event_count : list Z;
  inf_pmu_cycle_counter_enable : Z;
  inf_pmu_cycle_counter_count : Z;
  inf_msg : ethosu_rpmsg_mailbox_msg
}.

(** The request objects.  [done] is the counter of a struct
    completion.  The [uapi] pointer of a request refers to a struct
    owned by the caller alone; the model keeps the pointee in the
    request. *)
Record ethosu_rpmsg_version := mk_version {
  ver_done : Z;
  ver_msg : ethosu_rpmsg_mailbox_msg;
  ver_errno : Z
}.

Record ethosu_rpmsg_capabilities := mk_capabilities {
  cap_uapi : ethosu_uapi_device_capabilities;
  cap_done : Z;
  cap_msg : ethosu_rpmsg_mailbox_msg;
  cap_errno : Z
}.

Record ethosu_rpmsg_network_info := mk_network_info {
  info_net : Z;
  info_uapi : ethosu_uapi_network_info;
  info_done : Z;
  info_errno : Z;
  info_msg : ethosu_rpmsg_mailbox_msg
}.

Record ethosu_rpmsg_cancel_inference := mk_cancel_inference {
  cancel_inf : Z;
  cancel_uapi : ethosu_uapi_cancel_inference_status;
  cancel_done : Z;
  cancel_msg : ethosu_rpmsg_mailbox_msg;
  cancel_errno : Z
}.

Inductive object :=
  | ObjBuffer (buf : ethosu_buffer)
  | ObjNetwork (net : ethosu_rpmsg_network)
  | ObjInference (inf : ethosu_rpmsg_inference)
  | ObjVersion (version : ethosu_rpmsg_version)
  | ObjCapabilities (cap : ethosu_rpmsg_capabilities)
  | ObjNetworkInfo (info : ethosu_rpmsg_network_info)
  | ObjCancelInference (cancellation : ethosu_rpmsg_cancel_inference).

(** The message embedded in a request object (the inverse of
    [container_of] on the message pointer). *)
Definition object_msg (o : object) : option ethosu_rpmsg_mailbox_msg :=
  match o with
  | ObjInference inf => Some (inf_msg inf)
  | ObjVersion version => Some (ver_msg version)
  | ObjCapabilities cap => Some (cap_msg cap)
  | ObjNetworkInfo info => Some (info_msg info)
  | ObjCancelInference cancellation => Some (cancel_msg cancellation)
  | ObjBuffer _ | ObjNetwork _ => None
  end.

(** struct idr: the table and the cursor of the cyclic allocator. *)
Record idr := mk_idr {
  idr_rt : gmap Z Z;
  idr_next : Z
}.

(** struct ethosu_rpmsg_mailbox.  [mbox_done] is the atomic shutdown
    flag, [send_queue] the tasks parked on the send wait queue, head
    first. *)
Record ethosu_rpmsg_mailbox := mk_mailbox {
  msg_idr : idr;
  mbox_done : Z;
  send_queue : list Z
}.

Inductive fops :=
  | ethosu_buffer_fops
  | ethosu_rpmsg_network_fops
  | ethosu_rpmsg_inference_fops
  | foreign_fops.

Global Instance fops_eq_dec : EqDecision fops.
Proof. solve_decision. Defined.

Record file := mk_file {
  f_op : fops;
  private_data : Z
}.

(** A store through an array index that lies outside the array. *)
Inductive fault :=
  | OutOfBounds (array_length : nat) (index : nat).

(** Everything the device mutex protects, and what the driver has
    handed to the outside: [tx] the packets queued on the rpmsg
    endpoint, oldest first, each with the length passed to the
    transport; [woken] the tasks made runnable by a wake-up, oldest
    first; [crash_reports] the fatal errors reported to remoteproc;
    [faults] the out-of-range stores performed so far. *)
Record device_state := mk_state {
  heap : gmap Z object;
  mailbox : ethosu_rpmsg_mailbox;
  files : gmap Z file;
  tx : list (ethosu_rpmsg * Z);
  woken : list Z;
  crash_reports : nat;
  faults : list fault
}.

Definition set_heap (h : gmap Z object) (s : device_state) : device_state :=
  mk_state h (mailbox s) (files s) (tx s) (woken s) (crash_reports s)
    (faults s).

Definition set_mailbox (m : ethosu_rpmsg_mailbox) (s : device_state)
  : device_state :=
  mk_state (heap s) m (files s) (tx s) (woken s) (crash_reports s)
    (faults s).

Definition set_files (f : gmap Z file) (s : device_state) : device_state :=
  mk_state (heap s) (mailbox s) f (tx s) (woken s) (crash_reports s)
    (faults s).

Definition set_tx (t : list (ethosu_rpmsg * Z)) (s : device_state)
  : device_state :=
  mk_state (heap s) (mailbox s) (files s) t (woken s) (crash_reports s)
    (faults s).

Definition set_woken (w : list Z) (s : device_state) : device_state :=
  mk_state (heap s) (mailbox s) (files s) (tx s) w (crash_reports s)
    (faults s).

(** [rproc_report_crash (rproc_get_by_child (dev), RPROC_FATAL_ERROR)] *)
Definition rproc_report_crash (s : device_state) : device_state :=
  mk_state (heap s) (mailbox s) (files s) (tx s) (woken s)
    (S (crash_reports s)) (faults s).

Definition set_faults (f : list fault) (s : device_state) : device_state :=
  mk_state (heap s) (mailbox s) (files s) (tx s) (woken s)
    (crash_reports s) f.

(** [*p = o] for an object already on the heap. *)
Definition store (p : Z) (o : object) (s : device_state) : device_state :=
  set_heap (<[p := o]> (heap s)) s.

(** [devm_kfree] of an object that was just cleared with [memset]. *)
Definition devm_kfree (p : Z) (s : device_state) : device_state :=
  set_heap (delete p (heap s)) s.

(** The address [devm_kzalloc] hands out: one that is not NULL and not
    in use. *)
Definition heap_fresh (h : gmap Z object) : Z :=
  1 + map_fold (fun k _ acc => Z.max k acc) 0 h.

(** ** Kernel services the driver calls

    None of the kernel proper is among the sources of the driver.
    Each service is modelled by the behaviour the driver relies on. *)

(** Modelled from the spec: lib/idr.c is missing.  The spec's
    correlation ids are "allocated cyclically (monotonically
    increasing with wraparound, skipping currently-used values)", in
    the "Range: [0, INT_MAX)".  [idr_scan rt id fuel] walks upwards
    from [id] to the first unused id. *)
Fixpoint idr_scan (rt : gmap Z Z) (id : Z) (fuel : nat) : Z :=
  match fuel with
  | O => id
  | S fuel' =>
      match rt !! id with
      | None => id
      | Some _ => idr_scan rt (id + 1) fuel'
      end
  end.

(** Modelled from the spec: lib/idr.c is missing.  [idr_alloc_u32]:
    the first unused id in [nextid .. max], or -ENOSPC; -ENOMEM when
    no tree node can be allocated ([gfp_ok] is false).  The result is
    the error, the table and the id written back through [nextid]. *)
Definition idr_alloc_u32 (i : idr) (ptr nextid max : Z) (gfp_ok : bool)
  : Z * idr * Z :=
  if negb gfp_ok then (- ENOMEM, i, nextid)
  else
    let id := idr_scan (idr_rt i) nextid (S (size (idr_rt i))) in
    if id <=? max
    then (0, mk_idr (<[id := ptr]> (idr_rt i)) (idr_next i), id)
    else (- ENOSPC, i, nextid).

(** Modelled from the spec: lib/idr.c is missing.
    [idr_alloc_cyclic]: search from the cursor, then once more from
    [start]; the cursor moves past the id handed out.  The result is
    the table and the id or the negative error. *)
Definition idr_alloc_cyclic (i : idr) (ptr start end_ : Z) (gfp_ok : bool)
  : idr * Z :=
  let max := if 0 <? end_ then end_ - 1 else INT_MAX in
  let id := if to_int (idr_next i) <? start then start else idr_next i in
  let '(err, i1, id1) := idr_alloc_u32 i ptr id max gfp_ok in
  let '(err, i2, id2) :=
    if (err =? - ENOSPC) && (start <? id1)
    then idr_alloc_u32 i1 ptr start max gfp_ok
    else (err, i1, id1) in
  if err =? 0 then (mk_idr (idr_rt i2) (id2 + 1), id2) else (i2, err).

(** Modelled from the spec: lib/idr.c is missing.  [idr_find] is the
    spec's lookup by correlation id. *)
Definition idr_find (i : idr) (id : Z) : option Z := idr_rt i !! id.

(** Modelled from the spec: lib/idr.c is missing.  [idr_remove]:
    "deregister (entry) removes the id". *)
Definition idr_remove (i : idr) (id : Z) : idr :=
  mk_idr (delete id (idr_rt i)) (idr_next i).

Definition UINT_MAX : Z := 4294967295.

(** Modelled from the spec: kernel/sched/completion.c is missing; the
    spec's "completion_signal" of a request.  [complete] counts one
    completion, unless the counter holds the mark of
    [complete_all]. *)
Definition complete (done : Z) : Z :=
  if done =? UINT_MAX then done else done + 1.

(** Modelled from the spec: kernel/sched/completion.c is missing.
    [completion_done]: a completion is counted and not yet consumed by
    a waiter. *)
Definition completion_done (done : Z) : bool := negb (done =? 0).

(** Modelled from the spec: kernel/sched/completion.c is missing; the
    spec's "wait on completion_signal with a fixed per-request
    timeout".  [wait_for_completion_timeout]: the counter afterwards
    and the jiffies left, 0 when the time ran out with nothing
    completed. *)
Definition wait_for_completion_timeout (done timeout elapsed : Z) : Z * Z :=
  if done =? 0 then (done, 0)
  else (if done =? UINT_MAX then done else done - 1,
        Z.max 1 (timeout - Z.max 0 elapsed)).

(** Modelled from the spec: lib/refcount.c and kref.h are missing; the
    spec's "standard refcount".  A new object holds one reference. *)
Definition kref_init : Z := 1.

(** Modelled from the spec: lib/refcount.c and kref.h are missing. *)
Definition kref_get (k : Z) : Z := k + 1.

(** Modelled from the spec: lib/refcount.c and kref.h are missing.
    [kref_put] gives the new count and whether this was the last
    reference ("put that brings the count to zero destroys"). *)
Definition kref_put (k : Z) : Z * bool := (k - 1, k =? 1).

(** Modelled from the spec: lib/string.c is missing; "desc must be
    NUL-terminated within 32 bytes".  [strnlen s n]: the characters
    before the first NUL among the first [n]. *)
Fixpoint strnlen (s : list Z) (n : nat) : nat :=
  match n, s with
  | S n', c :: s' => if c =? 0 then O else S (strnlen s' n')
  | _, _ => O
  end.

(** Modelled from the spec: lib/string.c is missing.
    [strscpy dest src count]: copy the string and its NUL when they
    fit in [count] bytes and return the length; otherwise copy
    [count - 1] characters, terminate, and return -E2BIG. *)
Definition strscpy (dest src : list Z) (count : nat) : list Z * Z :=
  match count with
  | O => (dest, - E2BIG)
  | S c' =>
      let len := strnlen src count in
      if (len <? count)%nat
      then (take len src ++ [0] ++ drop (S len) dest, Z.of_nat len)
      else (take c' src ++ [0] ++ drop count dest, - E2BIG)
  end.

(** Modelled from the spec: the memory of the calling process is
    missing; the spec's "user pointer + length".  User memory is a
    partial map from addresses to bytes; [user_read] reads up to the
    first inaccessible byte. *)
Fixpoint user_read (user : Z -> option Z) (from : Z) (n : nat) : list Z :=
  match n with
  | O => []
  | S n' =>
      match user from with
      | Some b => b :: user_read user (from + 1) n'
      | None => []
      end
  end.

(** Modelled from the spec: lib/usercopy.c is missing; "copy user
    bytes in ... Faulted on copy failure".  [copy_from_user] copies up
    to the first inaccessible byte, clears the rest of the
    destination, and returns the number of bytes it could not copy. *)
Definition copy_from_user (user : Z -> option Z) (from n : Z)
  : list Z * Z :=
  let got := user_read user from (Z.to_nat n) in
  let left := (Z.to_nat n - length got)%nat in
  (got ++ repeat 0 left, Z.of_nat left).

(** Modelled from the spec: kernel/sched/wait.c is missing.
    [wq_has_sleeper]: "if there are further waiters". *)
Definition wq_has_sleeper (q : list Z) : bool :=
  match q with [] => false | _ => true end.

(** Modelled from the spec: kernel/sched/wait.c is missing.
    [wake_up] on a queue of exclusive waiters: "wake exactly one", the
    head ("FIFO wake order").  The result is the tasks woken. *)
Definition wake_up (q : list Z) : list Z := take 1 q.

(** Modelled from the spec: kernel/sched/wait.c is missing.
    [wake_up_all]: "shutdown () ... wakes all senders". *)
Definition wake_up_all (q : list Z) : list Z := q.

(** Modelled from the spec: kernel/sched/wait.c is missing.
    [wake_up_interruptible] on the pollers of an inference, none of
    them exclusive: "wake pollers". *)
Definition wake_up_interruptible (q : list Z) : list Z := q.

(** Modelled from the spec: CONFIG_HZ is missing; the spec counts in
    seconds ("send timeout 15 s"). *)
Definition HZ : Z := 250.

(** Modelled from the spec: include/linux/jiffies.h is missing. *)
Definition msecs_to_jiffies (m : Z) : Z := (m * HZ + 999) / 1000.

(** Modelled from the spec: kernel/sched/wait.c is missing; "the
    waiting period has an overall bound".  [wait_woken]: the time left
    of [timeout] after sleeping [slept] jiffies. *)
Definition wait_woken (timeout slept : Z) : Z :=
  Z.max 0 (timeout - Z.max 0 slept).

(** Modelled from the spec: include/linux/err.h is missing.
    [IS_ERR]: the last page of the address space holds error codes. *)
Definition IS_ERR (p : Z) : bool := (-4095 <=? p) && (p <? 0).

(** ** Field updates *)

Definition set_msg_id (id : Z) (m : ethosu_rpmsg_mailbox_msg) :=
  mk_msg id (msg_type m).
Definition set_msg_type (t : Z) (m : ethosu_rpmsg_mailbox_msg) :=
  mk_msg (msg_id m) t.

Definition set_buf_kref (k : Z) (b : ethosu_buffer) :=
  mk_buffer k (buf_dma_mem b).
Definition set_net_kref (k : Z) (n : ethosu_rpmsg_network) :=
  mk_network k (net_dma_mem n) (net_index n).

Definition set_inf_kref (k : Z) (i : ethosu_rpmsg_inference) :=
  mk_inference k (inf_waitq i) (inf_done i) (inf_ifm_count i) (inf_ifm i)
    (inf_ofm_count i) (inf_ofm i) (inf_net i) (inf_status i)
    (inf_pmu_event_config i) (inf_pmu_event_count i)
    (inf_pmu_cycle_counter_enable i) (inf_pmu_cycle_counter_count i)
    (inf_msg i).
Definition set_inf_done (d : bool) (i : ethosu_rpmsg_inference) :=
  mk_inference (inf_kref i) (inf_waitq i) d (inf_ifm_count i) (inf_ifm i)
    (inf_ofm_count i) (inf_ofm i) (inf_net i) (inf_status i)
    (inf_pmu_event_config i) (inf_pmu_event_count i)
    (inf_pmu_cycle_counter_enable i) (inf_pmu_cycle_counter_count i)
    (inf_msg i).
Definition set_inf_ifm (c : Z) (l : list Z) (i : ethosu_rpmsg_inference) :=
  mk_inference (inf_kref i) (inf_waitq i) (inf_done i) c l
    (inf_ofm_count i) (inf_ofm i) (inf_net i) (inf_status i)
    (inf_pmu_event_config i) (inf_pmu_event_count i)
    (inf_pmu_cycle_counter_enable i) (inf_pmu_cycle_counter_count i)
    (inf_msg i).
Definition set_inf_ofm (c : Z) (l : list Z) (i : ethosu_rpmsg_inference) :=
  mk_inference (inf_kref i) (inf_waitq i) (inf_done i) (inf_ifm_count i)
    (inf_ifm i) c l (inf_net i) (inf_status i)
    (inf_pmu_event_config i) (inf_pmu_event_count i)
    (inf_pmu_cycle_counter_enable i) (inf_pmu_cycle_counter_count i)
    (inf_msg i).
Definition set_inf_status (st : ethosu_uapi_status)
  (i : ethosu_rpmsg_inference) :=
  mk_inference (inf_kref i) (inf_waitq i) (inf_done i) (inf_ifm_count i)
    (inf_ifm i) (inf_ofm_count i) (inf_ofm i) (inf_net i) st
    (inf_pmu_event_config i) (inf_pmu_event_count i)
    (inf_pmu_cycle_counter_enable i) (inf_pmu_cycle_counter_count i)
    (inf_msg i).
Definition set_inf_pmu_event_config (l : list Z)
  (i : ethosu_rpmsg_inference) :=
  mk_inference (inf_kref i) (inf_waitq i) (inf_done i) (inf_ifm_count i)
    (inf_ifm i) (inf_ofm_count i) (inf_ofm i) (inf_net i) (inf_status i)
    l (inf_pmu_event_count i)
    (inf_pmu_cycle_counter_enable i) (inf_pmu_cycle_counter_count i)
    (inf_msg i).
Definition set_inf_pmu_event_count (l : list Z)
  (i : ethosu_rpmsg_inference) :=
  mk_inference (inf_kref i) (inf_waitq i) (inf_done i) (inf_ifm_count i)
    (inf_ifm i) (inf_ofm_count i) (inf_ofm i) (inf_net i) (inf_status i)
    (inf_pmu_event_config i) l
    (inf_pmu_cycle_counter_enable i) (inf_pmu_cycle_counter_count i)
    (inf_msg i).
Definition set_inf_pmu_cycle_counter (enable count : Z)
  (i : ethosu_rpmsg_inference) :=
  mk_inference (inf_kref i) (inf_waitq i) (inf_done i) (inf_ifm_count i)
    (inf_ifm i) (inf_ofm_count i) (inf_ofm i) (inf_net i) (inf_status i)
    (inf_pmu_event_config i) (inf_pmu_event_count i) enable count
    (inf_msg i).
Definition set_inf_msg (m : ethosu_rpmsg_mailbox_msg)
  (i : ethosu_rpmsg_inference) :=
  mk_inference (inf_kref i) (inf_waitq i) (inf_done i) (inf_ifm_count i)
    (inf_ifm i) (inf_ofm_count i) (inf_ofm i) (inf_net i) (inf_status i)
    (inf_pmu_event_config i) (inf_pmu_event_count i)
    (inf_pmu_cycle_counter_enable i) (inf_pmu_cycle_counter_count i) m.

(** Apply [f] to the message embedded in a request object. *)
Definition object_map_msg
  (f : ethosu_rpmsg_mailbox_msg -> ethosu_rpmsg_mailbox_msg) (o : object)
  : object :=
  match o with
  | ObjInference inf => ObjInference (set_inf_msg (f (inf_msg inf)) inf)
  | ObjVersion v =>
      ObjVersion (mk_version (ver_done v) (f (ver_msg v)) (ver_errno v))
  | ObjCapabilities c =>
      ObjCapabilities
        (mk_capabilities (cap_uapi c) (cap_done c) (f (cap_msg c))
           (cap_errno c))
  | ObjNetworkInfo n =>
      ObjNetworkInfo
        (mk_network_info (info_net n) (info_uapi n) (info_done n)
           (info_errno n) (f (info_msg n)))
  | ObjCancelInference c =>
      ObjCancelInference
        (mk_cancel_inference (cancel_inf c) (cancel_uapi c) (cancel_done c)
           (f (cancel_msg c)) (cancel_errno c))
  | ObjBuffer _ | ObjNetwork _ => o
  end.

Definition msg_update
  (f : ethosu_rpmsg_mailbox_msg -> ethosu_rpmsg_mailbox_msg) (msg : Z)
  (s : device_state) : device_state :=
  match heap s !! msg with
  | Some o => store msg (object_map_msg f o) s
  | None => s
  end.

(** [msg->id] and [msg->type] for the message of the object at [msg]. *)
Definition msg_at (s : device_state) (msg : Z)
  : option ethosu_rpmsg_mailbox_msg :=
  heap s !! msg ≫= object_msg.

Definition set_msg_idr (i : idr) (m : ethosu_rpmsg_mailbox) :=
  mk_mailbox i (mbox_done m) (send_queue m).
Definition set_mbox_done (d : Z) (m : ethosu_rpmsg_mailbox) :=
  mk_mailbox (msg_idr m) d (send_queue m).
Definition set_send_queue (q : list Z) (m : ethosu_rpmsg_mailbox) :=
  mk_mailbox (msg_idr m) (mbox_done m) q.

(** ** The mailbox, rpmsg/ethosu_rpmsg_mailbox.c *)

Definition MAILBOX_SEND_TIMEOUT_MS : Z := 15000.

(** One turn of the send loop as the caller meets it: what
    [rpmsg_trysend] answers if it is called, how long [wait_woken]
    sleeps, whether a signal is pending afterwards, and what the other
    tasks did to the device while the mutex was released. *)
Record round := mk_round {
  r_trysend : Z;
  r_slept : Z;
  r_signal : bool;
  r_others : device_state -> device_state
}.

(** [rpmsg_trysend]: the packet is queued exactly when the transport
    answers 0. *)
Definition rpmsg_trysend (ret : Z) (data : ethosu_rpmsg) (length : Z)
  (s : device_state) : device_state :=
  if ret =? 0 then set_tx (tx s ++ [(data, length)]) s else s.

(** The [for (;;)] loop of [ethosu_send_locked].  [None]: the caller
    is still asleep when the recorded rounds end. *)
Fixpoint send_loop (data : ethosu_rpmsg) (length : Z) (rounds : list round)
  (try_send : bool) (timeout : Z) (s : device_state)
  : option (Z * device_state) :=
  if negb (mbox_done (mailbox s) =? 0) then Some (- ENODEV, s)
  else
    match rounds with
    | [] => None
    | r :: rounds' =>
        if try_send && negb (r_trysend r =? - ENOMEM)
        then Some (r_trysend r, rpmsg_trysend (r_trysend r) data length s)
        else
          let s1 := r_others r s in
          let timeout' := wait_woken timeout (r_slept r) in
          if r_signal r then Some (- EINTR, s1)
          else if timeout' =? 0 then Some (- ETIME, s1)
          else send_loop data length rounds' true timeout' s1
    end.

Definition add_wait_queue_exclusive (task : Z) (s : device_state) :=
  set_mailbox (set_send_queue (send_queue (mailbox s) ++ [task]) (mailbox s)) s.

Definition remove_wait_queue (task : Z) (s : device_state) :=
  set_mailbox
    (set_send_queue (filter (fun t => t ≠ task) (send_queue (mailbox s)))
       (mailbox s)) s.

(** ethosu_send_locked() - Blocking mailbox message sender.  [current]
    is the calling task. *)
Definition ethosu_send_locked (current : Z) (rounds : list round)
  (data : ethosu_rpmsg) (length : Z) (s : device_state)
  : option (Z * device_state) :=
  let timeout := msecs_to_jiffies MAILBOX_SEND_TIMEOUT_MS in
  let try_send := negb (wq_has_sleeper (send_queue (mailbox s))) in
  let s := add_wait_queue_exclusive current s in
  match send_loop data length rounds try_send timeout s with
  | None => None
  | Some (ret, s) =>
      let s := remove_wait_queue current s in
      if (ret =? 0) && wq_has_sleeper (send_queue (mailbox s))
      then Some (ret, set_woken (woken s ++ wake_up (send_queue (mailbox s))) s)
      else Some (ret, s)
  end.

Definition ethosu_rpmsg_mailbox_register (gfp_ok : bool) (msg : Z)
  (s : device_state) : device_state * Z :=
  let '(i, id) :=
    idr_alloc_cyclic (msg_idr (mailbox s)) msg 0 INT_MAX gfp_ok in
  let s := set_mailbox (set_msg_idr i (mailbox s)) s in
  let s := msg_update (set_msg_id id) msg s in
  if id <? 0 then (s, id) else (s, 0).

Definition ethosu_rpmsg_mailbox_deregister (msg : Z) (s : device_state)
  : device_state :=
  match msg_at s msg with
  | Some m =>
      set_mailbox
        (set_msg_idr (idr_remove (msg_idr (mailbox s)) (msg_id m))
           (mailbox s)) s
  | None => s
  end.

(** The result is the message pointer, or [ERR_PTR] of a negative
    error.  An entry whose object is no longer a request cannot arise
    (every request is deregistered before it is freed); the model
    answers -EINVAL for it. *)
Definition ethosu_rpmsg_mailbox_find (s : device_state) (id : Z)
  (type : Z) : Z :=
  match idr_find (msg_idr (mailbox s)) id with
  | None => - ENOENT
  | Some ptr =>
      match msg_at s ptr with
      | Some m => if negb (msg_type m =? type) then - EINVAL else ptr
      | None => - EINVAL
      end
  end.

Definition ethosu_rpmsg_mailbox_deinit (s : device_state) : device_state :=
  let s := set_mailbox (set_mbox_done 1 (mailbox s)) s in
  set_woken (woken s ++ wake_up_all (send_queue (mailbox s))) s.

(** The senders of the header-only and of the small requests.  Each
    stores its own type in the message before it sends. *)
Definition ethosu_rpmsg_mailbox_ping (current : Z) (rounds : list round)
  (s : device_state) : option (Z * device_state) :=
  let rpmsg :=
    mk_rpmsg (mk_header ETHOSU_RPMSG_MAGIC ETHOSU_RPMSG_PING 0) PayloadNone in
  ethosu_send_locked current rounds rpmsg sizeof_header s.

Definition ethosu_rpmsg_mailbox_pong (current : Z) (rounds : list round)
  (s : device_state) : option (Z * device_state) :=
  let rpmsg :=
    mk_rpmsg (mk_header ETHOSU_RPMSG_MAGIC ETHOSU_RPMSG_PONG 0) PayloadNone in
  ethosu_send_locked current rounds rpmsg sizeof_header s.

(** [msg->id], an int, widened to the 64-bit [msg_id] of the header. *)
Definition to_u64 (x : Z) : Z := x mod 2 ^ 64.

Definition header_for (s : device_state) (msg : Z) (type : Z)
  : ethosu_rpmsg_header :=
  mk_header ETHOSU_RPMSG_MAGIC type
    (to_u64 (from_option msg_id 0 (msg_at s msg))).

Definition ethosu_rpmsg_mailbox_version_request (current : Z)
  (rounds : list round) (msg : Z) (s : device_state)
  : option (Z * device_state) :=
  let rpmsg :=
    mk_rpmsg (header_for s msg ETHOSU_RPMSG_VERSION_REQ) PayloadNone in
  let s := msg_update (set_msg_type (hdr_type (rpmsg_header rpmsg))) msg s in
  ethosu_send_locked current rounds rpmsg sizeof_header s.

Definition ethosu_rpmsg_mailbox_capabilities_request (current : Z)
  (rounds : list round) (msg : Z) (s : device_state)
  : option (Z * device_state) :=
  let rpmsg :=
    mk_rpmsg (header_for s msg ETHOSU_RPMSG_CAPABILITIES_REQ) PayloadNone in
  let s := msg_update (set_msg_type (hdr_type (rpmsg_header rpmsg))) msg s in
  ethosu_send_locked current rounds rpmsg sizeof_header s.

Definition ethosu_rpmsg_mailbox_cancel_inference (current : Z)
  (rounds : list round) (msg : Z) (inference_handle : Z) (s : device_state)
  : option (Z * device_state) :=
  let rpmsg :=
    mk_rpmsg (header_for s msg ETHOSU_RPMSG_CANCEL_INFERENCE_REQ)
      (PayloadCancelReq (to_u64 inference_handle)) in
  let s := msg_update (set_msg_type (hdr_type (rpmsg_header rpmsg))) msg s in
  ethosu_send_locked current rounds rpmsg (sizeof_header + sizeof_cancel_req) s.

(** ** Version check, rpmsg/ethosu_rpmsg_version.c *)

Definition VERSION_RESP_TIMEOUT_MS : Z := 2000.

Definition ethosu_rpmsg_version_fail (msg : Z) (s : device_state)
  : device_state :=
  match heap s !! msg with
  | Some (ObjVersion version) =>
      if completion_done (ver_done version) then s
      else
        store msg
          (ObjVersion
             (mk_version (complete (ver_done version)) (ver_msg version)
                (- EFAULT))) s
  | _ => s
  end.

Definition ethosu_rpmsg_version_rsp (msg_id : Z)
  (rsp : struct_ethosu_rpmsg_version_rsp) (s : device_state) : device_state :=
  let msg := ethosu_rpmsg_mailbox_find s msg_id ETHOSU_RPMSG_VERSION_REQ in
  if IS_ERR msg then s
  else
    match heap s !! msg with
    | Some (ObjVersion version) =>
        if completion_done (ver_done version) then s
        else
          let errno :=
            if negb (vrsp_major rsp =? ETHOSU_RPMSG_VERSION_MAJOR)
               || negb (vrsp_minor rsp =? ETHOSU_RPMSG_VERSION_MINOR)
            then - EPROTO
            else 0 in
          store msg
            (ObjVersion
               (mk_version (complete (ver_done version)) (ver_msg version)
                  errno)) s
    | _ => s
    end.

(** ** Capabilities, rpmsg/ethosu_rpmsg_capabilities.c *)

Definition ethosu_rpmsg_capabilities_fail (msg : Z) (s : device_state)
  : device_state :=
  match heap s !! msg with
  | Some (ObjCapabilities cap) =>
      if completion_done (cap_done cap) then s
      else
        store msg
          (ObjCapabilities
             (mk_capabilities (cap_uapi cap) (complete (cap_done cap))
                (cap_msg cap) (- EFAULT))) s
  | _ => s
  end.

Definition ethosu_capability_rsp (msg_id : Z)
  (rsp : struct_ethosu_rpmsg_capabilities_rsp) (s : device_state) : device_state :=
  let msg :=
    ethosu_rpmsg_mailbox_find s msg_id ETHOSU_RPMSG_CAPABILITIES_REQ in
  if IS_ERR msg then s
  else
    match heap s !! msg with
    | Some (ObjCapabilities cap) =>
        if completion_done (cap_done cap) then s
        else
          let uapi :=
            mk_uapi_capabilities
              (crsp_version_status rsp) (crsp_version_minor rsp)
              (crsp_version_major rsp) (crsp_product_major rsp)
              (crsp_arch_patch_rev rsp) (crsp_arch_minor_rev rsp)
              (crsp_arch_major_rev rsp) (crsp_driver_patch_rev rsp)
              (crsp_driver_minor_rev rsp) (crsp_driver_major_rev rsp)
              (crsp_macs_per_cc rsp) (crsp_cmd_stream_version rsp)
              (crsp_custom_dma rsp) ETHOSU_UAPI_DEVICE_SUBSYSTEM in
          store msg
            (ObjCapabilities
               (mk_capabilities uapi (complete (cap_done cap)) (cap_msg cap)
                  0)) s
    | _ => s
    end.

(** ** Cancel inference, the response side,
    rpmsg/ethosu_rpmsg_cancel_inference.c *)

Definition ethosu_rpmsg_cancel_inference_fail (msg : Z) (s : device_state)
  : device_state :=
  match heap s !! msg with
  | Some (ObjCancelInference cancellation) =>
      if completion_done (cancel_done cancellation) then s
      else
        store msg
          (ObjCancelInference
             (mk_cancel_inference (cancel_inf cancellation)
                (mk_uapi_cancel_status ETHOSU_UAPI_STATUS_ERROR)
                (complete (cancel_done cancellation))
                (cancel_msg cancellation) (- EFAULT))) s
  | _ => s
  end.

Definition ethosu_rpmsg_cancel_inference_rsp (msg_id : Z)
  (rsp : struct_ethosu_rpmsg_cancel_inference_rsp) (s : device_state)
  : device_state :=
  let msg :=
    ethosu_rpmsg_mailbox_find s msg_id ETHOSU_RPMSG_CANCEL_INFERENCE_REQ in
  if IS_ERR msg then s
  else
    match heap s !! msg with
    | Some (ObjCancelInference cancellation) =>
        if completion_done (cancel_done cancellation) then s
        else
          let uapi :=
            if xrsp_status rsp =? ETHOSU_RPMSG_STATUS_OK
            then mk_uapi_cancel_status ETHOSU_UAPI_STATUS_OK
            else if xrsp_status rsp =? ETHOSU_RPMSG_STATUS_ERROR
            then mk_uapi_cancel_status ETHOSU_UAPI_STATUS_ERROR
            else cancel_uapi cancellation in
          store msg
            (ObjCancelInference
               (mk_cancel_inference (cancel_inf cancellation) uapi
                  (complete (cancel_done cancellation))
                  (cancel_msg cancellation) 0)) s
    | _ => s
    end.

(** ** Network info, rpmsg/ethosu_rpmsg_network_info.c *)

Definition NETWORK_INFO_RESP_TIMEOUT_MS : Z := 3000.

Definition ethosu_rpmsg_network_info_fail (msg : Z) (s : device_state)
  : device_state :=
  match heap s !! msg with
  | Some (ObjNetworkInfo info) =>
      if completion_done (info_done info) then s
      else
        store msg
          (ObjNetworkInfo
             (mk_network_info (info_net info) (info_uapi info)
                (complete (info_done info)) (- EFAULT) (info_msg info))) s
  | _ => s
  end.

(** [for (i = 0; i < count; i++) dst[i] = src[i];] with [n] turns
    left, the next index being [i]. *)
Fixpoint copy_sizes (n i : nat) (src dst : list Z) : list Z :=
  match n with
  | O => dst
  | S n' => copy_sizes n' (S i) src (<[i := nth i src 0]> dst)
  end.

Definition ethosu_rpmsg_network_info_rsp (msg_id : Z)
  (rsp : struct_ethosu_rpmsg_network_info_rsp) (s : device_state) : device_state :=
  let rsp_desc_size := sizeof_desc in
  let msg :=
    ethosu_rpmsg_mailbox_find s msg_id ETHOSU_RPMSG_NETWORK_INFO_REQ in
  if IS_ERR msg then s
  else
    match heap s !! msg with
    | Some (ObjNetworkInfo info) =>
        if completion_done (info_done info) then s
        else
          let signal_complete uapi errno :=
            store msg
              (ObjNetworkInfo
                 (mk_network_info (info_net info) uapi
                    (complete (info_done info)) errno (info_msg info))) s in
          let uapi := info_uapi info in
          if negb (nrsp_status rsp =? ETHOSU_RPMSG_STATUS_OK)
          then signal_complete uapi (- EBADF)
          else if (ETHOSU_FD_MAX <? nrsp_ifm_count rsp)
                  || (ETHOSU_FD_MAX <? nrsp_ofm_count rsp)
          then signal_complete uapi (- ENFILE)
          else if (strnlen (nrsp_desc rsp) rsp_desc_size =? rsp_desc_size)%nat
          then signal_complete uapi (- EMSGSIZE)
          else
            let '(desc, ret) :=
              strscpy (ni_desc uapi) (nrsp_desc rsp) sizeof_desc in
            let uapi :=
              mk_uapi_network_info desc (ni_ifm_count uapi) (ni_ifm_size uapi)
                (ni_ofm_count uapi) (ni_ofm_size uapi) in
            if ret <? 0 then signal_complete uapi ret
            else
              let ifm_size :=
                copy_sizes (Z.to_nat (nrsp_ifm_count rsp)) 0
                  (nrsp_ifm_size rsp) (ni_ifm_size uapi) in
              let ofm_size :=
                copy_sizes (Z.to_nat (nrsp_ofm_count rsp)) 0
                  (nrsp_ofm_size rsp) (ni_ofm_size uapi) in
              signal_complete
                (mk_uapi_network_info desc (nrsp_ifm_count rsp) ifm_size
                   (nrsp_ofm_count rsp) ofm_size) 0
    | _ => s
    end.

(** ** DMA memory and buffers, common/ethosu_dma_mem.c and
    common/ethosu_buffer.c *)

(** [struct_ok]: [devm_kzalloc] of the descriptor succeeds; [dma_ok]:
    [dma_alloc_coherent] succeeds, at device address [dma_addr].  The
    result is the region or the error behind [ERR_PTR]. *)
Definition ethosu_dma_mem_alloc (struct_ok dma_ok : bool) (dma_addr : Z)
  (size : Z) : ethosu_dma_mem + Z :=
  if size =? 0 then inr (- EINVAL)
  else if negb struct_ok then inr (- ENOMEM)
  else if negb dma_ok then inr (- ENOMEM)
  else inl (mk_dma_mem size (repeat 0 (Z.to_nat size)) dma_addr).

Definition ethosu_buffer_destroy (buf : Z) (s : device_state)
  : device_state :=
  devm_kfree buf s.

Definition ethosu_buffer_get (buf : Z) (s : device_state) : device_state :=
  match heap s !! buf with
  | Some (ObjBuffer b) =>
      store buf (ObjBuffer (set_buf_kref (kref_get (buf_kref b)) b)) s
  | _ => s
  end.

Definition ethosu_buffer_put (buf : Z) (s : device_state) : device_state :=
  match heap s !! buf with
  | Some (ObjBuffer b) =>
      let '(k, last) := kref_put (buf_kref b) in
      if last then ethosu_buffer_destroy buf s
      else store buf (ObjBuffer (set_buf_kref k b)) s
  | _ => s
  end.

Definition ethosu_buffer_verify (f : file) : bool :=
  bool_decide (f_op f = ethosu_buffer_fops).

(** The result is the buffer pointer or [ERR_PTR (-EINVAL)]. *)
Definition ethosu_buffer_get_from_fd (fd : Z) (s : device_state)
  : device_state * Z :=
  match files s !! fd with
  | None => (s, - EINVAL)
  | Some f =>
      if negb (ethosu_buffer_verify f) then (s, - EINVAL)
      else (ethosu_buffer_get (private_data f) s, private_data f)
  end.

(** Modelled from the spec: fs/anon_inodes.c is missing; the spec's
    "file-descriptor shim that exposes handles".  [anon_inode_getfd]:
    [fd] is what the kernel answers, a new descriptor bound to the
    object or a negative error. *)
Definition anon_inode_getfd (fd : Z) (ops : fops) (priv : Z)
  (s : device_state) : device_state * Z :=
  if fd <? 0 then (s, fd)
  else (set_files (<[fd := mk_file ops priv]> (files s)) s, fd).

(** ** Networks, rpmsg/ethosu_rpmsg_network.c *)

Definition ethosu_rpmsg_network_destroy (net : Z) (s : device_state)
  : device_state :=
  devm_kfree net s.

Definition ethosu_rpmsg_network_get (net : Z) (s : device_state)
  : device_state :=
  match heap s !! net with
  | Some (ObjNetwork n) =>
      store net (ObjNetwork (set_net_kref (kref_get (net_kref n)) n)) s
  | _ => s
  end.

Definition ethosu_rpmsg_network_put (net : Z) (s : device_state)
  : device_state :=
  match heap s !! net with
  | Some (ObjNetwork n) =>
      let '(k, last) := kref_put (net_kref n) in
      if last then ethosu_rpmsg_network_destroy net s
      else store net (ObjNetwork (set_net_kref k n)) s
  | _ => s
  end.

(** What the kernel and the calling process answer during one
    [ethosu_rpmsg_network_create]. *)
Record network_create_env := mk_network_create_env {
  nce_net_ok : bool;
  nce_dma_struct_ok : bool;
  nce_dma_ok : bool;
  nce_dma_addr : Z;
  nce_user : Z -> option Z;
  nce_fd : Z
}.

(** The tail of [ethosu_rpmsg_network_create] after the [switch]: bind
    a descriptor, or unwind through [free_dma_mem] and [free_net]. *)
Definition network_create_getfd (env : network_create_env) (net : Z)
  (s : device_state) : device_state * Z :=
  let '(s1, ret) :=
    anon_inode_getfd (nce_fd env) ethosu_rpmsg_network_fops net s in
  if ret <? 0 then (devm_kfree net s1, ret) else (s1, ret).

(** [ret] is an [int]: of the byte count that [copy_from_user]
    answers, it keeps what [to_int] keeps. *)
Definition ethosu_rpmsg_network_create (env : network_create_env)
  (uapi : ethosu_uapi_network_create) (s : device_state)
  : device_state * Z :=
  if negb (nce_net_ok env) then (s, - ENOMEM)
  else
    let net := heap_fresh (heap s) in
    let s := store net (ObjNetwork (mk_network kref_init None 0)) s in
    match nc_type uapi with
    | ETHOSU_UAPI_NETWORK_USER_BUFFER =>
        if nc_data_ptr uapi =? 0 then (devm_kfree net s, - EINVAL)
        else if nc_size uapi =? 0 then (devm_kfree net s, - EINVAL)
        else
          match ethosu_dma_mem_alloc (nce_dma_struct_ok env) (nce_dma_ok env)
                  (nce_dma_addr env) (nc_size uapi) with
          | inr ret => (devm_kfree net s, ret)
          | inl dma_mem =>
              let '(bytes, uncopied) :=
                copy_from_user (nce_user env) (nc_data_ptr uapi)
                  (nc_size uapi) in
              let ret := to_int uncopied in
              let dma_mem :=
                mk_dma_mem (dm_size dma_mem) bytes (dm_dma_addr dma_mem) in
              let s :=
                store net (ObjNetwork (mk_network kref_init (Some dma_mem) 0))
                  s in
              if negb (ret =? 0) then (devm_kfree net s, ret)
              else network_create_getfd env net s
          end
    | ETHOSU_UAPI_NETWORK_INDEX =>
        let s :=
          store net (ObjNetwork (mk_network kref_init None (nc_index uapi)))
            s in
        network_create_getfd env net s
    | ETHOSU_UAPI_NETWORK_OTHER _ => (devm_kfree net s, - EINVAL)
    end.

Definition ethosu_rpmsg_network_verify (f : file) : bool :=
  bool_decide (f_op f = ethosu_rpmsg_network_fops).

Definition ethosu_rpmsg_network_get_from_fd (fd : Z) (s : device_state)
  : device_state * Z :=
  match files s !! fd with
  | None => (s, - EINVAL)
  | Some f =>
      if negb (ethosu_rpmsg_network_verify f) then (s, - EINVAL)
      else (ethosu_rpmsg_network_get (private_data f) s, private_data f)
  end.

(** ** Inferences, rpmsg/ethosu_rpmsg_inference.c *)

Definition inf_update
  (f : ethosu_rpmsg_inference -> ethosu_rpmsg_inference) (inf : Z)
  (s : device_state) : device_state :=
  match heap s !! inf with
  | Some (ObjInference i) => store inf (ObjInference (f i)) s
  | _ => s
  end.

Definition to_u8 (x : Z) : Z := x mod 2 ^ 8.
Definition to_u32 (x : Z) : Z := x mod 2 ^ 32.

(** [ethosu_rpmsg_buffer_dma_mem_set] on [buf->dma_mem]. *)
Definition ethosu_rpmsg_buffer_dma_mem_set (dma_mem : option ethosu_dma_mem)
  : ethosu_rpmsg_buffer :=
  match dma_mem with
  | Some d => mk_rpmsg_buffer (to_u32 (dm_dma_addr d)) (to_u32 (dm_size d))
  | None => mk_rpmsg_buffer 0 0
  end.

Definition buffer_dma_mem (s : device_state) (buf : Z)
  : option ethosu_dma_mem :=
  match heap s !! buf with
  | Some (ObjBuffer b) => buf_dma_mem b
  | _ => None
  end.

(** The [ifm] or [ofm] array of an inference request: the first
    [count] entries filled in, the rest left zero. *)
Definition request_buffers (s : device_state) (count : Z) (bufs : list Z)
  : list ethosu_rpmsg_buffer :=
  let n := Z.to_nat count in
  map (fun buf => ethosu_rpmsg_buffer_dma_mem_set (buffer_dma_mem s buf))
    (take n bufs)
  ++ repeat (mk_rpmsg_buffer 0 0) (Z.to_nat ETHOSU_RPMSG_BUFFER_MAX - n).

Definition request_network (s : device_state) (network : Z)
  : ethosu_rpmsg_network_buffer :=
  match heap s !! network with
  | Some (ObjNetwork n) =>
      match net_dma_mem n with
      | Some d => NetworkBuffer (ethosu_rpmsg_buffer_dma_mem_set (Some d))
      | None => NetworkIndex (net_index n)
      end
  | _ => NetworkIndex 0
  end.

Definition ethosu_rpmsg_mailbox_inference (current : Z)
  (rounds : list round) (msg : Z) (ifm_count : Z) (ifm : list Z)
  (ofm_count : Z) (ofm : list Z) (network : Z) (pmu_event_config : list Z)
  (pmu_event_config_count : Z) (pmu_cycle_counter_enable : Z)
  (s : device_state) : option (Z * device_state) :=
  let header := header_for s msg ETHOSU_RPMSG_INFERENCE_REQ in
  let s := msg_update (set_msg_type (hdr_type header)) msg s in
  if negb (pmu_event_config_count =? ETHOSU_RPMSG_PMU_MAX)
  then Some (- EINVAL, s)
  else
    let inf_req :=
      mk_inference_req ifm_count (request_buffers s ifm_count ifm)
        ofm_count (request_buffers s ofm_count ofm)
        (request_network s network)
        (map (fun i => nth i pmu_event_config 0)
           (seq 0 (Z.to_nat ETHOSU_RPMSG_PMU_MAX)))
        pmu_cycle_counter_enable in
    ethosu_send_locked current rounds
      (mk_rpmsg header (PayloadInferenceReq inf_req))
      (sizeof_header + sizeof_inf_req) s.

Definition ethosu_rpmsg_inference_get (inf : Z) (s : device_state)
  : device_state :=
  inf_update (fun i => set_inf_kref (kref_get (inf_kref i)) i) inf s.

(** [while (count-- > 0) ethosu_buffer_put (bufs[count]);] *)
Definition put_buffers (count : Z) (bufs : list Z) (s : device_state)
  : device_state :=
  foldl (fun s buf => ethosu_buffer_put buf s) s
    (rev (take (Z.to_nat count) bufs)).

Definition ethosu_rpmsg_inference_kref_destroy (inf : Z) (s : device_state)
  : device_state :=
  match heap s !! inf with
  | Some (ObjInference i) =>
      let s := ethosu_rpmsg_mailbox_deregister inf s in
      let s := put_buffers (inf_ifm_count i) (inf_ifm i) s in
      let s := put_buffers (inf_ofm_count i) (inf_ofm i) s in
      let s := ethosu_rpmsg_network_put (inf_net i) s in
      devm_kfree inf s
  | _ => s
  end.

(** Return: 1 if object was removed, else 0. *)
Definition ethosu_rpmsg_inference_put (inf : Z) (s : device_state)
  : device_state * Z :=
  match heap s !! inf with
  | Some (ObjInference i) =>
      let '(k, last) := kref_put (inf_kref i) in
      let s := store inf (ObjInference (set_inf_kref k i)) s in
      if last then (ethosu_rpmsg_inference_kref_destroy inf s, 1)
      else (s, 0)
  | _ => (s, 0)
  end.

(** The header that defines ETHOSU_PMU_EVENT_MAX is missing, so the
    sender and the creation of an inference, which use the constant,
    come in a form that takes it as the parameter [pmu_event_max],
    [ethosu_rpmsg_inference_send_at] and
    [ethosu_rpmsg_inference_create_at]; the functions under the
    source's names are these at the value the spec gives. *)
Definition ethosu_rpmsg_inference_send_at (pmu_event_max : Z) (current : Z)
  (rounds : list round) (inf : Z) (s : device_state)
  : option (Z * device_state) :=
  let s := inf_update (set_inf_status ETHOSU_UAPI_STATUS_ERROR) inf s in
  match heap s !! inf with
  | Some (ObjInference i) =>
      match
        ethosu_rpmsg_mailbox_inference current rounds inf
          (inf_ifm_count i) (inf_ifm i) (inf_ofm_count i) (inf_ofm i)
          (inf_net i) (inf_pmu_event_config i)
          (to_u8 pmu_event_max)
          (to_u8 (inf_pmu_cycle_counter_enable i)) s
      with
      | None => None
      | Some (ret, s) =>
          if negb (ret =? 0) then Some (ret, s)
          else
            let s :=
              inf_update (set_inf_status ETHOSU_UAPI_STATUS_RUNNING) inf s in
            Some (0, ethosu_rpmsg_inference_get inf s)
      end
  | _ => Some (- EINVAL, s)
  end.

Definition ethosu_rpmsg_inference_send :=
  ethosu_rpmsg_inference_send_at ETHOSU_PMU_EVENT_MAX.

Definition wake_pollers (q : list Z) (s : device_state) : device_state :=
  set_woken (woken s ++ wake_up_interruptible q) s.

Definition ethosu_rpmsg_inference_fail (msg : Z) (s : device_state)
  : device_state :=
  match heap s !! msg with
  | Some (ObjInference inf) =>
      if inf_done inf then s
      else
        let '(s, ret) := ethosu_rpmsg_inference_put msg s in
        if negb (ret =? 0) then s
        else
          let s :=
            inf_update
              (fun inf =>
                 set_inf_done true
                   (set_inf_status
                      (if decide (inf_status inf = ETHOSU_UAPI_STATUS_ABORTING)
                       then ETHOSU_UAPI_STATUS_ABORTED
                       else ETHOSU_UAPI_STATUS_ERROR) inf)) msg s in
          wake_pollers (inf_waitq inf) s
  | _ => s
  end.

(** ** The PMU stores of the response handler

    The stores [inf->pmu_event_config[i] = v] and
    [inf->pmu_event_count[i] = v] do not check [i].  Past the end of
    its array a store lands on the members that follow it in
    [struct ethosu_rpmsg_inference], laid out as the 64-bit
    little-endian kernel does: [status] (4 bytes, on an 8-byte
    boundary), [pmu_event_config] (1 byte a slot), padding to the next
    8-byte boundary, [pmu_event_count] (8 bytes a slot),
    [pmu_cycle_counter_enable] (4 bytes and 4 of padding),
    [pmu_cycle_counter_count] (8 bytes), and [msg]: [id] (4 bytes),
    [type] (4 bytes), [fail] (8 bytes).  The members before [status]
    are out of reach of an index that only grows.  The callback
    pointer [msg.fail] and the memory behind the struct are no fields
    of this model: a store that reaches them is recorded as a fault
    and changes nothing else here. *)

(** Byte [k] of the little-endian integer [w]; [w] with byte [k]
    replaced by [b]. *)
Definition get_byte (w k : Z) : Z := (w / 256 ^ k) mod 256.
Definition set_byte (w k b : Z) : Z := w + (to_u8 b - get_byte w k) * 256 ^ k.

(** Where [pmu_event_count] starts, in bytes from the start of
    [pmu_event_config]. *)
Definition pmu_event_count_offset (inf : ethosu_rpmsg_inference) : Z :=
  let n := Z.of_nat (length (inf_pmu_event_config inf)) in
  n + (8 - (4 + n) mod 8) mod 8.

(** A byte stored [off] bytes after the start of [pmu_event_config],
    past the end of that array. *)
Definition spill_u8 (off v : Z) (inf : ethosu_rpmsg_inference)
  : ethosu_rpmsg_inference :=
  let o := off - pmu_event_count_offset inf in
  let counts := 8 * Z.of_nat (length (inf_pmu_event_count inf)) in
  if o <? 0 then inf
  else if o <? counts
  then
    set_inf_pmu_event_count
      (<[Z.to_nat (o / 8) :=
           set_byte (nth (Z.to_nat (o / 8)) (inf_pmu_event_count inf) 0)
             (o mod 8) v]> (inf_pmu_event_count inf)) inf
  else
    let t := o - counts in
    if t <? 4
    then
      set_inf_pmu_cycle_counter
        (set_byte (inf_pmu_cycle_counter_enable inf) t v)
        (inf_pmu_cycle_counter_count inf) inf
    else if t <? 8 then inf
    else if t <? 16
    then
      set_inf_pmu_cycle_counter (inf_pmu_cycle_counter_enable inf)
        (set_byte (inf_pmu_cycle_counter_count inf) (t - 8) v) inf
    else if t <? 20
    then
      set_inf_msg
        (mk_msg (to_int (set_byte (to_u32 (msg_id (inf_msg inf))) (t - 16) v))
           (msg_type (inf_msg inf))) inf
    else if t <? 24
    then
      set_inf_msg
        (mk_msg (msg_id (inf_msg inf))
           (set_byte (msg_type (inf_msg inf)) (t - 20) v)) inf
    else inf.

(** A 64-bit value stored [k] slots past the end of
    [pmu_event_count]. *)
Definition spill_u64 (k : nat) (v : Z) (inf : ethosu_rpmsg_inference)
  : ethosu_rpmsg_inference :=
  match k with
  | 0%nat =>
      set_inf_pmu_cycle_counter (to_u32 v) (inf_pmu_cycle_counter_count inf)
        inf
  | 1%nat =>
      set_inf_pmu_cycle_counter (inf_pmu_cycle_counter_enable inf) v inf
  | 2%nat => set_inf_msg (mk_msg (to_int v) (to_u32 (v / 2 ^ 32))) inf
  | _ => inf
  end.

(** [inf->pmu_event_config[i] = v]: the inference after the store,
    and the fault when [i] lies outside the array. *)
Definition store_pmu_event_config (i : nat) (v : Z)
  (inf : ethosu_rpmsg_inference) : ethosu_rpmsg_inference * list fault :=
  if (i <? length (inf_pmu_event_config inf))%nat
  then (set_inf_pmu_event_config (<[i := v]> (inf_pmu_event_config inf)) inf,
        [])
  else (spill_u8 (Z.of_nat i) v inf,
        [OutOfBounds (length (inf_pmu_event_config inf)) i]).

(** [inf->pmu_event_count[i] = v], likewise. *)
Definition store_pmu_event_count (i : nat) (v : Z)
  (inf : ethosu_rpmsg_inference) : ethosu_rpmsg_inference * list fault :=
  if (i <? length (inf_pmu_event_count inf))%nat
  then (set_inf_pmu_event_count (<[i := v]> (inf_pmu_event_count inf)) inf,
        [])
  else (spill_u64 (i - length (inf_pmu_event_count inf)) v inf,
        [OutOfBounds (length (inf_pmu_event_count inf)) i]).

(** The PMU loop of the response handler,
    [for (i = 0; i < ETHOSU_RPMSG_PMU_MAX; i++)], with [n] turns left
    and the next index [i]. *)
Fixpoint pmu_copy (n i : nat) (rsp : struct_ethosu_rpmsg_inference_rsp)
  (inf : ethosu_rpmsg_inference) : ethosu_rpmsg_inference * list fault :=
  match n with
  | O => (inf, [])
  | S n' =>
      let '(inf, f1) :=
        store_pmu_event_config i (nth i (irsp_pmu_event_config rsp) 0) inf in
      let '(inf, f2) :=
        store_pmu_event_count i (nth i (irsp_pmu_event_count rsp) 0) inf in
      let '(inf, fs) := pmu_copy n' (S i) rsp inf in
      (inf, f1 ++ f2 ++ fs)
  end.

(** The part of [ethosu_rpmsg_inference_rsp] between the lookup and
    the [done:] label: the new status and, when it is OK, the PMU
    values of the response.  The result is the inference and the
    out-of-range stores made on the way. *)
Definition inference_rsp_update (rsp : struct_ethosu_rpmsg_inference_rsp)
  (inf : ethosu_rpmsg_inference) : ethosu_rpmsg_inference * list fault :=
  if bool_decide (inf_status inf = ETHOSU_UAPI_STATUS_ABORTED)
     || bool_decide (inf_status inf = ETHOSU_UAPI_STATUS_ABORTING)
  then (set_inf_status ETHOSU_UAPI_STATUS_ABORTED inf, [])
  else
    let inf :=
      if (irsp_status rsp =? ETHOSU_RPMSG_STATUS_OK)
         && (inf_ofm_count inf <=? ETHOSU_RPMSG_BUFFER_MAX)
      then set_inf_status ETHOSU_UAPI_STATUS_OK inf
      else if irsp_status rsp =? ETHOSU_RPMSG_STATUS_REJECTED
      then set_inf_status ETHOSU_UAPI_STATUS_REJECTED inf
      else if irsp_status rsp =? ETHOSU_RPMSG_STATUS_ABORTED
      then set_inf_status ETHOSU_UAPI_STATUS_ABORTED inf
      else set_inf_status ETHOSU_UAPI_STATUS_ERROR inf in
    if bool_decide (inf_status inf = ETHOSU_UAPI_STATUS_OK)
    then
      let '(inf, fs) := pmu_copy (Z.to_nat ETHOSU_RPMSG_PMU_MAX) 0 rsp inf in
      (set_inf_pmu_cycle_counter
         (irsp_pmu_cycle_counter_enable rsp)
         (irsp_pmu_cycle_counter_count rsp) inf, fs)
    else (inf, []).

Definition ethosu_rpmsg_inference_rsp (msg_id : Z)
  (rsp : struct_ethosu_rpmsg_inference_rsp) (s : device_state)
  : device_state :=
  let msg := ethosu_rpmsg_mailbox_find s msg_id ETHOSU_RPMSG_INFERENCE_REQ in
  if IS_ERR msg then s
  else
    match heap s !! msg with
    | Some (ObjInference inf) =>
        let '(inf, fs) := inference_rsp_update rsp inf in
        let inf := set_inf_done true inf in
        let s := set_faults (faults s ++ fs) (store msg (ObjInference inf) s) in
        let s := wake_pollers (inf_waitq inf) s in
        fst (ethosu_rpmsg_inference_put msg s)
    | _ => s
    end.

(** What the kernel answers during one [ethosu_rpmsg_inference_create]:
    whether [devm_kzalloc] and the id allocation find memory, the
    rounds of the send, and the descriptor [anon_inode_getfd] gives. *)
Record inference_create_env := mk_inference_create_env {
  ice_alloc_ok : bool;
  ice_gfp_ok : bool;
  ice_rounds : list round;
  ice_fd : Z
}.

(** The loops that take the IFM and the OFM buffers,
    [for (i = 0; i < count; i++)], with [n] turns left and next index
    [i]; [bufs] and [got] are the array and the counter of the
    inference.  The last component is 0 or the error of the buffer
    that could not be taken. *)
Fixpoint get_buffers (n i : nat) (fds : list Z) (bufs : list Z) (got : Z)
  (s : device_state) : device_state * list Z * Z * Z :=
  match n with
  | O => (s, bufs, got, 0)
  | S n' =>
      let '(s, buf) := ethosu_buffer_get_from_fd (nth i fds 0) s in
      let bufs := <[i := buf]> bufs in
      if IS_ERR buf then (s, bufs, got, buf)
      else get_buffers n' (S i) fds bufs (got + 1) s
  end.

(** The unwinding labels of [ethosu_rpmsg_inference_create]. *)
Definition inference_create_kfree (inf : Z) (s : device_state)
  : device_state :=
  devm_kfree inf s.

Definition inference_create_put_ifm (inf : Z) (s : device_state)
  : device_state :=
  match heap s !! inf with
  | Some (ObjInference i) =>
      let s := put_buffers (inf_ifm_count i) (inf_ifm i) s in
      let s := ethosu_rpmsg_mailbox_deregister inf s in
      inference_create_kfree inf s
  | _ => s
  end.

Definition inference_create_put_ofm (inf : Z) (s : device_state)
  : device_state :=
  match heap s !! inf with
  | Some (ObjInference i) =>
      let s := put_buffers (inf_ofm_count i) (inf_ofm i) s in
      inference_create_put_ifm inf s
  | _ => s
  end.

Definition inference_create_put_net (inf : Z) (s : device_state)
  : device_state :=
  match heap s !! inf with
  | Some (ObjInference i) =>
      let s := ethosu_rpmsg_network_put (inf_net i) s in
      inference_create_put_ofm inf s
  | _ => s
  end.

(** The result is the new descriptor or a negative error. *)
Definition ethosu_rpmsg_inference_create_at (pmu_event_max : Z) (current : Z)
  (env : inference_create_env) (net : Z)
  (uapi : ethosu_uapi_inference_create) (s : device_state)
  : option (Z * device_state) :=
  if (ETHOSU_FD_MAX <? ic_ifm_count uapi)
     || (ETHOSU_FD_MAX <? ic_ofm_count uapi)
  then Some (- EFAULT, s)
  else if negb (ice_alloc_ok env) then Some (- ENOMEM, s)
  else
    let inf := heap_fresh (heap s) in
    let fd_max := Z.to_nat ETHOSU_FD_MAX in
    let pmu_max := Z.to_nat pmu_event_max in
    let s :=
      store inf
        (ObjInference
           (mk_inference kref_init [] false 0 (repeat 0 fd_max) 0
              (repeat 0 fd_max) net ETHOSU_UAPI_STATUS_ERROR
              (repeat 0 pmu_max) (repeat 0 pmu_max) 0 0 (mk_msg 0 0))) s in
    let '(s, ret) := ethosu_rpmsg_mailbox_register (ice_gfp_ok env) inf s in
    if ret <? 0 then Some (ret, inference_create_kfree inf s)
    else
      let '(s, ifm, ifm_count, ret) :=
        get_buffers (Z.to_nat (ic_ifm_count uapi)) 0 (ic_ifm_fd uapi)
          (repeat 0 fd_max) 0 s in
      let s := inf_update (set_inf_ifm ifm_count ifm) inf s in
      if negb (ret =? 0) then Some (ret, inference_create_put_ifm inf s)
      else
        let '(s, ofm, ofm_count, ret) :=
          get_buffers (Z.to_nat (ic_ofm_count uapi)) 0 (ic_ofm_fd uapi)
            (repeat 0 fd_max) 0 s in
        let s := inf_update (set_inf_ofm ofm_count ofm) inf s in
        if negb (ret =? 0) then Some (ret, inference_create_put_ofm inf s)
        else
          let events := pc_events (ic_pmu_config uapi) in
          let s :=
            inf_update
              (fun i =>
                 set_inf_pmu_cycle_counter
                   (pc_cycle_count (ic_pmu_config uapi)) 0
                   (set_inf_pmu_event_count (repeat 0 pmu_max)
                      (set_inf_pmu_event_config
                         (map (fun k => to_u8 (nth k events 0))
                            (seq 0 pmu_max)) i))) inf s in
          let s := ethosu_rpmsg_network_get net s in
          match
            ethosu_rpmsg_inference_send_at pmu_event_max current
              (ice_rounds env) inf s
          with
          | None => None
          | Some (ret, s) =>
              if negb (ret =? 0)
              then Some (ret, inference_create_put_net inf s)
              else
                let '(s, fd) :=
                  anon_inode_getfd (ice_fd env) ethosu_rpmsg_inference_fops
                    inf s in
                if fd <? 0 then Some (fd, inference_create_put_net inf s)
                else Some (fd, s)
          end.

Definition ethosu_rpmsg_inference_create :=
  ethosu_rpmsg_inference_create_at ETHOSU_PMU_EVENT_MAX.

(** ** The version check request, rpmsg/ethosu_rpmsg_version.c *)

(** What happens around one request that waits for its response: the
    allocations, the rounds of the send, what the other tasks and the
    rpmsg callback do while the requester sleeps with the mutex
    released, how long that takes, and what they do between its
    wake-up and the moment it has the mutex again. *)
Record request_env := mk_request_env {
  re_alloc_ok : bool;
  re_gfp_ok : bool;
  re_rounds : list round;
  re_others : device_state -> device_state;
  re_elapsed : Z;
  re_late : device_state -> device_state
}.

Definition ethosu_rpmsg_version_check_request (current : Z)
  (env : request_env) (s : device_state) : option (Z * device_state) :=
  if negb (re_alloc_ok env) then Some (- ENOMEM, s)
  else
    let version := heap_fresh (heap s) in
    let s := store version (ObjVersion (mk_version 0 (mk_msg 0 0) 0)) s in
    let '(s, ret) :=
      ethosu_rpmsg_mailbox_register (re_gfp_ok env) version s in
    if ret <? 0 then Some (ret, devm_kfree version s)
    else
      match
        ethosu_rpmsg_mailbox_version_request current (re_rounds env) version s
      with
      | None => None
      | Some (ret, s) =>
          let deregister ret s :=
            Some (ret,
                  devm_kfree version
                    (ethosu_rpmsg_mailbox_deregister version s)) in
          if negb (ret =? 0) then deregister ret s
          else
            let s := re_others env s in
            match heap s !! version with
            | Some (ObjVersion v) =>
                let '(done, timeout) :=
                  wait_for_completion_timeout (ver_done v)
                    (msecs_to_jiffies VERSION_RESP_TIMEOUT_MS)
                    (re_elapsed env) in
                let s :=
                  store version
                    (ObjVersion (mk_version done (ver_msg v) (ver_errno v)))
                    s in
                let s := re_late env s in
                if timeout =? 0 then deregister (- ETIME) s
                else
                  match heap s !! version with
                  | Some (ObjVersion v) =>
                      if negb (ver_errno v =? 0)
                      then deregister (ver_errno v) s
                      else deregister ret s
                  | _ => deregister ret s
                  end
            | _ => deregister (- ETIME) s
            end
      end.

(** ** The failure broadcast, rpmsg/ethosu_rpmsg_mailbox.c *)

(** [cur->fail (cur)].  A request stores the fail function of its own
    file in its message when it is created and nothing changes it, so
    the function called is fixed by the kind of the object that embeds
    the message. *)
Definition msg_fail (cur : Z) (s : device_state) : device_state :=
  match heap s !! cur with
  | Some (ObjInference _) => ethosu_rpmsg_inference_fail cur s
  | Some (ObjVersion _) => ethosu_rpmsg_version_fail cur s
  | Some (ObjCapabilities _) => ethosu_rpmsg_capabilities_fail cur s
  | Some (ObjNetworkInfo _) => ethosu_rpmsg_network_info_fail cur s
  | Some (ObjCancelInference _) => ethosu_rpmsg_cancel_inference_fail cur s
  | Some (ObjBuffer _) | Some (ObjNetwork _) | None => s
  end.

(** Modelled from the spec: lib/idr.c and include/linux/idr.h are
    missing; "invoke fail_callback on every entry currently in the
    id_table".  The ids of the table, in the increasing order in which
    [idr_for_each_entry] walks them. *)
Definition idr_ids (i : idr) : list Z :=
  merge_sort Z.le (map_to_list (idr_rt i)).*1.

(** Modelled from the spec: lib/idr.c and include/linux/idr.h are
    missing.  [idr_for_each_entry] looks each id up when it gets
    there, so an entry that an earlier callback has removed is
    skipped; no fail callback adds an entry. *)
Fixpoint idr_for_each_entry (ids : list Z)
  (body : Z -> device_state -> device_state) (s : device_state)
  : device_state :=
  match ids with
  | [] => s
  | id :: ids' =>
      match idr_find (msg_idr (mailbox s)) id with
      | Some cur => idr_for_each_entry ids' body (body cur s)
      | None => idr_for_each_entry ids' body s
      end
  end.

Definition ethosu_rpmsg_mailbox_fail (s : device_state) : device_state :=
  idr_for_each_entry (idr_ids (msg_idr (mailbox s))) msg_fail s.

(** The sender of the network info request. *)
Definition ethosu_rpmsg_mailbox_network_info_request (current : Z)
  (rounds : list round) (msg : Z) (network : Z) (s : device_state)
  : option (Z * device_state) :=
  let header := header_for s msg ETHOSU_RPMSG_NETWORK_INFO_REQ in
  let s := msg_update (set_msg_type (hdr_type header)) msg s in
  ethosu_send_locked current rounds
    (mk_rpmsg header (PayloadNetworkInfoReq (request_network s network)))
    (sizeof_header + sizeof_net_info_req) s.

(** ** The capabilities request, rpmsg/ethosu_rpmsg_capabilities.c *)

Definition CAPABILITIES_RESP_TIMEOUT_MS : Z := 2000.

(** [*cap->uapi] as long as the request exists. *)
Definition capabilities_uapi (s : device_state) (cap : Z)
  (uapi : ethosu_uapi_device_capabilities) : ethosu_uapi_device_capabilities :=
  match heap s !! cap with
  | Some (ObjCapabilities c) => cap_uapi c
  | _ => uapi
  end.

(** The result is the return value, the caller's struct behind [uapi]
    as the call leaves it, and the device. *)
Definition ethosu_rpmsg_capabilities_request (current : Z)
  (env : request_env) (uapi : ethosu_uapi_device_capabilities)
  (s : device_state)
  : option (Z * ethosu_uapi_device_capabilities * device_state) :=
  if negb (re_alloc_ok env) then Some (- ENOMEM, uapi, s)
  else
    let cap := heap_fresh (heap s) in
    let s := store cap (ObjCapabilities (mk_capabilities uapi 0 (mk_msg 0 0) 0)) s in
    let '(s, ret) := ethosu_rpmsg_mailbox_register (re_gfp_ok env) cap s in
    let kfree ret s :=
      Some (ret, capabilities_uapi s cap uapi, devm_kfree cap s) in
    if ret <? 0 then kfree ret s
    else
      match
        ethosu_rpmsg_mailbox_capabilities_request current (re_rounds env) cap s
      with
      | None => None
      | Some (ret, s) =>
          let deregister ret s :=
            kfree ret (ethosu_rpmsg_mailbox_deregister cap s) in
          if negb (ret =? 0) then deregister ret s
          else
            let s := re_others env s in
            match heap s !! cap with
            | Some (ObjCapabilities c) =>
                let '(done, timeout) :=
                  wait_for_completion_timeout (cap_done c)
                    (msecs_to_jiffies CAPABILITIES_RESP_TIMEOUT_MS)
                    (re_elapsed env) in
                let s :=
                  store cap
                    (ObjCapabilities
                       (mk_capabilities (cap_uapi c) done (cap_msg c)
                          (cap_errno c))) s in
                let s := re_late env s in
                if timeout =? 0 then deregister (- ETIME) s
                else
                  match heap s !! cap with
                  | Some (ObjCapabilities c) =>
                      if negb (cap_errno c =? 0)
                      then deregister (cap_errno c) s
                      else deregister ret s
                  | _ => deregister ret s
                  end
            | _ => deregister (- ETIME) s
            end
      end.

(** ** The network info request, rpmsg/ethosu_rpmsg_network_info.c *)

(** [*info->uapi] as long as the request exists. *)
Definition network_info_uapi (s : device_state) (info : Z)
  (uapi : ethosu_uapi_network_info) : ethosu_uapi_network_info :=
  match heap s !! info with
  | Some (ObjNetworkInfo i) => info_uapi i
  | _ => uapi
  end.

(** [ethosu_rpmsg_network_put (info->net)] *)
Definition network_info_put_net (info : Z) (s : device_state)
  : device_state :=
  match heap s !! info with
  | Some (ObjNetworkInfo i) => ethosu_rpmsg_network_put (info_net i) s
  | _ => s
  end.

Definition ethosu_rpmsg_network_info_request (current : Z)
  (env : request_env) (net : Z) (uapi : ethosu_uapi_network_info)
  (s : device_state)
  : option (Z * ethosu_uapi_network_info * device_state) :=
  if negb (re_alloc_ok env) then Some (- ENOMEM, uapi, s)
  else
    let info := heap_fresh (heap s) in
    let s :=
      store info (ObjNetworkInfo (mk_network_info net uapi 0 0 (mk_msg 0 0)))
        s in
    let '(s, ret) := ethosu_rpmsg_mailbox_register (re_gfp_ok env) info s in
    let kfree ret s :=
      Some (ret, network_info_uapi s info uapi, devm_kfree info s) in
    if ret <? 0 then kfree ret s
    else
      let s := ethosu_rpmsg_network_get net s in
      match
        ethosu_rpmsg_mailbox_network_info_request current (re_rounds env)
          info net s
      with
      | None => None
      | Some (ret, s) =>
          let deregister ret s :=
            kfree ret
              (network_info_put_net info
                 (ethosu_rpmsg_mailbox_deregister info s)) in
          if negb (ret =? 0) then deregister ret s
          else
            let s := re_others env s in
            match heap s !! info with
            | Some (ObjNetworkInfo i) =>
                let '(done, timeout) :=
                  wait_for_completion_timeout (info_done i)
                    (msecs_to_jiffies NETWORK_INFO_RESP_TIMEOUT_MS)
                    (re_elapsed env) in
                let s :=
                  store info
                    (ObjNetworkInfo
                       (mk_network_info (info_net i) (info_uapi i) done
                          (info_errno i) (info_msg i))) s in
                let s := re_late env s in
                if timeout =? 0 then deregister (- ETIME) s
                else
                  match heap s !! info with
                  | Some (ObjNetworkInfo i) => deregister (info_errno i) s
                  | _ => deregister ret s
                  end
            | _ => deregister (- ETIME) s
            end
      end.

(** ** The cancel request, rpmsg/ethosu_rpmsg_cancel_inference.c *)

Definition CANCEL_INFERENCE_RESP_TIMEOUT_MS : Z := 2000.

(** [*cancellation->uapi] as long as the request exists. *)
Definition cancel_inference_uapi (s : device_state) (cancellation : Z)
  (uapi : ethosu_uapi_cancel_inference_status)
  : ethosu_uapi_cancel_inference_status :=
  match heap s !! cancellation with
  | Some (ObjCancelInference c) => cancel_uapi c
  | _ => uapi
  end.

(** [ethosu_rpmsg_inference_put (cancellation->inf)] *)
Definition cancel_inference_put_inf (cancellation : Z) (s : device_state)
  : device_state :=
  match heap s !! cancellation with
  | Some (ObjCancelInference c) =>
      fst (ethosu_rpmsg_inference_put (cancel_inf c) s)
  | _ => s
  end.

(** [cancellation->inf->msg.id] *)
Definition cancel_inference_handle (s : device_state) (inf : Z) : Z :=
  from_option msg_id 0 (msg_at s inf).

(** [lock_ret] is what [device_lock_interruptible] answers after the
    wait: 0, or the error of a caller that was signalled while it
    waited for the mutex.  In the second case the function goes on
    without the mutex; the model runs the rest in one piece all the
    same.  In the source [inf] points to an inference by its type;
    at an address that holds none the model does nothing and answers
    -EINVAL. *)
Definition ethosu_rpmsg_cancel_inference_request (current : Z)
  (env : request_env) (lock_ret : Z) (inf : Z)
  (uapi : ethosu_uapi_cancel_inference_status) (s : device_state)
  : option (Z * ethosu_uapi_cancel_inference_status * device_state) :=
  match heap s !! inf with
  | Some (ObjInference i) =>
      if inf_done i
      then Some (0, mk_uapi_cancel_status ETHOSU_UAPI_STATUS_ERROR, s)
      else if negb (re_alloc_ok env) then Some (- ENOMEM, uapi, s)
      else
        let cancellation := heap_fresh (heap s) in
        let s := ethosu_rpmsg_inference_get inf s in
        let s := inf_update (set_inf_status ETHOSU_UAPI_STATUS_ABORTING) inf s in
        let s :=
          store cancellation
            (ObjCancelInference
               (mk_cancel_inference inf uapi 0 (mk_msg 0 0) 0)) s in
        let '(s, ret) :=
          ethosu_rpmsg_mailbox_register (re_gfp_ok env) cancellation s in
        let kfree ret s :=
          Some (ret, cancel_inference_uapi s cancellation uapi,
                devm_kfree cancellation
                  (cancel_inference_put_inf cancellation s)) in
        if ret <? 0 then kfree ret s
        else
          match
            ethosu_rpmsg_mailbox_cancel_inference current (re_rounds env)
              cancellation (cancel_inference_handle s inf) s
          with
          | None => None
          | Some (ret, s) =>
              let deregister ret s :=
                kfree ret (ethosu_rpmsg_mailbox_deregister cancellation s) in
              if negb (ret =? 0) then deregister ret s
              else
                let s := re_others env s in
                match heap s !! cancellation with
                | Some (ObjCancelInference c) =>
                    let '(done, timeout) :=
                      wait_for_completion_timeout (cancel_done c)
                        (msecs_to_jiffies CANCEL_INFERENCE_RESP_TIMEOUT_MS)
                        (re_elapsed env) in
                    let s :=
                      store cancellation
                        (ObjCancelInference
                           (mk_cancel_inference (cancel_inf c) (cancel_uapi c)
                              done (cancel_msg c) (cancel_errno c))) s in
                    let s := re_late env s in
                    if negb (lock_ret =? 0) then deregister lock_ret s
                    else if timeout =? 0
                    then deregister (- EIO) (rproc_report_crash s)
                    else
                      match heap s !! cancellation with
                      | Some (ObjCancelInference c) =>
                          if negb (cancel_errno c =? 0)
                          then deregister (cancel_errno c)
                                 (rproc_report_crash s)
                          else
                            deregister lock_ret
                              (inf_update
                                 (set_inf_status ETHOSU_UAPI_STATUS_ABORTED)
                                 inf s)
                      | _ => deregister lock_ret s
                      end
                | _ => deregister (- EIO) (rproc_report_crash s)
                end
          end
  | _ => Some (- EINVAL, uapi, s)
  end.

(** ** Buffer creation and the buffer file, common/ethosu_buffer.c *)

(** What the kernel answers during one [ethosu_buffer_create]. *)
Record buffer_create_env := mk_buffer_create_env {
  bce_buf_ok : bool;
  bce_dma_struct_ok : bool;
  bce_dma_ok : bool;
  bce_dma_addr : Z;
  bce_fd : Z
}.

(** The result is the new descriptor or a negative error. *)
Definition ethosu_buffer_create (env : buffer_create_env) (size : Z)
  (s : device_state) : device_state * Z :=
  if size =? 0 then (s, - EINVAL)
  else if negb (bce_buf_ok env) then (s, - ENOMEM)
  else
    let buf := heap_fresh (heap s) in
    let s := store buf (ObjBuffer (mk_buffer kref_init None)) s in
    match ethosu_dma_mem_alloc (bce_dma_struct_ok env) (bce_dma_ok env)
            (bce_dma_addr env) size with
    | inr ret => (devm_kfree buf s, ret)
    | inl dma_mem =>
        let s := store buf (ObjBuffer (mk_buffer kref_init (Some dma_mem))) s in
        let '(s1, ret) :=
          anon_inode_getfd (bce_fd env) ethosu_buffer_fops buf s in
        if ret <? 0 then (devm_kfree buf s1, ret) else (s1, ret)
    end.

(** Modelled from the spec: include/uapi/linux/fs.h is missing; the
    two positions of the "size query" of a buffer handle. *)
Definition SEEK_SET : Z := 0.
Definition SEEK_END : Z := 2.

(** [None]: the buffer behind the file has no memory region, and the
    function would read through a NULL pointer. *)
Definition ethosu_buffer_llseek (f : file) (offset whence : Z)
  (s : device_state) : option Z :=
  if negb (offset =? 0) then Some (- EINVAL)
  else if whence =? SEEK_END
  then dm_size <$> buffer_dma_mem s (private_data f)
  else if whence =? SEEK_SET then Some 0
  else Some (- EINVAL).

Definition ethosu_buffer_release (f : file) (s : device_state)
  : device_state * Z :=
  (ethosu_buffer_put (private_data f) s, 0).

(** ** The inference file, rpmsg/ethosu_rpmsg_inference.c *)

Definition set_inf_waitq (q : list Z) (i : ethosu_rpmsg_inference) :=
  mk_inference (inf_kref i) q (inf_done i) (inf_ifm_count i) (inf_ifm i)
    (inf_ofm_count i) (inf_ofm i) (inf_net i) (inf_status i)
    (inf_pmu_event_config i) (inf_pmu_event_count i)
    (inf_pmu_cycle_counter_enable i) (inf_pmu_cycle_counter_count i)
    (inf_msg i).

(** Modelled from the spec: include/uapi/linux/eventpoll.h is missing;
    the "standard readiness notification (readable)". *)
Definition EPOLLIN : Z := 1.

(** Modelled from the spec: include/linux/poll.h is missing; "A user
    may wait ... for done".  [poll_wait] puts the polling task on the
    wait queue of the inference. *)
Definition poll_wait (current : Z) (inf : Z) (s : device_state)
  : device_state :=
  inf_update (fun i => set_inf_waitq (inf_waitq i ++ [current]) i) inf s.

(** [current] is the polling task.  The function runs without the
    device mutex: [between] is what the other tasks do after the
    caller is on the wait queue and before it reads [done]. *)
Definition ethosu_rpmsg_inference_poll (current : Z)
  (between : device_state -> device_state) (f : file) (s : device_state)
  : device_state * Z :=
  let inf := private_data f in
  let s := poll_wait current inf s in
  let s := between s in
  match heap s !! inf with
  | Some (ObjInference i) =>
      (s, if inf_done i then Z.lor 0 EPOLLIN else 0)
  | _ => (s, 0)
  end.

Definition ethosu_rpmsg_inference_release (f : file) (s : device_state)
  : device_state * Z :=
  (fst (ethosu_rpmsg_inference_put (private_data f) s), 0).

Definition ethosu_rpmsg_inference_verify (f : file) : bool :=
  bool_decide (f_op f = ethosu_rpmsg_inference_fops).

Definition ethosu_rpmsg_inference_get_from_fd (fd : Z) (s : device_state)
  : device_state * Z :=
  match files s !! fd with
  | None => (s, - EINVAL)
  | Some f =>
      if negb (ethosu_rpmsg_inference_verify f) then (s, - EINVAL)
      else (ethosu_rpmsg_inference_get (private_data f) s, private_data f)
  end.

Definition ethosu_rpmsg_network_release (f : file) (s : device_state)
  : device_state * Z :=
  (ethosu_rpmsg_network_put (private_data f) s, 0).

(** ** The dispatcher of incoming messages, common/ethosu_device.c *)

(** The packet behind [data] as the dispatcher reads it: the header,
    and the bytes after it seen through each member of the union of
    struct ethosu_rpmsg that the dispatcher hands on. *)
Record rx_packet := mk_rx_packet {
  rx_header : ethosu_rpmsg_header;
  rx_error : ethosu_rpmsg_err;
  rx_inf_rsp : struct_ethosu_rpmsg_inference_rsp;
  rx_cancel_rsp : struct_ethosu_rpmsg_cancel_inference_rsp;
  rx_version_rsp : struct_ethosu_rpmsg_version_rsp;
  rx_cap_rsp : struct_ethosu_rpmsg_capabilities_rsp;
  rx_net_info_rsp : struct_ethosu_rpmsg_network_info_rsp
}.

(** What surrounds one call of the dispatcher: the task that runs the
    rpmsg callback, the rounds of the send of a pong, and what the
    other tasks do between [device_unlock] and the final [wake_up]. *)
Record handle_env := mk_handle_env {
  he_current : Z;
  he_rounds : list round;
  he_unlocked : device_state -> device_state
}.

(** The end of [ethosu_handle_rpmsg] after the [switch]. *)
Definition handle_rpmsg_unlock (env : handle_env) (ret : Z)
  (s : device_state) : option (Z * device_state) :=
  let s := he_unlocked env s in
  Some (ret, set_woken (woken s ++ wake_up (send_queue (mailbox s))) s).

(** [len] is the length of the packet.  The store of the final NUL
    into the text of an ERR message changes the packet only, and the
    text is only logged. *)
Definition ethosu_handle_rpmsg (env : handle_env) (rpmsg : rx_packet)
  (len : Z) (s : device_state) : option (Z * device_state) :=
  let length := to_int (len - sizeof_header) in
  let type := hdr_type (rx_header rpmsg) in
  let msg_id := to_int (hdr_msg_id (rx_header rpmsg)) in
  if negb (hdr_magic (rx_header rpmsg) =? ETHOSU_RPMSG_MAGIC)
  then Some (- EBADMSG, s)
  else if type =? ETHOSU_RPMSG_ERR then
    if negb (length =? sizeof_error)
    then handle_rpmsg_unlock env (- EBADMSG) s
    else handle_rpmsg_unlock env 0 (rproc_report_crash s)
  else if type =? ETHOSU_RPMSG_PING then
    match ethosu_rpmsg_mailbox_pong (he_current env) (he_rounds env) s with
    | None => None
    | Some (ret, s) => handle_rpmsg_unlock env ret s
    end
  else if type =? ETHOSU_RPMSG_PONG then handle_rpmsg_unlock env 0 s
  else if type =? ETHOSU_RPMSG_INFERENCE_RSP then
    if negb (length =? sizeof_inf_rsp)
    then handle_rpmsg_unlock env (- EBADMSG) s
    else
      handle_rpmsg_unlock env 0
        (ethosu_rpmsg_inference_rsp msg_id (rx_inf_rsp rpmsg) s)
  else if type =? ETHOSU_RPMSG_CANCEL_INFERENCE_RSP then
    if negb (length =? sizeof_cancel_rsp)
    then handle_rpmsg_unlock env (- EBADMSG) s
    else
      handle_rpmsg_unlock env 0
        (ethosu_rpmsg_cancel_inference_rsp msg_id (rx_cancel_rsp rpmsg) s)
  else if type =? ETHOSU_RPMSG_VERSION_RSP then
    if negb (length =? sizeof_version_rsp)
    then handle_rpmsg_unlock env (- EBADMSG) s
    else
      handle_rpmsg_unlock env 0
        (ethosu_rpmsg_version_rsp msg_id (rx_version_rsp rpmsg) s)
  else if type =? ETHOSU_RPMSG_CAPABILITIES_RSP then
    if negb (length =? sizeof_cap_rsp)
    then handle_rpmsg_unlock env (- EBADMSG) s
    else
      handle_rpmsg_unlock env 0
        (ethosu_capability_rsp msg_id (rx_cap_rsp rpmsg) s)
  else if type =? ETHOSU_RPMSG_NETWORK_INFO_RSP then
    if negb (length =? sizeof_net_info_rsp)
    then handle_rpmsg_unlock env (- EBADMSG) s
    else
      handle_rpmsg_unlock env 0
        (ethosu_rpmsg_network_info_rsp msg_id (rx_net_info_rsp rpmsg) s)
  else handle_rpmsg_unlock env (- EPROTO) s.

(** * Specification-side definitions and sample states

    The tables of the specification in its own words, the measures
    the statements use, and the concrete devices, packets and
    environments at which the statements are instantiated. *)

Definition empty_mailbox : ethosu_rpmsg_mailbox :=
  mk_mailbox (mk_idr ∅ 0) 0 [].

Definition empty_state : device_state :=
  mk_state ∅ empty_mailbox ∅ [] [] 0 [].

(** A device with one version request at address 100, registered under
    id 5 and already sent. *)
Definition version_pending : device_state :=
  mk_state
    {[ 100 := ObjVersion (mk_version 0 (mk_msg 5 ETHOSU_RPMSG_VERSION_REQ) 0) ]}
    (mk_mailbox (mk_idr {[ 5 := 100 ]} 6) 0 []) ∅ [] [] 0 [].

(** A device with one freshly allocated version request at address
    100, not yet registered. *)
Definition version_fresh : device_state :=
  mk_state {[ 100 := ObjVersion (mk_version 0 (mk_msg 0 0) 0) ]}
    empty_mailbox ∅ [] [] 0 [].

Definition ping_packet : ethosu_rpmsg :=
  mk_rpmsg (mk_header ETHOSU_RPMSG_MAGIC ETHOSU_RPMSG_PING 0) PayloadNone.

(** A device in the middle of the happy path: buffers at 10 and 11, a
    network at 20, and at 30 an inference that is registered under id
    0 with kind INFERENCE_REQ and is running; task 41 polls it.  The
    user holds a descriptor on each object. *)
Definition running_inference : ethosu_rpmsg_inference :=
  mk_inference 2 [41] false 1 (10 :: repeat 0 15) 1 (11 :: repeat 0 15) 20
    ETHOSU_UAPI_STATUS_RUNNING (repeat 0 (Z.to_nat ETHOSU_PMU_EVENT_MAX))
    (repeat 0 (Z.to_nat ETHOSU_PMU_EVENT_MAX)) 0 0
    (mk_msg 0 ETHOSU_RPMSG_INFERENCE_REQ).

Definition inference_pending : device_state :=
  mk_state
    (<[ 10 := ObjBuffer (mk_buffer 2 (Some (mk_dma_mem 256 (repeat 0 256) 4096))) ]>
     (<[ 11 := ObjBuffer (mk_buffer 2 (Some (mk_dma_mem 256 (repeat 0 256) 8192))) ]>
      (<[ 20 := ObjNetwork (mk_network 2 None 0) ]>
       {[ 30 := ObjInference running_inference ]})))
    (mk_mailbox (mk_idr {[ 0 := 30 ]} 1) 0 [])
    (<[ 3 := mk_file ethosu_buffer_fops 10 ]>
     (<[ 4 := mk_file ethosu_buffer_fops 11 ]>
      (<[ 5 := mk_file ethosu_rpmsg_network_fops 20 ]>
       {[ 6 := mk_file ethosu_rpmsg_inference_fops 30 ]})))
    [] [] 0 [].

Definition ok_response : struct_ethosu_rpmsg_inference_rsp :=
  mk_inference_rsp 1 (256 :: repeat 0 15) ETHOSU_RPMSG_STATUS_OK
    [0; 0; 0; 0; 0; 0; 0; 0] [10; 20; 30; 40; 0; 0; 0; 0] 1 12345.

(** The status table of the response handling as the spec words it:
    "ABORTING or ABORTED | * | ABORTED", "RPMSG_OK and ofm_count <=
    BUFFER_MAX | OK", "RPMSG_REJECTED | REJECTED", "RPMSG_ABORTED |
    ABORTED", "anything else | ERROR", with the spec's numbers
    (BUFFER_MAX = 16; 0=OK, 3=REJECTED, 4=ABORTED). *)
Definition spec_next_status (current : ethosu_uapi_status)
  (response ofm_count : Z) : ethosu_uapi_status :=
  match current with
  | ETHOSU_UAPI_STATUS_ABORTING | ETHOSU_UAPI_STATUS_ABORTED =>
      ETHOSU_UAPI_STATUS_ABORTED
  | _ =>
      if (response =? 0) && (ofm_count <=? 16) then ETHOSU_UAPI_STATUS_OK
      else if response =? 3 then ETHOSU_UAPI_STATUS_REJECTED
      else if response =? 4 then ETHOSU_UAPI_STATUS_ABORTED
      else ETHOSU_UAPI_STATUS_ERROR
  end.

(** The members of [struct ethosu_rpmsg_inference] that lie before
    [pmu_event_config], [status] apart. *)
Definition same_head (a b : ethosu_rpmsg_inference) : Prop :=
  inf_kref b = inf_kref a
  /\ inf_waitq b = inf_waitq a
  /\ inf_done b = inf_done a
  /\ inf_ifm_count b = inf_ifm_count a
  /\ inf_ifm b = inf_ifm a
  /\ inf_ofm_count b = inf_ofm_count a
  /\ inf_ofm b = inf_ofm a
  /\ inf_net b = inf_net a.

(** An array [dst] of which the slots [i] to [i + n - 1] hold the
    entries of [src] at the same indices. *)
Definition copied (i n : nat) (src dst : list Z) : list Z :=
  take i dst ++ map (fun k => nth k src 0) (seq i n) ++ drop (i + n) dst.


(** The running inference of a driver whose ETHOSU_PMU_EVENT_MAX is
    the ETHOSU_RPMSG_PMU_MAX of the firmware, and the device that
    holds it in place of [running_inference]. *)
Definition sent_inference : ethosu_rpmsg_inference :=
  mk_inference 2 [41] false 1 (10 :: repeat 0 15) 1 (11 :: repeat 0 15) 20
    ETHOSU_UAPI_STATUS_RUNNING (repeat 0 (Z.to_nat ETHOSU_RPMSG_PMU_MAX))
    (repeat 0 (Z.to_nat ETHOSU_RPMSG_PMU_MAX)) 0 0
    (mk_msg 0 ETHOSU_RPMSG_INFERENCE_REQ).

Definition inference_sent : device_state :=
  store 30 (ObjInference sent_inference) inference_pending.


Definition pmu_request : ethosu_uapi_inference_create :=
  mk_uapi_inference_create 1 (3 :: repeat 0 15) 1 (4 :: repeat 0 15)
    (mk_uapi_pmu_config [0; 0; 0; 0; 0; 0; 0; 0] 1).


(** A response that reports eight PMU events. *)
Definition ok_response_8 : struct_ethosu_rpmsg_inference_rsp :=
  mk_inference_rsp 1 (256 :: repeat 0 15) ETHOSU_RPMSG_STATUS_OK
    [1; 2; 3; 4; 5; 6; 7; 8] [10; 20; 30; 40; 50; 60; 70; 80] 1 12345.

(** What a device state shows apart from the heap and the mailbox. *)
Definition observables (s : device_state) :=
  (tx s, woken s, crash_reports s, faults s, files s).

(** The jiffies the caller sleeps over the given rounds. *)
Definition total_slept (rounds : list round) : Z :=
  foldr (fun r acc => Z.max 0 (r_slept r) + acc) 0 rounds.

(** A round in which the caller finds no transmit slot, is not
    signalled, and the mailbox is not shut down meanwhile. *)
Definition quiet_round (r : round) : Prop :=
  r_trysend r = - ENOMEM
  /\ r_signal r = false
  /\ forall s, mbox_done (mailbox (r_others r s)) = mbox_done (mailbox s).

(** A mailbox on whose send queue tasks 8 and 9 sleep. *)
Definition two_waiting : device_state :=
  mk_state ∅ (mk_mailbox (mk_idr ∅ 0) 0 [8; 9]) ∅ [] [] 0 [].

(** No transmit slot; during the wait the mailbox is shut down. *)
Definition shutdown_round (signal : bool) : round :=
  mk_round (- ENOMEM) 1 signal ethosu_rpmsg_mailbox_deinit.

(** No transmit slot for [slept] jiffies, and nothing else happens. *)
Definition idle_round (slept : Z) : round :=
  mk_round (- ENOMEM) slept false (fun s => s).

(** The transport takes the packet. *)
Definition sending_round : round := mk_round 0 0 false (fun s => s).

(** A process that passes eight bytes of which only the first three
    are readable. *)
Definition three_bytes (a : Z) : option Z :=
  if (4096 <=? a) && (a <? 4099) then Some 255 else None.

Definition sound_env : network_create_env :=
  mk_network_create_env true true true 65536 three_bytes 5.

Definition user_buffer_request : ethosu_uapi_network_create :=
  mk_uapi_network_create ETHOSU_UAPI_NETWORK_USER_BUFFER 4096 8 0.

(** The error a live version request ends with, by the spec's words:
    "Mismatch on major or minor against compile-time expected =
    ProtocolError; patch differences are accepted", with "Expected
    protocol version: major=0, minor=2". *)
Definition spec_version_result (major minor patch : Z) : Z :=
  if decide (major = 0 /\ minor = 2) then 0 else - EPROTO.

Definition version_0_1_0 : struct_ethosu_rpmsg_version_rsp :=
  mk_version_rsp 0 1 0.

(** The firmware answers the request with id 0 while the requester
    sleeps, and nothing else happens. *)
Definition answering_env (rsp : struct_ethosu_rpmsg_version_rsp)
  : request_env :=
  mk_request_env true true [sending_round] (ethosu_rpmsg_version_rsp 0 rsp) 10
    (fun s => s).

(** The firmware answers the request with id 0 while the requester
    sleeps, and a second response with the same id and kind arrives
    when the requester has woken up and has not yet taken the mutex
    again. *)
Definition late_answer_env (rsp late : struct_ethosu_rpmsg_version_rsp)
  : request_env :=
  mk_request_env true true [sending_round] (ethosu_rpmsg_version_rsp 0 rsp) 10
    (ethosu_rpmsg_version_rsp 0 late).

(** The spec's "NUL-terminated within 32 bytes". *)
Definition nul_within (n : nat) (desc : list Z) : bool :=
  existsb (fun c => c =? 0) (take n desc).

(** The error of a network info response, by the spec's words:
    "status == OK", "ifm_count, ofm_count <= FD_MAX", "desc must be
    NUL-terminated within 32 bytes", "any violation -> errno set
    accordingly (BadFile, TooManyFiles, MessageTooLong)", with
    FD_MAX = 16 and OK = 0; the violations are looked for in the
    order status, counts, description. *)
Definition spec_network_info_errno (rsp : struct_ethosu_rpmsg_network_info_rsp)
  : Z :=
  if negb (nrsp_status rsp =? 0) then - EBADF
  else if (16 <? nrsp_ifm_count rsp) || (16 <? nrsp_ofm_count rsp)
  then - ENFILE
  else if negb (nul_within 32 (nrsp_desc rsp)) then - EMSGSIZE
  else 0.

(** A network info request at address 100, sent under id 5, whose
    result struct the caller cleared; and the answer of a firmware
    that knows the network as "net", one input and one output of 256
    bytes. *)
Definition network_info_pending : device_state :=
  mk_state
    {[ 100 :=
         ObjNetworkInfo
           (mk_network_info 20
              (mk_uapi_network_info (repeat 0 32) 0 (repeat 0 16) 0
                 (repeat 0 16))
              0 0 (mk_msg 5 ETHOSU_RPMSG_NETWORK_INFO_REQ)) ]}
    (mk_mailbox (mk_idr {[ 5 := 100 ]} 6) 0 []) ∅ [] [] 0 [].

Definition net_response : struct_ethosu_rpmsg_network_info_rsp :=
  mk_network_info_rsp ([110; 101; 116] ++ repeat 0 29) 1
    (256 :: repeat 0 15) 1 (256 :: repeat 0 15) ETHOSU_RPMSG_STATUS_OK.

Definition version_0_2_7 : struct_ethosu_rpmsg_version_rsp :=
  mk_version_rsp 0 2 7.

(** The completion counter and the result of a request that waits on
    a completion: every kind but the inference. *)
Definition request_completion (o : object) : option (Z * Z) :=
  match o with
  | ObjVersion version => Some (ver_done version, ver_errno version)
  | ObjCapabilities cap => Some (cap_done cap, cap_errno cap)
  | ObjNetworkInfo info => Some (info_done info, info_errno info)
  | ObjCancelInference cancellation =>
      Some (cancel_done cancellation, cancel_errno cancellation)
  | ObjBuffer _ | ObjNetwork _ | ObjInference _ => None
  end.

(** What the fail callback of such a request leaves of it: a request
    that is completed stays as it is, any other is completed with
    -EFAULT, and a cancellation also tells its caller ERROR. *)
Definition request_failed (o : object) : object :=
  match o with
  | ObjVersion version =>
      if completion_done (ver_done version) then o
      else
        ObjVersion
          (mk_version (complete (ver_done version)) (ver_msg version)
             (- EFAULT))
  | ObjCapabilities cap =>
      if completion_done (cap_done cap) then o
      else
        ObjCapabilities
          (mk_capabilities (cap_uapi cap) (complete (cap_done cap))
             (cap_msg cap) (- EFAULT))
  | ObjNetworkInfo info =>
      if completion_done (info_done info) then o
      else
        ObjNetworkInfo
          (mk_network_info (info_net info) (info_uapi info)
             (complete (info_done info)) (- EFAULT) (info_msg info))
  | ObjCancelInference cancellation =>
      if completion_done (cancel_done cancellation) then o
      else
        ObjCancelInference
          (mk_cancel_inference (cancel_inf cancellation)
             (mk_uapi_cancel_status ETHOSU_UAPI_STATUS_ERROR)
             (complete (cancel_done cancellation))
             (cancel_msg cancellation) (- EFAULT))
  | ObjBuffer _ | ObjNetwork _ | ObjInference _ => o
  end.

(** What the fail callback leaves of an inference to which someone
    else holds a reference as well: a finished inference stays as it
    is; any other loses the reference of the mailbox, is done, and is
    ABORTED when a cancellation was under way and in ERROR otherwise. *)
Definition inference_failed (i : ethosu_rpmsg_inference)
  : ethosu_rpmsg_inference :=
  if inf_done i then i
  else
    set_inf_done true
      (set_inf_status
         (if decide (inf_status i = ETHOSU_UAPI_STATUS_ABORTING)
          then ETHOSU_UAPI_STATUS_ABORTED
          else ETHOSU_UAPI_STATUS_ERROR)
         (set_inf_kref (inf_kref i - 1) i)).

(** Every inference on the heap is in the table under the id its
    message carries: an inference is registered when it is created
    and deregistered only when it is destroyed. *)
Definition inferences_registered (s : device_state) : Prop :=
  forall q i,
    heap s !! q = Some (ObjInference i) ->
    idr_find (msg_idr (mailbox s)) (msg_id (inf_msg i)) = Some q.

(** A cleared capabilities struct. *)
Definition no_capabilities : ethosu_uapi_device_capabilities :=
  mk_uapi_capabilities 0 0 0 0 0 0 0 0 0 0 0 0 0 ETHOSU_UAPI_DEVICE_UNKNOWN.

(** The device of [inference_pending] with two more requests in the
    table: at 100, under id 5, a version request that still waits,
    and at 101, under id 6, a capabilities request that has been
    answered. *)
Definition shutdown_pending : device_state :=
  mk_state
    (<[ 100 := ObjVersion (mk_version 0 (mk_msg 5 ETHOSU_RPMSG_VERSION_REQ) 0) ]>
     (<[ 101 :=
           ObjCapabilities
             (mk_capabilities no_capabilities 1
                (mk_msg 6 ETHOSU_RPMSG_CAPABILITIES_REQ) 0) ]>
      (heap inference_pending)))
    (mk_mailbox (mk_idr (<[ 5 := 100 ]> (<[ 6 := 101 ]> {[ 0 := 30 ]})) 7) 0 [])
    (files inference_pending) [] [] 0 [].

(** What a firmware on an Ethos-U65 with 256 MACs answers to the
    capabilities request. *)
Definition capabilities_answer : struct_ethosu_rpmsg_capabilities_rsp :=
  mk_capabilities_rsp 1 0 1 6 0 0 1 0 2 0 256 1 0.

(** An incoming packet with the given header; its payload reads as
    the sample answers through the members of the union. *)
Definition rx_sample (header : ethosu_rpmsg_header) : rx_packet :=
  mk_rx_packet header (mk_rpmsg_err 0 (repeat 0 128)) ok_response
    (mk_cancel_inference_rsp ETHOSU_RPMSG_STATUS_OK) version_0_2_7
    capabilities_answer net_response.

(** The rpmsg callback runs as task 1, the transport has a free slot,
    and no other task interferes. *)
Definition quiet_handle_env : handle_env :=
  mk_handle_env 1 [sending_round] (fun s => s).

(** The device while a request waits for its response on a mailbox
    that was idle: the request [o] at the address [msg], registered
    under the id the cursor stood on, the cursor moved on, and the
    packet queued on the transport. *)
Definition request_sent (msg : Z) (o : object) (pkt : ethosu_rpmsg * Z)
  (s : device_state) : device_state :=
  set_tx (tx s ++ [pkt])
    (store msg o
       (set_mailbox
          (set_msg_idr
             (mk_idr
                (<[idr_next (msg_idr (mailbox s)) := msg]>
                   (idr_rt (msg_idr (mailbox s))))
                (idr_next (msg_idr (mailbox s)) + 1)) (mailbox s)) s)).

(** The device after such a request has returned: heap and table as
    they were before the call, the cursor moved on, and the packet
    sent. *)
Definition request_gone (pkt : ethosu_rpmsg * Z) (s : device_state)
  : device_state :=
  set_tx (tx s ++ [pkt])
    (set_mailbox
       (set_msg_idr
          (mk_idr (idr_rt (msg_idr (mailbox s)))
             (idr_next (msg_idr (mailbox s)) + 1)) (mailbox s)) s).

(** The packet of a request that is a bare header. *)
Definition header_packet (type id : Z) : ethosu_rpmsg * Z :=
  (mk_rpmsg (mk_header ETHOSU_RPMSG_MAGIC type (to_u64 id)) PayloadNone,
   sizeof_header).

(** The capabilities a response is reported as. *)
Definition capabilities_of_rsp (rsp : struct_ethosu_rpmsg_capabilities_rsp)
  : ethosu_uapi_device_capabilities :=
  mk_uapi_capabilities
    (crsp_version_status rsp) (crsp_version_minor rsp)
    (crsp_version_major rsp) (crsp_product_major rsp)
    (crsp_arch_patch_rev rsp) (crsp_arch_minor_rev rsp)
    (crsp_arch_major_rev rsp) (crsp_driver_patch_rev rsp)
    (crsp_driver_minor_rev rsp) (crsp_driver_major_rev rsp)
    (crsp_macs_per_cc rsp) (crsp_cmd_stream_version rsp)
    (crsp_custom_dma rsp) ETHOSU_UAPI_DEVICE_SUBSYSTEM.

(** A request on an idle mailbox: memory is at hand, the transport
    has a free slot, and nothing happens between the wake-up of the
    requester and the moment it holds the mutex again; [others] is
    what happens while it waits, for [elapsed] jiffies. *)
Definition idle_request_env (others : device_state -> device_state)
  (elapsed : Z) : request_env :=
  mk_request_env true true [sending_round] others elapsed (fun s => s).

(** The buffers of a heap are alive: each holds at least one
    reference, and none lies at an address of the error range. *)
Definition buffers_live (h : gmap Z object) : Prop :=
  forall p b, h !! p = Some (ObjBuffer b) -> 0 < buf_kref b /\ IS_ERR p = false.

(** What a sleeping sender leaves to the other tasks in one round: here
    they touch neither the objects, nor the descriptors, nor the
    entries of the table. *)
Definition leaves_objects_alone (r : round) : Prop :=
  forall s, heap (r_others r s) = heap s
            /\ files (r_others r s) = files s
            /\ idr_rt (msg_idr (mailbox (r_others r s)))
               = idr_rt (msg_idr (mailbox s)).

(** A request for an inference on two inputs of which the second
    descriptor is a network, not a buffer. *)
Definition bad_ifm_request : ethosu_uapi_inference_create :=
  mk_uapi_inference_create 2 (3 :: 5 :: repeat 0 14) 1 (4 :: repeat 0 15)
    (mk_uapi_pmu_config [0; 0; 0; 0] 0).

(** * Properties *)

(** ** Basic facts *)

Lemma IS_ERR_ENOENT : IS_ERR (- ENOENT) = true.
Proof. reflexivity. Qed.

Lemma IS_ERR_EINVAL : IS_ERR (- EINVAL) = true.
Proof. reflexivity. Qed.

Lemma find_not_registered (s : device_state) (id type : Z) :
  idr_find (msg_idr (mailbox s)) id = None ->
  ethosu_rpmsg_mailbox_find s id type = - ENOENT.
Proof. unfold ethosu_rpmsg_mailbox_find. intros ->. reflexivity. Qed.

Lemma find_kind_mismatch (s : device_state) (id type ptr : Z)
  (m : ethosu_rpmsg_mailbox_msg) :
  idr_find (msg_idr (mailbox s)) id = Some ptr ->
  msg_at s ptr = Some m ->
  msg_type m <> type ->
  ethosu_rpmsg_mailbox_find s id type = - EINVAL.
Proof.
  unfold ethosu_rpmsg_mailbox_find. intros -> -> Hne.
  destruct (Z.eqb_spec (msg_type m) type); [contradiction | reflexivity].
Qed.

Lemma find_found (s : device_state) (id type ptr : Z)
  (m : ethosu_rpmsg_mailbox_msg) :
  idr_find (msg_idr (mailbox s)) id = Some ptr ->
  msg_at s ptr = Some m ->
  msg_type m = type ->
  ethosu_rpmsg_mailbox_find s id type = ptr.
Proof.
  unfold ethosu_rpmsg_mailbox_find. intros -> -> <-.
  rewrite Z.eqb_refl. reflexivity.
Qed.

(** Whatever [find] answers, an error or a pointer, it is one of the
    three. *)
Lemma find_cases (s : device_state) (id type : Z) :
  ethosu_rpmsg_mailbox_find s id type = - ENOENT
  \/ ethosu_rpmsg_mailbox_find s id type = - EINVAL
  \/ exists m,
       idr_find (msg_idr (mailbox s)) id
         = Some (ethosu_rpmsg_mailbox_find s id type)
       /\ msg_at s (ethosu_rpmsg_mailbox_find s id type) = Some m
       /\ msg_type m = type.
Proof.
  unfold ethosu_rpmsg_mailbox_find.
  destruct (idr_find _ id) as [ptr|] eqn:Hf; [|by left].
  destruct (msg_at s ptr) as [m|] eqn:Hm; [|by right; left].
  destruct (Z.eqb_spec (msg_type m) type); cbn.
  - right; right. exists m. rewrite Hm. done.
  - by right; left.
Qed.

(** A failed lookup ends every response handler at once. *)
Lemma inference_rsp_not_found (s : device_state) id rsp :
  IS_ERR (ethosu_rpmsg_mailbox_find s id ETHOSU_RPMSG_INFERENCE_REQ) = true ->
  ethosu_rpmsg_inference_rsp id rsp s = s.
Proof. unfold ethosu_rpmsg_inference_rsp. by intros ->. Qed.

Lemma version_rsp_not_found (s : device_state) id rsp :
  IS_ERR (ethosu_rpmsg_mailbox_find s id ETHOSU_RPMSG_VERSION_REQ) = true ->
  ethosu_rpmsg_version_rsp id rsp s = s.
Proof. unfold ethosu_rpmsg_version_rsp. by intros ->. Qed.

Lemma capability_rsp_not_found (s : device_state) id rsp :
  IS_ERR (ethosu_rpmsg_mailbox_find s id ETHOSU_RPMSG_CAPABILITIES_REQ) = true ->
  ethosu_capability_rsp id rsp s = s.
Proof. unfold ethosu_capability_rsp. by intros ->. Qed.

Lemma network_info_rsp_not_found (s : device_state) id rsp :
  IS_ERR (ethosu_rpmsg_mailbox_find s id ETHOSU_RPMSG_NETWORK_INFO_REQ) = true ->
  ethosu_rpmsg_network_info_rsp id rsp s = s.
Proof. unfold ethosu_rpmsg_network_info_rsp. by intros ->. Qed.

Lemma cancel_inference_rsp_not_found (s : device_state) id rsp :
  IS_ERR (ethosu_rpmsg_mailbox_find s id ETHOSU_RPMSG_CANCEL_INFERENCE_REQ)
    = true ->
  ethosu_rpmsg_cancel_inference_rsp id rsp s = s.
Proof. unfold ethosu_rpmsg_cancel_inference_rsp. by intros ->. Qed.

(** ** The mailbox table *)

(** C4.  A lookup of an id that is registered with another kind
    answers KindMismatch ([ERR_PTR (-EINVAL)]); the lookup only reads,
    and each response handler that made it returns with the device
    state, the table and its entry included, as it was.  A lookup of
    an id that is not registered answers NotFound
    ([ERR_PTR (-ENOENT)]). *)
Theorem mailbox_find_kind_isolation (s : device_state) (id kind ptr : Z)
  (m : ethosu_rpmsg_mailbox_msg) :
  idr_find (msg_idr (mailbox s)) id = Some ptr ->
  msg_at s ptr = Some m ->
  msg_type m <> kind ->
  ethosu_rpmsg_mailbox_find s id kind = - EINVAL
  /\ (kind = ETHOSU_RPMSG_INFERENCE_REQ ->
      forall rsp, ethosu_rpmsg_inference_rsp id rsp s = s)
  /\ (kind = ETHOSU_RPMSG_VERSION_REQ ->
      forall rsp, ethosu_rpmsg_version_rsp id rsp s = s)
  /\ (kind = ETHOSU_RPMSG_CAPABILITIES_REQ ->
      forall rsp, ethosu_capability_rsp id rsp s = s)
  /\ (kind = ETHOSU_RPMSG_NETWORK_INFO_REQ ->
      forall rsp, ethosu_rpmsg_network_info_rsp id rsp s = s)
  /\ (kind = ETHOSU_RPMSG_CANCEL_INFERENCE_REQ ->
      forall rsp, ethosu_rpmsg_cancel_inference_rsp id rsp s = s)
  /\ (forall id',
        idr_find (msg_idr (mailbox s)) id' = None ->
        ethosu_rpmsg_mailbox_find s id' kind = - ENOENT).
Proof.
  intros Hid Hm Hne.
  pose proof (find_kind_mismatch s id kind ptr m Hid Hm Hne) as Hf.
  split; [exact Hf|].
  repeat split.
  - intros -> rsp. apply inference_rsp_not_found. by rewrite Hf.
  - intros -> rsp. apply version_rsp_not_found. by rewrite Hf.
  - intros -> rsp. apply capability_rsp_not_found. by rewrite Hf.
  - intros -> rsp. apply network_info_rsp_not_found. by rewrite Hf.
  - intros -> rsp. apply cancel_inference_rsp_not_found. by rewrite Hf.
  - intros id'. apply find_not_registered.
Qed.

Lemma mailbox_find_kind_isolation_witness :
  ethosu_rpmsg_mailbox_find version_pending 5 ETHOSU_RPMSG_INFERENCE_REQ
    = - EINVAL
  /\ (forall rsp, ethosu_rpmsg_inference_rsp 5 rsp version_pending
                  = version_pending)
  /\ ethosu_rpmsg_mailbox_find version_pending 6 ETHOSU_RPMSG_INFERENCE_REQ
     = - ENOENT.
Proof.
  destruct (mailbox_find_kind_isolation version_pending 5
              ETHOSU_RPMSG_INFERENCE_REQ 100
              (mk_msg 5 ETHOSU_RPMSG_VERSION_REQ))
    as (Hf & Hinf & _ & _ & _ & _ & Hnone);
    [reflexivity | reflexivity | discriminate |].
  split; [exact Hf|]. split; [exact (Hinf eq_refl)|].
  apply Hnone. reflexivity.
Defined.


Lemma send_locked_shutdown (current : Z) (rounds : list round)
  (data : ethosu_rpmsg) (length : Z) (s : device_state) :
  mbox_done (mailbox s) <> 0 ->
  ethosu_send_locked current rounds data length s
  = Some (- ENODEV,
          remove_wait_queue current (add_wait_queue_exclusive current s)).
Proof.
  intros Hd. unfold ethosu_send_locked.
  assert (Hl : forall try_send timeout,
             send_loop data length rounds try_send timeout
               (add_wait_queue_exclusive current s)
             = Some (- ENODEV, add_wait_queue_exclusive current s)).
  { intros. destruct rounds; cbn;
      destruct (Z.eqb_spec (mbox_done (mailbox s)) 0); try contradiction;
      reflexivity. }
  rewrite Hl. reflexivity.
Qed.

Lemma idr_scan_ge rt fuel : forall id, id <= idr_scan rt id fuel.
Proof.
  induction fuel as [|fuel IH]; intros id; cbn; [lia|].
  destruct (rt !! id); [|lia]. specialize (IH (id + 1)). lia.
Qed.






(** ** Inference creation *)

(** C9.  A create call with more than FD_MAX input or output buffers
    returns -EFAULT and leaves the device as it was: the mailbox
    table, the heap of buffers with their reference counts, and
    everything else. *)
Theorem inference_create_fd_limit (current : Z) (env : inference_create_env)
  (net : Z) (uapi : ethosu_uapi_inference_create) (s : device_state) :
  ETHOSU_FD_MAX < ic_ifm_count uapi \/ ETHOSU_FD_MAX < ic_ofm_count uapi ->
  ethosu_rpmsg_inference_create current env net uapi s = Some (- EFAULT, s).
Proof.
  intros H.
  unfold ethosu_rpmsg_inference_create, ethosu_rpmsg_inference_create_at.
  destruct (Z.ltb_spec ETHOSU_FD_MAX (ic_ifm_count uapi));
    destruct (Z.ltb_spec ETHOSU_FD_MAX (ic_ofm_count uapi));
    try reflexivity.
  lia.
Qed.

Lemma inference_create_fd_limit_witness :
  ethosu_rpmsg_inference_create 7
    (mk_inference_create_env true true [] 8) 20
    (mk_uapi_inference_create 17 (repeat 3 16) 1 (repeat 4 16)
       (mk_uapi_pmu_config [0; 0; 0; 0] 0)) empty_state
  = Some (- EFAULT, empty_state).
Proof. apply inference_create_fd_limit. left. reflexivity. Defined.

(** ** The inference response *)

Lemma same_head_refl a : same_head a a.
Proof. by repeat split. Qed.

Lemma same_head_trans a b c : same_head a b -> same_head b c -> same_head a c.
Proof.
  unfold same_head. intros (?&?&?&?&?&?&?&?) (?&?&?&?&?&?&?&?).
  split_and!; congruence.
Qed.

Lemma spill_u8_head off v inf :
  same_head inf (spill_u8 off v inf)
  /\ inf_status (spill_u8 off v inf) = inf_status inf
  /\ length (inf_pmu_event_config (spill_u8 off v inf))
     = length (inf_pmu_event_config inf)
  /\ length (inf_pmu_event_count (spill_u8 off v inf))
     = length (inf_pmu_event_count inf).
Proof.
  unfold spill_u8, same_head. cbv zeta.
  repeat (match goal with |- context [if ?c then _ else _] => destruct c end);
    cbn; rewrite ?length_insert; split_and!; reflexivity.
Qed.

Lemma spill_u64_head k v inf :
  same_head inf (spill_u64 k v inf)
  /\ inf_status (spill_u64 k v inf) = inf_status inf
  /\ inf_pmu_event_config (spill_u64 k v inf) = inf_pmu_event_config inf
  /\ inf_pmu_event_count (spill_u64 k v inf) = inf_pmu_event_count inf.
Proof.
  unfold same_head.
  destruct k as [|[|[|k]]]; cbn; split_and!; reflexivity.
Qed.

(** A store of the loop, wherever it lands, keeps the members before
    the arrays, the status, and the sizes of the arrays. *)
Lemma store_pmu_event_config_head i v inf :
  let inf' := fst (store_pmu_event_config i v inf) in
  same_head inf inf'
  /\ inf_status inf' = inf_status inf
  /\ length (inf_pmu_event_config inf') = length (inf_pmu_event_config inf)
  /\ length (inf_pmu_event_count inf') = length (inf_pmu_event_count inf).
Proof.
  unfold store_pmu_event_config.
  destruct (i <? _)%nat; cbn [fst]; [|apply spill_u8_head].
  unfold same_head. cbn. rewrite length_insert. split_and!; reflexivity.
Qed.

Lemma store_pmu_event_count_head i v inf :
  let inf' := fst (store_pmu_event_count i v inf) in
  same_head inf inf'
  /\ inf_status inf' = inf_status inf
  /\ length (inf_pmu_event_config inf') = length (inf_pmu_event_config inf)
  /\ length (inf_pmu_event_count inf') = length (inf_pmu_event_count inf).
Proof.
  unfold store_pmu_event_count.
  destruct (i <? _)%nat; cbn [fst].
  - unfold same_head. cbn. rewrite length_insert. split_and!; reflexivity.
  - destruct (spill_u64_head (i - length (inf_pmu_event_count inf)) v inf)
      as (? & ? & -> & ->). by split_and!.
Qed.

(** A store inside its array touches that array only. *)
Lemma store_pmu_event_config_in_bounds i v inf :
  snd (store_pmu_event_config i v inf) = [] ->
  (i < length (inf_pmu_event_config inf))%nat
  /\ fst (store_pmu_event_config i v inf)
     = set_inf_pmu_event_config (<[i := v]> (inf_pmu_event_config inf)) inf.
Proof.
  unfold store_pmu_event_config.
  destruct (Nat.ltb_spec i (length (inf_pmu_event_config inf)));
    [done | discriminate].
Qed.

Lemma store_pmu_event_count_in_bounds i v inf :
  snd (store_pmu_event_count i v inf) = [] ->
  (i < length (inf_pmu_event_count inf))%nat
  /\ fst (store_pmu_event_count i v inf)
     = set_inf_pmu_event_count (<[i := v]> (inf_pmu_event_count inf)) inf.
Proof.
  unfold store_pmu_event_count.
  destruct (Nat.ltb_spec i (length (inf_pmu_event_count inf)));
    [done | discriminate].
Qed.

(** The loop keeps the members before the arrays, the status, and
    the arrays' sizes. *)
Lemma pmu_copy_head n : forall i rsp inf,
  let inf' := fst (pmu_copy n i rsp inf) in
  same_head inf inf'
  /\ inf_status inf' = inf_status inf
  /\ length (inf_pmu_event_config inf') = length (inf_pmu_event_config inf)
  /\ length (inf_pmu_event_count inf') = length (inf_pmu_event_count inf).
Proof.
  induction n as [|n IH]; intros i rsp inf; cbn [pmu_copy].
  { cbn. split_and!; try reflexivity. apply same_head_refl. }
  pose proof (store_pmu_event_config_head i
                (nth i (irsp_pmu_event_config rsp) 0) inf) as H1.
  destruct (store_pmu_event_config i _ inf) as [inf1 f1]. cbn in H1.
  pose proof (store_pmu_event_count_head i
                (nth i (irsp_pmu_event_count rsp) 0) inf1) as H2.
  destruct (store_pmu_event_count i _ inf1) as [inf2 f2]. cbn in H2.
  specialize (IH (S i) rsp inf2).
  destruct (pmu_copy n (S i) rsp inf2) as [inf3 fs]. cbn in IH. cbn.
  destruct H1 as (Ha1 & Hs1 & Hc1 & Hn1).
  destruct H2 as (Ha2 & Hs2 & Hc2 & Hn2).
  destruct IH as (Ha3 & Hs3 & Hc3 & Hn3).
  split_and!; try congruence.
  eapply same_head_trans; [|exact Ha3].
  eapply same_head_trans; [exact Ha1 | exact Ha2].
Qed.

(** A loop without a fault leaves the message and the cycle counter
    alone. *)
Lemma pmu_copy_no_fault n : forall i rsp inf,
  snd (pmu_copy n i rsp inf) = [] ->
  inf_msg (fst (pmu_copy n i rsp inf)) = inf_msg inf
  /\ inf_pmu_cycle_counter_enable (fst (pmu_copy n i rsp inf))
     = inf_pmu_cycle_counter_enable inf
  /\ inf_pmu_cycle_counter_count (fst (pmu_copy n i rsp inf))
     = inf_pmu_cycle_counter_count inf.
Proof.
  induction n as [|n IH]; intros i rsp inf; cbn [pmu_copy]; [done|].
  pose proof (store_pmu_event_config_in_bounds i
                (nth i (irsp_pmu_event_config rsp) 0) inf) as H1.
  destruct (store_pmu_event_config i _ inf) as [inf1 f1]. cbn [fst snd] in H1.
  pose proof (store_pmu_event_count_in_bounds i
                (nth i (irsp_pmu_event_count rsp) 0) inf1) as H2.
  destruct (store_pmu_event_count i _ inf1) as [inf2 f2]. cbn [fst snd] in H2.
  specialize (IH (S i) rsp inf2).
  destruct (pmu_copy n (S i) rsp inf2) as [inf3 fs]. cbn [fst snd] in *.
  intros Hfs.
  apply app_eq_nil in Hfs as [-> Hfs]. apply app_eq_nil in Hfs as [-> ->].
  destruct (H1 eq_refl) as [_ ->]. destruct (H2 eq_refl) as [_ ->].
  destruct (IH eq_refl) as (-> & -> & ->). done.
Qed.

(** What [inference_rsp_update] leaves alone and what status it sets.
    The message is among it when no store left its array. *)
Lemma inference_rsp_update_spec rsp inf :
  let inf' := fst (inference_rsp_update rsp inf) in
  inf_status inf'
  = spec_next_status (inf_status inf) (irsp_status rsp) (inf_ofm_count inf)
  /\ inf_kref inf' = inf_kref inf
  /\ inf_waitq inf' = inf_waitq inf
  /\ inf_done inf' = inf_done inf
  /\ (snd (inference_rsp_update rsp inf) = [] -> inf_msg inf' = inf_msg inf)
  /\ inf_ifm_count inf' = inf_ifm_count inf
  /\ inf_ifm inf' = inf_ifm inf
  /\ inf_ofm_count inf' = inf_ofm_count inf
  /\ inf_ofm inf' = inf_ofm inf
  /\ inf_net inf' = inf_net inf.
Proof.
  assert (Hcopy : forall i0,
            let r := pmu_copy (Z.to_nat ETHOSU_RPMSG_PMU_MAX) 0 rsp i0 in
            let inf' :=
              set_inf_pmu_cycle_counter (irsp_pmu_cycle_counter_enable rsp)
                (irsp_pmu_cycle_counter_count rsp) (fst r) in
            inf_status inf' = inf_status i0
            /\ inf_kref inf' = inf_kref i0
            /\ inf_waitq inf' = inf_waitq i0
            /\ inf_done inf' = inf_done i0
            /\ (snd r = [] -> inf_msg inf' = inf_msg i0)
            /\ inf_ifm_count inf' = inf_ifm_count i0
            /\ inf_ifm inf' = inf_ifm i0
            /\ inf_ofm_count inf' = inf_ofm_count i0
            /\ inf_ofm inf' = inf_ofm i0
            /\ inf_net inf' = inf_net i0).
  { intros i0.
    pose proof (pmu_copy_head (Z.to_nat ETHOSU_RPMSG_PMU_MAX) 0 rsp i0) as Hh.
    pose proof (pmu_copy_no_fault (Z.to_nat ETHOSU_RPMSG_PMU_MAX) 0 rsp i0)
      as Hm.
    destruct (pmu_copy _ 0 rsp i0) as [i1 fs]. cbn [fst snd] in *.
    destruct Hh as ((?&?&?&?&?&?&?&?) & ? & _). cbn.
    split_and!; try done. intros Hfs. by destruct (Hm Hfs). }
  unfold inference_rsp_update, spec_next_status.
  change ETHOSU_RPMSG_STATUS_OK with 0.
  change ETHOSU_RPMSG_STATUS_REJECTED with 3.
  change ETHOSU_RPMSG_STATUS_ABORTED with 4.
  change ETHOSU_RPMSG_BUFFER_MAX with 16.
  destruct (inf_status inf) eqn:Hst; cbn -[pmu_copy Z.to_nat];
    try (split_and!; done);
    (destruct ((irsp_status rsp =? 0) && (inf_ofm_count inf <=? 16));
     [ cbn -[pmu_copy Z.to_nat];
       match goal with
       | |- context [pmu_copy ?n ?i ?r ?x] =>
           specialize (Hcopy x); cbv zeta in Hcopy;
           destruct (pmu_copy n i r x) as [i1 fs]
       end;
       cbn [fst snd] in *; exact Hcopy
     | destruct (irsp_status rsp =? 3); [cbn; split_and!; done|];
       destruct (irsp_status rsp =? 4); cbn; split_and!; done ]).
Qed.

(** Nothing on the way from dropping a reference to destroying the
    object sends, wakes a task, reports a crash, or stores out of
    range. *)
Lemma buffer_put_observables buf s :
  observables (ethosu_buffer_put buf s) = observables s.
Proof.
  unfold ethosu_buffer_put.
  destruct (heap s !! buf) as [[b| | | | | |]|]; try reflexivity.
  cbn. destruct (buf_kref b =? 1); reflexivity.
Qed.

Lemma put_buffers_observables count bufs s :
  observables (put_buffers count bufs s) = observables s.
Proof.
  unfold put_buffers. generalize (rev (take (Z.to_nat count) bufs)).
  intros l. revert s. induction l as [|b l IH]; intros s; cbn; [done|].
  rewrite IH. apply buffer_put_observables.
Qed.

Lemma network_put_observables net s :
  observables (ethosu_rpmsg_network_put net s) = observables s.
Proof.
  unfold ethosu_rpmsg_network_put.
  destruct (heap s !! net) as [[|n| | | | |]|]; try reflexivity.
  cbn. destruct (net_kref n =? 1); reflexivity.
Qed.

Lemma deregister_observables msg s :
  observables (ethosu_rpmsg_mailbox_deregister msg s) = observables s.
Proof.
  unfold ethosu_rpmsg_mailbox_deregister.
  destruct (msg_at s msg); reflexivity.
Qed.

Lemma inference_destroy_observables inf s :
  observables (ethosu_rpmsg_inference_kref_destroy inf s) = observables s.
Proof.
  unfold ethosu_rpmsg_inference_kref_destroy.
  destruct (heap s !! inf) as [[| |i| | | |]|]; try reflexivity.
  change (observables (devm_kfree inf ?x)) with (observables x).
  rewrite network_put_observables, !put_buffers_observables.
  apply deregister_observables.
Qed.

Lemma inference_put_observables inf s :
  observables (fst (ethosu_rpmsg_inference_put inf s)) = observables s.
Proof.
  unfold ethosu_rpmsg_inference_put.
  destruct (heap s !! inf) as [[| |i| | | |]|]; try reflexivity.
  cbn. destruct (inf_kref i =? 1); cbn; [|reflexivity].
  by rewrite inference_destroy_observables.
Qed.

Lemma observables_woken s s' : observables s = observables s' -> woken s = woken s'.
Proof. unfold observables. congruence. Qed.


Lemma observables_tx s s' : observables s = observables s' -> tx s = tx s'.
Proof. unfold observables. congruence. Qed.

Lemma inference_destroy_frees inf i s :
  heap s !! inf = Some (ObjInference i) ->
  heap (ethosu_rpmsg_inference_kref_destroy inf s) !! inf = None.
Proof.
  intros H. unfold ethosu_rpmsg_inference_kref_destroy. rewrite H.
  cbn. apply lookup_delete_eq.
Qed.

(** C1.  For a response whose id is found with kind INFERENCE_REQ the
    handler moves the inference to the status of the spec's table
    (the [ofm_count] of the table is the inference's own count, the
    one the code compares with BUFFER_MAX), sets [done], wakes every
    poller, and drops the mailbox's reference: the object stays with
    one reference less, or is destroyed when that was the last one. *)
Theorem inference_rsp_transition (s : device_state) (id : Z)
  (rsp : struct_ethosu_rpmsg_inference_rsp) (msg : Z)
  (inf : ethosu_rpmsg_inference) :
  ethosu_rpmsg_mailbox_find s id ETHOSU_RPMSG_INFERENCE_REQ = msg ->
  IS_ERR msg = false ->
  heap s !! msg = Some (ObjInference inf) ->
  exists inf' fs,
    ethosu_rpmsg_inference_rsp id rsp s
    = fst (ethosu_rpmsg_inference_put msg
             (wake_pollers (inf_waitq inf)
                (set_faults (faults s ++ fs)
                   (store msg (ObjInference inf') s))))
    /\ inf_status inf'
       = spec_next_status (inf_status inf) (irsp_status rsp)
           (inf_ofm_count inf)
    /\ inf_done inf' = true
    /\ inf_kref inf' = inf_kref inf
    /\ woken (ethosu_rpmsg_inference_rsp id rsp s)
       = woken s ++ inf_waitq inf
    /\ (inf_kref inf <> 1 ->
        heap (ethosu_rpmsg_inference_rsp id rsp s) !! msg
        = Some (ObjInference (set_inf_kref (inf_kref inf - 1) inf')))
    /\ (inf_kref inf = 1 ->
        heap (ethosu_rpmsg_inference_rsp id rsp s) !! msg = None).
Proof.
  intros Hfind Herr Hheap.
  pose proof (inference_rsp_update_spec rsp inf) as Hupd. cbn in Hupd.
  destruct Hupd as (Hst & Hk & Hq & _ & _).
  unfold ethosu_rpmsg_inference_rsp. rewrite Hfind, Herr, Hheap.
  destruct (inference_rsp_update rsp inf) as [inf0 fs] eqn:Hu.
  cbn in Hst, Hk, Hq. cbn zeta.
  replace (inf_waitq (set_inf_done true inf0)) with (inf_waitq inf)
    by (by rewrite <- Hq).
  exists (set_inf_done true inf0), fs.
  split; [reflexivity|]. split; [exact Hst|]. split; [reflexivity|].
  split; [exact Hk|].
  split.
  { erewrite observables_woken by apply inference_put_observables.
    reflexivity. }
  unfold ethosu_rpmsg_inference_put. cbn.
  rewrite lookup_insert_eq. cbn. rewrite Hk.
  split; intros Hone.
  - destruct (Z.eqb_spec (inf_kref inf) 1); [contradiction|]. cbn.
    rewrite lookup_insert_eq. by rewrite <- Hk.
  - rewrite Hone. cbn.
    eapply inference_destroy_frees. cbn. apply lookup_insert_eq.
Qed.

(** Scenario 1 of the spec: the happy path ends with status OK, done,
    the poller awake, and the user's reference the only one left. *)
Lemma inference_rsp_transition_witness :
  exists inf',
    heap (ethosu_rpmsg_inference_rsp 0 ok_response inference_pending) !! 30
    = Some (ObjInference inf')
    /\ inf_status inf' = ETHOSU_UAPI_STATUS_OK
    /\ inf_done inf' = true
    /\ inf_kref inf' = 1
    /\ woken (ethosu_rpmsg_inference_rsp 0 ok_response inference_pending)
       = [41].
Proof.
  destruct (inference_rsp_transition inference_pending 0 ok_response 30
              running_inference)
    as (inf' & fs & _ & Hst & Hdone & Hk & Hw & Hlive & _);
    [reflexivity | reflexivity | reflexivity |].
  exists (set_inf_kref (inf_kref running_inference - 1) inf').
  split; [apply Hlive; discriminate|].
  split; [exact Hst|]. split; [exact Hdone|].
  split; [reflexivity|]. exact Hw.
Defined.

(** ** The PMU copy of the response handler *)

Lemma copied_none i src dst : copied i 0 src dst = dst.
Proof.
  unfold copied. cbn [seq map app]. rewrite Nat.add_0_r.
  apply take_drop.
Qed.

Lemma copied_step i n src dst :
  (i < length dst)%nat ->
  copied (S i) n src (<[i := nth i src 0]> dst) = copied i (S n) src dst.
Proof.
  intros Hi. unfold copied.
  rewrite (take_S_r _ i (nth i src 0)) by (by apply list_lookup_insert_eq).
  rewrite take_insert_ge by lia.
  rewrite drop_insert_lt by lia.
  cbn [seq map]. rewrite <- app_assoc. cbn [app].
  by rewrite Nat.add_succ_r.
Qed.


Lemma set_pmu_arrays_twice a b c d inf :
  set_inf_pmu_event_count a
    (set_inf_pmu_event_config b
       (set_inf_pmu_event_count c (set_inf_pmu_event_config d inf)))
  = set_inf_pmu_event_count a (set_inf_pmu_event_config b inf).
Proof. reflexivity. Qed.

(** With room for every index the loop stays inside both arrays: it
    replaces the slots it runs over and touches nothing else. *)
Lemma pmu_copy_in_bounds n : forall i rsp inf,
  (i + n <= length (inf_pmu_event_config inf))%nat ->
  (i + n <= length (inf_pmu_event_count inf))%nat ->
  pmu_copy n i rsp inf
  = (set_inf_pmu_event_count
       (copied i n (irsp_pmu_event_count rsp) (inf_pmu_event_count inf))
       (set_inf_pmu_event_config
          (copied i n (irsp_pmu_event_config rsp) (inf_pmu_event_config inf))
          inf), []).
Proof.
  induction n as [|n IH]; intros i rsp inf Hc Hn; cbn [pmu_copy].
  { rewrite !copied_none. by destruct inf. }
  unfold store_pmu_event_config at 1.
  destruct (Nat.ltb_spec i (length (inf_pmu_event_config inf))); [|lia].
  unfold store_pmu_event_count at 1.
  cbn [inf_pmu_event_count set_inf_pmu_event_config].
  destruct (Nat.ltb_spec i (length (inf_pmu_event_count inf))); [|lia].
  rewrite IH
    by (cbn [inf_pmu_event_config inf_pmu_event_count set_inf_pmu_event_count
               set_inf_pmu_event_config]; rewrite length_insert; lia).
  cbn [inf_pmu_event_config inf_pmu_event_count set_inf_pmu_event_count
         set_inf_pmu_event_config app].
  rewrite !copied_step by lia. reflexivity.
Qed.


(** With room for the eight entries no response makes the handler
    store outside the arrays, and the message stays as it is. *)
Lemma inference_rsp_update_no_fault rsp inf :
  (Z.to_nat ETHOSU_RPMSG_PMU_MAX <= length (inf_pmu_event_config inf))%nat ->
  (Z.to_nat ETHOSU_RPMSG_PMU_MAX <= length (inf_pmu_event_count inf))%nat ->
  snd (inference_rsp_update rsp inf) = []
  /\ inf_msg (fst (inference_rsp_update rsp inf)) = inf_msg inf.
Proof.
  intros Hc Hn.
  assert (Hfs : snd (inference_rsp_update rsp inf) = []).
  { unfold inference_rsp_update.
    destruct (bool_decide _ || bool_decide _); [reflexivity|].
    match goal with
    | |- context [bool_decide (inf_status ?x = _)] =>
        destruct (bool_decide (inf_status x = ETHOSU_UAPI_STATUS_OK));
        [|reflexivity];
        assert (Hc' : (Z.to_nat ETHOSU_RPMSG_PMU_MAX
                       <= length (inf_pmu_event_config x))%nat)
          by (by repeat case_match);
        assert (Hn' : (Z.to_nat ETHOSU_RPMSG_PMU_MAX
                       <= length (inf_pmu_event_count x))%nat)
          by (by repeat case_match);
        by rewrite (pmu_copy_in_bounds _ 0 rsp x Hc' Hn')
    end. }
  split; [exact Hfs|].
  by apply (inference_rsp_update_spec rsp inf).
Qed.

(** The stores of the loop over arrays of four slots: indices 4 to 7
    of both arrays lie outside. *)
Lemma pmu_copy_four_slots rsp inf :
  length (inf_pmu_event_config inf) = 4%nat ->
  length (inf_pmu_event_count inf) = 4%nat ->
  snd (pmu_copy (Z.to_nat ETHOSU_RPMSG_PMU_MAX) 0 rsp inf)
  = [OutOfBounds 4 4; OutOfBounds 4 4; OutOfBounds 4 5; OutOfBounds 4 5;
     OutOfBounds 4 6; OutOfBounds 4 6; OutOfBounds 4 7; OutOfBounds 4 7].
Proof.
  intros Hc Hn. destruct inf as [? ? ? ? ? ? ? ? ? config count ? ? ?].
  cbn in Hc, Hn.
  destruct config as [|a0 [|a1 [|a2 [|a3 [|]]]]]; try discriminate.
  destruct count as [|b0 [|b1 [|b2 [|b3 [|]]]]]; try discriminate.
  reflexivity.
Qed.

(** Where those stores land on an inference of four slots: the bytes
    of the configurations 4 to 7 in the low half of
    [pmu_event_count[0]], the counts 4 and 5 in the cycle counter
    (which the handler sets next), the count 6 in [msg.id] and
    [msg.type]. *)
Example pmu_copy_four_slots_spill :
  let inf := fst (inference_rsp_update ok_response_8 running_inference) in
  inf_pmu_event_config inf = [1; 2; 3; 4]
  /\ inf_pmu_event_count inf = [134678021; 20; 30; 40]
  /\ inf_pmu_cycle_counter_enable inf = 1
  /\ inf_pmu_cycle_counter_count inf = 12345
  /\ inf_msg inf = mk_msg 70 0.
Proof. vm_compute. repeat split. Qed.

(** The same two constants meet in the sender: the inference passes
    ETHOSU_PMU_EVENT_MAX as the number of its PMU events, and
    [ethosu_rpmsg_mailbox_inference] refuses any number but
    ETHOSU_RPMSG_PMU_MAX ("PMU count misconfigured"). *)
Lemma inference_send_misconfigured current rounds inf i s :
  heap s !! inf = Some (ObjInference i) ->
  fst <$> ethosu_rpmsg_inference_send current rounds inf s
  = Some (- EINVAL).
Proof.
  intros Hh.
  unfold ethosu_rpmsg_inference_send, ethosu_rpmsg_inference_send_at,
    inf_update.
  rewrite Hh. cbn [heap store set_heap]. rewrite lookup_insert_eq.
  reflexivity.
Qed.

(** ** The blocking sender *)

Lemma send_loop_shutdown data length rounds try_send timeout s :
  mbox_done (mailbox s) <> 0 ->
  send_loop data length rounds try_send timeout s = Some (- ENODEV, s).
Proof.
  intros Hd.
  destruct rounds; cbn;
    destruct (Z.eqb_spec (mbox_done (mailbox s)) 0); try contradiction;
    reflexivity.
Qed.

(** One turn of the loop that ends in the wait: no attempt was due, or
    the transport had no transmit slot. *)
Lemma send_loop_wait data length r rounds try_send timeout s :
  mbox_done (mailbox s) = 0 ->
  try_send = false \/ r_trysend r = - ENOMEM ->
  send_loop data length (r :: rounds) try_send timeout s
  = if r_signal r then Some (- EINTR, r_others r s)
    else if wait_woken timeout (r_slept r) =? 0
    then Some (- ETIME, r_others r s)
    else send_loop data length rounds true (wait_woken timeout (r_slept r))
           (r_others r s).
Proof.
  intros Hd Hw. cbn [send_loop]. rewrite Hd. cbn [Z.eqb negb].
  destruct Hw as [-> | ->]; [reflexivity|].
  rewrite Z.eqb_refl, andb_false_r. reflexivity.
Qed.

(** One turn of the loop that ends in the attempt: the transport took
    the packet or failed for good. *)
Lemma send_loop_attempt data length r rounds timeout s :
  mbox_done (mailbox s) = 0 ->
  r_trysend r <> - ENOMEM ->
  send_loop data length (r :: rounds) true timeout s
  = Some (r_trysend r, rpmsg_trysend (r_trysend r) data length s).
Proof.
  intros Hd Hne. cbn [send_loop]. rewrite Hd. cbn [Z.eqb negb andb].
  destruct (Z.eqb_spec (r_trysend r) (- ENOMEM)); [contradiction|].
  reflexivity.
Qed.

Lemma send_loop_timeout data length rounds : forall try_send timeout s,
  0 < timeout ->
  Forall quiet_round rounds ->
  mbox_done (mailbox s) = 0 ->
  timeout <= total_slept rounds ->
  fst <$> send_loop data length rounds try_send timeout s = Some (- ETIME).
Proof.
  induction rounds as [|r rounds IH]; intros try_send timeout s Ht Hq Hd Hsum.
  - cbn in Hsum. lia.
  - apply Forall_cons in Hq as [(Htry & Hsig & Hkeep) Hq].
    rewrite send_loop_wait by (done || by right). rewrite Hsig.
    unfold wait_woken.
    destruct (Z.eqb_spec (Z.max 0 (timeout - Z.max 0 (r_slept r))) 0) as [|Hne];
      [reflexivity|].
    apply IH; [lia | exact Hq | by rewrite Hkeep |].
    unfold total_slept in *. cbn [foldr] in Hsum. lia.
Qed.

(** What [ethosu_send_locked] does once its loop has ended. *)
Lemma send_locked_after_loop current rounds data length s ret s1 :
  send_loop data length rounds
    (negb (wq_has_sleeper (send_queue (mailbox s))))
    (msecs_to_jiffies MAILBOX_SEND_TIMEOUT_MS)
    (add_wait_queue_exclusive current s) = Some (ret, s1) ->
  exists s',
    ethosu_send_locked current rounds data length s = Some (ret, s')
    /\ send_queue (mailbox s')
       = filter (fun t => t <> current) (send_queue (mailbox s1))
    /\ woken s'
       = woken s1 ++ (if ret =? 0 then take 1 (send_queue (mailbox s'))
                      else []).
Proof.
  intros Hl. unfold ethosu_send_locked. rewrite Hl.
  destruct (ret =? 0); cbn [andb].
  - destruct (send_queue (mailbox (remove_wait_queue current s1))) eqn:Hq;
      cbn [wq_has_sleeper].
    + eexists. split; [reflexivity|]. split; [reflexivity|].
      cbn in Hq. cbn. rewrite Hq. by rewrite app_nil_r.
    + eexists. split; [reflexivity|]. split; [reflexivity|].
      cbn in Hq. cbn. rewrite Hq. reflexivity.
  - eexists. split; [reflexivity|]. split; [reflexivity|].
    by rewrite app_nil_r.
Qed.

(** C3, as the code orders its checks.  (1) A call that finds the
    shutdown flag set returns -ENODEV.  (2) In any turn of the loop
    that ends in the wait, the checks after the wait come in this
    order: a pending signal gives -EINTR; otherwise no time left gives
    -ETIME; otherwise the loop goes round and a flag that was set
    during the wait gives -ENODEV.  (3) A caller kept waiting, with no
    signal and no shutdown, for the 15 seconds of the timeout returns
    -ETIME.  (4) After the loop the caller leaves the queue; when the
    send succeeded and others still wait, exactly one, the head of the
    queue, is woken, and nobody otherwise. *)
Theorem send_locked_outcomes (current : Z) (data : ethosu_rpmsg)
  (length : Z) :
  (forall rounds s,
      mbox_done (mailbox s) <> 0 ->
      fst <$> ethosu_send_locked current rounds data length s
      = Some (- ENODEV))
  /\ (forall r rounds try_send timeout s,
        mbox_done (mailbox s) = 0 ->
        try_send = false \/ r_trysend r = - ENOMEM ->
        (r_signal r = true ->
         fst <$> send_loop data length (r :: rounds) try_send timeout s
         = Some (- EINTR))
        /\ (r_signal r = false ->
            wait_woken timeout (r_slept r) = 0 ->
            fst <$> send_loop data length (r :: rounds) try_send timeout s
            = Some (- ETIME))
        /\ (r_signal r = false ->
            wait_woken timeout (r_slept r) <> 0 ->
            mbox_done (mailbox (r_others r s)) <> 0 ->
            fst <$> send_loop data length (r :: rounds) try_send timeout s
            = Some (- ENODEV)))
  /\ (forall rounds s,
        mbox_done (mailbox s) = 0 ->
        Forall quiet_round rounds ->
        msecs_to_jiffies MAILBOX_SEND_TIMEOUT_MS <= total_slept rounds ->
        fst <$> ethosu_send_locked current rounds data length s
        = Some (- ETIME))
  /\ (forall rounds s ret s',
        ethosu_send_locked current rounds data length s = Some (ret, s') ->
        exists s1,
          send_loop data length rounds
            (negb (wq_has_sleeper (send_queue (mailbox s))))
            (msecs_to_jiffies MAILBOX_SEND_TIMEOUT_MS)
            (add_wait_queue_exclusive current s) = Some (ret, s1)
          /\ send_queue (mailbox s')
             = filter (fun t => t <> current) (send_queue (mailbox s1))
          /\ (ret = 0 ->
              forall t q, send_queue (mailbox s') = t :: q ->
                          woken s' = woken s1 ++ [t])
          /\ (ret = 0 -> send_queue (mailbox s') = [] -> woken s' = woken s1)
          /\ (ret <> 0 -> woken s' = woken s1)).
Proof.
  split; [|split; [|split]].
  - intros rounds s Hd. by rewrite send_locked_shutdown.
  - intros r rounds try_send timeout s Hd Hw.
    rewrite (send_loop_wait _ _ _ _ _ _ _ Hd Hw).
    split; [|split].
    + by intros ->.
    + intros -> ->. reflexivity.
    + intros -> Hne Hdone.
      destruct (Z.eqb_spec (wait_woken timeout (r_slept r)) 0);
        [contradiction|].
      by rewrite send_loop_shutdown.
  - intros rounds s Hd Hq Hsum.
    pose proof (send_loop_timeout data length rounds
                  (negb (wq_has_sleeper (send_queue (mailbox s))))
                  (msecs_to_jiffies MAILBOX_SEND_TIMEOUT_MS)
                  (add_wait_queue_exclusive current s)) as Hl.
    destruct (send_loop _ _ _ _ _ _) as [[ret s1]|] eqn:Hloop.
    + destruct (send_locked_after_loop _ _ _ _ _ _ _ Hloop)
        as (s' & -> & _).
      cbn. cbn in Hl. apply Hl; [reflexivity | exact Hq | exact Hd | exact Hsum].
    + cbn in Hl. discriminate Hl; [reflexivity | exact Hq | exact Hd | exact Hsum].
  - intros rounds s ret s' Hsend.
    destruct (send_loop data length rounds
                (negb (wq_has_sleeper (send_queue (mailbox s))))
                (msecs_to_jiffies MAILBOX_SEND_TIMEOUT_MS)
                (add_wait_queue_exclusive current s))
      as [[ret1 s1]|] eqn:Hloop.
    + destruct (send_locked_after_loop _ _ _ _ _ _ _ Hloop)
        as (s2 & Hs2 & Hq & Hw).
      rewrite Hs2 in Hsend. inversion Hsend; subst.
      exists s1. split; [reflexivity|]. split; [exact Hq|].
      split; [|split].
      * intros -> t q Hhead. rewrite Hw, Hhead. reflexivity.
      * intros -> Hnil. rewrite Hw, Hnil. by rewrite app_nil_r.
      * intros Hne. rewrite Hw.
        destruct (Z.eqb_spec ret 0); [contradiction|]. by rewrite app_nil_r.
    + unfold ethosu_send_locked in Hsend. rewrite Hloop in Hsend.
      discriminate.
Qed.

Lemma send_locked_outcomes_witness :
  fst <$> ethosu_send_locked 7 [] ping_packet sizeof_header
            (ethosu_rpmsg_mailbox_deinit empty_state) = Some (- ENODEV)
  /\ fst <$> send_loop ping_packet sizeof_header [shutdown_round true] true
               (msecs_to_jiffies MAILBOX_SEND_TIMEOUT_MS) empty_state
     = Some (- EINTR)
  /\ fst <$> send_loop ping_packet sizeof_header [shutdown_round false] true 1
               empty_state
     = Some (- ETIME)
  /\ fst <$> send_loop ping_packet sizeof_header [shutdown_round false] true
               (msecs_to_jiffies MAILBOX_SEND_TIMEOUT_MS) empty_state
     = Some (- ENODEV)
  /\ fst <$> ethosu_send_locked 7 [idle_round 1000; idle_round 2750]
               ping_packet sizeof_header empty_state
     = Some (- ETIME)
  /\ exists s',
       ethosu_send_locked 7 [sending_round; sending_round] ping_packet
         sizeof_header two_waiting = Some (0, s')
       /\ send_queue (mailbox s') = [8; 9]
       /\ woken s' = [8].
Proof.
  destruct (send_locked_outcomes 7 ping_packet sizeof_header)
    as (Hentry & Hwait & Hbound & Hwake).
  split; [apply Hentry; discriminate|].
  destruct (Hwait (shutdown_round true) [] true
              (msecs_to_jiffies MAILBOX_SEND_TIMEOUT_MS) empty_state)
    as (Hsig & _); [reflexivity | by right |].
  split; [apply Hsig; reflexivity|].
  destruct (Hwait (shutdown_round false) [] true 1 empty_state)
    as (_ & Htime & _); [reflexivity | by right |].
  split; [apply Htime; reflexivity|].
  destruct (Hwait (shutdown_round false) [] true
              (msecs_to_jiffies MAILBOX_SEND_TIMEOUT_MS) empty_state)
    as (_ & _ & Hdown); [reflexivity | by right |].
  split; [apply Hdown; [reflexivity | discriminate | discriminate]|].
  split.
  { apply Hbound; [reflexivity | | vm_compute; discriminate].
    repeat constructor. }
  eexists. split; [vm_compute; reflexivity|].
  match goal with
  | |- send_queue (mailbox ?s') = _ /\ _ =>
      destruct (Hwake [sending_round; sending_round] two_waiting 0 s')
        as (s1 & Hloop & Hq & Hone & _); [vm_compute; reflexivity|]
  end.
  split; [reflexivity|].
  vm_compute in Hloop. inversion Hloop; subst s1.
  exact (Hone eq_refl 8 [9] eq_refl).
Defined.

(** C3 as the spec states it does not hold: the shutdown flag is set
    while the caller waits for a transmit slot, a signal is pending
    when the wait ends, and the call returns -EINTR, not -ENODEV. *)
Lemma send_locked_shutdown_counterexample :
  mbox_done (mailbox empty_state) = 0
  /\ r_trysend (shutdown_round true) = - ENOMEM
  /\ mbox_done
       (mailbox
          (r_others (shutdown_round true)
             (add_wait_queue_exclusive 7 empty_state))) = 1
  /\ fst <$> ethosu_send_locked 7 [shutdown_round true] ping_packet
               sizeof_header empty_state
     = Some (- EINTR)
  /\ - EINTR <> - ENODEV.
Proof. vm_compute. repeat split; discriminate. Qed.

(** ** Network creation *)

Lemma heap_fresh_bound (h : gmap Z object) k :
  is_Some (h !! k) -> k <= map_fold (fun k _ acc => Z.max k acc) 0 h.
Proof.
  revert k.
  apply (map_fold_weak_ind
           (fun acc (m : gmap Z object) =>
              forall k, is_Some (m !! k) -> k <= acc)).
  - intros k [x Hx]. by rewrite lookup_empty in Hx.
  - intros i x m r Hi IH k Hk.
    destruct (decide (i = k)) as [->|Hne]; [lia|].
    rewrite lookup_insert_ne in Hk by done.
    specialize (IH k Hk). lia.
Qed.

Lemma heap_fresh_unused (h : gmap Z object) : h !! heap_fresh h = None.
Proof.
  destruct (h !! heap_fresh h) eqn:Hl; [|done].
  pose proof (heap_fresh_bound h (heap_fresh h) (mk_is_Some _ _ Hl)) as Hb.
  unfold heap_fresh in Hb. lia.
Qed.

(** Freeing the object that was just allocated gives the heap back. *)
Lemma kfree_fresh o s :
  devm_kfree (heap_fresh (heap s)) (store (heap_fresh (heap s)) o s) = s.
Proof.
  unfold devm_kfree, store, set_heap. cbn.
  rewrite delete_insert_id by apply heap_fresh_unused.
  by destruct s.
Qed.

Lemma kfree_fresh2 o1 o2 s :
  devm_kfree (heap_fresh (heap s))
    (store (heap_fresh (heap s)) o2 (store (heap_fresh (heap s)) o1 s)) = s.
Proof.
  unfold devm_kfree, store, set_heap. cbn.
  rewrite delete_insert_eq, delete_insert_id by apply heap_fresh_unused.
  by destruct s.
Qed.

Lemma copy_from_user_left user from n :
  0 <= snd (copy_from_user user from n).
Proof. cbn. lia. Qed.

Lemma copy_from_user_bound user from n :
  snd (copy_from_user user from n) <= Z.max 0 n.
Proof. cbn. lia. Qed.

Lemma to_int_small x : 0 <= x <= INT_MAX -> to_int x = x.
Proof.
  unfold to_int, INT_MAX. intros Hx.
  rewrite Z.mod_small; lia.
Qed.

Lemma to_int_zero x : 0 <= x < 2 ^ 32 -> to_int x = 0 -> x = 0.
Proof.
  unfold to_int. intros Hx H0.
  destruct (Z_lt_dec x (2 ^ 31)).
  - rewrite Z.mod_small in H0; lia.
  - replace (x + 2 ^ 31) with ((x - 2 ^ 31) + 1 * 2 ^ 32) in H0 by lia.
    rewrite Z.mod_add, Z.mod_small in H0; lia.
Qed.

(** The parts of C6 that the code does have. *)
Lemma network_create_invalid env uapi s :
  nce_net_ok env = true ->
  nc_type uapi = ETHOSU_UAPI_NETWORK_USER_BUFFER ->
  nc_data_ptr uapi = 0 \/ nc_size uapi = 0 ->
  ethosu_rpmsg_network_create env uapi s = (s, - EINVAL).
Proof.
  intros Hok Hty Hz. unfold ethosu_rpmsg_network_create.
  rewrite Hok, Hty. cbn [negb].
  destruct (Z.eqb_spec (nc_data_ptr uapi) 0); [by rewrite kfree_fresh|].
  destruct (Z.eqb_spec (nc_size uapi) 0); [by rewrite kfree_fresh|].
  lia.
Qed.

Lemma network_create_out_of_memory env uapi s :
  nce_net_ok env = true ->
  nc_type uapi = ETHOSU_UAPI_NETWORK_USER_BUFFER ->
  nc_data_ptr uapi <> 0 ->
  nc_size uapi <> 0 ->
  nce_dma_struct_ok env = false \/ nce_dma_ok env = false ->
  ethosu_rpmsg_network_create env uapi s = (s, - ENOMEM).
Proof.
  intros Hok Hty Hp Hs Hd. unfold ethosu_rpmsg_network_create.
  rewrite Hok, Hty. cbn [negb].
  destruct (Z.eqb_spec (nc_data_ptr uapi) 0); [done|].
  unfold ethosu_dma_mem_alloc.
  destruct (Z.eqb_spec (nc_size uapi) 0); [done|].
  destruct (nce_dma_struct_ok env); cbn [negb]; [|by rewrite kfree_fresh].
  destruct (nce_dma_ok env); cbn [negb]; [|by rewrite kfree_fresh].
  by destruct Hd.
Qed.

Lemma network_create_user_buffer env uapi s :
  nce_net_ok env = true ->
  nc_type uapi = ETHOSU_UAPI_NETWORK_USER_BUFFER ->
  nc_data_ptr uapi <> 0 ->
  nc_size uapi <> 0 ->
  nce_dma_struct_ok env = true ->
  nce_dma_ok env = true ->
  to_int
    (snd (copy_from_user (nce_user env) (nc_data_ptr uapi) (nc_size uapi)))
  = 0 ->
  0 <= nce_fd env ->
  snd (ethosu_rpmsg_network_create env uapi s) = nce_fd env
  /\ heap (fst (ethosu_rpmsg_network_create env uapi s))
       !! heap_fresh (heap s)
     = Some
         (ObjNetwork
            (mk_network 1
               (Some
                  (mk_dma_mem (nc_size uapi)
                     (fst (copy_from_user (nce_user env) (nc_data_ptr uapi)
                             (nc_size uapi)))
                     (nce_dma_addr env))) 0)).
Proof.
  intros Hok Hty Hp Hs Hs1 Hs2 Hcopy Hfd.
  unfold ethosu_rpmsg_network_create.
  rewrite Hok, Hty. cbn [negb].
  destruct (Z.eqb_spec (nc_data_ptr uapi) 0); [done|].
  unfold ethosu_dma_mem_alloc. rewrite Hs1, Hs2. cbn [negb].
  destruct (Z.eqb_spec (nc_size uapi) 0); [done|].
  destruct (copy_from_user _ _ _) as [bytes left]. cbn [fst snd] in *.
  cbv zeta. rewrite Hcopy. cbn [Z.eqb negb].
  unfold network_create_getfd, anon_inode_getfd.
  destruct (Z.ltb_spec (nce_fd env) 0); [lia|]. cbn.
  destruct (Z.ltb_spec (nce_fd env) 0); [lia|]. cbn.
  split; [done|]. apply lookup_insert_eq.
Qed.

(** C6, what the code does when the copy fails.  [copy_from_user]
    answers the number of bytes it could not copy; the function keeps
    it in its [int ret], frees the network and returns it.  For every
    size that an [int] holds that is the number itself, which is
    positive: the caller sees no error, and not -EFAULT. *)
Theorem network_create_copy_fault (env : network_create_env)
  (uapi : ethosu_uapi_network_create) (s : device_state) :
  nce_net_ok env = true ->
  nc_type uapi = ETHOSU_UAPI_NETWORK_USER_BUFFER ->
  nc_data_ptr uapi <> 0 ->
  nc_size uapi <> 0 ->
  nce_dma_struct_ok env = true ->
  nce_dma_ok env = true ->
  to_int
    (snd (copy_from_user (nce_user env) (nc_data_ptr uapi) (nc_size uapi)))
  <> 0 ->
  ethosu_rpmsg_network_create env uapi s
  = (s, to_int (snd (copy_from_user (nce_user env) (nc_data_ptr uapi)
                       (nc_size uapi))))
  /\ (nc_size uapi <= INT_MAX ->
      snd (ethosu_rpmsg_network_create env uapi s)
      = snd (copy_from_user (nce_user env) (nc_data_ptr uapi) (nc_size uapi))
      /\ 0 < snd (ethosu_rpmsg_network_create env uapi s)
      /\ snd (ethosu_rpmsg_network_create env uapi s) <> - EFAULT).
Proof.
  intros Hok Hty Hp Hs Hs1 Hs2 Hcopy.
  pose proof (copy_from_user_left (nce_user env) (nc_data_ptr uapi)
                (nc_size uapi)) as Hpos.
  pose proof (copy_from_user_bound (nce_user env) (nc_data_ptr uapi)
                (nc_size uapi)) as Hle.
  assert (Heq : ethosu_rpmsg_network_create env uapi s
                = (s, to_int
                        (snd (copy_from_user (nce_user env)
                                (nc_data_ptr uapi) (nc_size uapi))))).
  { unfold ethosu_rpmsg_network_create.
    rewrite Hok, Hty. cbn [negb].
    destruct (Z.eqb_spec (nc_data_ptr uapi) 0); [done|].
    unfold ethosu_dma_mem_alloc. rewrite Hs1, Hs2. cbn [negb].
    destruct (Z.eqb_spec (nc_size uapi) 0); [done|].
    destruct (copy_from_user _ _ _) as [bytes left]. cbn [fst snd] in *.
    cbv zeta. destruct (Z.eqb_spec (to_int left) 0); [done|]. cbn [negb].
    by rewrite kfree_fresh2. }
  rewrite Heq. cbn [snd]. split; [done|].
  intros Hsize.
  rewrite to_int_small in * by (unfold INT_MAX in *; lia).
  unfold EFAULT. lia.
Qed.

Lemma network_create_copy_fault_witness :
  ethosu_rpmsg_network_create sound_env user_buffer_request empty_state
  = (empty_state, 5)
  /\ snd (ethosu_rpmsg_network_create sound_env user_buffer_request
            empty_state)
     = snd (copy_from_user three_bytes 4096 8)
  /\ snd (ethosu_rpmsg_network_create sound_env user_buffer_request
            empty_state) <> - EFAULT.
Proof.
  destruct (network_create_copy_fault sound_env user_buffer_request
              empty_state)
    as (Hret & Hsmall); try reflexivity; try discriminate.
  destruct Hsmall as (Hleft & _ & Hfault); [discriminate|].
  split; [|split; [exact Hleft | exact Hfault]].
  rewrite Hret. reflexivity.
Defined.

(** ** The version check *)

(** A send that succeeds leaves its packet, with the length it was
    given, as the newest one on the transport. *)
Lemma send_loop_sent data length rounds : forall try_send timeout s s1,
  send_loop data length rounds try_send timeout s = Some (0, s1) ->
  last (tx s1) = Some (data, length).
Proof.
  induction rounds as [|r rounds IH]; intros try_send timeout s s1;
    cbn [send_loop];
    destruct (Z.eqb_spec (mbox_done (mailbox s)) 0); cbn [negb];
    try discriminate.
  destruct (try_send && negb (r_trysend r =? - ENOMEM)).
  - intros [= Hret <-]. unfold rpmsg_trysend. rewrite Hret. cbn.
    apply last_snoc.
  - destruct (r_signal r); [discriminate|].
    destruct (wait_woken timeout (r_slept r) =? 0); [discriminate|].
    apply IH.
Qed.

Lemma send_locked_sent current rounds data length s s' :
  ethosu_send_locked current rounds data length s = Some (0, s') ->
  last (tx s') = Some (data, length).
Proof.
  unfold ethosu_send_locked.
  destruct (send_loop _ _ _ _ _ _) as [[ret s1]|] eqn:Hloop; [|discriminate].
  destruct ((ret =? 0) && _); intros [= -> <-];
    apply (send_loop_sent _ _ _ _ _ _ _ Hloop).
Qed.

Lemma version_rsp_live (s : device_state) (id : Z)
  (rsp : struct_ethosu_rpmsg_version_rsp) (msg : Z)
  (version : ethosu_rpmsg_version) :
  ethosu_rpmsg_mailbox_find s id ETHOSU_RPMSG_VERSION_REQ = msg ->
  IS_ERR msg = false ->
  heap s !! msg = Some (ObjVersion version) ->
  completion_done (ver_done version) = false ->
  ethosu_rpmsg_version_rsp id rsp s
  = store msg
      (ObjVersion
         (mk_version 1 (ver_msg version)
            (spec_version_result (vrsp_major rsp) (vrsp_minor rsp)
               (vrsp_patch rsp)))) s.
Proof.
  intros Hfind Herr Hheap Hlive.
  unfold ethosu_rpmsg_version_rsp. rewrite Hfind, Herr, Hheap, Hlive.
  unfold completion_done in Hlive. apply negb_false_iff, Z.eqb_eq in Hlive.
  rewrite Hlive. cbn [complete Z.eqb]. do 3 f_equal.
  unfold spec_version_result, ETHOSU_RPMSG_VERSION_MAJOR,
    ETHOSU_RPMSG_VERSION_MINOR.
  destruct (Z.eqb_spec (vrsp_major rsp) 0), (Z.eqb_spec (vrsp_minor rsp) 2);
    cbn; case_decide; try reflexivity; lia.
Qed.

Lemma idr_alloc_u32_lookup i0 ptr nextid max gfp_ok i id :
  idr_alloc_u32 i0 ptr nextid max gfp_ok = (0, i, id) ->
  idr_rt i !! id = Some ptr.
Proof.
  unfold idr_alloc_u32.
  destruct gfp_ok; cbn [negb]; [|discriminate].
  destruct (_ <=? max); [|discriminate].
  intros [= <- <-]. cbn. apply lookup_insert_eq.
Qed.

Lemma idr_alloc_u32_error i0 ptr nextid max gfp_ok err i id :
  idr_alloc_u32 i0 ptr nextid max gfp_ok = (err, i, id) ->
  err = 0 \/ err = - ENOMEM \/ err = - ENOSPC.
Proof.
  unfold idr_alloc_u32.
  destruct gfp_ok; cbn [negb]; [|intros [= <- _ _]; tauto].
  destruct (_ <=? max); intros [= <- _ _]; tauto.
Qed.

(** An id that is not negative was entered in the table. *)
Lemma idr_alloc_cyclic_lookup i0 ptr start end_ gfp_ok i id :
  idr_alloc_cyclic i0 ptr start end_ gfp_ok = (i, id) ->
  0 <= id ->
  idr_rt i !! id = Some ptr.
Proof.
  unfold idr_alloc_cyclic.
  destruct (idr_alloc_u32 i0 ptr _ _ gfp_ok) as [[err1 i1] id1] eqn:H1.
  destruct ((err1 =? - ENOSPC) && (start <? id1)).
  - destruct (idr_alloc_u32 i1 ptr start _ gfp_ok) as [[err2 i2] id2] eqn:H2.
    destruct (Z.eqb_spec err2 0) as [->|Hne].
    + intros [= <- <-] _. cbn. eapply idr_alloc_u32_lookup, H2.
    + intros [= <- <-] Hpos.
      destruct (idr_alloc_u32_error _ _ _ _ _ _ _ _ H2) as [?|[?|?]];
        subst; [done | unfold ENOMEM in Hpos; lia | unfold ENOSPC in Hpos; lia].
  - destruct (Z.eqb_spec err1 0) as [->|Hne].
    + intros [= <- <-] _. cbn. eapply idr_alloc_u32_lookup, H1.
    + intros [= <- <-] Hpos.
      destruct (idr_alloc_u32_error _ _ _ _ _ _ _ _ H1) as [?|[?|?]];
        subst; [done | unfold ENOMEM in Hpos; lia | unfold ENOSPC in Hpos; lia].
Qed.

Lemma heap_fresh_positive (h : gmap Z object) : 0 < heap_fresh h.
Proof.
  unfold heap_fresh.
  assert (0 <= map_fold (fun k (_ : object) acc => Z.max k acc) 0 h); [|lia].
  apply (map_fold_weak_ind (fun acc (_ : gmap Z object) => 0 <= acc)); lia.
Qed.

Lemma IS_ERR_heap_fresh (h : gmap Z object) : IS_ERR (heap_fresh h) = false.
Proof.
  pose proof (heap_fresh_positive h). unfold IS_ERR.
  destruct (Z.ltb_spec (heap_fresh h) 0); [lia|]. apply andb_false_r.
Qed.

(** A send on an idle mailbox whose transport has a free slot: the
    packet goes out at once and nothing else changes. *)
Lemma send_locked_immediate current r rounds data length s :
  mbox_done (mailbox s) = 0 ->
  send_queue (mailbox s) = [] ->
  r_trysend r = 0 ->
  ethosu_send_locked current (r :: rounds) data length s
  = Some (0, set_tx (tx s ++ [(data, length)]) s).
Proof.
  intros Hd Hq Hr. unfold ethosu_send_locked. rewrite Hq. cbn [wq_has_sleeper negb].
  rewrite send_loop_attempt; [| exact Hd | rewrite Hr; discriminate].
  rewrite Hr. cbn. rewrite Hq. cbn.
  destruct (decide (current <> current)) as [Hne|_]; [by destruct Hne|].
  cbn. unfold remove_wait_queue, add_wait_queue_exclusive. cbn.
  rewrite Hq. cbn.
  destruct (decide (current <> current)) as [Hne|_]; [by destruct Hne|].
  destruct s as [h [i d q] f t w c fs]. cbn in *. by subst.
Qed.

Lemma register_allocated gfp_ok msg o i id s :
  heap s !! msg = Some o ->
  idr_alloc_cyclic (msg_idr (mailbox s)) msg 0 INT_MAX gfp_ok = (i, id) ->
  0 <= id ->
  ethosu_rpmsg_mailbox_register gfp_ok msg s
  = (store msg (object_map_msg (set_msg_id id) o)
       (set_mailbox (set_msg_idr i (mailbox s)) s), 0).
Proof.
  intros Hh Ha Hpos. unfold ethosu_rpmsg_mailbox_register. rewrite Ha.
  unfold msg_update. cbn. rewrite Hh.
  destruct (Z.ltb_spec id 0); [lia|]. reflexivity.
Qed.

(** The version check as the device start-up runs it, on an idle
    mailbox with a free transmit slot, when the firmware's answer
    arrives while the requester waits: the call returns -EPROTO when
    major or minor differ from 0.2 and 0 otherwise. *)
Lemma version_check_request_result current env r rounds rsp i id s :
  re_alloc_ok env = true ->
  re_rounds env = r :: rounds ->
  r_trysend r = 0 ->
  mbox_done (mailbox s) = 0 ->
  send_queue (mailbox s) = [] ->
  idr_alloc_cyclic (msg_idr (mailbox s)) (heap_fresh (heap s)) 0 INT_MAX
    (re_gfp_ok env) = (i, id) ->
  0 <= id ->
  re_others env = ethosu_rpmsg_version_rsp id rsp ->
  (forall s', re_late env s' = s') ->
  fst <$> ethosu_rpmsg_version_check_request current env s
  = Some (spec_version_result (vrsp_major rsp) (vrsp_minor rsp)
            (vrsp_patch rsp)).
Proof.
  intros Hok Hrounds Hr Hd Hq Halloc Hpos Hothers Hlate.
  unfold ethosu_rpmsg_version_check_request. rewrite Hok. cbn [negb].
  set (version := heap_fresh (heap s)) in *.
  erewrite register_allocated;
    [ | cbn; apply lookup_insert_eq | exact Halloc | exact Hpos ].
  cbn [Z.ltb Z.compare object_map_msg ver_done ver_msg ver_errno].
  unfold ethosu_rpmsg_mailbox_version_request, msg_update.
  cbn [heap store set_heap set_mailbox]. rewrite lookup_insert_eq.
  cbn [object_map_msg ver_done ver_msg ver_errno].
  rewrite Hrounds.
  rewrite send_locked_immediate; [| exact Hd | exact Hq | exact Hr].
  cbn [Z.eqb negb]. rewrite Hothers.
  match goal with
  | |- context [ethosu_rpmsg_version_rsp id rsp ?s1] =>
      set (sent := s1);
      assert (Hfind : ethosu_rpmsg_mailbox_find sent id
                        ETHOSU_RPMSG_VERSION_REQ = version)
  end.
  { apply (find_found sent id ETHOSU_RPMSG_VERSION_REQ version
             (mk_msg id ETHOSU_RPMSG_VERSION_REQ)).
    - cbn. eapply idr_alloc_cyclic_lookup; eassumption.
    - unfold msg_at, sent. cbn. rewrite lookup_insert_eq. reflexivity.
    - reflexivity. }
  rewrite (version_rsp_live sent id rsp version
             (mk_version 0 (mk_msg id ETHOSU_RPMSG_VERSION_REQ) 0) Hfind);
    [ | apply IS_ERR_heap_fresh
      | unfold sent; cbn; apply lookup_insert_eq
      | reflexivity ].
  cbn [heap store set_heap]. rewrite lookup_insert_eq.
  cbn [wait_for_completion_timeout ver_done ver_msg ver_errno Z.eqb].
  unfold wait_for_completion_timeout. cbn [Z.eqb].
  rewrite Hlate.
  destruct (Z.eqb_spec (Z.max 1 (msecs_to_jiffies VERSION_RESP_TIMEOUT_MS
                                  - Z.max 0 (re_elapsed env))) 0); [lia|].
  cbn [heap store set_heap]. rewrite lookup_insert_eq.
  cbn [ver_errno].
  destruct (Z.eqb_spec (spec_version_result (vrsp_major rsp) (vrsp_minor rsp)
                          (vrsp_patch rsp)) 0) as [->|Hne];
    reflexivity.
Qed.

(** C7.  (1) The version request that reaches the transport is the
    bare header: type VERSION_REQ, no payload, length
    [sizeof (header)].  (2) The response, delivered to a request that
    still waits, completes it and sets its result to -EPROTO exactly
    when major or minor differ from 0.2, whatever the patch field
    holds, and to 0 otherwise.  (3) That result is what the version
    check returns on an idle mailbox when the answer arrives while
    the requester sleeps. *)
Theorem version_check_exchange :
  (forall current rounds msg s s',
      ethosu_rpmsg_mailbox_version_request current rounds msg s
      = Some (0, s') ->
      exists hdr,
        last (tx s') = Some (mk_rpmsg hdr PayloadNone, sizeof_header)
        /\ hdr_type hdr = ETHOSU_RPMSG_VERSION_REQ
        /\ hdr_magic hdr = ETHOSU_RPMSG_MAGIC)
  /\ (forall s id rsp msg version,
        ethosu_rpmsg_mailbox_find s id ETHOSU_RPMSG_VERSION_REQ = msg ->
        IS_ERR msg = false ->
        heap s !! msg = Some (ObjVersion version) ->
        completion_done (ver_done version) = false ->
        exists version',
          heap (ethosu_rpmsg_version_rsp id rsp s) !! msg
          = Some (ObjVersion version')
          /\ completion_done (ver_done version') = true
          /\ (ver_errno version' = - EPROTO <->
              vrsp_major rsp <> 0 \/ vrsp_minor rsp <> 2)
          /\ (vrsp_major rsp = 0 -> vrsp_minor rsp = 2 ->
              ver_errno version' = 0))
  /\ (forall current env r rounds rsp i id s,
        re_alloc_ok env = true ->
        re_rounds env = r :: rounds ->
        r_trysend r = 0 ->
        mbox_done (mailbox s) = 0 ->
        send_queue (mailbox s) = [] ->
        idr_alloc_cyclic (msg_idr (mailbox s)) (heap_fresh (heap s)) 0
          INT_MAX (re_gfp_ok env) = (i, id) ->
        0 <= id ->
        re_others env = ethosu_rpmsg_version_rsp id rsp ->
        (forall s', re_late env s' = s') ->
        fst <$> ethosu_rpmsg_version_check_request current env s
        = Some (if decide (vrsp_major rsp = 0 /\ vrsp_minor rsp = 2)
                then 0 else - EPROTO)).
Proof.
  split; [|split].
  - intros current rounds msg s s' Hsend.
    unfold ethosu_rpmsg_mailbox_version_request in Hsend.
    apply send_locked_sent in Hsend.
    eexists. split; [exact Hsend|]. split; reflexivity.
  - intros s id rsp msg version Hfind Herr Hheap Hlive.
    rewrite (version_rsp_live s id rsp msg version Hfind Herr Hheap Hlive).
    eexists. split; [apply lookup_insert_eq|]. cbn.
    split; [reflexivity|].
    unfold spec_version_result, EPROTO. case_decide; split; lia.
  - intros. by eapply version_check_request_result.
Qed.

(** Scenario 2 of the spec: the firmware answers version 0.1.0. *)
Lemma version_check_exchange_witness :
  (exists s',
      ethosu_rpmsg_mailbox_version_request 7 [sending_round] 100
        version_pending = Some (0, s')
      /\ last (tx s')
         = Some (mk_rpmsg
                   (mk_header ETHOSU_RPMSG_MAGIC ETHOSU_RPMSG_VERSION_REQ 5)
                   PayloadNone, 16))
  /\ heap (ethosu_rpmsg_version_rsp 5 version_0_1_0 version_pending) !! 100
     = Some
         (ObjVersion
            (mk_version 1 (mk_msg 5 ETHOSU_RPMSG_VERSION_REQ) (- EPROTO)))
  /\ fst <$> ethosu_rpmsg_version_check_request 7
               (answering_env version_0_1_0) empty_state
     = Some (- EPROTO).
Proof.
  destruct version_check_exchange as (Hreq & Hrsp & Hcall).
  destruct (Hrsp version_pending 5 version_0_1_0 100
              (mk_version 0 (mk_msg 5 ETHOSU_RPMSG_VERSION_REQ) 0))
    as (v' & Hv' & _ & _ & _); try reflexivity.
  split; [|split].
  - eexists. split; [vm_compute; reflexivity|].
    match goal with
    | |- last (tx ?s') = _ =>
        destruct (Hreq 7 [sending_round] 100 version_pending s')
          as (hdr & Hlast & _ & _); [vm_compute; reflexivity|]
    end.
    reflexivity.
  - rewrite Hv'. vm_compute in Hv'. by inversion Hv'.
  - apply (Hcall 7 (answering_env version_0_1_0) sending_round []
             version_0_1_0 (mk_idr {[ 0 := 1 ]} 1) 0 empty_state);
      try reflexivity.
Defined.

(** ** The network info response *)

Lemma strnlen_le s : forall n, (strnlen s n <= n)%nat.
Proof.
  induction s as [|c s IH]; intros [|n]; cbn; try lia.
  destruct (c =? 0); [lia|]. specialize (IH n). lia.
Qed.

(** [strnlen] reaches [n] exactly on an array without a NUL among its
    first [n] characters. *)
Lemma strnlen_full s : forall n,
  (n <= length s)%nat ->
  (strnlen s n =? n)%nat = negb (nul_within n s).
Proof.
  unfold nul_within.
  induction s as [|c s IH]; intros [|n] Hn; cbn in *; try reflexivity;
    try lia.
  destruct (c =? 0); cbn; [reflexivity|].
  apply IH. lia.
Qed.

(** The characters [strnlen] counts are the string before its NUL. *)
Lemma strnlen_app_nul pre rest : forall n,
  Forall (fun c => c <> 0) pre ->
  (length pre < n)%nat ->
  strnlen (pre ++ 0 :: rest) n = length pre.
Proof.
  induction pre as [|c pre IH]; intros [|n] Hnz Hlen; cbn in *; try lia.
  apply Forall_cons in Hnz as [Hc Hnz].
  destruct (Z.eqb_spec c 0); [contradiction|].
  f_equal. apply IH; [exact Hnz | lia].
Qed.

Lemma strnlen_nonzero s : forall n,
  Forall (fun c => c <> 0) (take (strnlen s n) s).
Proof.
  induction s as [|c s IH]; intros [|n]; cbn; try constructor.
  destruct (Z.eqb_spec c 0); cbn; constructor; [done | apply IH].
Qed.

Lemma copy_sizes_before n : forall i src dst j,
  (j < i)%nat -> copy_sizes n i src dst !! j = dst !! j.
Proof.
  induction n as [|n IH]; intros i src dst j Hj; cbn; [done|].
  rewrite IH by lia. apply list_lookup_insert_ne. lia.
Qed.

Lemma copy_sizes_length n : forall i src dst,
  length (copy_sizes n i src dst) = length dst.
Proof.
  induction n as [|n IH]; intros i src dst; cbn; [done|].
  rewrite IH. apply length_insert.
Qed.

(** The loop copies entries [i .. i + n - 1]. *)
Lemma copy_sizes_copied n : forall i src dst j,
  (i + n <= length dst)%nat ->
  (i + n <= length src)%nat ->
  (i <= j < i + n)%nat ->
  copy_sizes n i src dst !! j = src !! j.
Proof.
  induction n as [|n IH]; intros i src dst j Hd Hs Hj; cbn; [lia|].
  destruct (decide (j = i)) as [->|Hne].
  - rewrite copy_sizes_before by lia.
    rewrite list_lookup_insert_eq by lia.
    destruct (lookup_lt_is_Some_2 src i) as [x Hx]; [lia|].
    rewrite Hx. f_equal. by apply nth_lookup_Some.
  - apply IH; rewrite ?length_insert; lia.
Qed.

(** C8.  A network info response delivered to a request that still
    waits completes it with the error of the spec: BadFile for a
    status other than OK, else TooManyFiles for a count above FD_MAX,
    else MessageTooLong for a description without NUL, else 0.  With
    an error the user's result is untouched; with none it holds the
    description up to its NUL, both counts, and the first [ifm_count]
    and [ofm_count] sizes of the response. *)
Theorem network_info_rsp_validation (s : device_state) (id : Z)
  (rsp : struct_ethosu_rpmsg_network_info_rsp) (msg : Z)
  (info : ethosu_rpmsg_network_info) :
  ethosu_rpmsg_mailbox_find s id ETHOSU_RPMSG_NETWORK_INFO_REQ = msg ->
  IS_ERR msg = false ->
  heap s !! msg = Some (ObjNetworkInfo info) ->
  completion_done (info_done info) = false ->
  length (nrsp_desc rsp) = sizeof_desc ->
  length (nrsp_ifm_size rsp) = Z.to_nat ETHOSU_RPMSG_BUFFER_MAX ->
  length (nrsp_ofm_size rsp) = Z.to_nat ETHOSU_RPMSG_BUFFER_MAX ->
  length (ni_ifm_size (info_uapi info)) = Z.to_nat ETHOSU_FD_MAX ->
  length (ni_ofm_size (info_uapi info)) = Z.to_nat ETHOSU_FD_MAX ->
  exists info',
    heap (ethosu_rpmsg_network_info_rsp id rsp s) !! msg
    = Some (ObjNetworkInfo info')
    /\ completion_done (info_done info') = true
    /\ info_errno info' = spec_network_info_errno rsp
    /\ (info_errno info' <> 0 -> info_uapi info' = info_uapi info)
    /\ (info_errno info' = 0 ->
        let len := strnlen (nrsp_desc rsp) sizeof_desc in
        ni_desc (info_uapi info')
        = take len (nrsp_desc rsp) ++ [0]
          ++ drop (S len) (ni_desc (info_uapi info))
        /\ take (strnlen (ni_desc (info_uapi info')) sizeof_desc)
             (ni_desc (info_uapi info'))
           = take len (nrsp_desc rsp)
        /\ ni_ifm_count (info_uapi info') = nrsp_ifm_count rsp
        /\ ni_ofm_count (info_uapi info') = nrsp_ofm_count rsp
        /\ (forall i, (i < Z.to_nat (nrsp_ifm_count rsp))%nat ->
              ni_ifm_size (info_uapi info') !! i = nrsp_ifm_size rsp !! i)
        /\ (forall i, (i < Z.to_nat (nrsp_ofm_count rsp))%nat ->
              ni_ofm_size (info_uapi info') !! i = nrsp_ofm_size rsp !! i)).
Proof.
  intros Hfind Herr Hheap Hlive Hdesc Hi Ho Hui Huo.
  unfold ethosu_rpmsg_network_info_rsp. rewrite Hfind, Herr, Hheap, Hlive.
  unfold completion_done in Hlive. apply negb_false_iff, Z.eqb_eq in Hlive.
  rewrite Hlive. cbn [complete Z.eqb].
  unfold spec_network_info_errno.
  change ETHOSU_RPMSG_STATUS_OK with 0. change ETHOSU_FD_MAX with 16 in *.
  change ETHOSU_RPMSG_BUFFER_MAX with 16 in *.
  destruct (nrsp_status rsp =? 0); cbn [negb].
  2:{ eexists. split; [apply lookup_insert_eq|]. cbn.
      repeat split; try done. }
  destruct (Z.ltb_spec 16 (nrsp_ifm_count rsp)); cbn [orb].
  { eexists. split; [apply lookup_insert_eq|]. cbn.
    repeat split; try done. }
  destruct (Z.ltb_spec 16 (nrsp_ofm_count rsp)); cbn [orb].
  { eexists. split; [apply lookup_insert_eq|]. cbn.
    repeat split; try done. }
  rewrite strnlen_full by (rewrite Hdesc; done).
  change sizeof_desc with 32%nat in *.
  destruct (nul_within 32 (nrsp_desc rsp)) eqn:Hnul; cbn [negb].
  2:{ eexists. split; [apply lookup_insert_eq|]. cbn.
      repeat split; try done. }
  pose proof (strnlen_le (nrsp_desc rsp) 32) as Hle.
  pose proof (strnlen_full (nrsp_desc rsp) 32) as Hfull.
  rewrite Hnul in Hfull. cbn [negb] in Hfull.
  specialize (Hfull ltac:(lia)). apply Nat.eqb_neq in Hfull.
  unfold strscpy.
  destruct (Nat.ltb_spec (strnlen (nrsp_desc rsp) 32) 32); [|lia].
  destruct (Z.ltb_spec (Z.of_nat (strnlen (nrsp_desc rsp) 32)) 0); [lia|].
  eexists. split; [apply lookup_insert_eq|]. cbn.
  split; [done|]. split; [done|]. split; [done|]. intros _.
  split; [done|].
  split.
  { rewrite strnlen_app_nul.
    - apply take_app_length.
    - apply strnlen_nonzero.
    - rewrite length_take_le by lia. lia. }
  split; [done|]. split; [done|].
  split; intros i Hlt; apply copy_sizes_copied; lia.
Qed.

Lemma network_info_rsp_validation_witness :
  exists info',
    heap (ethosu_rpmsg_network_info_rsp 5 net_response network_info_pending)
      !! 100 = Some (ObjNetworkInfo info')
    /\ info_errno info' = 0
    /\ ni_desc (info_uapi info') = [110; 101; 116] ++ repeat 0 29
    /\ ni_ifm_size (info_uapi info') !! 0%nat = Some 256.
Proof.
  destruct (network_info_rsp_validation network_info_pending 5 net_response
              100
              (mk_network_info 20
                 (mk_uapi_network_info (repeat 0 32) 0 (repeat 0 16) 0
                    (repeat 0 16))
                 0 0 (mk_msg 5 ETHOSU_RPMSG_NETWORK_INFO_REQ)))
    as (info' & Hheap & _ & Herrno & _ & Hok); try reflexivity.
  exists info'. split; [exact Hheap|].
  split; [exact Herrno|].
  destruct (Hok Herrno) as (Hdesc & _ & _ & _ & Hifm & _).
  split; [exact Hdesc|].
  apply (Hifm 0%nat). vm_compute. lia.
Defined.

(** ** Responses to requests that are already settled *)

(** Replacing a registered request by one with the same message leaves
    the lookup as it was. *)
Lemma find_store s id type o' :
  IS_ERR (ethosu_rpmsg_mailbox_find s id type) = false ->
  object_msg o' = msg_at s (ethosu_rpmsg_mailbox_find s id type) ->
  ethosu_rpmsg_mailbox_find
    (store (ethosu_rpmsg_mailbox_find s id type) o' s) id type
  = ethosu_rpmsg_mailbox_find s id type.
Proof.
  intros Herr Hmsg.
  destruct (find_cases s id type) as [He | [He | (m & Hidr & Hm & Hty)]];
    [rewrite He in Herr; discriminate.. |].
  set (msg := ethosu_rpmsg_mailbox_find s id type) in *.
  unfold ethosu_rpmsg_mailbox_find at 1. cbn.
  rewrite Hidr. unfold msg_at. cbn. rewrite lookup_insert_eq. cbn.
  rewrite Hmsg, Hm. rewrite Hty, Z.eqb_refl. reflexivity.
Qed.

Lemma completion_done_complete d :
  completion_done d = false -> completion_done (complete d) = true.
Proof.
  unfold completion_done. intros H.
  apply negb_false_iff, Z.eqb_eq in H. subst d. reflexivity.
Qed.

(** A response for a settled request changes nothing. *)
Lemma version_rsp_settled s id rsp version :
  heap s !! ethosu_rpmsg_mailbox_find s id ETHOSU_RPMSG_VERSION_REQ
  = Some (ObjVersion version) ->
  completion_done (ver_done version) = true ->
  ethosu_rpmsg_version_rsp id rsp s = s.
Proof.
  intros Hh Hd. unfold ethosu_rpmsg_version_rsp. rewrite Hh, Hd.
  by destruct (IS_ERR _).
Qed.

Lemma capability_rsp_settled s id rsp cap :
  heap s !! ethosu_rpmsg_mailbox_find s id ETHOSU_RPMSG_CAPABILITIES_REQ
  = Some (ObjCapabilities cap) ->
  completion_done (cap_done cap) = true ->
  ethosu_capability_rsp id rsp s = s.
Proof.
  intros Hh Hd. unfold ethosu_capability_rsp. rewrite Hh, Hd.
  by destruct (IS_ERR _).
Qed.

Lemma network_info_rsp_settled s id rsp info :
  heap s !! ethosu_rpmsg_mailbox_find s id ETHOSU_RPMSG_NETWORK_INFO_REQ
  = Some (ObjNetworkInfo info) ->
  completion_done (info_done info) = true ->
  ethosu_rpmsg_network_info_rsp id rsp s = s.
Proof.
  intros Hh Hd. unfold ethosu_rpmsg_network_info_rsp. rewrite Hh, Hd.
  by destruct (IS_ERR _).
Qed.

Lemma cancel_inference_rsp_settled s id rsp cancellation :
  heap s !! ethosu_rpmsg_mailbox_find s id ETHOSU_RPMSG_CANCEL_INFERENCE_REQ
  = Some (ObjCancelInference cancellation) ->
  completion_done (cancel_done cancellation) = true ->
  ethosu_rpmsg_cancel_inference_rsp id rsp s = s.
Proof.
  intros Hh Hd. unfold ethosu_rpmsg_cancel_inference_rsp. rewrite Hh, Hd.
  by destruct (IS_ERR _).
Qed.

(** What a response does to a request that still waits: the object is
    replaced by one with the same message and a completion counted. *)
Lemma version_rsp_shape s id rsp version :
  IS_ERR (ethosu_rpmsg_mailbox_find s id ETHOSU_RPMSG_VERSION_REQ) = false ->
  heap s !! ethosu_rpmsg_mailbox_find s id ETHOSU_RPMSG_VERSION_REQ
  = Some (ObjVersion version) ->
  completion_done (ver_done version) = false ->
  exists errno,
    ethosu_rpmsg_version_rsp id rsp s
    = store (ethosu_rpmsg_mailbox_find s id ETHOSU_RPMSG_VERSION_REQ)
        (ObjVersion
           (mk_version (complete (ver_done version)) (ver_msg version) errno))
        s.
Proof.
  intros He Hh Hd. unfold ethosu_rpmsg_version_rsp. rewrite He, Hh, Hd.
  eexists. reflexivity.
Qed.

Lemma capability_rsp_shape s id rsp cap :
  IS_ERR (ethosu_rpmsg_mailbox_find s id ETHOSU_RPMSG_CAPABILITIES_REQ)
  = false ->
  heap s !! ethosu_rpmsg_mailbox_find s id ETHOSU_RPMSG_CAPABILITIES_REQ
  = Some (ObjCapabilities cap) ->
  completion_done (cap_done cap) = false ->
  exists uapi errno,
    ethosu_capability_rsp id rsp s
    = store (ethosu_rpmsg_mailbox_find s id ETHOSU_RPMSG_CAPABILITIES_REQ)
        (ObjCapabilities
           (mk_capabilities uapi (complete (cap_done cap)) (cap_msg cap)
              errno)) s.
Proof.
  intros He Hh Hd. unfold ethosu_capability_rsp. rewrite He, Hh, Hd.
  eexists _, _. reflexivity.
Qed.

Lemma network_info_rsp_shape s id rsp info :
  IS_ERR (ethosu_rpmsg_mailbox_find s id ETHOSU_RPMSG_NETWORK_INFO_REQ)
  = false ->
  heap s !! ethosu_rpmsg_mailbox_find s id ETHOSU_RPMSG_NETWORK_INFO_REQ
  = Some (ObjNetworkInfo info) ->
  completion_done (info_done info) = false ->
  exists uapi errno,
    ethosu_rpmsg_network_info_rsp id rsp s
    = store (ethosu_rpmsg_mailbox_find s id ETHOSU_RPMSG_NETWORK_INFO_REQ)
        (ObjNetworkInfo
           (mk_network_info (info_net info) uapi (complete (info_done info))
              errno (info_msg info))) s.
Proof.
  intros He Hh Hd. unfold ethosu_rpmsg_network_info_rsp. rewrite He, Hh, Hd.
  destruct (negb _); [eexists _, _; reflexivity|].
  destruct (_ || _); [eexists _, _; reflexivity|].
  destruct (_ =? _)%nat; [eexists _, _; reflexivity|].
  destruct (strscpy _ _ _) as [desc ret].
  destruct (ret <? 0); eexists _, _; reflexivity.
Qed.

Lemma cancel_inference_rsp_shape s id rsp cancellation :
  IS_ERR (ethosu_rpmsg_mailbox_find s id ETHOSU_RPMSG_CANCEL_INFERENCE_REQ)
  = false ->
  heap s !! ethosu_rpmsg_mailbox_find s id ETHOSU_RPMSG_CANCEL_INFERENCE_REQ
  = Some (ObjCancelInference cancellation) ->
  completion_done (cancel_done cancellation) = false ->
  exists uapi errno,
    ethosu_rpmsg_cancel_inference_rsp id rsp s
    = store (ethosu_rpmsg_mailbox_find s id ETHOSU_RPMSG_CANCEL_INFERENCE_REQ)
        (ObjCancelInference
           (mk_cancel_inference (cancel_inf cancellation) uapi
              (complete (cancel_done cancellation))
              (cancel_msg cancellation) errno)) s.
Proof.
  intros He Hh Hd. unfold ethosu_rpmsg_cancel_inference_rsp.
  rewrite He, Hh, Hd. eexists _, _. reflexivity.
Qed.

(** The common end of the four proofs: after the request object was
    replaced by a completed one with the same message, the handler
    [rsp'] finds it settled. *)
Ltac settled_after_store settled :=
  match goal with
  | Herr : IS_ERR (ethosu_rpmsg_mailbox_find ?s ?id ?type) = false,
    Hheap : heap ?s !! ethosu_rpmsg_mailbox_find ?s ?id ?type = Some ?o
    |- _ (store _ ?o' ?s) = _ =>
      eapply settled;
      [ rewrite (find_store s id type o' Herr)
          by (unfold msg_at; rewrite Hheap; reflexivity);
        apply lookup_insert_eq
      | try (apply completion_done_complete; assumption); reflexivity ]
  end.

Lemma version_rsp_twice id rsp rsp' s :
  ethosu_rpmsg_version_rsp id rsp' (ethosu_rpmsg_version_rsp id rsp s)
  = ethosu_rpmsg_version_rsp id rsp s.
Proof.
  destruct (IS_ERR (ethosu_rpmsg_mailbox_find s id ETHOSU_RPMSG_VERSION_REQ))
    eqn:Herr.
  { rewrite (version_rsp_not_found s id rsp Herr). by apply version_rsp_not_found. }
  destruct (heap s !! ethosu_rpmsg_mailbox_find s id ETHOSU_RPMSG_VERSION_REQ)
    as [o|] eqn:Hheap.
  2:{ assert (H : forall r, ethosu_rpmsg_version_rsp id r s = s).
      { intros r. unfold ethosu_rpmsg_version_rsp.
        by rewrite Herr, Hheap. }
      by rewrite !H. }
  destruct o as [| | |version| | |];
    try (assert (H : forall r, ethosu_rpmsg_version_rsp id r s = s);
         [ intros r; unfold ethosu_rpmsg_version_rsp;
           by rewrite Herr, Hheap
         | by rewrite !H ]).
  destruct (completion_done (ver_done version)) eqn:Hd.
  { by rewrite !(version_rsp_settled s id _ version Hheap Hd). }
  destruct (version_rsp_shape s id rsp version Herr Hheap Hd) as (e & ->).
  settled_after_store version_rsp_settled.
Qed.

Lemma capability_rsp_twice id rsp rsp' s :
  ethosu_capability_rsp id rsp' (ethosu_capability_rsp id rsp s)
  = ethosu_capability_rsp id rsp s.
Proof.
  destruct (IS_ERR
              (ethosu_rpmsg_mailbox_find s id ETHOSU_RPMSG_CAPABILITIES_REQ))
    eqn:Herr.
  { rewrite (capability_rsp_not_found s id rsp Herr). by apply capability_rsp_not_found. }
  destruct (heap s
              !! ethosu_rpmsg_mailbox_find s id ETHOSU_RPMSG_CAPABILITIES_REQ)
    as [o|] eqn:Hheap.
  2:{ assert (H : forall r, ethosu_capability_rsp id r s = s).
      { intros r. unfold ethosu_capability_rsp. by rewrite Herr, Hheap. }
      by rewrite !H. }
  destruct o as [| | | |cap| |];
    try (assert (H : forall r, ethosu_capability_rsp id r s = s);
         [ intros r; unfold ethosu_capability_rsp; by rewrite Herr, Hheap
         | by rewrite !H ]).
  destruct (completion_done (cap_done cap)) eqn:Hd.
  { by rewrite !(capability_rsp_settled s id _ cap Hheap Hd). }
  destruct (capability_rsp_shape s id rsp cap Herr Hheap Hd) as (u & e & ->).
  settled_after_store capability_rsp_settled.
Qed.

Lemma network_info_rsp_twice id rsp rsp' s :
  ethosu_rpmsg_network_info_rsp id rsp'
    (ethosu_rpmsg_network_info_rsp id rsp s)
  = ethosu_rpmsg_network_info_rsp id rsp s.
Proof.
  destruct (IS_ERR
              (ethosu_rpmsg_mailbox_find s id ETHOSU_RPMSG_NETWORK_INFO_REQ))
    eqn:Herr.
  { rewrite (network_info_rsp_not_found s id rsp Herr). by apply network_info_rsp_not_found. }
  destruct (heap s
              !! ethosu_rpmsg_mailbox_find s id ETHOSU_RPMSG_NETWORK_INFO_REQ)
    as [o|] eqn:Hheap.
  2:{ assert (H : forall r, ethosu_rpmsg_network_info_rsp id r s = s).
      { intros r. unfold ethosu_rpmsg_network_info_rsp.
        by rewrite Herr, Hheap. }
      by rewrite !H. }
  destruct o as [| | | | |info|];
    try (assert (H : forall r, ethosu_rpmsg_network_info_rsp id r s = s);
         [ intros r; unfold ethosu_rpmsg_network_info_rsp;
           by rewrite Herr, Hheap
         | by rewrite !H ]).
  destruct (completion_done (info_done info)) eqn:Hd.
  { by rewrite !(network_info_rsp_settled s id _ info Hheap Hd). }
  destruct (network_info_rsp_shape s id rsp info Herr Hheap Hd)
    as (u & e & ->).
  settled_after_store network_info_rsp_settled.
Qed.

Lemma cancel_inference_rsp_twice id rsp rsp' s :
  ethosu_rpmsg_cancel_inference_rsp id rsp'
    (ethosu_rpmsg_cancel_inference_rsp id rsp s)
  = ethosu_rpmsg_cancel_inference_rsp id rsp s.
Proof.
  destruct (IS_ERR
              (ethosu_rpmsg_mailbox_find s id
                 ETHOSU_RPMSG_CANCEL_INFERENCE_REQ)) eqn:Herr.
  { rewrite (cancel_inference_rsp_not_found s id rsp Herr). by apply cancel_inference_rsp_not_found. }
  destruct (heap s
              !! ethosu_rpmsg_mailbox_find s id
                   ETHOSU_RPMSG_CANCEL_INFERENCE_REQ)
    as [o|] eqn:Hheap.
  2:{ assert (H : forall r, ethosu_rpmsg_cancel_inference_rsp id r s = s).
      { intros r. unfold ethosu_rpmsg_cancel_inference_rsp.
        by rewrite Herr, Hheap. }
      by rewrite !H. }
  destruct o as [| | | | | |cancellation];
    try (assert (H : forall r, ethosu_rpmsg_cancel_inference_rsp id r s = s);
         [ intros r; unfold ethosu_rpmsg_cancel_inference_rsp;
           by rewrite Herr, Hheap
         | by rewrite !H ]).
  destruct (completion_done (cancel_done cancellation)) eqn:Hd.
  { by rewrite !(cancel_inference_rsp_settled s id _ cancellation Hheap Hd). }
  destruct (cancel_inference_rsp_shape s id rsp cancellation Herr Hheap Hd)
    as (u & e & ->).
  settled_after_store cancel_inference_rsp_settled.
Qed.

(** A response that comes after the fail callback changes nothing. *)
Lemma version_rsp_after_fail id rsp s :
  IS_ERR (ethosu_rpmsg_mailbox_find s id ETHOSU_RPMSG_VERSION_REQ) = false ->
  ethosu_rpmsg_version_rsp id rsp
    (ethosu_rpmsg_version_fail
       (ethosu_rpmsg_mailbox_find s id ETHOSU_RPMSG_VERSION_REQ) s)
  = ethosu_rpmsg_version_fail
      (ethosu_rpmsg_mailbox_find s id ETHOSU_RPMSG_VERSION_REQ) s.
Proof.
  intros Herr. unfold ethosu_rpmsg_version_fail.
  destruct (heap s !! ethosu_rpmsg_mailbox_find s id ETHOSU_RPMSG_VERSION_REQ)
    as [[| | |version| | |]|] eqn:Hheap;
    try (unfold ethosu_rpmsg_version_rsp; by rewrite Herr, Hheap).
  destruct (completion_done (ver_done version)) eqn:Hd.
  { by apply (version_rsp_settled s id rsp version). }
  settled_after_store version_rsp_settled.
Qed.

Lemma capability_rsp_after_fail id rsp s :
  IS_ERR (ethosu_rpmsg_mailbox_find s id ETHOSU_RPMSG_CAPABILITIES_REQ)
  = false ->
  ethosu_capability_rsp id rsp
    (ethosu_rpmsg_capabilities_fail
       (ethosu_rpmsg_mailbox_find s id ETHOSU_RPMSG_CAPABILITIES_REQ) s)
  = ethosu_rpmsg_capabilities_fail
      (ethosu_rpmsg_mailbox_find s id ETHOSU_RPMSG_CAPABILITIES_REQ) s.
Proof.
  intros Herr. unfold ethosu_rpmsg_capabilities_fail.
  destruct (heap s
              !! ethosu_rpmsg_mailbox_find s id ETHOSU_RPMSG_CAPABILITIES_REQ)
    as [[| | | |cap| |]|] eqn:Hheap;
    try (unfold ethosu_capability_rsp; by rewrite Herr, Hheap).
  destruct (completion_done (cap_done cap)) eqn:Hd.
  { by apply (capability_rsp_settled s id rsp cap). }
  settled_after_store capability_rsp_settled.
Qed.

Lemma network_info_rsp_after_fail id rsp s :
  IS_ERR (ethosu_rpmsg_mailbox_find s id ETHOSU_RPMSG_NETWORK_INFO_REQ)
  = false ->
  ethosu_rpmsg_network_info_rsp id rsp
    (ethosu_rpmsg_network_info_fail
       (ethosu_rpmsg_mailbox_find s id ETHOSU_RPMSG_NETWORK_INFO_REQ) s)
  = ethosu_rpmsg_network_info_fail
      (ethosu_rpmsg_mailbox_find s id ETHOSU_RPMSG_NETWORK_INFO_REQ) s.
Proof.
  intros Herr. unfold ethosu_rpmsg_network_info_fail.
  destruct (heap s
              !! ethosu_rpmsg_mailbox_find s id ETHOSU_RPMSG_NETWORK_INFO_REQ)
    as [[| | | | |info|]|] eqn:Hheap;
    try (unfold ethosu_rpmsg_network_info_rsp; by rewrite Herr, Hheap).
  destruct (completion_done (info_done info)) eqn:Hd.
  { by apply (network_info_rsp_settled s id rsp info). }
  settled_after_store network_info_rsp_settled.
Qed.

Lemma cancel_inference_rsp_after_fail id rsp s :
  IS_ERR (ethosu_rpmsg_mailbox_find s id ETHOSU_RPMSG_CANCEL_INFERENCE_REQ)
  = false ->
  ethosu_rpmsg_cancel_inference_rsp id rsp
    (ethosu_rpmsg_cancel_inference_fail
       (ethosu_rpmsg_mailbox_find s id ETHOSU_RPMSG_CANCEL_INFERENCE_REQ) s)
  = ethosu_rpmsg_cancel_inference_fail
      (ethosu_rpmsg_mailbox_find s id ETHOSU_RPMSG_CANCEL_INFERENCE_REQ) s.
Proof.
  intros Herr. unfold ethosu_rpmsg_cancel_inference_fail.
  destruct (heap s
              !! ethosu_rpmsg_mailbox_find s id
                   ETHOSU_RPMSG_CANCEL_INFERENCE_REQ)
    as [[| | | | | |cancellation]|] eqn:Hheap;
    try (unfold ethosu_rpmsg_cancel_inference_rsp; by rewrite Herr, Hheap).
  destruct (completion_done (cancel_done cancellation)) eqn:Hd.
  { by apply (cancel_inference_rsp_settled s id rsp cancellation). }
  settled_after_store cancel_inference_rsp_settled.
Qed.

(** C10, amended.  For the version, capabilities, network info and
    cancel inference requests the handler ignores a response for as
    long as a signalled completion of the request is pending, that is
    while [completion_done] holds: a response under the id and kind of
    such a request, whatever it carries, leaves the device as it is.
    So a second response that follows the first leaves the device as
    the first left it, and a response that follows the fail callback
    leaves the device as the callback left it: neither the errno nor
    the user-visible output of the request changes.  A response that
    arrives when the requester has consumed the completion is not
    covered. *)
Theorem settled_response_is_ignored (id : Z) (s : device_state) :
  (forall rsp rsp',
      ethosu_rpmsg_version_rsp id rsp' (ethosu_rpmsg_version_rsp id rsp s)
      = ethosu_rpmsg_version_rsp id rsp s)
  /\ (forall rsp rsp',
        ethosu_capability_rsp id rsp' (ethosu_capability_rsp id rsp s)
        = ethosu_capability_rsp id rsp s)
  /\ (forall rsp rsp',
        ethosu_rpmsg_network_info_rsp id rsp'
          (ethosu_rpmsg_network_info_rsp id rsp s)
        = ethosu_rpmsg_network_info_rsp id rsp s)
  /\ (forall rsp rsp',
        ethosu_rpmsg_cancel_inference_rsp id rsp'
          (ethosu_rpmsg_cancel_inference_rsp id rsp s)
        = ethosu_rpmsg_cancel_inference_rsp id rsp s)
  /\ (forall rsp msg,
        ethosu_rpmsg_mailbox_find s id ETHOSU_RPMSG_VERSION_REQ = msg ->
        IS_ERR msg = false ->
        ethosu_rpmsg_version_rsp id rsp (ethosu_rpmsg_version_fail msg s)
        = ethosu_rpmsg_version_fail msg s)
  /\ (forall rsp msg,
        ethosu_rpmsg_mailbox_find s id ETHOSU_RPMSG_CAPABILITIES_REQ = msg ->
        IS_ERR msg = false ->
        ethosu_capability_rsp id rsp (ethosu_rpmsg_capabilities_fail msg s)
        = ethosu_rpmsg_capabilities_fail msg s)
  /\ (forall rsp msg,
        ethosu_rpmsg_mailbox_find s id ETHOSU_RPMSG_NETWORK_INFO_REQ = msg ->
        IS_ERR msg = false ->
        ethosu_rpmsg_network_info_rsp id rsp
          (ethosu_rpmsg_network_info_fail msg s)
        = ethosu_rpmsg_network_info_fail msg s)
  /\ (forall rsp msg,
        ethosu_rpmsg_mailbox_find s id ETHOSU_RPMSG_CANCEL_INFERENCE_REQ
        = msg ->
        IS_ERR msg = false ->
        ethosu_rpmsg_cancel_inference_rsp id rsp
          (ethosu_rpmsg_cancel_inference_fail msg s)
        = ethosu_rpmsg_cancel_inference_fail msg s)
  /\ (forall rsp version,
        heap s !! ethosu_rpmsg_mailbox_find s id ETHOSU_RPMSG_VERSION_REQ
        = Some (ObjVersion version) ->
        completion_done (ver_done version) = true ->
        ethosu_rpmsg_version_rsp id rsp s = s)
  /\ (forall rsp cap,
        heap s !! ethosu_rpmsg_mailbox_find s id ETHOSU_RPMSG_CAPABILITIES_REQ
        = Some (ObjCapabilities cap) ->
        completion_done (cap_done cap) = true ->
        ethosu_capability_rsp id rsp s = s)
  /\ (forall rsp info,
        heap s !! ethosu_rpmsg_mailbox_find s id ETHOSU_RPMSG_NETWORK_INFO_REQ
        = Some (ObjNetworkInfo info) ->
        completion_done (info_done info) = true ->
        ethosu_rpmsg_network_info_rsp id rsp s = s)
  /\ (forall rsp cancellation,
        heap s
          !! ethosu_rpmsg_mailbox_find s id ETHOSU_RPMSG_CANCEL_INFERENCE_REQ
        = Some (ObjCancelInference cancellation) ->
        completion_done (cancel_done cancellation) = true ->
        ethosu_rpmsg_cancel_inference_rsp id rsp s = s).
Proof.
  split_and!.
  - intros. apply version_rsp_twice.
  - intros. apply capability_rsp_twice.
  - intros. apply network_info_rsp_twice.
  - intros. apply cancel_inference_rsp_twice.
  - intros rsp msg <-. apply version_rsp_after_fail.
  - intros rsp msg <-. apply capability_rsp_after_fail.
  - intros rsp msg <-. apply network_info_rsp_after_fail.
  - intros rsp msg <-. apply cancel_inference_rsp_after_fail.
  - intros. by eapply version_rsp_settled.
  - intros. by eapply capability_rsp_settled.
  - intros. by eapply network_info_rsp_settled.
  - intros. by eapply cancel_inference_rsp_settled.
Qed.

(** A good answer after a bad one, and a good answer after the fail
    callback: the request keeps the error it was settled with. *)
Lemma settled_response_is_ignored_witness :
  heap (ethosu_rpmsg_version_rsp 5 version_0_2_7
          (ethosu_rpmsg_version_rsp 5 version_0_1_0 version_pending)) !! 100
  = Some
      (ObjVersion (mk_version 1 (mk_msg 5 ETHOSU_RPMSG_VERSION_REQ) (- EPROTO)))
  /\ heap (ethosu_rpmsg_version_rsp 5 version_0_2_7
             (ethosu_rpmsg_version_fail 100 version_pending)) !! 100
     = Some
         (ObjVersion
            (mk_version 1 (mk_msg 5 ETHOSU_RPMSG_VERSION_REQ) (- EFAULT))).
Proof.
  destruct (settled_response_is_ignored 5 version_pending)
    as (Htwice & _ & _ & _ & Hfail & _).
  rewrite (Htwice version_0_1_0 version_0_2_7).
  rewrite (Hfail version_0_2_7 100 eq_refl eq_refl).
  split; reflexivity.
Defined.

(** C10 as stated fails.  The requester consumes the completion when
    it wakes up, and takes the mutex only then: a second response
    that arrives in between is handled like a first one.  Here the
    firmware's good answer settles the version check with errno 0,
    and a late answer with another version turns the result of the
    same request into -EPROTO; the handler that ran on the settled
    request changed its errno. *)
Lemma settled_response_is_ignored_counterexample :
  fst <$> ethosu_rpmsg_version_check_request 7 (answering_env version_0_2_7)
            empty_state
  = Some 0
  /\ fst <$> ethosu_rpmsg_version_check_request 7
               (late_answer_env version_0_2_7 version_0_1_0) empty_state
     = Some (- EPROTO)
  /\ (let settled :=
        ethosu_rpmsg_version_rsp 5 version_0_2_7 version_pending in
      let woken_up :=
        store 100
          (ObjVersion
             (mk_version
                (fst (wait_for_completion_timeout 1
                        (msecs_to_jiffies VERSION_RESP_TIMEOUT_MS) 10))
                (mk_msg 5 ETHOSU_RPMSG_VERSION_REQ) 0)) settled in
      heap settled !! 100
      = Some (ObjVersion (mk_version 1 (mk_msg 5 ETHOSU_RPMSG_VERSION_REQ) 0))
      /\ heap (ethosu_rpmsg_version_rsp 5 version_0_1_0 woken_up) !! 100
         = Some
             (ObjVersion
                (mk_version 1 (mk_msg 5 ETHOSU_RPMSG_VERSION_REQ) (- EPROTO)))).
Proof. vm_compute. repeat split. Qed.

(** * Further properties of the driver *)

(** ** The table of pending requests *)

Lemma idr_scan_skip rt k fuel : forall id,
  k < id -> idr_scan (delete k rt) id fuel = idr_scan rt id fuel.
Proof.
  induction fuel as [|fuel IH]; intros id Hlt; cbn; [done|].
  rewrite lookup_delete_ne by lia.
  destruct (rt !! id); [|done]. apply IH. lia.
Qed.

Lemma idr_scan_unused fuel : forall (rt : gmap Z Z) id,
  (size rt < fuel)%nat -> rt !! idr_scan rt id fuel = None.
Proof.
  induction fuel as [|fuel IH]; intros rt id Hsz; [lia|]. cbn.
  destruct (rt !! id) as [v|] eqn:Hid; [|done].
  rewrite <- (idr_scan_skip rt id fuel (id + 1)) by lia.
  pose proof (idr_scan_ge (delete id rt) fuel (id + 1)) as Hge.
  specialize (IH (delete id rt) (id + 1)).
  rewrite lookup_delete_ne in IH by lia.
  apply IH.
  assert (size rt = S (size (delete id rt))).
  { rewrite <- (insert_delete_id rt id v) at 1 by done.
    rewrite map_size_insert_None; [done|]. apply lookup_delete_eq. }
  lia.
Qed.

Lemma idr_alloc_u32_fresh i0 ptr nextid max gfp_ok i id :
  idr_alloc_u32 i0 ptr nextid max gfp_ok = (0, i, id) ->
  idr_rt i0 !! id = None
  /\ i = mk_idr (<[id := ptr]> (idr_rt i0)) (idr_next i0)
  /\ nextid <= id <= max.
Proof.
  unfold idr_alloc_u32.
  destruct gfp_ok; cbn [negb]; [|discriminate].
  destruct (Z.leb_spec (idr_scan (idr_rt i0) nextid (S (size (idr_rt i0)))) max);
    [|discriminate].
  intros [= <- <-].
  split.
  { apply (idr_scan_unused (S (size (idr_rt i0))) (idr_rt i0) nextid). lia. }
  split; [done|].
  split; [apply (idr_scan_ge (idr_rt i0) (S (size (idr_rt i0)))) | done].
Qed.

Lemma idr_alloc_u32_unchanged i0 ptr nextid max gfp_ok err i id :
  idr_alloc_u32 i0 ptr nextid max gfp_ok = (err, i, id) ->
  err <> 0 -> i = i0 /\ (err = - ENOMEM \/ err = - ENOSPC).
Proof.
  unfold idr_alloc_u32.
  destruct gfp_ok; cbn [negb]; [|intros [= <- <- _]; tauto].
  destruct (_ <=? max); intros [= <- <- _]; [done|tauto].
Qed.

(** The cyclic allocator hands out an id that was unused, enters the
    pointer under it, and moves the cursor past it; when it fails the
    table is as before. *)
Lemma idr_alloc_cyclic_fresh i0 ptr gfp_ok i id :
  idr_alloc_cyclic i0 ptr 0 INT_MAX gfp_ok = (i, id) ->
  (0 <= id ->
   idr_rt i0 !! id = None
   /\ i = mk_idr (<[id := ptr]> (idr_rt i0)) (id + 1)
   /\ id < INT_MAX)
  /\ (id < 0 -> 0 <= idr_next i0 -> i = i0).
Proof.
  unfold idr_alloc_cyclic.
  change (if 0 <? INT_MAX then INT_MAX - 1 else INT_MAX) with (INT_MAX - 1).
  set (nextid := if to_int (idr_next i0) <? 0 then 0 else idr_next i0).
  destruct (idr_alloc_u32 i0 ptr nextid (INT_MAX - 1) gfp_ok)
    as [[err1 i1] id1] eqn:H1.
  destruct (Z.eqb_spec err1 0) as [->|Hne1].
  - cbn [Z.eqb andb].
    destruct (idr_alloc_u32_fresh _ _ _ _ _ _ _ H1) as (Hnone & -> & Hr).
    intros [= <- <-]. split; [intros _; cbn; repeat split; [done|lia]|].
    intros Hneg Hnext. exfalso.
    unfold nextid in Hr. destruct (_ <? 0); lia.
  - destruct (idr_alloc_u32_unchanged _ _ _ _ _ _ _ _ H1 Hne1) as [-> Herr1].
    destruct ((err1 =? - ENOSPC) && (0 <? id1)).
    + destruct (idr_alloc_u32 i0 ptr 0 (INT_MAX - 1) gfp_ok)
        as [[err2 i2] id2] eqn:H2.
      destruct (Z.eqb_spec err2 0) as [->|Hne2].
      * destruct (idr_alloc_u32_fresh _ _ _ _ _ _ _ H2) as (Hnone & -> & Hr).
        intros [= <- <-]. split; [intros _; cbn; repeat split; [done|lia]|].
        intros Hneg _. lia.
      * destruct (idr_alloc_u32_unchanged _ _ _ _ _ _ _ _ H2 Hne2)
          as [-> Herr2].
        intros [= <- <-]. split; [|done].
        intros Hpos. unfold ENOMEM, ENOSPC in Herr2. lia.
    + destruct (Z.eqb_spec err1 0); [done|].
      intros [= <- <-]. split; [|done].
      intros Hpos. unfold ENOMEM, ENOSPC in Herr1. lia.
Qed.

Lemma object_msg_map f o m :
  object_msg o = Some m ->
  object_msg (object_map_msg f o) = Some (f m).
Proof. destruct o; cbn; congruence. Qed.

(** A [register] that returns 0 entered the message under an id that
    was free. *)
Lemma register_success gfp_ok msg s s' :
  ethosu_rpmsg_mailbox_register gfp_ok msg s = (s', 0) ->
  exists id,
    0 <= id < INT_MAX
    /\ idr_rt (msg_idr (mailbox s)) !! id = None
    /\ s' = msg_update (set_msg_id id) msg
              (set_mailbox
                 (set_msg_idr
                    (mk_idr (<[id := msg]> (idr_rt (msg_idr (mailbox s))))
                       (id + 1)) (mailbox s)) s).
Proof.
  unfold ethosu_rpmsg_mailbox_register.
  destruct (idr_alloc_cyclic _ _ _ _ _) as [i id] eqn:Ha.
  destruct (Z.ltb_spec id 0); [intros [= _ Hret]; lia | intros [= <-]].
  destruct (idr_alloc_cyclic_fresh _ _ _ _ _ Ha) as [Hok _].
  destruct (Hok ltac:(lia)) as (Hnone & -> & Hmax).
  exists id. split; [lia|]. split; [done|]. reflexivity.
Qed.

(** X1.  A registration that succeeds never takes the id of a request
    that is still pending: the id it hands out was free, lies in
    [0, INT_MAX), is stored in the message, and from then on leads
    back to the message for a lookup of the message's own kind; every
    other id of the table and every other object is as before. *)
Theorem register_find_round_trip (gfp_ok : bool) (msg : Z)
  (s s' : device_state) (o : object) (m : ethosu_rpmsg_mailbox_msg) :
  heap s !! msg = Some o ->
  object_msg o = Some m ->
  ethosu_rpmsg_mailbox_register gfp_ok msg s = (s', 0) ->
  exists id,
    0 <= id < INT_MAX
    /\ idr_find (msg_idr (mailbox s)) id = None
    /\ idr_find (msg_idr (mailbox s')) id = Some msg
    /\ (forall id', id' <> id ->
          idr_find (msg_idr (mailbox s')) id'
          = idr_find (msg_idr (mailbox s)) id')
    /\ msg_at s' msg = Some (mk_msg id (msg_type m))
    /\ ethosu_rpmsg_mailbox_find s' id (msg_type m) = msg
    /\ (forall p, p <> msg -> heap s' !! p = heap s !! p).
Proof.
  intros Hh Hm Hreg.
  destruct (register_success _ _ _ _ Hreg) as (id & Hid & Hnone & ->).
  exists id. unfold msg_update. cbn. rewrite Hh.
  assert (Hat : msg_at
                  (store msg (object_map_msg (set_msg_id id) o)
                     (set_mailbox
                        (set_msg_idr
                           (mk_idr (<[id:=msg]> (idr_rt (msg_idr (mailbox s))))
                              (id + 1)) (mailbox s)) s)) msg
                = Some (mk_msg id (msg_type m))).
  { unfold msg_at. cbn. rewrite lookup_insert_eq. cbn.
    by rewrite (object_msg_map _ _ _ Hm). }
  split; [done|]. split; [done|].
  split; [cbn; apply lookup_insert_eq|].
  split; [intros id' Hne; cbn; by apply lookup_insert_ne|].
  split; [exact Hat|].
  split.
  - eapply find_found; [cbn; apply lookup_insert_eq | exact Hat | done].
  - intros p Hne. cbn. by apply lookup_insert_ne.
Qed.

Lemma register_find_round_trip_witness :
  exists id,
    idr_find (msg_idr (mailbox version_fresh)) id = None
    /\ ethosu_rpmsg_mailbox_find
         (fst (ethosu_rpmsg_mailbox_register true 100 version_fresh)) id 0
       = 100.
Proof.
  destruct (register_find_round_trip true 100 version_fresh
              (fst (ethosu_rpmsg_mailbox_register true 100 version_fresh))
              (ObjVersion (mk_version 0 (mk_msg 0 0) 0)) (mk_msg 0 0))
    as (id & _ & Hfree & _ & _ & _ & Hfind & _);
    [reflexivity | reflexivity | reflexivity |].
  exists id. split; [exact Hfree | exact Hfind].
Defined.

(** X2.  Registering a request and deregistering it again leaves the
    table with exactly the entries it had, and the heap as the
    registration left it; the id is then unknown to a lookup of any
    kind, so a response that still arrives for it changes nothing,
    whichever handler it is given to. *)
Theorem deregister_after_register (gfp_ok : bool) (msg : Z)
  (s s' : device_state) (o : object) (m : ethosu_rpmsg_mailbox_msg) :
  heap s !! msg = Some o ->
  object_msg o = Some m ->
  ethosu_rpmsg_mailbox_register gfp_ok msg s = (s', 0) ->
  let s'' := ethosu_rpmsg_mailbox_deregister msg s' in
  idr_rt (msg_idr (mailbox s'')) = idr_rt (msg_idr (mailbox s))
  /\ heap s'' = heap s'
  /\ exists id,
       msg_at s' msg = Some (mk_msg id (msg_type m))
       /\ (forall type, ethosu_rpmsg_mailbox_find s'' id type = - ENOENT)
       /\ (forall rsp, ethosu_rpmsg_inference_rsp id rsp s'' = s'')
       /\ (forall rsp, ethosu_rpmsg_version_rsp id rsp s'' = s'')
       /\ (forall rsp, ethosu_capability_rsp id rsp s'' = s'')
       /\ (forall rsp, ethosu_rpmsg_network_info_rsp id rsp s'' = s'')
       /\ (forall rsp, ethosu_rpmsg_cancel_inference_rsp id rsp s'' = s'').
Proof.
  intros Hh Hm Hreg.
  destruct (register_success _ _ _ _ Hreg) as (id & Hid & Hnone & ->).
  unfold msg_update. cbn [heap set_mailbox]. rewrite Hh.
  set (s1 := store msg _ _).
  assert (Hat : msg_at s1 msg = Some (mk_msg id (msg_type m))).
  { unfold msg_at, s1. cbn. rewrite lookup_insert_eq. cbn.
    by rewrite (object_msg_map _ _ _ Hm). }
  unfold ethosu_rpmsg_mailbox_deregister. rewrite Hat. cbn.
  split; [by apply delete_insert_id|]. split; [done|].
  exists id. split; [done|].
  assert (Hf : forall type,
             ethosu_rpmsg_mailbox_find
               (set_mailbox
                  (set_msg_idr (idr_remove (msg_idr (mailbox s1)) id)
                     (mailbox s1)) s1) id type = - ENOENT).
  { intros type. apply find_not_registered. cbn. apply lookup_delete_eq. }
  split; [exact Hf|].
  repeat split; intros rsp.
  - apply inference_rsp_not_found. by rewrite Hf.
  - apply version_rsp_not_found. by rewrite Hf.
  - apply capability_rsp_not_found. by rewrite Hf.
  - apply network_info_rsp_not_found. by rewrite Hf.
  - apply cancel_inference_rsp_not_found. by rewrite Hf.
Qed.

Lemma deregister_after_register_witness :
  idr_rt
    (msg_idr
       (mailbox
          (ethosu_rpmsg_mailbox_deregister 100
             (fst (ethosu_rpmsg_mailbox_register true 100 version_fresh)))))
  = idr_rt (msg_idr (mailbox version_fresh)).
Proof.
  apply (deregister_after_register true 100 version_fresh
           (fst (ethosu_rpmsg_mailbox_register true 100 version_fresh))
           (ObjVersion (mk_version 0 (mk_msg 0 0) 0)) (mk_msg 0 0));
    reflexivity.
Defined.

(** ** The failure broadcast *)

Lemma buffer_put_other buf p s :
  (forall b, heap s !! p <> Some (ObjBuffer b)) ->
  heap (ethosu_buffer_put buf s) !! p = heap s !! p.
Proof.
  intros Hp. unfold ethosu_buffer_put.
  destruct (heap s !! buf) as [[b| | | | | |]|] eqn:Hb; try reflexivity.
  assert (buf <> p) by (intros ->; by eapply Hp).
  cbn. destruct (buf_kref b =? 1); cbn;
    [by apply lookup_delete_ne | by apply lookup_insert_ne].
Qed.

Lemma buffer_put_mailbox buf s :
  mailbox (ethosu_buffer_put buf s) = mailbox s.
Proof.
  unfold ethosu_buffer_put.
  destruct (heap s !! buf) as [[b| | | | | |]|]; try reflexivity.
  cbn. by destruct (buf_kref b =? 1).
Qed.

Lemma put_buffers_other count bufs p s :
  (forall b, heap s !! p <> Some (ObjBuffer b)) ->
  heap (put_buffers count bufs s) !! p = heap s !! p.
Proof.
  unfold put_buffers. generalize (rev (take (Z.to_nat count) bufs)).
  intros l. revert s. induction l as [|b l IH]; intros s Hp; cbn; [done|].
  rewrite IH; [by apply buffer_put_other|].
  intros b0. by rewrite buffer_put_other.
Qed.

Lemma put_buffers_mailbox count bufs s :
  mailbox (put_buffers count bufs s) = mailbox s.
Proof.
  unfold put_buffers. generalize (rev (take (Z.to_nat count) bufs)).
  intros l. revert s. induction l as [|b l IH]; intros s; cbn; [done|].
  rewrite IH. apply buffer_put_mailbox.
Qed.

Lemma network_put_other net p s :
  (forall n, heap s !! p <> Some (ObjNetwork n)) ->
  heap (ethosu_rpmsg_network_put net s) !! p = heap s !! p.
Proof.
  intros Hp. unfold ethosu_rpmsg_network_put.
  destruct (heap s !! net) as [[|n| | | | |]|] eqn:Hb; try reflexivity.
  assert (net <> p) by (intros ->; by eapply Hp).
  cbn. destruct (net_kref n =? 1); cbn;
    [by apply lookup_delete_ne | by apply lookup_insert_ne].
Qed.

Lemma network_put_mailbox net s :
  mailbox (ethosu_rpmsg_network_put net s) = mailbox s.
Proof.
  unfold ethosu_rpmsg_network_put.
  destruct (heap s !! net) as [[|n| | | | |]|]; try reflexivity.
  cbn. by destruct (net_kref n =? 1).
Qed.

Lemma buffer_put_back buf q o s :
  heap (ethosu_buffer_put buf s) !! q = Some o ->
  (forall b, o <> ObjBuffer b) ->
  heap s !! q = Some o.
Proof.
  unfold ethosu_buffer_put.
  destruct (heap s !! buf) as [[b| | | | | |]|] eqn:Hb; try done.
  cbn. destruct (buf_kref b =? 1); cbn; intros Hq Ho.
  - apply lookup_delete_Some in Hq. tauto.
  - apply lookup_insert_Some in Hq as [[-> <-]|[_ Hq]]; [|done].
    by destruct (Ho (set_buf_kref (buf_kref b - 1) b)).
Qed.

Lemma put_buffers_back count bufs q o s :
  heap (put_buffers count bufs s) !! q = Some o ->
  (forall b, o <> ObjBuffer b) ->
  heap s !! q = Some o.
Proof.
  unfold put_buffers. generalize (rev (take (Z.to_nat count) bufs)).
  intros l. revert s. induction l as [|b l IH]; intros s; cbn; [done|].
  intros Hq Ho. eapply buffer_put_back; [|done]. by apply IH.
Qed.

Lemma network_put_back net q o s :
  heap (ethosu_rpmsg_network_put net s) !! q = Some o ->
  (forall n, o <> ObjNetwork n) ->
  heap s !! q = Some o.
Proof.
  unfold ethosu_rpmsg_network_put.
  destruct (heap s !! net) as [[|n| | | | |]|] eqn:Hb; try done.
  cbn. destruct (net_kref n =? 1); cbn; intros Hq Ho.
  - apply lookup_delete_Some in Hq. tauto.
  - apply lookup_insert_Some in Hq as [[-> <-]|[_ Hq]]; [|done].
    by destruct (Ho (set_net_kref (net_kref n - 1) n)).
Qed.

(** What the destruction of an inference touches: its own address,
    buffers, networks, and the table entry of its own id. *)
Lemma inference_destroy_frame x i s :
  heap s !! x = Some (ObjInference i) ->
  let s' := ethosu_rpmsg_inference_kref_destroy x s in
  (forall p, p <> x ->
      (forall b, heap s !! p <> Some (ObjBuffer b)) ->
      (forall n, heap s !! p <> Some (ObjNetwork n)) ->
      heap s' !! p = heap s !! p)
  /\ (forall q i',
        heap s' !! q = Some (ObjInference i') ->
        q <> x /\ heap s !! q = Some (ObjInference i'))
  /\ heap s' !! x = None
  /\ idr_rt (msg_idr (mailbox s'))
     = delete (msg_id (inf_msg i)) (idr_rt (msg_idr (mailbox s))).
Proof.
  intros Hx. unfold ethosu_rpmsg_inference_kref_destroy. rewrite Hx. cbn zeta.
  assert (Hd : ethosu_rpmsg_mailbox_deregister x s
               = set_mailbox
                   (set_msg_idr
                      (idr_remove (msg_idr (mailbox s)) (msg_id (inf_msg i)))
                      (mailbox s)) s).
  { unfold ethosu_rpmsg_mailbox_deregister, msg_at. by rewrite Hx. }
  rewrite Hd. set (s1 := set_mailbox _ s).
  split; [|split; [|split]].
  - intros p Hne Hb Hn. cbn. rewrite lookup_delete_ne by done.
    assert (H2 : heap (put_buffers (inf_ifm_count i) (inf_ifm i) s1) !! p
                 = heap s !! p) by (by rewrite put_buffers_other).
    assert (H3 : heap (put_buffers (inf_ofm_count i) (inf_ofm i)
                         (put_buffers (inf_ifm_count i) (inf_ifm i) s1)) !! p
                 = heap s !! p).
    { rewrite put_buffers_other; [done|]. intros b. by rewrite H2. }
    rewrite network_put_other; [done|]. intros n. by rewrite H3.
  - intros q i' Hq. cbn in Hq. apply lookup_delete_Some in Hq as [Hne Hq].
    split; [done|].
    apply network_put_back in Hq; [|done].
    apply put_buffers_back in Hq; [|done].
    apply put_buffers_back in Hq; [|done]. exact Hq.
  - cbn. apply lookup_delete_eq.
  - cbn. by rewrite network_put_mailbox, !put_buffers_mailbox.
Qed.

(** What the fail callback of an inference touches. *)
Lemma inference_fail_frame x inf s :
  heap s !! x = Some (ObjInference inf) ->
  let s' := ethosu_rpmsg_inference_fail x s in
  (forall p, p <> x ->
      (forall b, heap s !! p <> Some (ObjBuffer b)) ->
      (forall n, heap s !! p <> Some (ObjNetwork n)) ->
      heap s' !! p = heap s !! p)
  /\ (forall q i',
        heap s' !! q = Some (ObjInference i') ->
        exists i0, heap s !! q = Some (ObjInference i0)
                   /\ inf_msg i' = inf_msg i0)
  /\ (idr_rt (msg_idr (mailbox s')) = idr_rt (msg_idr (mailbox s))
      \/ idr_rt (msg_idr (mailbox s'))
         = delete (msg_id (inf_msg inf)) (idr_rt (msg_idr (mailbox s)))).
Proof.
  intros Hx. unfold ethosu_rpmsg_inference_fail. rewrite Hx.
  destruct (inf_done inf).
  { cbn. split; [done|]. split; [|by left]. intros q i' Hq. by exists i'. }
  unfold ethosu_rpmsg_inference_put. rewrite Hx. cbn [kref_put].
  set (s1 := store x (ObjInference (set_inf_kref (inf_kref inf - 1) inf)) s).
  assert (H1 : heap s1 !! x
               = Some (ObjInference (set_inf_kref (inf_kref inf - 1) inf)))
    by apply lookup_insert_eq.
  assert (Hother : forall p, p <> x -> heap s1 !! p = heap s !! p).
  { intros p Hne. cbn. by apply lookup_insert_ne. }
  destruct (inf_kref inf =? 1); cbn [negb Z.eqb].
  - destruct (inference_destroy_frame x _ s1 H1) as (Hf & Hback & Hnone & Hidr).
    cbn zeta. split; [|split].
    + intros p Hne Hb Hn. rewrite Hf; [by apply Hother | done | |];
        intros ?; by rewrite Hother.
    + intros q i' Hq. destruct (Hback q i' Hq) as [Hne Hq1].
      rewrite Hother in Hq1 by done. by exists i'.
    + right. exact Hidr.
  - unfold inf_update. rewrite H1. cbn. split; [|split].
    + intros p Hne _ _. by rewrite !lookup_insert_ne.
    + intros q i' Hq. rewrite insert_insert_eq in Hq.
      apply lookup_insert_Some in Hq as [[-> Hq]|[_ Hq]].
      * exists inf. split; [done|]. injection Hq as <-. reflexivity.
      * by exists i'.
    + by left.
Qed.

Lemma request_failed_completion o d e :
  request_completion o = Some (d, e) ->
  request_completion (request_failed o)
  = Some (if completion_done d then (d, e) else (complete d, - EFAULT)).
Proof.
  destruct o; cbn; try discriminate; intros [= <- <-]; cbn;
    match goal with |- context [completion_done ?d] =>
      destruct (completion_done d) end; done.
Qed.

Lemma request_failed_twice o :
  request_failed (request_failed o) = request_failed o.
Proof.
  destruct o as [| | |v|c|i|c]; cbn; try done.
  - destruct (completion_done (ver_done v)) eqn:Hd; cbn; rewrite ?Hd; try done.
    by rewrite completion_done_complete.
  - destruct (completion_done (cap_done c)) eqn:Hd; cbn; rewrite ?Hd; try done.
    by rewrite completion_done_complete.
  - destruct (completion_done (info_done i)) eqn:Hd; cbn; rewrite ?Hd; try done.
    by rewrite completion_done_complete.
  - destruct (completion_done (cancel_done c)) eqn:Hd; cbn; rewrite ?Hd;
      try done.
    by rewrite completion_done_complete.
Qed.

(** The fail callback of a request that waits on a completion replaces
    the request by its failed form and touches nothing else. *)
Lemma msg_fail_request cur o c s :
  heap s !! cur = Some o ->
  request_completion o = Some c ->
  heap (msg_fail cur s) = <[cur := request_failed o]> (heap s)
  /\ mailbox (msg_fail cur s) = mailbox s
  /\ observables (msg_fail cur s) = observables s.
Proof.
  intros Hh Hc. unfold msg_fail. rewrite Hh.
  destruct o as [| | |v|c0|i|c0]; try discriminate; cbn.
  - unfold ethosu_rpmsg_version_fail. rewrite Hh.
    destruct (completion_done (ver_done v)); [|done].
    by rewrite insert_id.
  - unfold ethosu_rpmsg_capabilities_fail. rewrite Hh.
    destruct (completion_done (cap_done c0)); [|done].
    by rewrite insert_id.
  - unfold ethosu_rpmsg_network_info_fail. rewrite Hh.
    destruct (completion_done (info_done i)); [|done].
    by rewrite insert_id.
  - unfold ethosu_rpmsg_cancel_inference_fail. rewrite Hh.
    destruct (completion_done (cancel_done c0)); [|done].
    by rewrite insert_id.
Qed.

Lemma request_failed_kind o c :
  request_completion o = Some c ->
  forall i, request_failed o <> ObjInference i.
Proof.
  destruct o; cbn; try discriminate; intros _ i0;
    match goal with |- context [completion_done ?d] =>
      destruct (completion_done d) end; discriminate.
Qed.

Lemma msg_fail_step id cur o c x s :
  idr_rt (msg_idr (mailbox s)) !! id = Some cur ->
  heap s !! cur = Some o ->
  request_completion o = Some c ->
  (forall q i, heap s !! q = Some (ObjInference i) -> msg_id (inf_msg i) <> id) ->
  idr_rt (msg_idr (mailbox (msg_fail x s))) !! id = Some cur
  /\ (forall q i,
        heap (msg_fail x s) !! q = Some (ObjInference i) ->
        msg_id (inf_msg i) <> id)
  /\ heap (msg_fail x s) !! cur
     = Some (if decide (x = cur) then request_failed o else o).
Proof.
  intros Hid Hh Hc Hinf.
  destruct (heap s !! x) as [ox|] eqn:Hx.
  2:{ unfold msg_fail. rewrite Hx. split; [done|]. split; [done|].
      case_decide; [congruence|done]. }
  destruct (request_completion ox) as [cx|] eqn:Hcx.
  { destruct (msg_fail_request x ox cx s Hx Hcx) as (Hheap & Hmb & _).
    rewrite Hheap, Hmb. split; [done|]. split.
    - intros q i Hq. apply lookup_insert_Some in Hq as [[-> Hq]|[_ Hq]].
      + by destruct (request_failed_kind ox cx Hcx i).
      + by eapply Hinf.
    - case_decide as Hpc.
      + subst x. rewrite lookup_insert_eq. congruence.
      + by rewrite lookup_insert_ne. }
  destruct ox as [b|n|inf| | | |]; try discriminate.
  1,2: unfold msg_fail; rewrite Hx; split; [done|]; split; [done|];
       case_decide; [congruence|done].
  assert (Hne : x <> cur).
  { intros ->. rewrite Hh in Hx. injection Hx as ->. discriminate. }
  unfold msg_fail. rewrite Hx.
  destruct (inference_fail_frame x inf s Hx) as (Hf & Hback & Hidr).
  split; [|split].
  - destruct Hidr as [-> | ->]; [done|].
    rewrite lookup_delete_ne; [done|]. by eapply Hinf.
  - intros q i Hq. destruct (Hback q i Hq) as (i0 & Hq0 & ->).
    by eapply Hinf.
  - case_decide; [congruence|].
    rewrite Hf; [done | congruence | |]; intros ? Heq; rewrite Hh in Heq;
      injection Heq as ->; discriminate.
Qed.

Lemma for_each_fail_request id cur ids : forall o c s,
  idr_rt (msg_idr (mailbox s)) !! id = Some cur ->
  heap s !! cur = Some o ->
  request_completion o = Some c ->
  (forall q i, heap s !! q = Some (ObjInference i) -> msg_id (inf_msg i) <> id) ->
  exists o',
    heap (idr_for_each_entry ids msg_fail s) !! cur = Some o'
    /\ (o' = o \/ o' = request_failed o)
    /\ (id ∈ ids -> o' = request_failed o).
Proof.
  induction ids as [|id' ids IH]; intros o c s Hid Hh Hc Hinf; cbn.
  { exists o. split; [done|]. split; [by left|]. by intros ?%elem_of_nil. }
  unfold idr_find.
  destruct (idr_rt (msg_idr (mailbox s)) !! id') as [x|] eqn:Hx.
  - destruct (msg_fail_step id cur o c x s Hid Hh Hc Hinf) as (Hid1 & Hinf1 & Hh1).
    assert (Hc1 : exists c1,
               request_completion
                 (if decide (x = cur) then request_failed o else o) = Some c1).
    { case_decide; [|by exists c]. destruct c as [d e].
      rewrite (request_failed_completion o d e Hc). by eexists. }
    destruct Hc1 as [c1 Hc1].
    destruct (IH _ c1 _ Hid1 Hh1 Hc1 Hinf1) as (o' & Ho' & Hcases & Hin).
    exists o'. split; [done|].
    case_decide as Hxc.
    + rewrite request_failed_twice in Hcases, Hin.
      split; [right; by destruct Hcases | intros _; by destruct Hcases].
    + split; [done|]. intros [->|Hin']%elem_of_cons; [|by apply Hin].
      congruence.
  - destruct (IH o c s Hid Hh Hc Hinf) as (o' & Ho' & Hcases & Hin).
    exists o'. split; [done|]. split; [done|].
    intros [->|Hin']%elem_of_cons; [congruence | by apply Hin].
Qed.

Lemma idr_ids_elem (i : idr) id :
  id ∈ idr_ids i <-> is_Some (idr_rt i !! id).
Proof.
  unfold idr_ids. rewrite merge_sort_Permutation.
  rewrite list_elem_of_fmap. split.
  - intros ([k v] & -> & Hkv). apply elem_of_map_to_list in Hkv. by exists v.
  - intros [v Hv]. exists (id, v). split; [done|]. by apply elem_of_map_to_list.
Qed.

(** X3.  The failure broadcast leaves no request waiting.  On a device
    whose inferences are all registered, every request that waits on
    a completion (version, capabilities, network info, cancel) and is
    in the table when the broadcast starts is afterwards exactly what
    one call of its own fail callback makes of it: completed; with
    the result -EFAULT when it had not been completed before; and as
    it was, result included, when it had. *)
Theorem mailbox_fail_settles_requests (s : device_state) (id cur : Z)
  (o : object) (d e : Z) :
  inferences_registered s ->
  idr_find (msg_idr (mailbox s)) id = Some cur ->
  heap s !! cur = Some o ->
  request_completion o = Some (d, e) ->
  heap (ethosu_rpmsg_mailbox_fail s) !! cur = Some (request_failed o)
  /\ heap (msg_fail cur s) !! cur = Some (request_failed o)
  /\ (exists d',
        request_completion (request_failed o)
        = Some (d', if completion_done d then e else - EFAULT)
        /\ completion_done d' = true)
  /\ (completion_done d = true -> request_failed o = o).
Proof.
  intros Hreg Hid Hh Hc.
  assert (Hinf : forall q i,
             heap s !! q = Some (ObjInference i) -> msg_id (inf_msg i) <> id).
  { intros q i Hq Heq. pose proof (Hreg q i Hq) as Hq'.
    rewrite Heq, Hid in Hq'. injection Hq' as ->.
    rewrite Hh in Hq. injection Hq as ->. discriminate. }
  split; [|split; [|split]].
  - destruct (for_each_fail_request id cur (idr_ids (msg_idr (mailbox s)))
                o (d, e) s Hid Hh Hc Hinf) as (o' & Ho' & _ & Hin).
    unfold ethosu_rpmsg_mailbox_fail. rewrite Ho'. f_equal. apply Hin.
    apply idr_ids_elem. by eexists.
  - destruct (msg_fail_request cur o (d, e) s Hh Hc) as (-> & _).
    apply lookup_insert_eq.
  - rewrite (request_failed_completion o d e Hc).
    destruct (completion_done d) eqn:Hd; eexists; split; try done.
    by apply completion_done_complete.
  - intros Hd. destruct o; cbn in *; try discriminate;
      injection Hc as <- <-; by rewrite Hd.
Qed.

(** ** The fail callback of an inference *)

Lemma inference_fail_live msg inf s :
  heap s !! msg = Some (ObjInference inf) ->
  inf_done inf = true \/ inf_kref inf <> 1 ->
  ethosu_rpmsg_inference_fail msg s
  = if inf_done inf then s
    else wake_pollers (inf_waitq inf)
           (store msg (ObjInference (inference_failed inf)) s).
Proof.
  intros Hh Hk. unfold ethosu_rpmsg_inference_fail, inference_failed.
  rewrite Hh. destruct (inf_done inf) eqn:Hd; [done|].
  destruct Hk as [|Hk]; [done|].
  unfold ethosu_rpmsg_inference_put. rewrite Hh. cbn [kref_put].
  destruct (Z.eqb_spec (inf_kref inf) 1); [done|]. cbn [negb Z.eqb].
  unfold inf_update. cbn [heap store set_heap]. rewrite lookup_insert_eq.
  unfold wake_pollers, store. cbn. by rewrite insert_insert_eq.
Qed.

Lemma inference_fail_last msg inf s :
  heap s !! msg = Some (ObjInference inf) ->
  inf_done inf = false ->
  inf_kref inf = 1 ->
  ethosu_rpmsg_inference_fail msg s
  = ethosu_rpmsg_inference_kref_destroy msg
      (store msg (ObjInference (set_inf_kref 0 inf)) s).
Proof.
  intros Hh Hd Hk. unfold ethosu_rpmsg_inference_fail. rewrite Hh, Hd.
  unfold ethosu_rpmsg_inference_put. rewrite Hh. cbn [kref_put].
  rewrite Hk. reflexivity.
Qed.

(** X4.  The fail callback of an inference.  On an inference that is
    not done and to which another reference exists it drops the
    reference of the mailbox, sets [done], wakes the pollers, and
    turns the status into ABORTED when a cancellation was under way
    and into ERROR otherwise; it leaves the table alone.  When the
    reference of the mailbox was the last one the inference is
    destroyed instead, its id leaves the table and nobody is woken.
    In both cases the callback sends nothing, and calling it a second
    time changes nothing. *)
Theorem inference_fail_promotes (msg : Z) (inf : ethosu_rpmsg_inference)
  (s : device_state) :
  heap s !! msg = Some (ObjInference inf) ->
  inf_done inf = false ->
  let s' := ethosu_rpmsg_inference_fail msg s in
  (inf_kref inf <> 1 ->
   exists inf',
     heap s' !! msg = Some (ObjInference inf')
     /\ inf_done inf' = true
     /\ inf_status inf'
        = (if decide (inf_status inf = ETHOSU_UAPI_STATUS_ABORTING)
           then ETHOSU_UAPI_STATUS_ABORTED
           else ETHOSU_UAPI_STATUS_ERROR)
     /\ inf_kref inf' = inf_kref inf - 1
     /\ woken s' = woken s ++ inf_waitq inf
     /\ mailbox s' = mailbox s
     /\ tx s' = tx s)
  /\ (inf_kref inf = 1 ->
      heap s' !! msg = None
      /\ idr_find (msg_idr (mailbox s')) (msg_id (inf_msg inf)) = None
      /\ woken s' = woken s
      /\ tx s' = tx s)
  /\ ethosu_rpmsg_inference_fail msg s' = s'.
Proof.
  intros Hh Hd. cbn zeta. split; [|split].
  - intros Hk. rewrite (inference_fail_live msg inf s Hh) by (by right).
    rewrite Hd. exists (inference_failed inf). unfold inference_failed.
    rewrite Hd. cbn. rewrite lookup_insert_eq. done.
  - intros Hk. rewrite (inference_fail_last msg inf s Hh Hd Hk).
    destruct (inference_destroy_frame msg (set_inf_kref 0 inf)
                (store msg (ObjInference (set_inf_kref 0 inf)) s))
      as (_ & _ & Hnone & Hidr); [apply lookup_insert_eq|].
    split; [exact Hnone|]. split.
    + unfold idr_find. rewrite Hidr. apply lookup_delete_eq.
    + split.
      * erewrite observables_woken; [|apply inference_destroy_observables].
        reflexivity.
      * erewrite observables_tx; [|apply inference_destroy_observables].
        reflexivity.
  - destruct (Z.eq_dec (inf_kref inf) 1) as [Hk|Hk].
    + rewrite (inference_fail_last msg inf s Hh Hd Hk).
      destruct (inference_destroy_frame msg (set_inf_kref 0 inf)
                  (store msg (ObjInference (set_inf_kref 0 inf)) s))
        as (_ & _ & Hnone & _); [apply lookup_insert_eq|].
      unfold ethosu_rpmsg_inference_fail at 1. by rewrite Hnone.
    + rewrite (inference_fail_live msg inf s Hh) by (by right).
      rewrite Hd.
      erewrite (inference_fail_live msg (inference_failed inf));
        [ | cbn; apply lookup_insert_eq
          | left; unfold inference_failed; by rewrite Hd ].
      unfold inference_failed. by rewrite Hd.
Qed.

Lemma inference_fail_promotes_witness :
  exists inf',
    heap (ethosu_rpmsg_inference_fail 30 inference_pending) !! 30
    = Some (ObjInference inf')
    /\ inf_done inf' = true
    /\ inf_status inf' = ETHOSU_UAPI_STATUS_ERROR
    /\ inf_kref inf' = 1
    /\ woken (ethosu_rpmsg_inference_fail 30 inference_pending) = [41].
Proof.
  destruct (inference_fail_promotes 30 running_inference inference_pending)
    as (Hlive & _ & _); [reflexivity | reflexivity |].
  destruct Hlive as (inf' & Hh & Hd & Hst & Hk & Hw & _); [discriminate|].
  exists inf'. split; [exact Hh|]. split; [exact Hd|].
  split; [exact Hst|]. split; [exact Hk | exact Hw].
Defined.

Lemma inference_failed_twice i :
  inference_failed (inference_failed i) = inference_failed i.
Proof.
  unfold inference_failed. destruct (inf_done i) eqn:Hd; cbn; by rewrite ?Hd.
Qed.

Lemma inference_failed_msg i : inf_msg (inference_failed i) = inf_msg i.
Proof. unfold inference_failed. by destruct (inf_done i). Qed.

Lemma inference_failed_safe i :
  inf_done i = true \/ inf_kref i <> 1 ->
  inf_done (inference_failed i) = true.
Proof.
  unfold inference_failed. destruct (inf_done i) eqn:Hd; cbn; [done|].
  by intros [|].
Qed.

Lemma msg_fail_step_inference id cur i x s :
  idr_rt (msg_idr (mailbox s)) !! id = Some cur ->
  heap s !! cur = Some (ObjInference i) ->
  inf_done i = true \/ inf_kref i <> 1 ->
  (forall q iq,
      heap s !! q = Some (ObjInference iq) -> msg_id (inf_msg iq) = id ->
      q = cur) ->
  idr_rt (msg_idr (mailbox (msg_fail x s))) !! id = Some cur
  /\ (forall q iq,
        heap (msg_fail x s) !! q = Some (ObjInference iq) ->
        msg_id (inf_msg iq) = id -> q = cur)
  /\ heap (msg_fail x s) !! cur
     = Some (ObjInference (if decide (x = cur) then inference_failed i else i)).
Proof.
  intros Hid Hh Hk Hinf.
  destruct (heap s !! x) as [ox|] eqn:Hx.
  2:{ unfold msg_fail. rewrite Hx. split; [done|]. split; [done|].
      case_decide; [congruence|done]. }
  destruct (request_completion ox) as [cx|] eqn:Hcx.
  { destruct (msg_fail_request x ox cx s Hx Hcx) as (Hheap & Hmb & _).
    rewrite Hheap, Hmb. split; [done|]. split.
    - intros q iq Hq. apply lookup_insert_Some in Hq as [[-> Hq]|[_ Hq]].
      + by destruct (request_failed_kind ox cx Hcx iq).
      + by eapply Hinf.
    - case_decide as Hpc.
      + subst x. rewrite Hh in Hx. injection Hx as <-. discriminate.
      + by rewrite lookup_insert_ne. }
  destruct ox as [b|n|inf| | | |]; try discriminate.
  1,2: unfold msg_fail; rewrite Hx; split; [done|]; split; [done|];
       case_decide; [congruence|done].
  unfold msg_fail. rewrite Hx.
  destruct (decide (x = cur)) as [->|Hne].
  - rewrite Hh in Hx. injection Hx as <-.
    rewrite (inference_fail_live cur i s Hh Hk).
    unfold inference_failed.
    destruct (inf_done i) eqn:Hd; [done|]. cbn.
    split; [done|]. split; [|apply lookup_insert_eq].
    intros q iq Hq. apply lookup_insert_Some in Hq as [[-> Hq]|[_ Hq]]; [done|].
    by eapply Hinf.
  - destruct (inference_fail_frame x inf s Hx) as (Hf & Hback & Hidr).
    split; [|split].
    + destruct Hidr as [-> | ->]; [done|].
      rewrite lookup_delete_ne; [done|]. intros Heq.
      by destruct Hne; eapply Hinf.
    + intros q iq Hq Hmsg. destruct (Hback q iq Hq) as (i0 & Hq0 & Hm).
      eapply Hinf; [exact Hq0|]. by rewrite <- Hm.
    + rewrite Hf; [done | congruence | |]; intros ? Heq; rewrite Hh in Heq;
        discriminate.
Qed.

Lemma for_each_fail_inference id cur ids : forall i s,
  idr_rt (msg_idr (mailbox s)) !! id = Some cur ->
  heap s !! cur = Some (ObjInference i) ->
  inf_done i = true \/ inf_kref i <> 1 ->
  (forall q iq,
      heap s !! q = Some (ObjInference iq) -> msg_id (inf_msg iq) = id ->
      q = cur) ->
  exists i',
    heap (idr_for_each_entry ids msg_fail s) !! cur = Some (ObjInference i')
    /\ (i' = i \/ i' = inference_failed i)
    /\ (id ∈ ids -> i' = inference_failed i)
    /\ idr_rt (msg_idr (mailbox (idr_for_each_entry ids msg_fail s))) !! id
       = Some cur.
Proof.
  induction ids as [|id' ids IH]; intros i s Hid Hh Hk Hinf; cbn.
  { exists i. split; [done|]. split; [by left|].
    split; [by intros ?%elem_of_nil | done]. }
  unfold idr_find.
  destruct (idr_rt (msg_idr (mailbox s)) !! id') as [x|] eqn:Hx.
  - destruct (msg_fail_step_inference id cur i x s Hid Hh Hk Hinf)
      as (Hid1 & Hinf1 & Hh1).
    assert (Hk1 : inf_done (if decide (x = cur) then inference_failed i else i)
                  = true
                  \/ inf_kref (if decide (x = cur) then inference_failed i
                               else i) <> 1).
    { case_decide; [|done]. left. by apply inference_failed_safe. }
    destruct (IH _ _ Hid1 Hh1 Hk1 Hinf1) as (i' & Hi' & Hcases & Hin & Hreg).
    exists i'. split; [done|].
    case_decide as Hxc.
    + rewrite inference_failed_twice in Hcases, Hin.
      split; [right; by destruct Hcases|].
      split; [intros _; by destruct Hcases | done].
    + split; [done|]. split; [|done].
      intros [->|Hin']%elem_of_cons; [|by apply Hin].
      congruence.
  - destruct (IH i s Hid Hh Hk Hinf) as (i' & Hi' & Hcases & Hin & Hreg).
    exists i'. split; [done|]. split; [done|]. split; [|done].
    intros [->|Hin']%elem_of_cons; [congruence | by apply Hin].
Qed.

(** X5.  The failure broadcast reaches every inference.  On a device
    whose inferences are all registered, an inference that is in the
    table, is not done, and is still referred to by someone else (its
    descriptor is open, or a cancellation holds it) is after the
    broadcast what one call of its fail callback makes of it: done,
    without the reference of the mailbox, ABORTED when a cancellation
    was under way and in ERROR otherwise; it is still on the heap and
    still registered: its id finds it in the table after its callback
    and after the whole broadcast. *)
Theorem mailbox_fail_fails_inferences (s : device_state) (id cur : Z)
  (i : ethosu_rpmsg_inference) :
  inferences_registered s ->
  idr_find (msg_idr (mailbox s)) id = Some cur ->
  heap s !! cur = Some (ObjInference i) ->
  inf_done i = false ->
  inf_kref i <> 1 ->
  exists i',
    heap (ethosu_rpmsg_mailbox_fail s) !! cur = Some (ObjInference i')
    /\ heap (msg_fail cur s) !! cur = Some (ObjInference i')
    /\ inf_done i' = true
    /\ inf_status i'
       = (if decide (inf_status i = ETHOSU_UAPI_STATUS_ABORTING)
          then ETHOSU_UAPI_STATUS_ABORTED
          else ETHOSU_UAPI_STATUS_ERROR)
    /\ inf_kref i' = inf_kref i - 1
    /\ inf_msg i' = inf_msg i
    /\ idr_find (msg_idr (mailbox (ethosu_rpmsg_mailbox_fail s))) id
       = Some cur
    /\ idr_find (msg_idr (mailbox (msg_fail cur s))) id = Some cur.
Proof.
  intros Hreg Hid Hh Hd Hk.
  assert (Hinf : forall q iq,
             heap s !! q = Some (ObjInference iq) ->
             msg_id (inf_msg iq) = id -> q = cur).
  { intros q iq Hq Heq. pose proof (Hreg q iq Hq) as Hq'.
    rewrite Heq, Hid in Hq'. by injection Hq'. }
  destruct (for_each_fail_inference id cur (idr_ids (msg_idr (mailbox s)))
              i s Hid Hh (or_intror Hk) Hinf) as (i' & Hi' & _ & Hin & Hstill).
  rewrite Hin in Hi' by (apply idr_ids_elem; by eexists).
  assert (Hone : msg_fail cur s
                 = wake_pollers (inf_waitq i)
                     (store cur (ObjInference (inference_failed i)) s)).
  { unfold msg_fail. rewrite Hh.
    by rewrite (inference_fail_live cur i s Hh (or_intror Hk)), Hd. }
  exists (inference_failed i). split; [exact Hi'|]. split.
  { rewrite Hone. cbn. apply lookup_insert_eq. }
  assert (Hfields : inf_done (inference_failed i) = true
                    /\ inf_status (inference_failed i)
                       = (if decide
                               (inf_status i = ETHOSU_UAPI_STATUS_ABORTING)
                          then ETHOSU_UAPI_STATUS_ABORTED
                          else ETHOSU_UAPI_STATUS_ERROR)
                    /\ inf_kref (inference_failed i) = inf_kref i - 1
                    /\ inf_msg (inference_failed i) = inf_msg i).
  { unfold inference_failed. rewrite Hd. done. }
  destruct Hfields as (? & ? & ? & ?).
  split_and!; try done.
  rewrite Hone. exact Hid.
Qed.

Lemma shutdown_pending_registered : inferences_registered shutdown_pending.
Proof.
  intros q i Hq. unfold shutdown_pending, inference_pending in Hq. cbn in Hq.
  repeat (apply lookup_insert_Some in Hq as [[<- Hq]|[_ Hq]];
          [try discriminate|]).
  apply lookup_singleton_Some in Hq as [<- Hq]. injection Hq as <-.
  reflexivity.
Qed.

Lemma mailbox_fail_settles_requests_witness :
  heap (ethosu_rpmsg_mailbox_fail shutdown_pending) !! 100
  = Some
      (ObjVersion (mk_version 1 (mk_msg 5 ETHOSU_RPMSG_VERSION_REQ) (- EFAULT)))
  /\ heap (ethosu_rpmsg_mailbox_fail shutdown_pending) !! 101
     = heap shutdown_pending !! 101.
Proof.
  split.
  - apply (mailbox_fail_settles_requests shutdown_pending 5 100
             (ObjVersion (mk_version 0 (mk_msg 5 ETHOSU_RPMSG_VERSION_REQ) 0))
             0 0);
      [apply shutdown_pending_registered | reflexivity..].
  - apply (mailbox_fail_settles_requests shutdown_pending 6 101
             (ObjCapabilities
                (mk_capabilities no_capabilities 1
                   (mk_msg 6 ETHOSU_RPMSG_CAPABILITIES_REQ) 0)) 1 0);
      [apply shutdown_pending_registered | reflexivity..].
Defined.

Lemma mailbox_fail_fails_inferences_witness :
  exists i',
    heap (ethosu_rpmsg_mailbox_fail shutdown_pending) !! 30
    = Some (ObjInference i')
    /\ inf_done i' = true
    /\ inf_status i' = ETHOSU_UAPI_STATUS_ERROR
    /\ inf_kref i' = 1
    /\ idr_find (msg_idr (mailbox (ethosu_rpmsg_mailbox_fail shutdown_pending)))
         0
       = Some 30.
Proof.
  destruct (mailbox_fail_fails_inferences shutdown_pending 0 30
              running_inference)
    as (i' & Hh & _ & Hd & Hst & Hk & _ & Hreg & _);
    [apply shutdown_pending_registered | reflexivity | reflexivity
    | reflexivity | discriminate |].
  exists i'. split; [exact Hh|]. split; [exact Hd|].
  split; [exact Hst|]. split; [exact Hk | exact Hreg].
Defined.

(** ** Buffers *)

Lemma buffer_create_cases (env : buffer_create_env) (size : Z)
  (s : device_state) :
  let buf := heap_fresh (heap s) in
  (snd (ethosu_buffer_create env size s) < 0
   /\ fst (ethosu_buffer_create env size s) = s)
  \/ (snd (ethosu_buffer_create env size s) = bce_fd env
      /\ 0 <= bce_fd env
      /\ size <> 0
      /\ heap s !! buf = None
      /\ fst (ethosu_buffer_create env size s)
         = set_files
             (<[bce_fd env := mk_file ethosu_buffer_fops buf]> (files s))
             (store buf
                (ObjBuffer
                   (mk_buffer 1
                      (Some
                         (mk_dma_mem size (repeat 0 (Z.to_nat size))
                            (bce_dma_addr env))))) s)).
Proof.
  cbn zeta. unfold ethosu_buffer_create, ethosu_dma_mem_alloc.
  destruct (Z.eqb_spec size 0) as [->|Hsz]; [left; by cbn|].
  destruct (bce_buf_ok env); cbn [negb]; [|left; by cbn].
  destruct (bce_dma_struct_ok env); cbn [negb].
  2:{ left. cbn [fst snd]. split; [done|]. apply kfree_fresh. }
  destruct (bce_dma_ok env); cbn [negb].
  2:{ left. cbn [fst snd]. split; [done|]. apply kfree_fresh. }
  unfold anon_inode_getfd.
  destruct (Z.ltb_spec (bce_fd env) 0) as [Hfd|Hfd].
  - left. destruct (Z.ltb_spec (bce_fd env) 0); [|lia]. cbn [fst snd].
    split; [done|]. apply kfree_fresh2.
  - right. destruct (Z.ltb_spec (bce_fd env) 0); [lia|]. cbn [fst snd].
    split; [done|]. split; [done|]. split; [done|].
    split; [apply heap_fresh_unused|].
    unfold store, set_files, set_heap. cbn. by rewrite insert_insert_eq.
Qed.

(** X6.  Buffer creation is all or nothing.  Either it returns a
    negative error and the device is exactly as before (nothing
    allocated stays behind), or it returns the descriptor the kernel
    handed out, bound to a new buffer that holds one reference and a
    zeroed memory region of the size asked for, and nothing else has
    changed.  A size of zero is always refused. *)
Theorem buffer_create_all_or_nothing (env : buffer_create_env) (size : Z)
  (s : device_state) :
  ((snd (ethosu_buffer_create env size s) < 0
    /\ fst (ethosu_buffer_create env size s) = s)
   \/ (snd (ethosu_buffer_create env size s) = bce_fd env
       /\ 0 <= bce_fd env
       /\ size <> 0
       /\ heap s !! heap_fresh (heap s) = None
       /\ fst (ethosu_buffer_create env size s)
          = set_files
              (<[bce_fd env := mk_file ethosu_buffer_fops
                                 (heap_fresh (heap s))]> (files s))
              (store (heap_fresh (heap s))
                 (ObjBuffer
                    (mk_buffer 1
                       (Some
                          (mk_dma_mem size (repeat 0 (Z.to_nat size))
                             (bce_dma_addr env))))) s)))
  /\ ethosu_buffer_create env 0 s = (s, - EINVAL).
Proof. split; [apply buffer_create_cases | reflexivity]. Qed.

(** Taking a reference and dropping it again is the identity. *)
Lemma buffer_put_get buf b s :
  heap s !! buf = Some (ObjBuffer b) ->
  buf_kref b <> 0 ->
  ethosu_buffer_put buf (ethosu_buffer_get buf s) = s.
Proof.
  intros Hh Hk. unfold ethosu_buffer_get. rewrite Hh.
  unfold ethosu_buffer_put. cbn. rewrite lookup_insert_eq. cbn.
  unfold kref_get. destruct (Z.eqb_spec (buf_kref b + 1) 1); [lia|].
  unfold store, set_heap. cbn. rewrite insert_insert_eq.
  replace (buf_kref b + 1 - 1) with (buf_kref b) by lia.
  destruct b as [k d]. cbn. rewrite insert_id by done. by destruct s.
Qed.

(** X7.  The life of a buffer handle.  For a buffer that was just
    created under the descriptor [fd]: a seek to the end with offset
    zero answers the size the buffer was created with, a seek to the
    start answers 0, and every other seek is refused with -EINVAL;
    looking the descriptor up gives the buffer and takes a reference
    that [put] gives back, leaving the device as it was; closing the
    descriptor while that reference is held keeps the buffer, and
    closing it when it is the only reference frees the buffer. *)
Theorem buffer_handle_round_trip (env : buffer_create_env) (size : Z)
  (s s' : device_state) (fd : Z) :
  ethosu_buffer_create env size s = (s', fd) ->
  0 <= fd ->
  exists f buf,
    files s' !! fd = Some f
    /\ private_data f = buf
    /\ ethosu_buffer_llseek f 0 SEEK_END s' = Some size
    /\ ethosu_buffer_llseek f 0 SEEK_SET s' = Some 0
    /\ (forall offset whence,
          offset <> 0 ->
          ethosu_buffer_llseek f offset whence s' = Some (- EINVAL))
    /\ (forall whence,
          whence <> SEEK_END -> whence <> SEEK_SET ->
          ethosu_buffer_llseek f 0 whence s' = Some (- EINVAL))
    /\ snd (ethosu_buffer_get_from_fd fd s') = buf
    /\ IS_ERR buf = false
    /\ ethosu_buffer_put buf (fst (ethosu_buffer_get_from_fd fd s')) = s'
    /\ fst (ethosu_buffer_release f (fst (ethosu_buffer_get_from_fd fd s')))
       = s'
    /\ heap (fst (ethosu_buffer_release f s')) !! buf = None.
Proof.
  intros Hc Hfd.
  destruct (buffer_create_cases env size s) as [[Hneg _]|(Hret & _ & Hsz & Hnone & Hs)];
    rewrite Hc in *; cbn [fst snd] in *; [lia|].
  subst fd. set (buf := heap_fresh (heap s)) in *.
  set (b := mk_buffer 1
              (Some (mk_dma_mem size (repeat 0 (Z.to_nat size))
                       (bce_dma_addr env)))) in *.
  assert (Hfile : files s' !! bce_fd env
                  = Some (mk_file ethosu_buffer_fops buf)).
  { rewrite Hs. cbn. apply lookup_insert_eq. }
  assert (Hheap : heap s' !! buf = Some (ObjBuffer b)).
  { rewrite Hs. cbn. apply lookup_insert_eq. }
  assert (Hget : ethosu_buffer_get_from_fd (bce_fd env) s'
                 = (ethosu_buffer_get buf s', buf)).
  { unfold ethosu_buffer_get_from_fd. rewrite Hfile. cbn.
    unfold ethosu_buffer_verify. cbn. by rewrite bool_decide_eq_true_2. }
  exists (mk_file ethosu_buffer_fops buf), buf.
  split; [exact Hfile|]. split; [done|].
  unfold ethosu_buffer_llseek, buffer_dma_mem. cbn [private_data].
  rewrite Hheap. cbn [Z.eqb negb].
  split; [done|]. split; [done|].
  split.
  { intros offset whence Hoff. by destruct (Z.eqb_spec offset 0). }
  split.
  { intros whence H1 H2.
    destruct (Z.eqb_spec whence SEEK_END); [done|].
    by destruct (Z.eqb_spec whence SEEK_SET). }
  rewrite Hget. cbn [fst snd]. split; [done|].
  split; [apply IS_ERR_heap_fresh|].
  split; [by apply (buffer_put_get buf b)|].
  split; [unfold ethosu_buffer_release; cbn; by apply (buffer_put_get buf b)|].
  unfold ethosu_buffer_release, ethosu_buffer_put. cbn [fst private_data].
  rewrite Hheap. cbn. apply lookup_delete_eq.
Qed.

Lemma buffer_handle_round_trip_witness :
  exists f,
    files (fst (ethosu_buffer_create (mk_buffer_create_env true true true 4096 3)
                  256 empty_state)) !! 3 = Some f
    /\ ethosu_buffer_llseek f 0 SEEK_END
         (fst (ethosu_buffer_create
                 (mk_buffer_create_env true true true 4096 3) 256 empty_state))
       = Some 256.
Proof.
  destruct (buffer_handle_round_trip
              (mk_buffer_create_env true true true 4096 3) 256 empty_state
              (fst (ethosu_buffer_create
                      (mk_buffer_create_env true true true 4096 3) 256
                      empty_state)) 3)
    as (f & buf & Hf & _ & Hend & _); [reflexivity | lia |].
  exists f. split; [exact Hf | exact Hend].
Defined.

(** ** Networks *)

Lemma network_create_cases (env : network_create_env)
  (uapi : ethosu_uapi_network_create) (s : device_state) :
  fst (ethosu_rpmsg_network_create env uapi s) = s
  \/ (snd (ethosu_rpmsg_network_create env uapi s) = nce_fd env
      /\ 0 <= nce_fd env
      /\ exists n,
           fst (ethosu_rpmsg_network_create env uapi s)
           = set_files
               (<[nce_fd env := mk_file ethosu_rpmsg_network_fops
                                  (heap_fresh (heap s))]> (files s))
               (store (heap_fresh (heap s)) (ObjNetwork n) s)
           /\ net_kref n = 1
           /\ ((nc_type uapi = ETHOSU_UAPI_NETWORK_USER_BUFFER
                /\ nc_data_ptr uapi <> 0
                /\ nc_size uapi <> 0
                /\ net_index n = 0
                /\ net_dma_mem n
                   = Some
                       (mk_dma_mem (nc_size uapi)
                          (fst (copy_from_user (nce_user env)
                                  (nc_data_ptr uapi) (nc_size uapi)))
                          (nce_dma_addr env))
                /\ to_int
                     (snd (copy_from_user (nce_user env) (nc_data_ptr uapi)
                             (nc_size uapi))) = 0
                /\ (nc_size uapi < 2 ^ 32 ->
                    snd (copy_from_user (nce_user env) (nc_data_ptr uapi)
                           (nc_size uapi)) = 0))
               \/ (nc_type uapi = ETHOSU_UAPI_NETWORK_INDEX
                   /\ net_dma_mem n = None
                   /\ net_index n = nc_index uapi))).
Proof.
  unfold ethosu_rpmsg_network_create.
  destruct (nce_net_ok env); cbn [negb]; [|by left].
  assert (Hgetfd : forall n,
             let r := network_create_getfd env (heap_fresh (heap s))
                        (store (heap_fresh (heap s)) (ObjNetwork n)
                           (store (heap_fresh (heap s))
                              (ObjNetwork (mk_network kref_init None 0)) s)) in
             fst r = s
             \/ (snd r = nce_fd env /\ 0 <= nce_fd env
                 /\ fst r
                    = set_files
                        (<[nce_fd env := mk_file ethosu_rpmsg_network_fops
                                           (heap_fresh (heap s))]> (files s))
                        (store (heap_fresh (heap s)) (ObjNetwork n) s))).
  { intros n. cbn zeta. unfold network_create_getfd, anon_inode_getfd.
    destruct (Z.ltb_spec (nce_fd env) 0) as [Hfd|Hfd].
    - left. destruct (Z.ltb_spec (nce_fd env) 0); [|lia]. cbn [fst].
      apply kfree_fresh2.
    - right. destruct (Z.ltb_spec (nce_fd env) 0); [lia|]. cbn [fst snd].
      split; [done|]. split; [done|].
      unfold store, set_files, set_heap. cbn. by rewrite insert_insert_eq. }
  destruct (nc_type uapi) eqn:Hty.
  - destruct (Z.eqb_spec (nc_data_ptr uapi) 0);
      [left; cbn [fst]; apply kfree_fresh|].
    destruct (Z.eqb_spec (nc_size uapi) 0);
      [left; cbn [fst]; apply kfree_fresh|].
    unfold ethosu_dma_mem_alloc.
    destruct (Z.eqb_spec (nc_size uapi) 0); [done|].
    destruct (nce_dma_struct_ok env); cbn [negb];
      [|left; cbn [fst]; apply kfree_fresh].
    destruct (nce_dma_ok env); cbn [negb];
      [|left; cbn [fst]; apply kfree_fresh].
    pose proof (copy_from_user_left (nce_user env) (nc_data_ptr uapi)
                  (nc_size uapi)) as Hpos.
    pose proof (copy_from_user_bound (nce_user env) (nc_data_ptr uapi)
                  (nc_size uapi)) as Hle.
    destruct (copy_from_user _ _ _) as [bytes left_] eqn:Hcopy.
    cbn [dm_size dm_dma_addr fst snd] in *. cbv zeta.
    destruct (Z.eqb_spec (to_int left_) 0) as [Hleft|Hleft]; cbn [negb].
    + destruct (Hgetfd (mk_network kref_init
                          (Some (mk_dma_mem (nc_size uapi) bytes
                                   (nce_dma_addr env))) 0))
        as [H|(Hret & Hfd & Hs)]; [by left|].
      right. split; [done|]. split; [done|]. eexists. split; [exact Hs|].
      split; [done|]. left. split_and!; try done.
      intros Hsize. apply to_int_zero; [lia | done].
    + left. cbn [fst]. apply kfree_fresh2.
  - destruct (Hgetfd (mk_network kref_init None (nc_index uapi)))
      as [H|(Hret & Hfd & Hs)]; [by left|].
    right. split; [done|]. split; [done|]. eexists. split; [exact Hs|].
    split; [done|]. right. done.
  - left. cbn [fst]. apply kfree_fresh.
Qed.

(** X8.  Network creation is all or nothing, and a network has a
    memory region or an index, never both.  Either the device is
    exactly as before, or the call returns the descriptor the kernel
    handed out, bound to a new network with one reference that is
    either a copy of the user's bytes with index 0 (USER_BUFFER,
    non-null pointer, non-zero size, and a count of bytes not copied
    that is 0 as the [int] the function keeps it in, so 0 itself for
    every size below 2^32) or the index of the request without a
    region (INDEX).  A request of any other type returns -EINVAL. *)
Theorem network_create_all_or_nothing (env : network_create_env)
  (uapi : ethosu_uapi_network_create) (s : device_state) :
  (fst (ethosu_rpmsg_network_create env uapi s) = s
   \/ (snd (ethosu_rpmsg_network_create env uapi s) = nce_fd env
       /\ 0 <= nce_fd env
       /\ exists n,
            fst (ethosu_rpmsg_network_create env uapi s)
            = set_files
                (<[nce_fd env := mk_file ethosu_rpmsg_network_fops
                                   (heap_fresh (heap s))]> (files s))
                (store (heap_fresh (heap s)) (ObjNetwork n) s)
            /\ net_kref n = 1
            /\ ((nc_type uapi = ETHOSU_UAPI_NETWORK_USER_BUFFER
                 /\ nc_data_ptr uapi <> 0
                 /\ nc_size uapi <> 0
                 /\ net_index n = 0
                 /\ net_dma_mem n
                    = Some
                        (mk_dma_mem (nc_size uapi)
                           (fst (copy_from_user (nce_user env)
                                   (nc_data_ptr uapi) (nc_size uapi)))
                           (nce_dma_addr env))
                 /\ to_int
                      (snd (copy_from_user (nce_user env) (nc_data_ptr uapi)
                              (nc_size uapi))) = 0
                 /\ (nc_size uapi < 2 ^ 32 ->
                     snd (copy_from_user (nce_user env) (nc_data_ptr uapi)
                            (nc_size uapi)) = 0))
                \/ (nc_type uapi = ETHOSU_UAPI_NETWORK_INDEX
                    /\ net_dma_mem n = None
                    /\ net_index n = nc_index uapi))))
  /\ (forall raw,
        nc_type uapi = ETHOSU_UAPI_NETWORK_OTHER raw ->
        nce_net_ok env = true ->
        ethosu_rpmsg_network_create env uapi s = (s, - EINVAL)).
Proof.
  split; [apply network_create_cases|].
  intros raw Hty Hok. unfold ethosu_rpmsg_network_create.
  rewrite Hok, Hty. cbn [negb]. f_equal. apply kfree_fresh.
Qed.

Lemma network_create_all_or_nothing_witness :
  ethosu_rpmsg_network_create sound_env
    (mk_uapi_network_create (ETHOSU_UAPI_NETWORK_OTHER 7) 4096 8 0)
    empty_state
  = (empty_state, - EINVAL).
Proof.
  apply (network_create_all_or_nothing sound_env
           (mk_uapi_network_create (ETHOSU_UAPI_NETWORK_OTHER 7) 4096 8 0)
           empty_state) with (raw := 7); reflexivity.
Defined.

(** ** The blocking sender, continued *)

Lemma send_loop_tx data length rounds : forall try_send timeout s ret s1,
  Forall (fun r => forall s0, tx (r_others r s0) = tx s0) rounds ->
  send_loop data length rounds try_send timeout s = Some (ret, s1) ->
  tx s1 = if ret =? 0 then tx s ++ [(data, length)] else tx s.
Proof.
  induction rounds as [|r rounds IH]; intros try_send timeout s ret s1 Hq;
    cbn [send_loop];
    destruct (Z.eqb_spec (mbox_done (mailbox s)) 0); cbn [negb];
    try (intros [= <- <-]; reflexivity); try discriminate.
  apply Forall_cons in Hq as [Hr Hq].
  destruct (try_send && negb (r_trysend r =? - ENOMEM)).
  - intros [= <- <-]. unfold rpmsg_trysend.
    by destruct (r_trysend r =? 0).
  - destruct (r_signal r); [intros [= <- <-]; cbn; apply Hr|].
    destruct (wait_woken timeout (r_slept r) =? 0);
      [intros [= <- <-]; cbn; apply Hr|].
    intros Hloop. rewrite (IH _ _ _ _ _ Hq Hloop). by rewrite Hr.
Qed.

(** X9.  The blocking sender hands its packet to the transport exactly
    once when it returns 0 and not at all when it returns an error,
    as far as the other tasks leave the transport alone while it
    sleeps; and whatever it returns, the caller is no longer on the
    send queue. *)
Theorem send_locked_exactly_once (current : Z) (rounds : list round)
  (data : ethosu_rpmsg) (length : Z) (s s' : device_state) (ret : Z) :
  Forall (fun r => forall s0, tx (r_others r s0) = tx s0) rounds ->
  ethosu_send_locked current rounds data length s = Some (ret, s') ->
  (ret = 0 -> tx s' = tx s ++ [(data, length)])
  /\ (ret <> 0 -> tx s' = tx s)
  /\ current ∉ send_queue (mailbox s').
Proof.
  intros Hq. unfold ethosu_send_locked.
  destruct (send_loop _ _ _ _ _ _) as [[ret1 s1]|] eqn:Hloop; [|discriminate].
  pose proof (send_loop_tx _ _ _ _ _ _ _ _ Hq Hloop) as Htx.
  cbn in Htx.
  assert (Hnotin : current ∉ filter (fun t => t <> current)
                                (send_queue (mailbox s1))).
  { intros Hin%list_elem_of_filter. by destruct Hin as [Hne _]. }
  destruct ((ret1 =? 0) && _); intros [= -> <-]; cbn;
    (split; [intros ->; by rewrite Htx|]);
    (split; [intros Hne; rewrite Htx; by destruct (Z.eqb_spec ret 0)|]);
    exact Hnotin.
Qed.

Lemma send_locked_exactly_once_witness :
  exists s',
    ethosu_send_locked 7 [idle_round 10; sending_round] ping_packet
      sizeof_header two_waiting = Some (0, s')
    /\ tx s' = [(ping_packet, sizeof_header)]
    /\ 7 ∉ send_queue (mailbox s').
Proof.
  eexists. split; [vm_compute; reflexivity|].
  match goal with
  | |- tx ?s' = _ /\ _ =>
      destruct (send_locked_exactly_once 7 [idle_round 10; sending_round]
                  ping_packet sizeof_header two_waiting s' 0)
        as (Hsent & _ & Hq)
  end.
  - repeat constructor.
  - vm_compute. reflexivity.
  - split; [exact (Hsent eq_refl) | exact Hq].
Defined.

(** X10.  Newcomers wait behind sleepers.  When a task is already
    parked on the send queue, the sender does not ask the transport
    in its first turn: the call comes out the same whatever the
    transport would have answered then.  On an idle mailbox with a
    free slot the packet goes out at once, nothing else changes, and
    nobody is woken. *)
Theorem send_locked_queues_fairly (current : Z) (r : round)
  (rounds : list round) (data : ethosu_rpmsg) (length : Z)
  (s : device_state) :
  (send_queue (mailbox s) <> [] ->
   forall answer,
     ethosu_send_locked current (r :: rounds) data length s
     = ethosu_send_locked current
         (mk_round answer (r_slept r) (r_signal r) (r_others r) :: rounds)
         data length s)
  /\ (send_queue (mailbox s) = [] ->
      mbox_done (mailbox s) = 0 ->
      r_trysend r = 0 ->
      ethosu_send_locked current (r :: rounds) data length s
      = Some (0, set_tx (tx s ++ [(data, length)]) s)).
Proof.
  split.
  - intros Hq answer. unfold ethosu_send_locked.
    destruct (send_queue (mailbox s)) as [|t q] eqn:Hsq; [done|].
    cbn [wq_has_sleeper negb send_loop andb]. done.
  - intros Hq Hd Hr. by apply send_locked_immediate.
Qed.

Lemma send_locked_queues_fairly_witness :
  ethosu_send_locked 7 [sending_round; sending_round] ping_packet
    sizeof_header two_waiting
  = ethosu_send_locked 7
      [mk_round (- EINVAL) 0 false (fun s => s); sending_round] ping_packet
      sizeof_header two_waiting.
Proof.
  apply (send_locked_queues_fairly 7 sending_round [sending_round] ping_packet
           sizeof_header two_waiting).
  discriminate.
Defined.

(** ** The dispatcher of incoming messages *)

(** X11.  What the dispatcher refuses.  A packet with a wrong magic
    is dropped with -EBADMSG before the device is even locked:
    nothing changes and nobody is woken.  With the right magic, an
    ERR message or a response whose payload has not exactly the size
    of its struct is answered -EBADMSG, and a message of any type the
    host does not handle (the request types and everything unknown)
    -EPROTO; in both cases no handler runs, and all that happens is
    the wake-up of the first sender on the queue. *)
Theorem handle_rpmsg_rejects (env : handle_env) (rpmsg : rx_packet)
  (len : Z) (s : device_state) :
  (hdr_magic (rx_header rpmsg) <> ETHOSU_RPMSG_MAGIC ->
   ethosu_handle_rpmsg env rpmsg len s = Some (- EBADMSG, s))
  /\ (hdr_magic (rx_header rpmsg) = ETHOSU_RPMSG_MAGIC ->
      forall size,
        In (hdr_type (rx_header rpmsg), size)
          [(ETHOSU_RPMSG_ERR, sizeof_error);
           (ETHOSU_RPMSG_INFERENCE_RSP, sizeof_inf_rsp);
           (ETHOSU_RPMSG_CANCEL_INFERENCE_RSP, sizeof_cancel_rsp);
           (ETHOSU_RPMSG_VERSION_RSP, sizeof_version_rsp);
           (ETHOSU_RPMSG_CAPABILITIES_RSP, sizeof_cap_rsp);
           (ETHOSU_RPMSG_NETWORK_INFO_RSP, sizeof_net_info_rsp)] ->
        to_int (len - sizeof_header) <> size ->
        ethosu_handle_rpmsg env rpmsg len s
        = Some (- EBADMSG,
                set_woken
                  (woken (he_unlocked env s)
                   ++ take 1 (send_queue (mailbox (he_unlocked env s))))
                  (he_unlocked env s)))
  /\ (hdr_magic (rx_header rpmsg) = ETHOSU_RPMSG_MAGIC ->
      ~ In (hdr_type (rx_header rpmsg))
          [ETHOSU_RPMSG_ERR; ETHOSU_RPMSG_PING; ETHOSU_RPMSG_PONG;
           ETHOSU_RPMSG_INFERENCE_RSP; ETHOSU_RPMSG_CANCEL_INFERENCE_RSP;
           ETHOSU_RPMSG_VERSION_RSP; ETHOSU_RPMSG_CAPABILITIES_RSP;
           ETHOSU_RPMSG_NETWORK_INFO_RSP] ->
      ethosu_handle_rpmsg env rpmsg len s
      = Some (- EPROTO,
              set_woken
                (woken (he_unlocked env s)
                 ++ take 1 (send_queue (mailbox (he_unlocked env s))))
                (he_unlocked env s))).
Proof.
  unfold ethosu_handle_rpmsg, handle_rpmsg_unlock, wake_up.
  unfold ETHOSU_RPMSG_ERR, ETHOSU_RPMSG_PING, ETHOSU_RPMSG_PONG,
    ETHOSU_RPMSG_INFERENCE_RSP, ETHOSU_RPMSG_CANCEL_INFERENCE_RSP,
    ETHOSU_RPMSG_VERSION_RSP, ETHOSU_RPMSG_CAPABILITIES_RSP,
    ETHOSU_RPMSG_NETWORK_INFO_RSP.
  split; [|split].
  - intros Hm. by destruct (Z.eqb_spec (hdr_magic (rx_header rpmsg))
                              ETHOSU_RPMSG_MAGIC).
  - intros Hm size Hin Hsz. rewrite Hm, Z.eqb_refl. cbn [negb].
    cbn [In] in Hin.
    destruct Hin as [H|[H|[H|[H|[H|[H|[]]]]]]]; injection H as Ht <-;
      rewrite <- Ht;
      repeat (match goal with
              | |- context [Z.eqb ?a ?b] => destruct (Z.eqb_spec a b)
              end; try lia; try done).
  - intros Hm Hin. rewrite Hm, Z.eqb_refl. cbn [negb].
    cbn [In] in Hin.
    repeat (match goal with
            | |- context [Z.eqb (hdr_type _) ?b] =>
                destruct (Z.eqb_spec (hdr_type (rx_header rpmsg)) b)
            end; [exfalso; lia|]).
    reflexivity.
Qed.

Lemma handle_rpmsg_rejects_witness :
  ethosu_handle_rpmsg quiet_handle_env
    (rx_sample (mk_header 0 ETHOSU_RPMSG_VERSION_RSP 5)) 20 version_pending
  = Some (- EBADMSG, version_pending)
  /\ ethosu_handle_rpmsg quiet_handle_env
       (rx_sample (mk_header ETHOSU_RPMSG_MAGIC ETHOSU_RPMSG_VERSION_RSP 5))
       24 version_pending
     = Some (- EBADMSG, version_pending)
  /\ ethosu_handle_rpmsg quiet_handle_env
       (rx_sample (mk_header ETHOSU_RPMSG_MAGIC ETHOSU_RPMSG_VERSION_REQ 5))
       16 version_pending
     = Some (- EPROTO, version_pending).
Proof.
  split; [|split].
  - apply (handle_rpmsg_rejects quiet_handle_env
             (rx_sample (mk_header 0 ETHOSU_RPMSG_VERSION_RSP 5)) 20
             version_pending).
    discriminate.
  - refine (proj1 (proj2 (handle_rpmsg_rejects quiet_handle_env
                            (rx_sample
                               (mk_header ETHOSU_RPMSG_MAGIC
                                  ETHOSU_RPMSG_VERSION_RSP 5)) 24
                            version_pending)) eq_refl sizeof_version_rsp _ _).
    + cbn. tauto.
    + discriminate.
  - refine (proj2 (proj2 (handle_rpmsg_rejects quiet_handle_env
                            (rx_sample
                               (mk_header ETHOSU_RPMSG_MAGIC
                                  ETHOSU_RPMSG_VERSION_REQ 5)) 16
                            version_pending)) eq_refl _).
    cbn. intros H. repeat (destruct H as [H|H]; [discriminate|]). exact H.
Defined.

Lemma to_int_periodic x k : to_int (x + k * 2 ^ 32) = to_int x.
Proof.
  unfold to_int. replace (x + k * 2 ^ 32 + 2 ^ 31) with (x + 2 ^ 31 + k * 2 ^ 32)
    by lia.
  by rewrite Z.mod_add.
Qed.

(** X12.  Responses nobody waits for are dropped.  A well-formed
    response whose id is not in the table, or is there with another
    kind, runs no handler to effect: the dispatcher returns 0 and all
    that happens is the wake-up of the first sender on the queue.
    The id a handler looks up is the low 32 bits of the 64-bit id of
    the header: two packets whose ids differ by a multiple of 2^32
    are handled alike. *)
Theorem handle_rpmsg_drops_unmatched (env : handle_env) (rpmsg : rx_packet)
  (len : Z) (s : device_state) :
  (hdr_magic (rx_header rpmsg) = ETHOSU_RPMSG_MAGIC ->
   forall response request size,
     In (response, request, size)
       [(ETHOSU_RPMSG_INFERENCE_RSP, ETHOSU_RPMSG_INFERENCE_REQ,
         sizeof_inf_rsp);
        (ETHOSU_RPMSG_CANCEL_INFERENCE_RSP, ETHOSU_RPMSG_CANCEL_INFERENCE_REQ,
         sizeof_cancel_rsp);
        (ETHOSU_RPMSG_VERSION_RSP, ETHOSU_RPMSG_VERSION_REQ,
         sizeof_version_rsp);
        (ETHOSU_RPMSG_CAPABILITIES_RSP, ETHOSU_RPMSG_CAPABILITIES_REQ,
         sizeof_cap_rsp);
        (ETHOSU_RPMSG_NETWORK_INFO_RSP, ETHOSU_RPMSG_NETWORK_INFO_REQ,
         sizeof_net_info_rsp)] ->
     hdr_type (rx_header rpmsg) = response ->
     to_int (len - sizeof_header) = size ->
     IS_ERR
       (ethosu_rpmsg_mailbox_find s (to_int (hdr_msg_id (rx_header rpmsg)))
          request) = true ->
     ethosu_handle_rpmsg env rpmsg len s = handle_rpmsg_unlock env 0 s)
  /\ (forall k,
        ethosu_handle_rpmsg env
          (mk_rx_packet
             (mk_header (hdr_magic (rx_header rpmsg))
                (hdr_type (rx_header rpmsg))
                (hdr_msg_id (rx_header rpmsg) + k * 2 ^ 32))
             (rx_error rpmsg) (rx_inf_rsp rpmsg) (rx_cancel_rsp rpmsg)
             (rx_version_rsp rpmsg) (rx_cap_rsp rpmsg)
             (rx_net_info_rsp rpmsg)) len s
        = ethosu_handle_rpmsg env rpmsg len s).
Proof.
  split.
  - intros Hm response request size Hin Ht Hsz Herr.
    unfold ethosu_handle_rpmsg. rewrite Hm, Z.eqb_refl, Ht, Hsz. cbn [negb].
    cbn [In] in Hin.
    destruct Hin as [H|[H|[H|[H|[H|[]]]]]]; injection H as <- <- <-;
      cbn [Z.eqb Pos.eqb negb ETHOSU_RPMSG_INFERENCE_RSP
             ETHOSU_RPMSG_CANCEL_INFERENCE_RSP ETHOSU_RPMSG_VERSION_RSP
             ETHOSU_RPMSG_CAPABILITIES_RSP ETHOSU_RPMSG_NETWORK_INFO_RSP
             ETHOSU_RPMSG_ERR ETHOSU_RPMSG_PING ETHOSU_RPMSG_PONG
             sizeof_inf_rsp sizeof_cancel_rsp sizeof_version_rsp
             sizeof_cap_rsp sizeof_net_info_rsp].
    + by rewrite inference_rsp_not_found.
    + by rewrite cancel_inference_rsp_not_found.
    + by rewrite version_rsp_not_found.
    + by rewrite capability_rsp_not_found.
    + by rewrite network_info_rsp_not_found.
  - intros k. unfold ethosu_handle_rpmsg. cbn [rx_header hdr_magic hdr_type
      hdr_msg_id rx_error rx_inf_rsp rx_cancel_rsp rx_version_rsp rx_cap_rsp
      rx_net_info_rsp].
    by rewrite to_int_periodic.
Qed.

Lemma handle_rpmsg_drops_unmatched_witness :
  ethosu_handle_rpmsg quiet_handle_env
    (rx_sample (mk_header ETHOSU_RPMSG_MAGIC ETHOSU_RPMSG_CAPABILITIES_RSP 5))
    68 version_pending
  = Some (0, version_pending).
Proof.
  refine (proj1 (handle_rpmsg_drops_unmatched quiet_handle_env
                   (rx_sample
                      (mk_header ETHOSU_RPMSG_MAGIC
                         ETHOSU_RPMSG_CAPABILITIES_RSP 5)) 68
                   version_pending) eq_refl ETHOSU_RPMSG_CAPABILITIES_RSP
            ETHOSU_RPMSG_CAPABILITIES_REQ sizeof_cap_rsp _ eq_refl eq_refl
            eq_refl).
  cbn. tauto.
Defined.

(** X13.  The messages without a waiter.  A PONG changes nothing.  An
    ERR message of the right size reports one crash to remoteproc and
    is answered 0.  A PING is answered with a PONG: on an idle
    mailbox with a free slot the bare header with type PONG is handed
    to the transport and the dispatcher returns 0; after shutdown
    nothing is sent and it returns -ENODEV.  In each case the
    dispatcher ends with the wake-up of the first sender on the
    queue. *)
Theorem handle_rpmsg_ping_pong (env : handle_env) (rpmsg : rx_packet)
  (len : Z) (s : device_state) :
  hdr_magic (rx_header rpmsg) = ETHOSU_RPMSG_MAGIC ->
  (hdr_type (rx_header rpmsg) = ETHOSU_RPMSG_PONG ->
   ethosu_handle_rpmsg env rpmsg len s = handle_rpmsg_unlock env 0 s)
  /\ (hdr_type (rx_header rpmsg) = ETHOSU_RPMSG_ERR ->
      to_int (len - sizeof_header) = sizeof_error ->
      ethosu_handle_rpmsg env rpmsg len s
      = handle_rpmsg_unlock env 0 (rproc_report_crash s)
      /\ crash_reports (rproc_report_crash s) = S (crash_reports s))
  /\ (hdr_type (rx_header rpmsg) = ETHOSU_RPMSG_PING ->
      mbox_done (mailbox s) = 0 ->
      send_queue (mailbox s) = [] ->
      forall r rounds,
        he_rounds env = r :: rounds ->
        r_trysend r = 0 ->
        ethosu_handle_rpmsg env rpmsg len s
        = handle_rpmsg_unlock env 0
            (set_tx
               (tx s ++
                [(mk_rpmsg (mk_header ETHOSU_RPMSG_MAGIC ETHOSU_RPMSG_PONG 0)
                    PayloadNone, sizeof_header)]) s))
  /\ (hdr_type (rx_header rpmsg) = ETHOSU_RPMSG_PING ->
      mbox_done (mailbox s) <> 0 ->
      exists s',
        ethosu_handle_rpmsg env rpmsg len s
        = handle_rpmsg_unlock env (- ENODEV) s'
        /\ tx s' = tx s /\ heap s' = heap s).
Proof.
  intros Hm. unfold ethosu_handle_rpmsg. rewrite Hm, Z.eqb_refl. cbn [negb].
  split; [|split; [|split]].
  - by intros ->.
  - intros -> ->. done.
  - intros -> Hd Hq r rounds Hr Hsend. cbn [Z.eqb Pos.eqb ETHOSU_RPMSG_PING
      ETHOSU_RPMSG_ERR].
    unfold ethosu_rpmsg_mailbox_pong. rewrite Hr.
    by rewrite send_locked_immediate.
  - intros -> Hd. cbn [Z.eqb Pos.eqb ETHOSU_RPMSG_PING ETHOSU_RPMSG_ERR].
    unfold ethosu_rpmsg_mailbox_pong.
    rewrite send_locked_shutdown by done.
    eexists. split; [reflexivity|]. done.
Qed.

Lemma handle_rpmsg_ping_pong_witness :
  ethosu_handle_rpmsg quiet_handle_env
    (rx_sample (mk_header ETHOSU_RPMSG_MAGIC ETHOSU_RPMSG_PING 0)) 16
    empty_state
  = Some
      (0,
       set_tx
         [(mk_rpmsg (mk_header ETHOSU_RPMSG_MAGIC ETHOSU_RPMSG_PONG 0)
             PayloadNone, 16)] empty_state).
Proof.
  refine (proj1 (proj2 (proj2 (handle_rpmsg_ping_pong quiet_handle_env
                                 (rx_sample
                                    (mk_header ETHOSU_RPMSG_MAGIC
                                       ETHOSU_RPMSG_PING 0)) 16 empty_state
                                 eq_refl)))
            eq_refl eq_refl eq_refl sending_round [] eq_refl eq_refl).
Defined.

(** ** Requests that wait for their response *)

(** With memory at hand and the cursor on a free id, the allocator
    hands out the cursor. *)
Lemma idr_alloc_cyclic_at_cursor i0 ptr :
  0 <= idr_next i0 < INT_MAX ->
  idr_rt i0 !! idr_next i0 = None ->
  idr_alloc_cyclic i0 ptr 0 INT_MAX true
  = (mk_idr (<[idr_next i0 := ptr]> (idr_rt i0)) (idr_next i0 + 1),
     idr_next i0).
Proof.
  intros Hr Hfree. unfold idr_alloc_cyclic, idr_alloc_u32.
  rewrite (to_int_small _ (conj (proj1 Hr) (Z.lt_le_incl _ _ (proj2 Hr)))).
  destruct (Z.ltb_spec (idr_next i0) 0); [lia|].
  cbn [negb idr_scan]. rewrite Hfree.
  change (if 0 <? INT_MAX then INT_MAX - 1 else INT_MAX) with (INT_MAX - 1).
  destruct (Z.leb_spec (idr_next i0) (INT_MAX - 1)); [|lia].
  cbn [Z.eqb andb]. reflexivity.
Qed.

Lemma register_at_cursor msg o s :
  heap s !! msg = Some o ->
  0 <= idr_next (msg_idr (mailbox s)) < INT_MAX ->
  idr_rt (msg_idr (mailbox s)) !! idr_next (msg_idr (mailbox s)) = None ->
  ethosu_rpmsg_mailbox_register true msg s
  = (store msg
       (object_map_msg (set_msg_id (idr_next (msg_idr (mailbox s)))) o)
       (set_mailbox
          (set_msg_idr
             (mk_idr
                (<[idr_next (msg_idr (mailbox s)) := msg]>
                   (idr_rt (msg_idr (mailbox s))))
                (idr_next (msg_idr (mailbox s)) + 1)) (mailbox s)) s), 0).
Proof.
  intros Hh Hr Hfree.
  apply register_allocated; [done| |lia].
  by apply idr_alloc_cyclic_at_cursor.
Qed.

Lemma device_state_eq (s1 s2 : device_state) :
  heap s1 = heap s2 ->
  mailbox s1 = mailbox s2 ->
  files s1 = files s2 ->
  tx s1 = tx s2 ->
  woken s1 = woken s2 ->
  crash_reports s1 = crash_reports s2 ->
  faults s1 = faults s2 ->
  s1 = s2.
Proof. destruct s1, s2. cbn. by intros -> -> -> -> -> -> ->. Qed.

Lemma mailbox_eq (m1 m2 : ethosu_rpmsg_mailbox) :
  idr_rt (msg_idr m1) = idr_rt (msg_idr m2) ->
  idr_next (msg_idr m1) = idr_next (msg_idr m2) ->
  mbox_done m1 = mbox_done m2 ->
  send_queue m1 = send_queue m2 ->
  m1 = m2.
Proof.
  destruct m1 as [[rt1 n1] d1 q1], m2 as [[rt2 n2] d2 q2]. cbn.
  by intros -> -> -> ->.
Qed.

Lemma deregister_registered msg m s :
  msg_at s msg = Some m ->
  ethosu_rpmsg_mailbox_deregister msg s
  = set_mailbox
      (set_msg_idr (idr_remove (msg_idr (mailbox s)) (msg_id m)) (mailbox s))
      s.
Proof. intros Hm. unfold ethosu_rpmsg_mailbox_deregister. by rewrite Hm. Qed.

Lemma request_gone_eq msg o o' m pkt s :
  heap s !! msg = None ->
  idr_rt (msg_idr (mailbox s)) !! idr_next (msg_idr (mailbox s)) = None ->
  object_msg o' = Some m ->
  msg_id m = idr_next (msg_idr (mailbox s)) ->
  devm_kfree msg
    (ethosu_rpmsg_mailbox_deregister msg
       (store msg o' (request_sent msg o pkt s)))
  = request_gone pkt s.
Proof.
  intros Hnone Hfree Hm Hid.
  rewrite (deregister_registered msg m).
  2:{ unfold msg_at. cbn [heap store set_heap]. rewrite lookup_insert_eq.
      exact Hm. }
  apply device_state_eq; try reflexivity.
  - cbn [heap devm_kfree set_heap set_mailbox store request_sent set_tx].
    rewrite insert_insert_eq. apply delete_insert_id. exact Hnone.
  - apply mailbox_eq; try reflexivity.
    cbn [mailbox devm_kfree set_heap set_mailbox store request_sent set_tx
           request_gone set_msg_idr msg_idr idr_rt idr_remove].
    rewrite Hid. by apply delete_insert_id.
Qed.

Lemma find_request_sent msg o m pkt s :
  object_msg o = Some m ->
  ethosu_rpmsg_mailbox_find (request_sent msg o pkt s)
    (idr_next (msg_idr (mailbox s))) (msg_type m) = msg.
Proof.
  intros Hm. eapply find_found; [cbn; apply lookup_insert_eq| |done].
  unfold msg_at. cbn. rewrite lookup_insert_eq. exact Hm.
Qed.

Lemma deregister_heap msg s :
  heap (ethosu_rpmsg_mailbox_deregister msg s) = heap s.
Proof.
  unfold ethosu_rpmsg_mailbox_deregister. by destruct (msg_at s msg).
Qed.

(** The capabilities request on an idle mailbox, up to the wait. *)
Lemma capabilities_request_run current env r rounds uapi c s :
  re_alloc_ok env = true ->
  re_gfp_ok env = true ->
  re_rounds env = r :: rounds ->
  r_trysend r = 0 ->
  (forall s', re_late env s' = s') ->
  mbox_done (mailbox s) = 0 ->
  send_queue (mailbox s) = [] ->
  0 <= idr_next (msg_idr (mailbox s)) < INT_MAX ->
  idr_rt (msg_idr (mailbox s)) !! idr_next (msg_idr (mailbox s)) = None ->
  let cap := heap_fresh (heap s) in
  let id := idr_next (msg_idr (mailbox s)) in
  let sent :=
    request_sent cap
      (ObjCapabilities
         (mk_capabilities uapi 0 (mk_msg id ETHOSU_RPMSG_CAPABILITIES_REQ) 0))
      (header_packet ETHOSU_RPMSG_CAPABILITIES_REQ id) s in
  heap (re_others env sent) !! cap = Some (ObjCapabilities c) ->
  ethosu_rpmsg_capabilities_request current env uapi s
  = Some
      (if cap_done c =? 0 then - ETIME
       else if cap_errno c =? 0 then 0 else cap_errno c,
       cap_uapi c,
       devm_kfree cap
         (ethosu_rpmsg_mailbox_deregister cap
            (store cap
               (ObjCapabilities
                  (mk_capabilities (cap_uapi c)
                     (fst (wait_for_completion_timeout (cap_done c)
                             (msecs_to_jiffies CAPABILITIES_RESP_TIMEOUT_MS)
                             (re_elapsed env)))
                     (cap_msg c) (cap_errno c)))
               (re_others env sent)))).
Proof.
  intros Hok Hgfp Hrounds Hr Hlate Hd Hq Hnext Hfree cap id sent Hc.
  unfold ethosu_rpmsg_capabilities_request. rewrite Hok, Hgfp. cbn [negb].
  fold cap.
  rewrite (register_at_cursor cap
             (ObjCapabilities (mk_capabilities uapi 0 (mk_msg 0 0) 0)));
    [ | cbn; apply lookup_insert_eq | done | done ].
  cbn [Z.ltb Z.compare object_map_msg cap_uapi cap_done cap_msg cap_errno
         mailbox store set_heap]. fold id.
  unfold ethosu_rpmsg_mailbox_capabilities_request, msg_update, header_for,
    msg_at.
  cbn [heap store set_heap set_mailbox]. rewrite !lookup_insert_eq.
  cbn [object_map_msg cap_uapi cap_done cap_msg cap_errno mbind option_bind
         object_msg from_option msg_id set_msg_id set_msg_type
         rpmsg_header hdr_type msg_type].
  rewrite Hrounds.
  rewrite send_locked_immediate; [| exact Hd | exact Hq | exact Hr].
  cbn [Z.eqb negb].
  match goal with
  | |- context [re_others env ?s1] =>
      replace s1 with sent
  end.
  2:{ unfold sent, request_sent, header_packet, store, set_heap, set_tx,
        set_mailbox. cbn. by rewrite !insert_insert_eq. }
  rewrite Hc.
  unfold wait_for_completion_timeout.
  destruct (Z.eqb_spec (cap_done c) 0) as [Hz|Hnz]; cbn [fst snd].
  - rewrite Hlate. cbn [Z.eqb]. unfold capabilities_uapi.
    rewrite deregister_heap. cbn [heap store set_heap].
    by rewrite lookup_insert_eq.
  - rewrite !Hlate.
    destruct (Z.eqb_spec
                (Z.max 1 (msecs_to_jiffies CAPABILITIES_RESP_TIMEOUT_MS
                          - Z.max 0 (re_elapsed env))) 0); [lia|].
    unfold capabilities_uapi. rewrite deregister_heap.
    cbn [heap store set_heap]. rewrite lookup_insert_eq. cbn [cap_errno cap_uapi].
    by destruct (cap_errno c =? 0).
Qed.

Lemma request_gone_not_found pkt s type :
  idr_rt (msg_idr (mailbox s)) !! idr_next (msg_idr (mailbox s)) = None ->
  ethosu_rpmsg_mailbox_find (request_gone pkt s)
    (idr_next (msg_idr (mailbox s))) type = - ENOENT.
Proof. intros Hfree. by apply find_not_registered. Qed.

(** X14.  The capabilities request on an idle mailbox whose cursor
    stands on a free id.  It sends the bare CAPABILITIES_REQ header
    with that id and waits.  When the response arrives meanwhile it
    returns 0 and the caller's struct holds the fields of the
    response and the device type SUBSYSTEM; when nothing arrives it
    returns -ETIME, and when the fail callback runs it returns
    -EFAULT, the caller's struct untouched in both cases.  Every time
    the request is deregistered and freed: heap and table are as
    before the call, no crash is reported, and a response that comes
    later finds no request and changes nothing.  After shutdown the
    call returns -ENODEV and nothing is sent. *)
Theorem capabilities_request_outcomes (current : Z)
  (uapi : ethosu_uapi_device_capabilities) (s : device_state) :
  send_queue (mailbox s) = [] ->
  0 <= idr_next (msg_idr (mailbox s)) < INT_MAX ->
  idr_rt (msg_idr (mailbox s)) !! idr_next (msg_idr (mailbox s)) = None ->
  let id := idr_next (msg_idr (mailbox s)) in
  let pkt := header_packet ETHOSU_RPMSG_CAPABILITIES_REQ id in
  (mbox_done (mailbox s) = 0 ->
   (forall rsp elapsed,
       ethosu_rpmsg_capabilities_request current
         (idle_request_env (ethosu_capability_rsp id rsp) elapsed) uapi s
       = Some (0, capabilities_of_rsp rsp, request_gone pkt s))
   /\ (forall elapsed,
         ethosu_rpmsg_capabilities_request current
           (idle_request_env (fun s' => s') elapsed) uapi s
         = Some (- ETIME, uapi, request_gone pkt s))
   /\ (forall elapsed,
         ethosu_rpmsg_capabilities_request current
           (idle_request_env
              (ethosu_rpmsg_capabilities_fail (heap_fresh (heap s))) elapsed)
           uapi s
         = Some (- EFAULT, uapi, request_gone pkt s)))
  /\ (forall rsp,
        ethosu_capability_rsp id rsp (request_gone pkt s)
        = request_gone pkt s)
  /\ heap (request_gone pkt s) = heap s
  /\ idr_rt (msg_idr (mailbox (request_gone pkt s)))
     = idr_rt (msg_idr (mailbox s))
  /\ crash_reports (request_gone pkt s) = crash_reports s
  /\ (mbox_done (mailbox s) <> 0 ->
      forall others elapsed,
        exists s',
          ethosu_rpmsg_capabilities_request current
            (idle_request_env others elapsed) uapi s
          = Some (- ENODEV, uapi, s')
          /\ tx s' = tx s /\ heap s' = heap s
          /\ idr_rt (msg_idr (mailbox s')) = idr_rt (msg_idr (mailbox s))).
Proof.
  intros Hq Hnext Hfree id pkt.
  set (cap := heap_fresh (heap s)).
  set (o := ObjCapabilities
              (mk_capabilities uapi 0
                 (mk_msg id ETHOSU_RPMSG_CAPABILITIES_REQ) 0)).
  assert (Hsent : heap (request_sent cap o pkt s) !! cap = Some o)
    by apply lookup_insert_eq.
  assert (Hfresh : heap s !! cap = None) by apply heap_fresh_unused.
  split; [intros Hd; split; [|split]|].
  - intros rsp elapsed.
    assert (Hrsp : ethosu_capability_rsp id rsp (request_sent cap o pkt s)
                   = store cap
                       (ObjCapabilities
                          (mk_capabilities (capabilities_of_rsp rsp) 1
                             (mk_msg id ETHOSU_RPMSG_CAPABILITIES_REQ) 0))
                       (request_sent cap o pkt s)).
    { assert (Hf : ethosu_rpmsg_mailbox_find (request_sent cap o pkt s) id
                     ETHOSU_RPMSG_CAPABILITIES_REQ = cap)
        by exact (find_request_sent cap o
                    (mk_msg id ETHOSU_RPMSG_CAPABILITIES_REQ) pkt s eq_refl).
      unfold ethosu_capability_rsp. rewrite Hf.
      unfold cap at 1. rewrite IS_ERR_heap_fresh. fold cap.
      rewrite Hsent. reflexivity. }
    rewrite (capabilities_request_run current
               (idle_request_env (ethosu_capability_rsp id rsp) elapsed)
               sending_round [] uapi
               (mk_capabilities (capabilities_of_rsp rsp) 1
                  (mk_msg id ETHOSU_RPMSG_CAPABILITIES_REQ) 0) s); try done.
    2:{ cbn [re_others idle_request_env]. fold cap id pkt o.
        rewrite Hrsp. apply lookup_insert_eq. }
    cbn [cap_done cap_errno cap_uapi cap_msg Z.eqb]. do 2 f_equal.
    cbn [re_others idle_request_env]. fold cap id pkt o. rewrite Hrsp.
    unfold store at 1. cbn [heap store set_heap].
    rewrite insert_insert_eq.
    by eapply (request_gone_eq cap o _ (mk_msg id _)).
  - intros elapsed.
    rewrite (capabilities_request_run current
               (idle_request_env (fun s' => s') elapsed)
               sending_round [] uapi
               (mk_capabilities uapi 0
                  (mk_msg id ETHOSU_RPMSG_CAPABILITIES_REQ) 0) s); try done.
    cbn [cap_done cap_errno cap_uapi cap_msg Z.eqb]. do 2 f_equal.
    cbn [re_others idle_request_env]. fold cap id pkt o.
    by eapply (request_gone_eq cap o _ (mk_msg id _)).
  - intros elapsed.
    assert (Hfail : ethosu_rpmsg_capabilities_fail cap
                      (request_sent cap o pkt s)
                    = store cap
                        (ObjCapabilities
                           (mk_capabilities uapi 1
                              (mk_msg id ETHOSU_RPMSG_CAPABILITIES_REQ)
                              (- EFAULT)))
                        (request_sent cap o pkt s)).
    { unfold ethosu_rpmsg_capabilities_fail. by rewrite Hsent. }
    rewrite (capabilities_request_run current
               (idle_request_env (ethosu_rpmsg_capabilities_fail cap) elapsed)
               sending_round [] uapi
               (mk_capabilities uapi 1
                  (mk_msg id ETHOSU_RPMSG_CAPABILITIES_REQ) (- EFAULT)) s);
      try done.
    2:{ cbn [re_others idle_request_env]. fold cap id pkt o.
        rewrite Hfail. apply lookup_insert_eq. }
    cbn [cap_done cap_errno cap_uapi cap_msg Z.eqb Z.opp EFAULT]. do 2 f_equal.
    cbn [re_others idle_request_env]. fold cap id pkt o. rewrite Hfail.
    unfold store at 1. cbn [heap store set_heap].
    rewrite insert_insert_eq.
    by eapply (request_gone_eq cap o _ (mk_msg id _)).
  - split.
    { intros rsp. apply capability_rsp_not_found.
      by rewrite request_gone_not_found. }
    split; [done|]. split; [done|]. split; [done|].
    intros Hd others elapsed.
    unfold ethosu_rpmsg_capabilities_request.
    cbn [re_alloc_ok re_gfp_ok idle_request_env negb re_rounds]. fold cap.
    rewrite (register_at_cursor cap
               (ObjCapabilities (mk_capabilities uapi 0 (mk_msg 0 0) 0)));
      [ | cbn; apply lookup_insert_eq | done | done ].
    cbn [Z.ltb Z.compare]. unfold ethosu_rpmsg_mailbox_capabilities_request.
    rewrite send_locked_shutdown.
    2:{ unfold msg_update. cbn. rewrite lookup_insert_eq. cbn. exact Hd. }
    cbn [Z.eqb Z.opp ENODEV negb].
    eexists. split.
    { f_equal. f_equal. f_equal.
      unfold capabilities_uapi. rewrite deregister_heap.
      unfold msg_update. cbn. rewrite !lookup_insert_eq. cbn.
      rewrite lookup_insert_eq. reflexivity. }
    unfold msg_update. cbn. rewrite !lookup_insert_eq. cbn.
    unfold ethosu_rpmsg_mailbox_deregister, msg_at. cbn.
    rewrite lookup_insert_eq. cbn.
    split; [done|]. split.
    + rewrite !insert_insert_eq. by apply delete_insert_id.
    + fold id. by apply delete_insert_id.
Qed.

Lemma capabilities_request_outcomes_witness :
  ethosu_rpmsg_capabilities_request 7
    (idle_request_env (ethosu_capability_rsp 0 capabilities_answer) 10)
    no_capabilities empty_state
  = Some
      (0, capabilities_of_rsp capabilities_answer,
       request_gone (header_packet ETHOSU_RPMSG_CAPABILITIES_REQ 0)
         empty_state)
  /\ ethosu_rpmsg_capabilities_request 7
       (idle_request_env (fun s => s) 500) no_capabilities empty_state
     = Some
         (- ETIME, no_capabilities,
          request_gone (header_packet ETHOSU_RPMSG_CAPABILITIES_REQ 0)
            empty_state).
Proof.
  destruct (capabilities_request_outcomes 7 no_capabilities empty_state)
    as (Hlive & _); [reflexivity | done | reflexivity |].
  destruct (Hlive eq_refl) as (Hrsp & Hsilent & _).
  split; [apply Hrsp | apply Hsilent].
Defined.

Lemma network_get_heap net n s :
  heap s !! net = Some (ObjNetwork n) ->
  ethosu_rpmsg_network_get net s
  = store net (ObjNetwork (set_net_kref (net_kref n + 1) n)) s.
Proof. intros Hn. unfold ethosu_rpmsg_network_get. by rewrite Hn. Qed.

Lemma network_get_mailbox net s :
  mailbox (ethosu_rpmsg_network_get net s) = mailbox s.
Proof.
  unfold ethosu_rpmsg_network_get.
  by destruct (heap s !! net) as [[| | | | | |]|].
Qed.

(** The network info request on an idle mailbox, up to the wait. *)
Lemma network_info_request_run current env r rounds net n uapi i s :
  re_alloc_ok env = true ->
  re_gfp_ok env = true ->
  re_rounds env = r :: rounds ->
  r_trysend r = 0 ->
  (forall s', re_late env s' = s') ->
  mbox_done (mailbox s) = 0 ->
  send_queue (mailbox s) = [] ->
  0 <= idr_next (msg_idr (mailbox s)) < INT_MAX ->
  idr_rt (msg_idr (mailbox s)) !! idr_next (msg_idr (mailbox s)) = None ->
  heap s !! net = Some (ObjNetwork n) ->
  let info := heap_fresh (heap s) in
  let id := idr_next (msg_idr (mailbox s)) in
  let sent :=
    request_sent info
      (ObjNetworkInfo
         (mk_network_info net uapi 0 0
            (mk_msg id ETHOSU_RPMSG_NETWORK_INFO_REQ)))
      (mk_rpmsg
         (mk_header ETHOSU_RPMSG_MAGIC ETHOSU_RPMSG_NETWORK_INFO_REQ
            (to_u64 id))
         (PayloadNetworkInfoReq (request_network s net)),
       sizeof_header + sizeof_net_info_req)
      (ethosu_rpmsg_network_get net s) in
  heap (re_others env sent) !! info = Some (ObjNetworkInfo i) ->
  ethosu_rpmsg_network_info_request current env net uapi s
  = Some
      (if info_done i =? 0 then - ETIME else info_errno i,
       info_uapi i,
       devm_kfree info
         (network_info_put_net info
            (ethosu_rpmsg_mailbox_deregister info
               (store info
                  (ObjNetworkInfo
                     (mk_network_info (info_net i) (info_uapi i)
                        (fst (wait_for_completion_timeout (info_done i)
                                (msecs_to_jiffies NETWORK_INFO_RESP_TIMEOUT_MS)
                                (re_elapsed env)))
                        (info_errno i) (info_msg i)))
                  (re_others env sent))))).
Proof.
  intros Hok Hgfp Hrounds Hr Hlate Hd Hq Hnext Hfree Hn info id sent Hc.
  assert (Hne : net <> info).
  { intros ->. pose proof (heap_fresh_unused (heap s)) as Hf.
    fold info in Hf. congruence. }
  unfold ethosu_rpmsg_network_info_request. rewrite Hok, Hgfp. cbn [negb].
  fold info.
  rewrite (register_at_cursor info
             (ObjNetworkInfo (mk_network_info net uapi 0 0 (mk_msg 0 0))));
    [ | cbn; apply lookup_insert_eq | done | done ].
  cbn [Z.ltb Z.compare object_map_msg info_net info_uapi info_done info_errno
         info_msg mailbox store set_heap]. fold id.
  rewrite (network_get_heap net n);
    [|cbn; by rewrite lookup_insert_ne, lookup_insert_ne].
  unfold ethosu_rpmsg_mailbox_network_info_request, msg_update, header_for,
    msg_at.
  cbn [heap store set_heap set_mailbox].
  rewrite (lookup_insert_ne _ net info) by done. rewrite !lookup_insert_eq.
  cbn [object_map_msg info_net info_uapi info_done info_errno info_msg
         mbind option_bind object_msg from_option msg_id set_msg_id
         set_msg_type rpmsg_header hdr_type msg_type].
  rewrite Hrounds.
  rewrite send_locked_immediate; [| exact Hd | exact Hq | exact Hr].
  cbn [Z.eqb negb].
  match goal with
  | |- context [re_others env ?s1] =>
      replace s1 with sent
  end.
  2:{ unfold sent, request_sent. rewrite (network_get_heap net n s Hn).
      unfold store, set_heap, set_tx, set_mailbox, request_network. cbn.
      rewrite (lookup_insert_ne _ info net) by done.
      rewrite lookup_insert_eq, Hn. cbn.
      f_equal. rewrite insert_insert_eq.
      rewrite (insert_insert_ne _ net info) by done.
      by rewrite insert_insert_eq. }
  rewrite Hc.
  unfold wait_for_completion_timeout.
  destruct (Z.eqb_spec (info_done i) 0) as [Hz|Hnz]; cbn [fst snd].
  - rewrite Hlate. cbn [Z.eqb]. unfold network_info_uapi.
    unfold network_info_put_net at 1. rewrite deregister_heap.
    cbn [heap store set_heap]. rewrite lookup_insert_eq.
    rewrite network_put_other;
      rewrite deregister_heap; cbn [heap store set_heap];
      rewrite lookup_insert_eq; done.
  - rewrite !Hlate.
    destruct (Z.eqb_spec
                (Z.max 1 (msecs_to_jiffies NETWORK_INFO_RESP_TIMEOUT_MS
                          - Z.max 0 (re_elapsed env))) 0); [lia|].
    cbn [heap store set_heap]. rewrite lookup_insert_eq.
    cbn [info_errno]. unfold network_info_uapi.
    unfold network_info_put_net at 1. rewrite deregister_heap.
    cbn [heap store set_heap]. rewrite lookup_insert_eq.
    rewrite network_put_other;
      rewrite deregister_heap; cbn [heap store set_heap];
      rewrite lookup_insert_eq; done.
Qed.

Lemma network_info_gone_eq info net n o i' pkt s :
  heap s !! info = None ->
  heap s !! net = Some (ObjNetwork n) ->
  net_kref n <> 0 ->
  idr_rt (msg_idr (mailbox s)) !! idr_next (msg_idr (mailbox s)) = None ->
  info_net i' = net ->
  msg_id (info_msg i') = idr_next (msg_idr (mailbox s)) ->
  devm_kfree info
    (network_info_put_net info
       (ethosu_rpmsg_mailbox_deregister info
          (store info (ObjNetworkInfo i')
             (request_sent info o pkt (ethosu_rpmsg_network_get net s)))))
  = request_gone pkt s.
Proof.
  intros Hnone Hn Hk Hfree Hnet Hid.
  assert (Hne : net <> info) by (intros ->; congruence).
  rewrite (network_get_heap net n s Hn).
  rewrite (deregister_registered info (info_msg i')).
  2:{ unfold msg_at. cbn [heap store set_heap]. by rewrite lookup_insert_eq. }
  set (s1 := set_mailbox _ _).
  assert (H1 : heap s1
               = <[info := ObjNetworkInfo i']>
                   (<[net := ObjNetwork (set_net_kref (net_kref n + 1) n)]>
                      (heap s))).
  { unfold s1.
    cbn [heap set_heap set_mailbox store request_sent set_tx].
    by rewrite insert_insert_eq. }
  assert (Hput : network_info_put_net info s1
                 = store net (ObjNetwork n) s1).
  { unfold network_info_put_net. rewrite H1, lookup_insert_eq, Hnet.
    unfold ethosu_rpmsg_network_put. rewrite H1.
    rewrite lookup_insert_ne by done. rewrite lookup_insert_eq.
    cbn [kref_put set_net_kref net_kref].
    destruct (Z.eqb_spec (net_kref n + 1) 1); [lia|].
    do 2 f_equal. destruct n as [k d i]. unfold set_net_kref. cbn.
    f_equal. lia. }
  rewrite Hput.
  apply device_state_eq; try reflexivity.
  - cbn [heap devm_kfree set_heap store]. rewrite H1.
    apply map_eq. intros k.
    destruct (decide (k = info)) as [->|Hki].
    { by rewrite lookup_delete_eq. }
    rewrite lookup_delete_ne by done.
    destruct (decide (k = net)) as [->|Hkn].
    + by rewrite lookup_insert_eq.
    + by rewrite !lookup_insert_ne.
  - apply mailbox_eq; try reflexivity.
    unfold s1.
    cbn [mailbox devm_kfree set_heap set_mailbox store request_sent set_tx
           request_gone set_msg_idr msg_idr idr_rt idr_remove].
    rewrite Hid. by apply delete_insert_id.
Qed.

(** X15.  The network info request on an idle mailbox whose cursor
    stands on a free id.  The packet names the network by its memory
    region (device address and size, 32 bits each) when it has one
    and by its index otherwise.  The call returns the error the
    response handler stored, or -ETIME when nothing arrives, or
    -EFAULT when the fail callback runs.  The reference it takes on
    the network is given back every time: afterwards the network has
    the count it had, the request is deregistered and freed, and a
    response that comes later changes nothing. *)
Theorem network_info_request_outcomes (current net : Z)
  (n : ethosu_rpmsg_network) (uapi : ethosu_uapi_network_info)
  (s : device_state) :
  mbox_done (mailbox s) = 0 ->
  send_queue (mailbox s) = [] ->
  0 <= idr_next (msg_idr (mailbox s)) < INT_MAX ->
  idr_rt (msg_idr (mailbox s)) !! idr_next (msg_idr (mailbox s)) = None ->
  heap s !! net = Some (ObjNetwork n) ->
  net_kref n <> 0 ->
  let id := idr_next (msg_idr (mailbox s)) in
  let info := heap_fresh (heap s) in
  let pkt :=
    (mk_rpmsg
       (mk_header ETHOSU_RPMSG_MAGIC ETHOSU_RPMSG_NETWORK_INFO_REQ (to_u64 id))
       (PayloadNetworkInfoReq
          match net_dma_mem n with
          | Some d =>
              NetworkBuffer
                (mk_rpmsg_buffer (to_u32 (dm_dma_addr d)) (to_u32 (dm_size d)))
          | None => NetworkIndex (net_index n)
          end),
     sizeof_header + sizeof_net_info_req) in
  let sent :=
    request_sent info
      (ObjNetworkInfo
         (mk_network_info net uapi 0 0
            (mk_msg id ETHOSU_RPMSG_NETWORK_INFO_REQ)))
      pkt (ethosu_rpmsg_network_get net s) in
  (forall rsp elapsed,
      exists errno uapi',
        heap (ethosu_rpmsg_network_info_rsp id rsp sent) !! info
        = Some
            (ObjNetworkInfo
               (mk_network_info net uapi' 1 errno
                  (mk_msg id ETHOSU_RPMSG_NETWORK_INFO_REQ)))
        /\ ethosu_rpmsg_network_info_request current
             (idle_request_env (ethosu_rpmsg_network_info_rsp id rsp) elapsed)
             net uapi s
           = Some (errno, uapi', request_gone pkt s))
  /\ (forall elapsed,
        ethosu_rpmsg_network_info_request current
          (idle_request_env (fun s' => s') elapsed) net uapi s
        = Some (- ETIME, uapi, request_gone pkt s))
  /\ (forall elapsed,
        ethosu_rpmsg_network_info_request current
          (idle_request_env (ethosu_rpmsg_network_info_fail info) elapsed)
          net uapi s
        = Some (- EFAULT, uapi, request_gone pkt s))
  /\ heap (request_gone pkt s) = heap s
  /\ idr_rt (msg_idr (mailbox (request_gone pkt s)))
     = idr_rt (msg_idr (mailbox s))
  /\ (forall rsp,
        ethosu_rpmsg_network_info_rsp id rsp (request_gone pkt s)
        = request_gone pkt s).
Proof.
  intros Hd Hq Hnext Hfree Hn Hk id info pkt sent.
  set (o := ObjNetworkInfo
              (mk_network_info net uapi 0 0
                 (mk_msg id ETHOSU_RPMSG_NETWORK_INFO_REQ))) in *.
  assert (Hpkt : pkt
                 = (mk_rpmsg
                      (mk_header ETHOSU_RPMSG_MAGIC
                         ETHOSU_RPMSG_NETWORK_INFO_REQ (to_u64 id))
                      (PayloadNetworkInfoReq (request_network s net)),
                    sizeof_header + sizeof_net_info_req)).
  { unfold pkt, request_network. rewrite Hn. by destruct (net_dma_mem n). }
  assert (Hsent : heap sent !! info = Some o) by apply lookup_insert_eq.
  assert (Hfresh : heap s !! info = None) by apply heap_fresh_unused.
  assert (Hrun : forall others elapsed i,
             others sent = store info (ObjNetworkInfo i) sent ->
             info_net i = net ->
             msg_id (info_msg i) = id ->
             ethosu_rpmsg_network_info_request current
               (idle_request_env others elapsed) net uapi s
             = Some (if info_done i =? 0 then - ETIME else info_errno i,
                     info_uapi i, request_gone pkt s)).
  { intros others elapsed i Hi Hinet Himsg.
    rewrite (network_info_request_run current
               (idle_request_env others elapsed) sending_round [] net n uapi
               i s); try done.
    2:{ cbn [re_others idle_request_env]. fold id info. rewrite <- Hpkt.
        fold o sent. rewrite Hi. apply lookup_insert_eq. }
    do 2 f_equal. cbn [re_others idle_request_env]. fold id info.
    rewrite <- Hpkt. fold o sent. rewrite Hi.
    unfold store at 1. cbn [heap store set_heap]. rewrite insert_insert_eq.
    by apply (network_info_gone_eq info net n o). }
  split; [|split; [|split]].
  - intros rsp elapsed.
    assert (Hf : ethosu_rpmsg_mailbox_find sent id
                   ETHOSU_RPMSG_NETWORK_INFO_REQ = info).
    { unfold id. rewrite <- (network_get_mailbox net s).
      exact (find_request_sent info o
               (mk_msg id ETHOSU_RPMSG_NETWORK_INFO_REQ) pkt
               (ethosu_rpmsg_network_get net s) eq_refl). }
    destruct (network_info_rsp_shape sent id rsp
                (mk_network_info net uapi 0 0
                   (mk_msg id ETHOSU_RPMSG_NETWORK_INFO_REQ)))
      as (uapi' & errno & Hrsp).
    { rewrite Hf. apply IS_ERR_heap_fresh. }
    { by rewrite Hf. }
    { reflexivity. }
    rewrite Hf in Hrsp. cbn [info_net info_done info_msg complete Z.eqb] in Hrsp.
    exists errno, uapi'. split.
    + rewrite Hrsp. apply lookup_insert_eq.
    + by rewrite (Hrun _ elapsed _ Hrsp).
  - intros elapsed.
    rewrite (Hrun _ elapsed
               (mk_network_info net uapi 0 0
                  (mk_msg id ETHOSU_RPMSG_NETWORK_INFO_REQ))); try done.
    unfold sent, request_sent, store, set_heap, set_tx. cbn.
    by rewrite insert_insert_eq.
  - intros elapsed.
    rewrite (Hrun _ elapsed
               (mk_network_info net uapi 1 (- EFAULT)
                  (mk_msg id ETHOSU_RPMSG_NETWORK_INFO_REQ))); try done.
    unfold ethosu_rpmsg_network_info_fail. by rewrite Hsent.
  - split; [done|]. split; [done|].
    intros rsp. apply network_info_rsp_not_found.
    by rewrite request_gone_not_found.
Qed.

Lemma network_info_request_outcomes_witness :
  ethosu_rpmsg_network_info_request 7 (idle_request_env (fun s => s) 750) 20
    (mk_uapi_network_info (repeat 0 32) 0 (repeat 0 16) 0 (repeat 0 16))
    inference_pending
  = Some
      (- ETIME,
       mk_uapi_network_info (repeat 0 32) 0 (repeat 0 16) 0 (repeat 0 16),
       request_gone
         (mk_rpmsg
            (mk_header ETHOSU_RPMSG_MAGIC ETHOSU_RPMSG_NETWORK_INFO_REQ 1)
            (PayloadNetworkInfoReq (NetworkIndex 0)),
          sizeof_header + sizeof_net_info_req)
         inference_pending).
Proof.
  refine (proj1 (proj2 (network_info_request_outcomes 7 20
                          (mk_network 2 None 0)
                          (mk_uapi_network_info (repeat 0 32) 0 (repeat 0 16) 0
                             (repeat 0 16))
                          inference_pending _ _ _ _ _ _)) 750);
    try reflexivity; try done.
Defined.

(** ** The cancel request *)

Lemma store_store p o o' s : store p o (store p o' s) = store p o s.
Proof.
  apply device_state_eq; try reflexivity.
  cbn [heap store set_heap]. apply insert_insert_eq.
Qed.

Lemma inf_update_store f inf i s :
  inf_update f inf (store inf (ObjInference i) s)
  = store inf (ObjInference (f i)) s.
Proof.
  unfold inf_update. cbn [heap store set_heap]. rewrite lookup_insert_eq.
  apply store_store.
Qed.

Lemma inference_get_heap inf i s :
  heap s !! inf = Some (ObjInference i) ->
  ethosu_rpmsg_inference_get inf s
  = store inf (ObjInference (set_inf_kref (inf_kref i + 1) i)) s.
Proof.
  intros Hi. unfold ethosu_rpmsg_inference_get, inf_update. by rewrite Hi.
Qed.

Lemma inf_update_cancel f inf s p c :
  heap s !! p = Some (ObjCancelInference c) ->
  heap (inf_update f inf s) !! p = Some (ObjCancelInference c).
Proof.
  intros Hp. unfold inf_update.
  destruct (heap s !! inf) as [[| | | | | |]|] eqn:Hi; try exact Hp.
  cbn [heap store set_heap]. rewrite lookup_insert_ne; [exact Hp|].
  intros <-. rewrite Hp in Hi. discriminate.
Qed.

Lemma register_stored msg o s0 :
  0 <= idr_next (msg_idr (mailbox s0)) < INT_MAX ->
  idr_rt (msg_idr (mailbox s0)) !! idr_next (msg_idr (mailbox s0)) = None ->
  ethosu_rpmsg_mailbox_register true msg (store msg o s0)
  = (store msg
       (object_map_msg (set_msg_id (idr_next (msg_idr (mailbox s0)))) o)
       (set_mailbox
          (set_msg_idr
             (mk_idr
                (<[idr_next (msg_idr (mailbox s0)) := msg]>
                   (idr_rt (msg_idr (mailbox s0))))
                (idr_next (msg_idr (mailbox s0)) + 1)) (mailbox s0)) s0), 0).
Proof.
  intros Hnext Hfree.
  rewrite (register_at_cursor msg o);
    [ | cbn [heap store set_heap]; apply lookup_insert_eq | done | done ].
  f_equal. apply device_state_eq; try reflexivity.
  cbn [heap store set_heap set_mailbox]. apply insert_insert_eq.
Qed.

Lemma cancel_sender_idle current r rounds msg c handle s0 :
  heap s0 !! msg = Some (ObjCancelInference c) ->
  mbox_done (mailbox s0) = 0 ->
  send_queue (mailbox s0) = [] ->
  r_trysend r = 0 ->
  ethosu_rpmsg_mailbox_cancel_inference current (r :: rounds) msg handle s0
  = Some
      (0,
       set_tx
         (tx s0 ++
          [(mk_rpmsg
              (mk_header ETHOSU_RPMSG_MAGIC ETHOSU_RPMSG_CANCEL_INFERENCE_REQ
                 (to_u64 (msg_id (cancel_msg c))))
              (PayloadCancelReq (to_u64 handle)),
            sizeof_header + sizeof_cancel_req)])
         (store msg
            (ObjCancelInference
               (mk_cancel_inference (cancel_inf c) (cancel_uapi c)
                  (cancel_done c)
                  (mk_msg (msg_id (cancel_msg c))
                     ETHOSU_RPMSG_CANCEL_INFERENCE_REQ) (cancel_errno c)))
            s0)).
Proof.
  intros Hc Hd Hq Hr.
  unfold ethosu_rpmsg_mailbox_cancel_inference, msg_update, header_for, msg_at.
  rewrite Hc.
  cbn [mbind option_bind object_msg from_option rpmsg_header hdr_type
         object_map_msg set_msg_type].
  by rewrite send_locked_immediate.
Qed.

Lemma cancel_request_run current env lock_ret r rounds inf i uapi c s :
  re_alloc_ok env = true ->
  re_gfp_ok env = true ->
  re_rounds env = r :: rounds ->
  r_trysend r = 0 ->
  (forall s', re_late env s' = s') ->
  mbox_done (mailbox s) = 0 ->
  send_queue (mailbox s) = [] ->
  0 <= idr_next (msg_idr (mailbox s)) < INT_MAX ->
  idr_rt (msg_idr (mailbox s)) !! idr_next (msg_idr (mailbox s)) = None ->
  heap s !! inf = Some (ObjInference i) ->
  inf_done i = false ->
  let cancellation := heap_fresh (heap s) in
  let id := idr_next (msg_idr (mailbox s)) in
  let aborting :=
    store inf
      (ObjInference
         (set_inf_status ETHOSU_UAPI_STATUS_ABORTING
            (set_inf_kref (inf_kref i + 1) i))) s in
  let sent :=
    request_sent cancellation
      (ObjCancelInference
         (mk_cancel_inference inf uapi 0
            (mk_msg id ETHOSU_RPMSG_CANCEL_INFERENCE_REQ) 0))
      (mk_rpmsg
         (mk_header ETHOSU_RPMSG_MAGIC ETHOSU_RPMSG_CANCEL_INFERENCE_REQ
            (to_u64 id))
         (PayloadCancelReq (to_u64 (msg_id (inf_msg i)))),
       sizeof_header + sizeof_cancel_req) aborting in
  heap (re_others env sent) !! cancellation = Some (ObjCancelInference c) ->
  let waited :=
    store cancellation
      (ObjCancelInference
         (mk_cancel_inference (cancel_inf c) (cancel_uapi c)
            (fst (wait_for_completion_timeout (cancel_done c)
                    (msecs_to_jiffies CANCEL_INFERENCE_RESP_TIMEOUT_MS)
                    (re_elapsed env)))
            (cancel_msg c) (cancel_errno c))) (re_others env sent) in
  let finish ret s' :=
    Some (ret, cancel_uapi c,
          devm_kfree cancellation
            (cancel_inference_put_inf cancellation
               (ethosu_rpmsg_mailbox_deregister cancellation s'))) in
  ethosu_rpmsg_cancel_inference_request current env lock_ret inf uapi s
  = if negb (lock_ret =? 0) then finish lock_ret waited
    else if cancel_done c =? 0
    then finish (- EIO) (rproc_report_crash waited)
    else if negb (cancel_errno c =? 0)
    then finish (cancel_errno c) (rproc_report_crash waited)
    else
      finish 0
        (inf_update (set_inf_status ETHOSU_UAPI_STATUS_ABORTED) inf waited).
Proof.
  intros Hok Hgfp Hrounds Hr Hlate Hd Hq Hnext Hfree Hi Hdone.
  assert (Hne : inf <> heap_fresh (heap s)).
  { intros Heq. rewrite Heq, heap_fresh_unused in Hi. discriminate. }
  intros cancellation id aborting sent Hc waited finish.
  unfold ethosu_rpmsg_cancel_inference_request.
  rewrite Hi, Hdone, Hok, Hgfp. cbn [negb]. fold cancellation.
  rewrite (inference_get_heap inf i s Hi), inf_update_store. fold aborting.
  rewrite register_stored; [|exact Hnext|exact Hfree].
  cbn [Z.ltb Z.compare object_map_msg cancel_inf cancel_uapi cancel_done
         cancel_msg cancel_errno set_msg_id msg_type].
  change (mailbox aborting) with (mailbox s). fold id.
  set (registered := store cancellation _ _).
  assert (Hhandle : cancel_inference_handle registered inf
                    = msg_id (inf_msg i)).
  { unfold cancel_inference_handle, msg_at, registered.
    cbn [heap store set_heap set_mailbox].
    rewrite lookup_insert_ne by done. unfold aborting.
    cbn [heap store set_heap]. by rewrite lookup_insert_eq. }
  rewrite Hhandle, Hrounds.
  rewrite (cancel_sender_idle current r rounds cancellation
             (mk_cancel_inference inf uapi 0 (mk_msg id 0) 0));
    [ | apply lookup_insert_eq | exact Hd | exact Hq | exact Hr ].
  cbn [cancel_inf cancel_uapi cancel_done cancel_msg cancel_errno msg_id
         Z.eqb negb].
  match goal with
  | |- context [re_others env ?s1] => replace s1 with sent
  end.
  2:{ unfold sent, registered. rewrite store_store.
      apply device_state_eq; reflexivity. }
  rewrite Hc. unfold wait_for_completion_timeout.
  assert (Hu : forall s' c',
             heap s' !! cancellation = Some (ObjCancelInference c') ->
             cancel_inference_uapi
               (ethosu_rpmsg_mailbox_deregister cancellation s')
               cancellation uapi = cancel_uapi c').
  { intros s' c' Hs'. unfold cancel_inference_uapi.
    by rewrite deregister_heap, Hs'. }
  subst waited. unfold wait_for_completion_timeout.
  destruct (Z.eqb_spec (cancel_done c) 0) as [Hz|Hnz]; cbv beta iota;
    rewrite !Hlate; cbn [fst snd];
    set (waited := store cancellation _ (re_others env sent)).
  - cbn [Z.eqb]. unfold finish.
    destruct (lock_ret =? 0); cbn [negb];
      erewrite Hu by apply lookup_insert_eq; reflexivity.
  - destruct (Z.eqb_spec
                (Z.max 1 (msecs_to_jiffies CANCEL_INFERENCE_RESP_TIMEOUT_MS
                          - Z.max 0 (re_elapsed env))) 0); [lia|].
    assert (Hw : heap waited !! cancellation
                 = Some (ObjCancelInference
                           (mk_cancel_inference (cancel_inf c) (cancel_uapi c)
                              (if cancel_done c =? UINT_MAX then cancel_done c
                               else cancel_done c - 1)
                              (cancel_msg c) (cancel_errno c)))).
    { apply lookup_insert_eq. }
    rewrite Hw. cbn [cancel_errno]. unfold finish.
    destruct (lock_ret =? 0) eqn:Hl; cbn [negb].
    + destruct (cancel_errno c =? 0); cbn [negb].
      * apply Z.eqb_eq in Hl. subst lock_ret.
        erewrite Hu by (apply inf_update_cancel; exact Hw). reflexivity.
      * erewrite Hu by exact Hw. reflexivity.
    + erewrite Hu by exact Hw. reflexivity.
Qed.

Lemma inf_kref_back st i :
  set_inf_kref
    (inf_kref (set_inf_status st (set_inf_kref (inf_kref i + 1) i)) - 1)
    (set_inf_status st (set_inf_kref (inf_kref i + 1) i))
  = set_inf_status st i.
Proof.
  destruct i. unfold set_inf_status, set_inf_kref. cbn. f_equal. lia.
Qed.

Lemma cancel_cleanup cancellation inf c' i' h rt next s1 :
  heap s1
  = <[cancellation := ObjCancelInference c']> (<[inf := ObjInference i']> h) ->
  h !! cancellation = None ->
  inf <> cancellation ->
  cancel_inf c' = inf ->
  inf_kref i' <> 1 ->
  msg_idr (mailbox s1)
  = mk_idr (<[msg_id (cancel_msg c') := cancellation]> rt) next ->
  rt !! msg_id (cancel_msg c') = None ->
  devm_kfree cancellation
    (cancel_inference_put_inf cancellation
       (ethosu_rpmsg_mailbox_deregister cancellation s1))
  = set_heap (<[inf := ObjInference (set_inf_kref (inf_kref i' - 1) i')]> h)
      (set_mailbox (set_msg_idr (mk_idr rt next) (mailbox s1)) s1).
Proof.
  intros Hh Hnone Hne Hinf Hk Hidr Hfree.
  rewrite (deregister_registered cancellation (cancel_msg c')).
  2:{ unfold msg_at. by rewrite Hh, lookup_insert_eq. }
  set (s2 := set_mailbox _ _).
  assert (H2 : heap s2 = heap s1) by reflexivity.
  unfold cancel_inference_put_inf. rewrite H2, Hh, lookup_insert_eq, Hinf.
  unfold ethosu_rpmsg_inference_put.
  rewrite H2, Hh, lookup_insert_ne, lookup_insert_eq by done.
  unfold kref_put. destruct (Z.eqb_spec (inf_kref i') 1); [done|].
  cbn [fst].
  apply device_state_eq; try reflexivity.
  - cbn [heap devm_kfree set_heap store]. rewrite H2, Hh.
    apply map_eq. intros k.
    destruct (decide (k = cancellation)) as [->|Hkc].
    { rewrite lookup_delete_eq, lookup_insert_ne by done. by rewrite Hnone. }
    rewrite lookup_delete_ne by done.
    destruct (decide (k = inf)) as [->|Hki].
    + by rewrite !lookup_insert_eq.
    + by rewrite !lookup_insert_ne.
  - apply mailbox_eq; try reflexivity.
    all: unfold s2;
      cbn [mailbox devm_kfree set_heap set_mailbox store set_msg_idr msg_idr
             idr_rt idr_next idr_remove].
    + rewrite Hidr. cbn [idr_rt]. by apply delete_insert_id.
    + by rewrite Hidr.
Qed.

(** X16.  Cancelling an inference.  For a finished inference the call
    returns 0 with the status ERROR and touches nothing.  Otherwise, on
    an idle mailbox whose cursor stands on a free id, it marks the
    inference ABORTING and sends a CANCEL_INFERENCE_REQ that names the
    inference by its message id.  Whatever status the firmware answers,
    the call returns 0 and the inference is ABORTED; the caller reads
    OK or ERROR as answered, and its struct is untouched for any other
    value.  When nothing arrives it returns -EIO, and when the fail
    callback runs -EFAULT with the status ERROR; both times one crash
    is reported and the inference stays ABORTING.  A caller that is
    signalled while it takes the mutex again gets that error, no crash
    is reported and the inference stays ABORTING even when the
    firmware had answered.  Every time the reference taken on the
    inference is given back and the request is deregistered and freed,
    so that a response that comes later changes nothing. *)
Theorem cancel_inference_request_outcomes (current inf : Z)
  (i : ethosu_rpmsg_inference) (uapi : ethosu_uapi_cancel_inference_status)
  (s : device_state) :
  mbox_done (mailbox s) = 0 ->
  send_queue (mailbox s) = [] ->
  0 <= idr_next (msg_idr (mailbox s)) < INT_MAX ->
  idr_rt (msg_idr (mailbox s)) !! idr_next (msg_idr (mailbox s)) = None ->
  heap s !! inf = Some (ObjInference i) ->
  inf_kref i <> 0 ->
  let id := idr_next (msg_idr (mailbox s)) in
  let cancellation := heap_fresh (heap s) in
  let pkt :=
    (mk_rpmsg
       (mk_header ETHOSU_RPMSG_MAGIC ETHOSU_RPMSG_CANCEL_INFERENCE_REQ
          (to_u64 id))
       (PayloadCancelReq (to_u64 (msg_id (inf_msg i)))),
     sizeof_header + sizeof_cancel_req) in
  let gone status :=
    request_gone pkt (store inf (ObjInference (set_inf_status status i)) s) in
  let answer rsp :=
    if xrsp_status rsp =? ETHOSU_RPMSG_STATUS_OK
    then mk_uapi_cancel_status ETHOSU_UAPI_STATUS_OK
    else if xrsp_status rsp =? ETHOSU_RPMSG_STATUS_ERROR
    then mk_uapi_cancel_status ETHOSU_UAPI_STATUS_ERROR
    else uapi in
  (inf_done i = true ->
   forall env lock_ret,
     ethosu_rpmsg_cancel_inference_request current env lock_ret inf uapi s
     = Some (0, mk_uapi_cancel_status ETHOSU_UAPI_STATUS_ERROR, s))
  /\ (inf_done i = false ->
      (forall rsp elapsed,
          ethosu_rpmsg_cancel_inference_request current
            (idle_request_env (ethosu_rpmsg_cancel_inference_rsp id rsp)
               elapsed) 0 inf uapi s
          = Some (0, answer rsp, gone ETHOSU_UAPI_STATUS_ABORTED))
      /\ (forall elapsed,
             ethosu_rpmsg_cancel_inference_request current
               (idle_request_env (fun s' => s') elapsed) 0 inf uapi s
             = Some (- EIO, uapi,
                     rproc_report_crash (gone ETHOSU_UAPI_STATUS_ABORTING)))
      /\ (forall elapsed,
             ethosu_rpmsg_cancel_inference_request current
               (idle_request_env
                  (ethosu_rpmsg_cancel_inference_fail cancellation) elapsed)
               0 inf uapi s
             = Some (- EFAULT, mk_uapi_cancel_status ETHOSU_UAPI_STATUS_ERROR,
                     rproc_report_crash (gone ETHOSU_UAPI_STATUS_ABORTING)))
      /\ (forall rsp elapsed lock_ret,
             lock_ret <> 0 ->
             ethosu_rpmsg_cancel_inference_request current
               (idle_request_env (ethosu_rpmsg_cancel_inference_rsp id rsp)
                  elapsed) lock_ret inf uapi s
             = Some (lock_ret, answer rsp,
                     gone ETHOSU_UAPI_STATUS_ABORTING)))
  /\ (forall status rsp,
         ethosu_rpmsg_cancel_inference_rsp id rsp (gone status)
         = gone status).
Proof.
  intros Hd Hq Hnext Hfree Hi Hk id cancellation pkt gone answer.
  split; [|split].
  - intros Hdone env lock_ret.
    unfold ethosu_rpmsg_cancel_inference_request. by rewrite Hi, Hdone.
  - intros Hdone.
    assert (Hne : inf <> cancellation).
    { intros Heq. unfold cancellation in Heq.
      rewrite Heq, heap_fresh_unused in Hi. discriminate. }
    assert (Hnone : heap s !! cancellation = None) by apply heap_fresh_unused.
    set (aborting := store inf
                       (ObjInference
                          (set_inf_status ETHOSU_UAPI_STATUS_ABORTING
                             (set_inf_kref (inf_kref i + 1) i))) s).
    set (o := ObjCancelInference
                (mk_cancel_inference inf uapi 0
                   (mk_msg id ETHOSU_RPMSG_CANCEL_INFERENCE_REQ) 0)).
    set (sent := request_sent cancellation o pkt aborting).
    assert (Hsent : heap sent !! cancellation = Some o)
      by apply lookup_insert_eq.
    assert (Hrun : forall others elapsed lock_ret c,
               others sent = store cancellation (ObjCancelInference c) sent ->
               cancel_inf c = inf ->
               msg_id (cancel_msg c) = id ->
               ethosu_rpmsg_cancel_inference_request current
                 (idle_request_env others elapsed) lock_ret inf uapi s
               = if negb (lock_ret =? 0)
                 then Some (lock_ret, cancel_uapi c,
                            gone ETHOSU_UAPI_STATUS_ABORTING)
                 else if cancel_done c =? 0
                 then Some (- EIO, cancel_uapi c,
                            rproc_report_crash
                              (gone ETHOSU_UAPI_STATUS_ABORTING))
                 else if negb (cancel_errno c =? 0)
                 then Some (cancel_errno c, cancel_uapi c,
                            rproc_report_crash
                              (gone ETHOSU_UAPI_STATUS_ABORTING))
                 else Some (0, cancel_uapi c,
                            gone ETHOSU_UAPI_STATUS_ABORTED)).
    { intros others elapsed lock_ret c Hc Hcinf Hcid.
      rewrite (cancel_request_run current
                 (idle_request_env others elapsed) lock_ret sending_round []
                 inf i uapi c s); try done.
      2:{ cbn [re_others idle_request_env]. fold id cancellation pkt.
          fold aborting o sent. rewrite Hc. apply lookup_insert_eq. }
      cbn [re_others re_elapsed idle_request_env].
      fold id cancellation pkt. fold aborting o sent. rewrite Hc.
      rewrite store_store.
      set (c' := mk_cancel_inference _ _ _ _ _).
      set (waited := store cancellation (ObjCancelInference c') sent).
      assert (Hclean : forall s1 st,
                 heap s1
                 = <[cancellation := ObjCancelInference c']>
                     (<[inf := ObjInference
                                 (set_inf_status st
                                    (set_inf_kref (inf_kref i + 1) i))]>
                        (heap s)) ->
                 mailbox s1 = mailbox sent ->
                 files s1 = files s -> tx s1 = tx s ++ [pkt] ->
                 woken s1 = woken s -> faults s1 = faults s ->
                 devm_kfree cancellation
                   (cancel_inference_put_inf cancellation
                      (ethosu_rpmsg_mailbox_deregister cancellation s1))
                 = mk_state (heap (gone st)) (mailbox (gone st))
                     (files (gone st)) (tx (gone st)) (woken (gone st))
                     (crash_reports s1) (faults (gone st))).
      { intros s1 st Hh Hm Hf Ht Hw Hfl.
        rewrite (cancel_cleanup cancellation inf c'
                   (set_inf_status st (set_inf_kref (inf_kref i + 1) i))
                   (heap s) (idr_rt (msg_idr (mailbox s))) (id + 1) s1);
          try done.
        - apply device_state_eq; try done.
          + cbn [heap set_heap gone request_gone set_tx set_mailbox store].
            do 2 f_equal. apply inf_kref_back.
          + cbn [mailbox set_heap set_mailbox]. rewrite Hm.
            by apply mailbox_eq.
        - cbn [inf_kref set_inf_status set_inf_kref]. lia.
        - rewrite Hm. unfold c'. cbn [cancel_msg]. by rewrite Hcid.
        - unfold c'. cbn [cancel_msg]. by rewrite Hcid. }
      assert (Hw : heap waited
                   = <[cancellation := ObjCancelInference c']>
                       (<[inf := ObjInference
                                   (set_inf_status ETHOSU_UAPI_STATUS_ABORTING
                                      (set_inf_kref (inf_kref i + 1) i))]>
                          (heap s))).
      { unfold waited, sent.
        cbn [heap store set_heap request_sent set_tx set_mailbox aborting].
        by rewrite insert_insert_eq. }
      destruct (negb (lock_ret =? 0)); [|destruct (cancel_done c =? 0);
        [|destruct (negb (cancel_errno c =? 0))]].
      all: do 2 f_equal.
      - by rewrite (Hclean waited ETHOSU_UAPI_STATUS_ABORTING).
      - by rewrite (Hclean (rproc_report_crash waited)
                      ETHOSU_UAPI_STATUS_ABORTING).
      - by rewrite (Hclean (rproc_report_crash waited)
                      ETHOSU_UAPI_STATUS_ABORTING).
      - assert (Hu : inf_update (set_inf_status ETHOSU_UAPI_STATUS_ABORTED)
                       inf waited
                     = store inf
                         (ObjInference
                            (set_inf_status ETHOSU_UAPI_STATUS_ABORTED
                               (set_inf_kref (inf_kref i + 1) i))) waited).
        { unfold inf_update. rewrite Hw.
          rewrite lookup_insert_ne, lookup_insert_eq by done. reflexivity. }
        rewrite Hu.
        rewrite (Hclean _ ETHOSU_UAPI_STATUS_ABORTED); try done.
        cbn [heap store set_heap]. rewrite Hw.
        rewrite insert_insert_ne by done. by rewrite insert_insert_eq. }
    assert (Hf : ethosu_rpmsg_mailbox_find sent id
                   ETHOSU_RPMSG_CANCEL_INFERENCE_REQ = cancellation).
    { exact (find_request_sent cancellation o
               (mk_msg id ETHOSU_RPMSG_CANCEL_INFERENCE_REQ) pkt aborting
               eq_refl). }
    assert (Hrsp : forall rsp,
               ethosu_rpmsg_cancel_inference_rsp id rsp sent
               = store cancellation
                   (ObjCancelInference
                      (mk_cancel_inference inf (answer rsp) 1
                         (mk_msg id ETHOSU_RPMSG_CANCEL_INFERENCE_REQ) 0))
                   sent).
    { intros rsp. unfold ethosu_rpmsg_cancel_inference_rsp. cbv zeta.
      rewrite Hf, Hsent.
      change (IS_ERR cancellation) with (IS_ERR (heap_fresh (heap s))).
      by rewrite IS_ERR_heap_fresh. }
    split; [|split; [|split]].
    + intros rsp elapsed. by rewrite (Hrun _ elapsed 0 _ (Hrsp rsp)).
    + intros elapsed.
      rewrite (Hrun _ elapsed 0
                 (mk_cancel_inference inf uapi 0
                    (mk_msg id ETHOSU_RPMSG_CANCEL_INFERENCE_REQ) 0));
        try done.
      apply device_state_eq; try reflexivity.
      unfold sent. cbn [heap store set_heap request_sent set_tx].
      by rewrite insert_insert_eq.
    + intros elapsed.
      rewrite (Hrun _ elapsed 0
                 (mk_cancel_inference inf
                    (mk_uapi_cancel_status ETHOSU_UAPI_STATUS_ERROR) 1
                    (mk_msg id ETHOSU_RPMSG_CANCEL_INFERENCE_REQ) (- EFAULT)));
        try done.
      unfold ethosu_rpmsg_cancel_inference_fail. by rewrite Hsent.
    + intros rsp elapsed lock_ret Hl.
      rewrite (Hrun _ elapsed lock_ret _ (Hrsp rsp)); try done.
      by destruct (Z.eqb_spec lock_ret 0).
  - intros status rsp. apply cancel_inference_rsp_not_found.
    unfold gone.
    by rewrite (request_gone_not_found pkt
                  (store inf (ObjInference (set_inf_status status i)) s)).
Qed.

Lemma cancel_inference_request_outcomes_witness :
  ethosu_rpmsg_cancel_inference_request 7 (idle_request_env (fun s => s) 2500)
    0 30 (mk_uapi_cancel_status ETHOSU_UAPI_STATUS_OK) inference_pending
  = Some
      (- EIO, mk_uapi_cancel_status ETHOSU_UAPI_STATUS_OK,
       rproc_report_crash
         (request_gone
            (mk_rpmsg
               (mk_header ETHOSU_RPMSG_MAGIC ETHOSU_RPMSG_CANCEL_INFERENCE_REQ
                  1)
               (PayloadCancelReq 0), sizeof_header + sizeof_cancel_req)
            (store 30
               (ObjInference
                  (set_inf_status ETHOSU_UAPI_STATUS_ABORTING
                     running_inference)) inference_pending))).
Proof.
  refine (proj1 (proj2 (proj1 (proj2
            (cancel_inference_request_outcomes 7 30 running_inference
               (mk_uapi_cancel_status ETHOSU_UAPI_STATUS_OK)
               inference_pending _ _ _ _ _ _)) eq_refl)) 2500);
    try reflexivity; try done.
Defined.

(** ** The inference file *)

Lemma inference_put_live inf i s :
  heap s !! inf = Some (ObjInference i) ->
  inf_kref i <> 1 ->
  ethosu_rpmsg_inference_put inf s
  = (store inf (ObjInference (set_inf_kref (inf_kref i - 1) i)) s, 0).
Proof.
  intros Hh Hk. unfold ethosu_rpmsg_inference_put. rewrite Hh.
  cbn [kref_put]. by destruct (Z.eqb_spec (inf_kref i) 1).
Qed.

Lemma inference_put_last inf i s :
  heap s !! inf = Some (ObjInference i) ->
  inf_kref i = 1 ->
  ethosu_rpmsg_inference_put inf s
  = (ethosu_rpmsg_inference_kref_destroy inf
       (store inf (ObjInference (set_inf_kref 0 i)) s), 1).
Proof.
  intros Hh Hk. unfold ethosu_rpmsg_inference_put. rewrite Hh.
  cbn [kref_put]. by rewrite Hk.
Qed.

(** The reference count lies before the arrays: the stores of the
    loop neither read nor write it. *)
Lemma spill_u8_kref off v k inf :
  spill_u8 off v (set_inf_kref k inf) = set_inf_kref k (spill_u8 off v inf).
Proof.
  unfold spill_u8, pmu_event_count_offset. cbv zeta.
  cbn [inf_pmu_event_config inf_pmu_event_count set_inf_kref].
  repeat (match goal with |- context [if ?c then _ else _] => destruct c end);
    reflexivity.
Qed.

Lemma spill_u64_kref j v k inf :
  spill_u64 j v (set_inf_kref k inf) = set_inf_kref k (spill_u64 j v inf).
Proof. by destruct j as [|[|[|j]]]. Qed.

Lemma store_pmu_event_config_kref i v k inf :
  store_pmu_event_config i v (set_inf_kref k inf)
  = (set_inf_kref k (fst (store_pmu_event_config i v inf)),
     snd (store_pmu_event_config i v inf)).
Proof.
  unfold store_pmu_event_config.
  cbn [inf_pmu_event_config set_inf_kref].
  destruct (i <? _)%nat; cbn [fst snd]; [reflexivity|].
  by rewrite spill_u8_kref.
Qed.

Lemma store_pmu_event_count_kref i v k inf :
  store_pmu_event_count i v (set_inf_kref k inf)
  = (set_inf_kref k (fst (store_pmu_event_count i v inf)),
     snd (store_pmu_event_count i v inf)).
Proof.
  unfold store_pmu_event_count.
  cbn [inf_pmu_event_count set_inf_kref].
  destruct (i <? _)%nat; cbn [fst snd]; [reflexivity|].
  by rewrite spill_u64_kref.
Qed.

Lemma pmu_copy_kref n : forall i rsp k inf,
  pmu_copy n i rsp (set_inf_kref k inf)
  = (set_inf_kref k (fst (pmu_copy n i rsp inf)),
     snd (pmu_copy n i rsp inf)).
Proof.
  induction n as [|n IH]; intros i rsp k inf; cbn [pmu_copy]; [done|].
  rewrite store_pmu_event_config_kref.
  destruct (store_pmu_event_config i _ inf) as [inf1 f1]. cbn [fst snd].
  rewrite store_pmu_event_count_kref.
  destruct (store_pmu_event_count i _ inf1) as [inf2 f2]. cbn [fst snd].
  rewrite IH.
  by destruct (pmu_copy n (S i) rsp inf2) as [inf3 fs].
Qed.

Lemma inference_rsp_update_kref rsp k i :
  inference_rsp_update rsp (set_inf_kref k i)
  = (set_inf_kref k (fst (inference_rsp_update rsp i)),
     snd (inference_rsp_update rsp i)).
Proof.
  unfold inference_rsp_update.
  cbn [inf_status inf_ofm_count set_inf_kref].
  destruct (bool_decide _ || bool_decide _); [reflexivity|].
  destruct (_ && _); cbn [inf_status set_inf_status bool_decide].
  - rewrite !bool_decide_eq_true_2 by done.
    change (set_inf_status ETHOSU_UAPI_STATUS_OK (set_inf_kref k i))
      with (set_inf_kref k (set_inf_status ETHOSU_UAPI_STATUS_OK i)).
    rewrite pmu_copy_kref.
    by destruct (pmu_copy _ _ _ _) as [i1 fs].
  - destruct (irsp_status rsp =? ETHOSU_RPMSG_STATUS_REJECTED);
      [rewrite !bool_decide_eq_false_2 by done; reflexivity|].
    destruct (irsp_status rsp =? ETHOSU_RPMSG_STATUS_ABORTED);
      rewrite !bool_decide_eq_false_2 by done; reflexivity.
Qed.

Lemma inference_rsp_found id rsp inf i s :
  idr_find (msg_idr (mailbox s)) id = Some inf ->
  heap s !! inf = Some (ObjInference i) ->
  msg_type (inf_msg i) = ETHOSU_RPMSG_INFERENCE_REQ ->
  IS_ERR inf = false ->
  ethosu_rpmsg_inference_rsp id rsp s
  = fst (ethosu_rpmsg_inference_put inf
           (wake_pollers (inf_waitq i)
              (set_faults (faults s ++ snd (inference_rsp_update rsp i))
                 (store inf
                    (ObjInference
                       (set_inf_done true (fst (inference_rsp_update rsp i))))
                    s)))).
Proof.
  intros Hidr Hh Hty Herr.
  assert (Hf : ethosu_rpmsg_mailbox_find s id ETHOSU_RPMSG_INFERENCE_REQ
               = inf).
  { apply (find_found s id _ inf (inf_msg i)); try done.
    unfold msg_at. by rewrite Hh. }
  unfold ethosu_rpmsg_inference_rsp. cbv zeta. rewrite Hf, Herr, Hh.
  pose proof (inference_rsp_update_spec rsp i) as Hspec. cbv zeta in Hspec.
  destruct Hspec as (_ & _ & Hq & _).
  destruct (inference_rsp_update rsp i) as [i' fs]. cbn [fst snd] in *.
  cbn [inf_waitq set_inf_done]. by rewrite Hq.
Qed.

Lemma inference_rsp_live id rsp inf i s :
  idr_find (msg_idr (mailbox s)) id = Some inf ->
  heap s !! inf = Some (ObjInference i) ->
  msg_type (inf_msg i) = ETHOSU_RPMSG_INFERENCE_REQ ->
  IS_ERR inf = false ->
  inf_kref i <> 1 ->
  ethosu_rpmsg_inference_rsp id rsp s
  = store inf
      (ObjInference
         (set_inf_kref (inf_kref i - 1)
            (set_inf_done true (fst (inference_rsp_update rsp i)))))
      (wake_pollers (inf_waitq i)
         (set_faults (faults s ++ snd (inference_rsp_update rsp i)) s)).
Proof.
  intros Hidr Hh Hty Herr Hk.
  rewrite (inference_rsp_found id rsp inf i s) by done.
  pose proof (inference_rsp_update_spec rsp i) as Hspec. cbv zeta in Hspec.
  destruct Hspec as (_ & Hkref & _).
  rewrite (inference_put_live inf
             (set_inf_done true (fst (inference_rsp_update rsp i)))).
  - cbn [fst inf_kref set_inf_done]. rewrite Hkref.
    apply device_state_eq; try reflexivity.
    cbn [heap store set_heap wake_pollers set_woken set_faults].
    apply insert_insert_eq.
  - cbn [heap store set_heap wake_pollers set_woken set_faults].
    apply lookup_insert_eq.
  - cbn [inf_kref set_inf_done]. by rewrite Hkref.
Qed.

Lemma poll_wait_heap current inf i s :
  heap s !! inf = Some (ObjInference i) ->
  poll_wait current inf s
  = store inf (ObjInference (set_inf_waitq (inf_waitq i ++ [current]) i)) s.
Proof. intros Hh. unfold poll_wait, inf_update. by rewrite Hh. Qed.

Lemma poll_done current f inf i s :
  private_data f = inf ->
  heap s !! inf = Some (ObjInference i) ->
  inf_done i = true ->
  snd (ethosu_rpmsg_inference_poll current (fun s' => s') f s) = EPOLLIN.
Proof.
  intros Hf Hh Hd. unfold ethosu_rpmsg_inference_poll. cbv zeta.
  rewrite Hf, (poll_wait_heap current inf i s Hh).
  cbn [heap store set_heap]. rewrite lookup_insert_eq.
  cbn [snd inf_done set_inf_waitq]. by rewrite Hd.
Qed.

(** X17.  A poll never misses the response.  A task that polls an
    inference whose response has not arrived is told "not ready" and
    stands on the wait queue of the inference.  The response may
    arrive before the poll, while the poll runs (between the moment
    the task is queued and the moment it reads [done]; the function
    holds no lock), or afterwards: in the first two cases the poll
    answers EPOLLIN, in the last two the task is woken, behind those
    that waited before it, and the next poll answers EPOLLIN. *)
Theorem poll_never_misses_response (current : Z) (f : file) (inf : Z)
  (i : ethosu_rpmsg_inference) (id : Z)
  (rsp : struct_ethosu_rpmsg_inference_rsp) (s : device_state) :
  private_data f = inf ->
  heap s !! inf = Some (ObjInference i) ->
  inf_done i = false ->
  inf_kref i <> 1 ->
  idr_find (msg_idr (mailbox s)) id = Some inf ->
  msg_type (inf_msg i) = ETHOSU_RPMSG_INFERENCE_REQ ->
  IS_ERR inf = false ->
  let respond := ethosu_rpmsg_inference_rsp id rsp in
  let quiet := fun s' : device_state => s' in
  ethosu_rpmsg_inference_poll current quiet f s
  = (poll_wait current inf s, 0)
  /\ snd (ethosu_rpmsg_inference_poll current quiet f (respond s)) = EPOLLIN
  /\ snd (ethosu_rpmsg_inference_poll current respond f s) = EPOLLIN
  /\ woken (fst (ethosu_rpmsg_inference_poll current respond f s))
     = woken s ++ inf_waitq i ++ [current]
  /\ woken (respond (fst (ethosu_rpmsg_inference_poll current quiet f s)))
     = woken s ++ inf_waitq i ++ [current]
  /\ forall next,
       snd (ethosu_rpmsg_inference_poll next quiet f
              (respond (fst (ethosu_rpmsg_inference_poll current quiet f s))))
       = EPOLLIN.
Proof.
  intros Hf Hh Hd Hk Hidr Hty Herr respond quiet.
  set (queued := set_inf_waitq (inf_waitq i ++ [current]) i).
  assert (Hq : poll_wait current inf s = store inf (ObjInference queued) s)
    by exact (poll_wait_heap current inf i s Hh).
  assert (H1 : ethosu_rpmsg_inference_poll current quiet f s
               = (poll_wait current inf s, 0)).
  { unfold ethosu_rpmsg_inference_poll. cbv zeta. rewrite Hf, Hq.
    unfold quiet. cbn [heap store set_heap]. rewrite lookup_insert_eq.
    cbn [inf_done queued set_inf_waitq]. by rewrite Hd. }
  assert (Hlate : respond (store inf (ObjInference queued) s)
                  = store inf
                      (ObjInference
                         (set_inf_kref (inf_kref i - 1)
                            (set_inf_done true
                               (fst (inference_rsp_update rsp queued)))))
                      (wake_pollers (inf_waitq i ++ [current])
                         (set_faults
                            (faults s ++ snd (inference_rsp_update rsp queued))
                            s))).
  { unfold respond.
    rewrite (inference_rsp_live id rsp inf queued); try done.
    - apply device_state_eq; try reflexivity.
      cbn [heap store set_heap wake_pollers set_woken set_faults].
      apply insert_insert_eq.
    - apply lookup_insert_eq. }
  split; [exact H1|]. split; [|split; [|split; [|split]]].
  - unfold respond. rewrite (inference_rsp_live id rsp inf i s) by done.
    eapply poll_done; [exact Hf|apply lookup_insert_eq|reflexivity].
  - unfold ethosu_rpmsg_inference_poll. cbv zeta. rewrite Hf, Hq, Hlate.
    cbn [heap store set_heap]. by rewrite lookup_insert_eq.
  - unfold ethosu_rpmsg_inference_poll. cbv zeta. rewrite Hf, Hq, Hlate.
    cbn [heap store set_heap]. rewrite lookup_insert_eq. reflexivity.
  - rewrite H1. cbn [fst]. rewrite Hq, Hlate. reflexivity.
  - intros next. rewrite H1. cbn [fst]. rewrite Hq, Hlate.
    eapply poll_done; [exact Hf|apply lookup_insert_eq|reflexivity].
Qed.

Lemma poll_never_misses_response_witness :
  snd (ethosu_rpmsg_inference_poll 42
         (ethosu_rpmsg_inference_rsp 0 ok_response)
         (mk_file ethosu_rpmsg_inference_fops 30) inference_pending)
  = EPOLLIN.
Proof.
  refine (proj1 (proj2 (proj2
            (poll_never_misses_response 42
               (mk_file ethosu_rpmsg_inference_fops 30) 30 running_inference
               0 ok_response inference_pending _ _ _ _ _ _ _))));
    try reflexivity; try done.
Defined.

Lemma idr_find_deregistered msg m s :
  msg_at s msg = Some m ->
  idr_find (msg_idr (mailbox (ethosu_rpmsg_mailbox_deregister msg s)))
    (msg_id m) = None.
Proof.
  intros Hm. rewrite (deregister_registered msg m s Hm).
  cbn [mailbox set_mailbox msg_idr set_msg_idr idr_remove].
  unfold idr_find. cbn [idr_rt]. apply lookup_delete_eq.
Qed.

Lemma inference_destroy_unregisters inf i s :
  heap s !! inf = Some (ObjInference i) ->
  idr_find (msg_idr (mailbox (ethosu_rpmsg_inference_kref_destroy inf s)))
    (msg_id (inf_msg i)) = None.
Proof.
  intros Hh. unfold ethosu_rpmsg_inference_kref_destroy. rewrite Hh.
  change (mailbox (devm_kfree inf ?x)) with (mailbox x).
  rewrite network_put_mailbox, !put_buffers_mailbox.
  apply (idr_find_deregistered inf (inf_msg i)).
  unfold msg_at. by rewrite Hh.
Qed.

(** X18.  Closing the descriptor of an inference and the arrival of
    its response may come in either order: the device ends up the
    same.  This is for an inference whose two PMU arrays have room
    for the ETHOSU_RPMSG_PMU_MAX entries that a response carries, as
    every inference has that the sender lets pass.  Closing first
    leaves the inference registered, so that the
    response still finds it, and the pollers are woken once in both
    orders.  When the descriptor and the mailbox hold the only two
    references, whichever of the two comes last destroys the
    inference, which then is neither on the heap nor in the table. *)
Theorem release_and_response_commute (f : file) (inf : Z)
  (i : ethosu_rpmsg_inference) (id : Z)
  (rsp : struct_ethosu_rpmsg_inference_rsp) (s : device_state) :
  private_data f = inf ->
  heap s !! inf = Some (ObjInference i) ->
  inf_kref i <> 1 ->
  idr_find (msg_idr (mailbox s)) id = Some inf ->
  inf_msg i = mk_msg id ETHOSU_RPMSG_INFERENCE_REQ ->
  IS_ERR inf = false ->
  (Z.to_nat ETHOSU_RPMSG_PMU_MAX <= length (inf_pmu_event_config i))%nat ->
  (Z.to_nat ETHOSU_RPMSG_PMU_MAX <= length (inf_pmu_event_count i))%nat ->
  let respond := ethosu_rpmsg_inference_rsp id rsp in
  let close s' := fst (ethosu_rpmsg_inference_release f s') in
  respond (close s) = close (respond s)
  /\ ethosu_rpmsg_mailbox_find (close s) id ETHOSU_RPMSG_INFERENCE_REQ = inf
  /\ woken (respond (close s)) = woken s ++ inf_waitq i
  /\ (inf_kref i = 2 ->
      heap (respond (close s)) !! inf = None
      /\ idr_find (msg_idr (mailbox (respond (close s)))) id = None).
Proof.
  intros Hf Hh Hk Hidr Hmsg Herr Hconfig Hcount respond close.
  assert (Hty : msg_type (inf_msg i) = ETHOSU_RPMSG_INFERENCE_REQ)
    by (by rewrite Hmsg).
  pose proof (inference_rsp_update_spec rsp i) as Hspec. cbv zeta in Hspec.
  destruct Hspec as (_ & Hkref & Hwq & _).
  destruct (inference_rsp_update_no_fault rsp i Hconfig Hcount) as [_ Hm'].
  set (i' := fst (inference_rsp_update rsp i)) in *.
  set (fs := snd (inference_rsp_update rsp i)).
  set (final k :=
         store inf (ObjInference (set_inf_kref k (set_inf_done true i')))
           (wake_pollers (inf_waitq i) (set_faults (faults s ++ fs) s))).
  set (outcome :=
         if inf_kref i =? 2
         then ethosu_rpmsg_inference_kref_destroy inf (final 0)
         else final (inf_kref i - 2)).
  assert (Hclose : close s
                   = store inf
                       (ObjInference (set_inf_kref (inf_kref i - 1) i)) s).
  { unfold close, ethosu_rpmsg_inference_release. rewrite Hf.
    by rewrite (inference_put_live inf i s). }
  assert (Ha : close (respond s) = outcome).
  { unfold respond. rewrite (inference_rsp_live id rsp inf i s) by done.
    fold i' fs. fold (final (inf_kref i - 1)).
    unfold close, ethosu_rpmsg_inference_release. rewrite Hf.
    unfold outcome.
    destruct (Z.eqb_spec (inf_kref i) 2) as [H2|H2].
    - rewrite (inference_put_last inf
                 (set_inf_kref (inf_kref i - 1) (set_inf_done true i')));
        [ | apply lookup_insert_eq | cbn [inf_kref set_inf_kref]; lia ].
      cbn [fst]. f_equal. unfold final. by rewrite store_store.
    - rewrite (inference_put_live inf
                 (set_inf_kref (inf_kref i - 1) (set_inf_done true i')));
        [ | apply lookup_insert_eq | cbn [inf_kref set_inf_kref]; lia ].
      cbn [fst inf_kref set_inf_kref]. unfold final. rewrite store_store.
      by replace (inf_kref i - 1 - 1) with (inf_kref i - 2) by lia. }
  assert (Hb : respond (close s) = outcome).
  { rewrite Hclose. unfold respond, outcome.
    set (i1 := set_inf_kref (inf_kref i - 1) i).
    assert (Hu : inference_rsp_update rsp i1
                 = (set_inf_kref (inf_kref i - 1) i', fs))
      by apply inference_rsp_update_kref.
    destruct (Z.eqb_spec (inf_kref i) 2) as [H2|H2].
    - rewrite (inference_rsp_found id rsp inf i1);
        [ | done | apply lookup_insert_eq | done | done ].
      rewrite Hu. cbn [fst snd].
      rewrite (inference_put_last inf
                 (set_inf_done true (set_inf_kref (inf_kref i - 1) i')));
        [ | apply lookup_insert_eq | cbn [inf_kref set_inf_kref set_inf_done];
                                     lia ].
      cbn [fst]. f_equal.
      apply device_state_eq; try reflexivity.
      cbn [heap store set_heap wake_pollers set_woken set_faults final].
      by rewrite !insert_insert_eq.
    - rewrite (inference_rsp_live id rsp inf i1);
        [ | done | apply lookup_insert_eq | done | done
          | cbn [inf_kref i1 set_inf_kref]; lia ].
      rewrite Hu. cbn [fst snd inf_kref i1 set_inf_kref].
      apply device_state_eq; try reflexivity.
      cbn [heap store set_heap wake_pollers set_woken set_faults final].
      rewrite insert_insert_eq.
      by replace (inf_kref i - 1 - 1) with (inf_kref i - 2) by lia. }
  split; [by rewrite Ha, Hb|]. split; [|split].
  - rewrite Hclose.
    apply (find_found _ id _ inf (inf_msg i)); try done.
    unfold msg_at. cbn [heap store set_heap]. by rewrite lookup_insert_eq.
  - rewrite Hb. unfold outcome.
    destruct (inf_kref i =? 2); [|reflexivity].
    erewrite observables_woken by apply inference_destroy_observables.
    reflexivity.
  - intros H2. rewrite Hb. unfold outcome. rewrite H2. cbn [Z.eqb Pos.eqb].
    split.
    + eapply inference_destroy_frees. apply lookup_insert_eq.
    + replace id with (msg_id (inf_msg (set_inf_kref 0 (set_inf_done true i')))).
      * apply inference_destroy_unregisters. apply lookup_insert_eq.
      * cbn [inf_msg set_inf_kref set_inf_done]. by rewrite Hm', Hmsg.
Qed.

Lemma release_and_response_commute_witness :
  ethosu_rpmsg_inference_rsp 0 ok_response_8
    (fst (ethosu_rpmsg_inference_release
            (mk_file ethosu_rpmsg_inference_fops 30) inference_sent))
  = fst (ethosu_rpmsg_inference_release
           (mk_file ethosu_rpmsg_inference_fops 30)
           (ethosu_rpmsg_inference_rsp 0 ok_response_8 inference_sent))
  /\ idr_find
       (msg_idr
          (mailbox
             (ethosu_rpmsg_inference_rsp 0 ok_response_8
                (fst (ethosu_rpmsg_inference_release
                        (mk_file ethosu_rpmsg_inference_fops 30)
                        inference_sent))))) 0
     = None.
Proof.
  destruct (release_and_response_commute
              (mk_file ethosu_rpmsg_inference_fops 30) 30 sent_inference
              0 ok_response_8 inference_sent)
    as (Hcomm & _ & _ & Hlast).
  - reflexivity.
  - reflexivity.
  - discriminate.
  - reflexivity.
  - reflexivity.
  - reflexivity.
  - vm_compute. lia.
  - vm_compute. lia.
  - split; [exact Hcomm|]. apply Hlast. reflexivity.
Defined.

(** ** Descriptors *)

Lemma store_same p o s : heap s !! p = Some o -> store p o s = s.
Proof.
  intros Hh. apply device_state_eq; try reflexivity.
  cbn [heap store set_heap]. by apply insert_id.
Qed.

Lemma network_put_get net n s :
  heap s !! net = Some (ObjNetwork n) ->
  net_kref n <> 0 ->
  ethosu_rpmsg_network_put net (ethosu_rpmsg_network_get net s) = s.
Proof.
  intros Hh Hk. rewrite (network_get_heap net n s Hh).
  unfold ethosu_rpmsg_network_put. cbn [heap store set_heap].
  rewrite lookup_insert_eq. cbn [kref_put net_kref set_net_kref].
  destruct (Z.eqb_spec (net_kref n + 1) 1); [lia|].
  rewrite store_store. apply store_same. rewrite Hh. do 2 f_equal.
  destruct n as [k d x]. unfold set_net_kref. cbn. f_equal. lia.
Qed.

Lemma inference_put_get inf i s :
  heap s !! inf = Some (ObjInference i) ->
  inf_kref i <> 0 ->
  ethosu_rpmsg_inference_put inf (ethosu_rpmsg_inference_get inf s) = (s, 0).
Proof.
  intros Hh Hk. rewrite (inference_get_heap inf i s Hh).
  rewrite (inference_put_live inf (set_inf_kref (inf_kref i + 1) i));
    [ | apply lookup_insert_eq | cbn [inf_kref set_inf_kref]; lia ].
  f_equal. rewrite store_store. apply store_same. rewrite Hh. do 2 f_equal.
  destruct i. unfold set_inf_kref. cbn. f_equal. lia.
Qed.

(** X19.  Descriptors are typed.  Each of the three lookups by
    descriptor (buffer, network, inference) accepts exactly the files
    that carry its own operations table; for every other descriptor,
    open or not, it answers -EINVAL and takes no reference.  So at
    most one of the three succeeds on a given descriptor.  The
    reference a lookup takes on a live network or inference is the
    one that closing a descriptor gives back: the two together leave
    the device as it was. *)
Theorem descriptors_are_typed (fd : Z) (f : file) (s : device_state) :
  files s !! fd = Some f ->
  let p := private_data f in
  ethosu_buffer_get_from_fd fd s
  = (if decide (f_op f = ethosu_buffer_fops)
     then (ethosu_buffer_get p s, p) else (s, - EINVAL))
  /\ ethosu_rpmsg_network_get_from_fd fd s
     = (if decide (f_op f = ethosu_rpmsg_network_fops)
        then (ethosu_rpmsg_network_get p s, p) else (s, - EINVAL))
  /\ ethosu_rpmsg_inference_get_from_fd fd s
     = (if decide (f_op f = ethosu_rpmsg_inference_fops)
        then (ethosu_rpmsg_inference_get p s, p) else (s, - EINVAL))
  /\ (forall n,
         f_op f = ethosu_rpmsg_network_fops ->
         heap s !! p = Some (ObjNetwork n) ->
         net_kref n <> 0 ->
         ethosu_rpmsg_network_release f
           (fst (ethosu_rpmsg_network_get_from_fd fd s)) = (s, 0))
  /\ (forall i,
         f_op f = ethosu_rpmsg_inference_fops ->
         heap s !! p = Some (ObjInference i) ->
         inf_kref i <> 0 ->
         ethosu_rpmsg_inference_release f
           (fst (ethosu_rpmsg_inference_get_from_fd fd s)) = (s, 0))
  /\ (forall fd',
         files s !! fd' = None ->
         ethosu_buffer_get_from_fd fd' s = (s, - EINVAL)
         /\ ethosu_rpmsg_network_get_from_fd fd' s = (s, - EINVAL)
         /\ ethosu_rpmsg_inference_get_from_fd fd' s = (s, - EINVAL)).
Proof.
  intros Hfd p.
  unfold ethosu_buffer_get_from_fd, ethosu_rpmsg_network_get_from_fd,
    ethosu_rpmsg_inference_get_from_fd, ethosu_buffer_verify,
    ethosu_rpmsg_network_verify, ethosu_rpmsg_inference_verify.
  rewrite Hfd. fold p.
  split; [|split; [|split; [|split; [|split]]]].
  - by destruct (decide (f_op f = ethosu_buffer_fops));
      [rewrite bool_decide_eq_true_2|rewrite bool_decide_eq_false_2].
  - by destruct (decide (f_op f = ethosu_rpmsg_network_fops));
      [rewrite bool_decide_eq_true_2|rewrite bool_decide_eq_false_2].
  - by destruct (decide (f_op f = ethosu_rpmsg_inference_fops));
      [rewrite bool_decide_eq_true_2|rewrite bool_decide_eq_false_2].
  - intros n Hop Hh Hk. rewrite bool_decide_eq_true_2 by done.
    cbn [negb fst]. unfold ethosu_rpmsg_network_release. fold p.
    by rewrite (network_put_get p n s).
  - intros i Hop Hh Hk. rewrite bool_decide_eq_true_2 by done.
    cbn [negb fst]. unfold ethosu_rpmsg_inference_release. fold p.
    by rewrite (inference_put_get p i s).
  - intros fd' ->. done.
Qed.

Lemma descriptors_are_typed_witness :
  ethosu_rpmsg_network_get_from_fd 6 inference_pending
  = (inference_pending, - EINVAL)
  /\ ethosu_rpmsg_inference_release (mk_file ethosu_rpmsg_inference_fops 30)
       (fst (ethosu_rpmsg_inference_get_from_fd 6 inference_pending))
     = (inference_pending, 0).
Proof.
  split.
  - exact (proj1 (proj2
             (descriptors_are_typed 6
                (mk_file ethosu_rpmsg_inference_fops 30) inference_pending
                eq_refl))).
  - refine (proj1 (proj2 (proj2 (proj2 (proj2
              (descriptors_are_typed 6
                 (mk_file ethosu_rpmsg_inference_fops 30) inference_pending
                 eq_refl))))) running_inference eq_refl eq_refl _).
    done.
Defined.

(** ** The unwinding of a failed inference creation *)

(** One buffer reference taken while the new inference sits at [inf],
    and how a later [put] gives it back. *)
Lemma buffer_get_slot inf p o h s :
  heap s = <[inf := ObjInference o]> h ->
  h !! inf = None ->
  buffers_live h ->
  exists h',
    heap (ethosu_buffer_get p s) = <[inf := ObjInference o]> h'
    /\ h' !! inf = None
    /\ buffers_live h'
    /\ (IS_ERR p = true -> h' = h)
    /\ (forall q n, h' !! q = Some (ObjNetwork n) -> h !! q = Some (ObjNetwork n))
    /\ (forall s' o',
           heap s' = <[inf := ObjInference o']> h' ->
           heap (ethosu_buffer_put p s') = <[inf := ObjInference o']> h).
Proof.
  intros Hs Hnone Hlive. unfold ethosu_buffer_get. rewrite Hs.
  destruct (decide (p = inf)) as [->|Hne].
  { rewrite lookup_insert_eq. exists h. split_and!; try done.
    intros s' o' Hs'. unfold ethosu_buffer_put.
    by rewrite Hs', lookup_insert_eq. }
  rewrite lookup_insert_ne by done.
  destruct (h !! p) as [[b| | | | | |]|] eqn:Hp;
    try (exists h; split_and!; try done;
         intros s' o' Hs'; unfold ethosu_buffer_put;
         by rewrite Hs', lookup_insert_ne, Hp by done).
  destruct (Hlive p b Hp) as [Hk Herr].
  exists (<[p := ObjBuffer (set_buf_kref (kref_get (buf_kref b)) b)]> h).
  split.
  { cbn [heap store set_heap]. rewrite Hs. by apply insert_insert_ne. }
  split; [by rewrite lookup_insert_ne|].
  split.
  { intros q c Hq. apply lookup_insert_Some in Hq as [[<- [= <-]]|[_ Hq]].
    - cbn [buf_kref set_buf_kref]. unfold kref_get. split; [lia|done].
    - by apply Hlive in Hq. }
  split; [congruence|].
  split.
  { intros q n Hq. by apply lookup_insert_Some in Hq as [[_ [=]]|[_ Hq]]. }
  intros s' o' Hs'. unfold ethosu_buffer_put.
  rewrite Hs', lookup_insert_ne, lookup_insert_eq by done.
  cbn [kref_put buf_kref set_buf_kref]. unfold kref_get.
  destruct (Z.eqb_spec (buf_kref b + 1) 1); [lia|].
  cbn [heap store set_heap]. rewrite Hs'.
  apply map_eq. intros q.
  destruct (decide (q = p)) as [->|Hq].
  - rewrite lookup_insert_eq, lookup_insert_ne, Hp by done. do 2 f_equal.
    destruct b as [k d]. unfold set_buf_kref. cbn. f_equal. lia.
  - rewrite lookup_insert_ne by done.
    destruct (decide (q = inf)) as [->|Hqi].
    + by rewrite !lookup_insert_eq.
    + by rewrite !lookup_insert_ne.
Qed.

Lemma buffer_get_frame p s :
  files (ethosu_buffer_get p s) = files s
  /\ mailbox (ethosu_buffer_get p s) = mailbox s.
Proof.
  unfold ethosu_buffer_get.
  by destruct (heap s !! p) as [[| | | | | |]|].
Qed.

Lemma buffer_get_from_fd_cases fd s :
  ethosu_buffer_get_from_fd fd s = (s, - EINVAL)
  \/ exists p, ethosu_buffer_get_from_fd fd s = (ethosu_buffer_get p s, p).
Proof.
  unfold ethosu_buffer_get_from_fd.
  destruct (files s !! fd) as [f|]; [|by left].
  destruct (negb (ethosu_buffer_verify f)); [by left|].
  right. by exists (private_data f).
Qed.

(** The loop that takes the buffers, and the loop that gives them
    back: the second undoes the first, whatever the inference at
    [inf] has become meanwhile. *)
Lemma get_buffers_undo inf fds n : forall i bufs got s s1 bufs1 got1 ret o h,
  heap s = <[inf := ObjInference o]> h ->
  h !! inf = None ->
  buffers_live h ->
  (i + n <= length bufs)%nat ->
  get_buffers n i fds bufs got s = (s1, bufs1, got1, ret) ->
  exists h1 k,
    heap s1 = <[inf := ObjInference o]> h1
    /\ h1 !! inf = None
    /\ buffers_live h1
    /\ files s1 = files s
    /\ mailbox s1 = mailbox s
    /\ got1 = got + Z.of_nat k
    /\ take i bufs1 = take i bufs
    /\ (forall q n, h1 !! q = Some (ObjNetwork n) -> h !! q = Some (ObjNetwork n))
    /\ (forall s' o',
           heap s' = <[inf := ObjInference o']> h1 ->
           heap (foldl (fun s0 buf => ethosu_buffer_put buf s0) s'
                   (rev (take k (drop i bufs1))))
           = <[inf := ObjInference o']> h).
Proof.
  induction n as [|n IH]; intros i bufs got s s1 bufs1 got1 ret o h
    Hs Hnone Hlive Hlen; cbn [get_buffers].
  { intros [= <- <- <- <-]. exists h, 0%nat.
    split_and!; try done. lia. }
  assert (Hstop : forall buf,
             (s, <[i:=buf]> bufs, got, buf) = (s1, bufs1, got1, ret) ->
             exists h1 k,
               heap s1 = <[inf := ObjInference o]> h1
               /\ h1 !! inf = None
               /\ buffers_live h1
               /\ files s1 = files s
               /\ mailbox s1 = mailbox s
               /\ got1 = got + Z.of_nat k
               /\ take i bufs1 = take i bufs
               /\ (forall q n, h1 !! q = Some (ObjNetwork n) ->
                               h !! q = Some (ObjNetwork n))
               /\ (forall s' o',
                      heap s' = <[inf := ObjInference o']> h1 ->
                      heap (foldl (fun s0 buf => ethosu_buffer_put buf s0) s'
                              (rev (take k (drop i bufs1))))
                      = <[inf := ObjInference o']> h)).
  { intros buf [= <- <- <- <-]. exists h, 0%nat.
    split_and!; try done; [lia|]. apply take_insert_ge. lia. }
  destruct (buffer_get_from_fd_cases (nth i fds 0) s) as [->|[p ->]].
  { change (IS_ERR (- EINVAL)) with true. cbv iota beta. apply Hstop. }
  destruct (buffer_get_slot inf p o h s Hs Hnone Hlive)
    as (h2 & Hs2 & Hnone2 & Hlive2 & Herr2 & Hnet2 & Hput).
  destruct (buffer_get_frame p s) as [Hf2 Hm2].
  destruct (IS_ERR p) eqn:Herr.
  { intros [= <- <- <- <-]. exists h, 0%nat.
    rewrite Hs2, (Herr2 eq_refl).
    split_and!; try done; [lia|]. apply take_insert_ge. lia. }
  intros Hrest.
  destruct (IH (S i) (<[i:=p]> bufs) (got + 1) _ _ _ _ _ o h2 Hs2 Hnone2 Hlive2
              ltac:(rewrite length_insert; lia) Hrest)
    as (h1 & k & Hs1 & Hnone1 & Hlive1 & Hf1 & Hm1 & Hgot & Htake & Hnet1
        & Hundo).
  exists h1, (S k).
  split; [done|]. split; [done|]. split; [done|].
  split; [congruence|]. split; [congruence|]. split; [lia|].
  assert (Hi : bufs1 !! i = Some p).
  { rewrite <- (lookup_take_lt bufs1 (S i) i) by lia.
    rewrite Htake, lookup_take_lt by lia.
    apply list_lookup_insert_eq. lia. }
  split.
  { replace (take i bufs1) with (take i (take (S i) bufs1))
      by (rewrite take_take; f_equal; lia).
    rewrite Htake, take_take. replace (i `min` S i)%nat with i by lia.
    apply take_insert_ge. lia. }
  split; [by intros q n0 Hq; apply Hnet2, Hnet1|].
  intros s' o' Hs'.
  rewrite (drop_S bufs1 p i Hi). cbn [take rev].
  rewrite foldl_app. cbn [foldl].
  apply Hput. by apply Hundo.
Qed.

Lemma network_get_slot inf net o h s :
  heap s = <[inf := ObjInference o]> h ->
  h !! inf = None ->
  (forall n, h !! net = Some (ObjNetwork n) -> net_kref n <> 0) ->
  exists h',
    heap (ethosu_rpmsg_network_get net s) = <[inf := ObjInference o]> h'
    /\ h' !! inf = None
    /\ files (ethosu_rpmsg_network_get net s) = files s
    /\ mailbox (ethosu_rpmsg_network_get net s) = mailbox s
    /\ (forall s' o',
           heap s' = <[inf := ObjInference o']> h' ->
           heap (ethosu_rpmsg_network_put net s')
           = <[inf := ObjInference o']> h).
Proof.
  intros Hs Hnone Hk. unfold ethosu_rpmsg_network_get. rewrite Hs.
  destruct (decide (net = inf)) as [->|Hne].
  { rewrite lookup_insert_eq. exists h. split_and!; try done.
    intros s' o' Hs'. unfold ethosu_rpmsg_network_put.
    by rewrite Hs', lookup_insert_eq. }
  rewrite lookup_insert_ne by done.
  destruct (h !! net) as [[|n| | | | |]|] eqn:Hp;
    try (exists h; split_and!; try done;
         intros s' o' Hs'; unfold ethosu_rpmsg_network_put;
         by rewrite Hs', lookup_insert_ne, Hp by done).
  specialize (Hk n eq_refl).
  exists (<[net := ObjNetwork (set_net_kref (kref_get (net_kref n)) n)]> h).
  split.
  { cbn [heap store set_heap]. rewrite Hs. by apply insert_insert_ne. }
  split; [by rewrite lookup_insert_ne|].
  split; [done|]. split; [done|].
  intros s' o' Hs'. unfold ethosu_rpmsg_network_put.
  rewrite Hs', lookup_insert_ne, lookup_insert_eq by done.
  cbn [kref_put net_kref set_net_kref]. unfold kref_get.
  destruct (Z.eqb_spec (net_kref n + 1) 1); [lia|].
  cbn [heap store set_heap]. rewrite Hs'.
  apply map_eq. intros q.
  destruct (decide (q = net)) as [->|Hq].
  - rewrite lookup_insert_eq, lookup_insert_ne, Hp by done. do 2 f_equal.
    destruct n as [k d x]. unfold set_net_kref. cbn. f_equal. lia.
  - rewrite lookup_insert_ne by done.
    destruct (decide (q = inf)) as [->|Hqi].
    + by rewrite !lookup_insert_eq.
    + by rewrite !lookup_insert_ne.
Qed.

Lemma inf_update_slot f inf o h s :
  heap s = <[inf := ObjInference o]> h ->
  heap (inf_update f inf s) = <[inf := ObjInference (f o)]> h
  /\ files (inf_update f inf s) = files s
  /\ mailbox (inf_update f inf s) = mailbox s.
Proof.
  intros Hs. unfold inf_update. rewrite Hs, lookup_insert_eq.
  cbn [heap files mailbox store set_heap]. rewrite Hs.
  by rewrite insert_insert_eq.
Qed.

Lemma msg_update_slot f inf o h s :
  heap s = <[inf := ObjInference o]> h ->
  heap (msg_update f inf s)
  = <[inf := ObjInference (set_inf_msg (f (inf_msg o)) o)]> h
  /\ files (msg_update f inf s) = files s
  /\ mailbox (msg_update f inf s) = mailbox s.
Proof.
  intros Hs. unfold msg_update. rewrite Hs, lookup_insert_eq.
  cbn [heap files mailbox store set_heap object_map_msg]. rewrite Hs.
  by rewrite insert_insert_eq.
Qed.

Lemma send_loop_frame data length rounds : forall try_send timeout s ret s1,
  Forall leaves_objects_alone rounds ->
  send_loop data length rounds try_send timeout s = Some (ret, s1) ->
  heap s1 = heap s
  /\ files s1 = files s
  /\ idr_rt (msg_idr (mailbox s1)) = idr_rt (msg_idr (mailbox s)).
Proof.
  induction rounds as [|r rounds IH]; intros try_send timeout s ret s1 Hq;
    cbn [send_loop];
    destruct (Z.eqb_spec (mbox_done (mailbox s)) 0); cbn [negb];
    try (by intros [= <- <-]); try discriminate.
  apply Forall_cons in Hq as [Hr Hq].
  destruct (try_send && negb (r_trysend r =? - ENOMEM)).
  - intros [= <- <-]. unfold rpmsg_trysend.
    by destruct (r_trysend r =? 0).
  - destruct (r_signal r); [intros [= <- <-]; apply Hr|].
    destruct (wait_woken timeout (r_slept r) =? 0);
      [intros [= <- <-]; apply Hr|].
    intros Hloop.
    destruct (IH _ _ _ _ _ Hq Hloop) as (H1 & H2 & H3).
    destruct (Hr s) as (H4 & H5 & H6).
    split; [congruence|]. split; congruence.
Qed.

Lemma send_locked_frame current rounds data length s ret s1 :
  Forall leaves_objects_alone rounds ->
  ethosu_send_locked current rounds data length s = Some (ret, s1) ->
  heap s1 = heap s
  /\ files s1 = files s
  /\ idr_rt (msg_idr (mailbox s1)) = idr_rt (msg_idr (mailbox s)).
Proof.
  intros Hq. unfold ethosu_send_locked.
  destruct (send_loop _ _ _ _ _ _) as [[ret1 s2]|] eqn:Hloop; [|discriminate].
  destruct (send_loop_frame _ _ _ _ _ _ _ _ Hq Hloop) as (H1 & H2 & H3).
  by destruct ((ret1 =? 0) && _); intros [= <- <-].
Qed.

Lemma inference_send_slot pmu_event_max current rounds inf o h s ret s1 :
  heap s = <[inf := ObjInference o]> h ->
  Forall leaves_objects_alone rounds ->
  ethosu_rpmsg_inference_send_at pmu_event_max current rounds inf s
  = Some (ret, s1) ->
  exists o1,
    heap s1 = <[inf := ObjInference o1]> h
    /\ files s1 = files s
    /\ idr_rt (msg_idr (mailbox s1)) = idr_rt (msg_idr (mailbox s))
    /\ (inf_ifm_count o1, inf_ifm o1, inf_ofm_count o1, inf_ofm o1, inf_net o1,
        msg_id (inf_msg o1))
       = (inf_ifm_count o, inf_ifm o, inf_ofm_count o, inf_ofm o, inf_net o,
          msg_id (inf_msg o))
    /\ inf_pmu_event_config o1 = inf_pmu_event_config o
    /\ inf_pmu_event_count o1 = inf_pmu_event_count o
    /\ (ret = 0 -> to_u8 pmu_event_max = ETHOSU_RPMSG_PMU_MAX).
Proof.
  intros Hs Hq. unfold ethosu_rpmsg_inference_send_at. cbv zeta.
  destruct (inf_update_slot (set_inf_status ETHOSU_UAPI_STATUS_ERROR) inf o h s
              Hs) as (H5 & F5 & M5).
  set (s5 := inf_update _ inf s) in *.
  rewrite H5, lookup_insert_eq.
  unfold ethosu_rpmsg_mailbox_inference. cbv zeta.
  set (f := set_msg_type _).
  destruct (msg_update_slot f inf _ h s5 H5) as (H6 & F6 & M6).
  set (s6 := msg_update f inf s5) in *.
  destruct (Z.eqb_spec (to_u8 pmu_event_max) ETHOSU_RPMSG_PMU_MAX)
    as [Hpmu|Hpmu]; cbn [negb].
  2:{ cbn [negb Z.eqb EINVAL Z.opp]. intros [= <- <-].
      eexists. split; [exact H6|]. split; [congruence|].
      split; [congruence|]. by split_and!. }
  destruct (ethosu_send_locked _ _ _ _ _) as [[ret7 s7]|] eqn:Hsend;
    [|discriminate].
  destruct (send_locked_frame _ _ _ _ _ _ _ Hq Hsend) as (H7 & F7 & M7).
  rewrite H6 in H7.
  destruct (negb (ret7 =? 0)).
  { intros [= <- <-]. eexists. split; [exact H7|]. split; [congruence|].
    split; [congruence|]. by split_and!. }
  intros [= <- <-].
  destruct (inf_update_slot (set_inf_status ETHOSU_UAPI_STATUS_RUNNING) inf _ h
              s7 H7) as (H8 & F8 & M8).
  destruct (inf_update_slot (fun i => set_inf_kref (kref_get (inf_kref i)) i)
              inf _ h _ H8) as (H9 & F9 & M9).
  eexists. split; [exact H9|]. split.
  { unfold ethosu_rpmsg_inference_get. congruence. }
  split; [|by split_and!].
  unfold ethosu_rpmsg_inference_get. congruence.
Qed.

(** The end of every unwinding: the request leaves the table and the
    inference is freed. *)
Lemma unwinding_ends inf o h rt s :
  heap s = <[inf := ObjInference o]> h ->
  h !! inf = None ->
  idr_rt (msg_idr (mailbox s)) = <[msg_id (inf_msg o) := inf]> rt ->
  rt !! msg_id (inf_msg o) = None ->
  let s' :=
    inference_create_kfree inf (ethosu_rpmsg_mailbox_deregister inf s) in
  heap s' = h /\ files s' = files s /\ idr_rt (msg_idr (mailbox s')) = rt.
Proof.
  intros Hs Hnone Hidr Hfree s'. unfold s', inference_create_kfree.
  rewrite (deregister_registered inf (inf_msg o)).
  2:{ unfold msg_at. by rewrite Hs, lookup_insert_eq. }
  cbn [heap files mailbox devm_kfree set_heap set_mailbox set_msg_idr msg_idr
         idr_remove idr_rt].
  rewrite Hs, Hidr. split; [|split; [done|]].
  - by rewrite delete_insert_id.
  - by rewrite delete_insert_id.
Qed.

Lemma get_buffers_put_buffers inf fds n bufs s s1 bufs1 got1 ret o h :
  heap s = <[inf := ObjInference o]> h ->
  h !! inf = None ->
  buffers_live h ->
  (n <= length bufs)%nat ->
  get_buffers n 0 fds bufs 0 s = (s1, bufs1, got1, ret) ->
  exists h1,
    heap s1 = <[inf := ObjInference o]> h1
    /\ h1 !! inf = None
    /\ buffers_live h1
    /\ files s1 = files s
    /\ mailbox s1 = mailbox s
    /\ (forall q n, h1 !! q = Some (ObjNetwork n) -> h !! q = Some (ObjNetwork n))
    /\ (forall s' o',
           heap s' = <[inf := ObjInference o']> h1 ->
           heap (put_buffers got1 bufs1 s') = <[inf := ObjInference o']> h).
Proof.
  intros Hs Hnone Hlive Hlen Hget.
  destruct (get_buffers_undo inf fds n 0 bufs 0 s s1 bufs1 got1 ret o h
              Hs Hnone Hlive ltac:(lia) Hget)
    as (h1 & k & Hs1 & Hnone1 & Hlive1 & Hf & Hm & Hgot & _ & Hnet & Hundo).
  exists h1. split_and!; try done.
  intros s' o' Hs'. unfold put_buffers.
  rewrite Hgot, Z.add_0_l, Nat2Z.id. by apply Hundo.
Qed.

Lemma put_ifm_unwinds inf o h1 h rt s :
  heap s = <[inf := ObjInference o]> h1 ->
  h !! inf = None ->
  idr_rt (msg_idr (mailbox s)) = <[msg_id (inf_msg o) := inf]> rt ->
  rt !! msg_id (inf_msg o) = None ->
  (forall s' o',
      heap s' = <[inf := ObjInference o']> h1 ->
      heap (put_buffers (inf_ifm_count o) (inf_ifm o) s')
      = <[inf := ObjInference o']> h) ->
  let s' := inference_create_put_ifm inf s in
  heap s' = h /\ files s' = files s /\ idr_rt (msg_idr (mailbox s')) = rt.
Proof.
  intros Hs Hnone Hidr Hfree Hundo. unfold inference_create_put_ifm.
  rewrite Hs, lookup_insert_eq. cbv zeta.
  pose proof (Hundo s o Hs) as Hp.
  destruct (unwinding_ends inf o h rt _ Hp Hnone) as (H1 & H2 & H3);
    [by rewrite put_buffers_mailbox|done|].
  split; [done|]. split; [|done].
  rewrite H2. apply (f_equal (fun x => snd x)) with
    (x := observables (put_buffers (inf_ifm_count o) (inf_ifm o) s))
    (y := observables s).
  apply put_buffers_observables.
Qed.

Lemma put_ofm_unwinds inf o h2 h1 h rt s :
  heap s = <[inf := ObjInference o]> h2 ->
  h !! inf = None ->
  idr_rt (msg_idr (mailbox s)) = <[msg_id (inf_msg o) := inf]> rt ->
  rt !! msg_id (inf_msg o) = None ->
  (forall s' o',
      heap s' = <[inf := ObjInference o']> h2 ->
      heap (put_buffers (inf_ofm_count o) (inf_ofm o) s')
      = <[inf := ObjInference o']> h1) ->
  (forall s' o',
      heap s' = <[inf := ObjInference o']> h1 ->
      heap (put_buffers (inf_ifm_count o) (inf_ifm o) s')
      = <[inf := ObjInference o']> h) ->
  let s' := inference_create_put_ofm inf s in
  heap s' = h /\ files s' = files s /\ idr_rt (msg_idr (mailbox s')) = rt.
Proof.
  intros Hs Hnone Hidr Hfree Hofm Hifm. unfold inference_create_put_ofm.
  rewrite Hs, lookup_insert_eq. cbv zeta.
  pose proof (Hofm s o Hs) as Hp.
  destruct (put_ifm_unwinds inf o h1 h rt _ Hp Hnone) as (H1 & H2 & H3);
    [by rewrite put_buffers_mailbox|done|done|].
  split; [done|]. split; [|done].
  rewrite H2. apply (f_equal (fun x => snd x)) with
    (x := observables (put_buffers (inf_ofm_count o) (inf_ofm o) s))
    (y := observables s).
  apply put_buffers_observables.
Qed.

Lemma put_net_unwinds inf o h3 h2 h1 h rt s :
  heap s = <[inf := ObjInference o]> h3 ->
  h !! inf = None ->
  idr_rt (msg_idr (mailbox s)) = <[msg_id (inf_msg o) := inf]> rt ->
  rt !! msg_id (inf_msg o) = None ->
  (forall s' o',
      heap s' = <[inf := ObjInference o']> h3 ->
      heap (ethosu_rpmsg_network_put (inf_net o) s')
      = <[inf := ObjInference o']> h2) ->
  (forall s' o',
      heap s' = <[inf := ObjInference o']> h2 ->
      heap (put_buffers (inf_ofm_count o) (inf_ofm o) s')
      = <[inf := ObjInference o']> h1) ->
  (forall s' o',
      heap s' = <[inf := ObjInference o']> h1 ->
      heap (put_buffers (inf_ifm_count o) (inf_ifm o) s')
      = <[inf := ObjInference o']> h) ->
  let s' := inference_create_put_net inf s in
  heap s' = h /\ files s' = files s /\ idr_rt (msg_idr (mailbox s')) = rt.
Proof.
  intros Hs Hnone Hidr Hfree Hnet Hofm Hifm. unfold inference_create_put_net.
  rewrite Hs, lookup_insert_eq. cbv zeta.
  pose proof (Hnet s o Hs) as Hp.
  destruct (put_ofm_unwinds inf o h2 h1 h rt _ Hp Hnone) as (H1 & H2 & H3);
    [by rewrite network_put_mailbox|done|done|done|].
  split; [done|]. split; [|done].
  rewrite H2. apply (f_equal (fun x => snd x)) with
    (x := observables (ethosu_rpmsg_network_put (inf_net o) s))
    (y := observables s).
  apply network_put_observables.
Qed.

Lemma register_failure gfp_ok msg s s' ret :
  0 <= idr_next (msg_idr (mailbox s)) ->
  ethosu_rpmsg_mailbox_register gfp_ok msg s = (s', ret) ->
  ret <> 0 ->
  exists id, s' = msg_update (set_msg_id id) msg s.
Proof.
  intros Hnext. unfold ethosu_rpmsg_mailbox_register.
  destruct (idr_alloc_cyclic _ _ _ _ _) as [i id] eqn:Ha.
  destruct (Z.ltb_spec id 0); [|intros [= _ <-]; done].
  intros [= <- <-] _.
  destruct (idr_alloc_cyclic_fresh _ _ _ _ _ Ha) as [_ Hsame].
  rewrite (Hsame ltac:(lia) Hnext). exists id. f_equal.
  apply device_state_eq; try reflexivity.
  cbn [mailbox set_mailbox]. by destruct (mailbox s).
Qed.

(** An inference creation either leaves nothing behind (the objects,
    their reference counts, the descriptors and the entries of the
    table are as before the call) or returns the descriptor the
    kernel handed out, which is only past a sender that found
    [pmu_event_max] equal to ETHOSU_RPMSG_PMU_MAX; the new inference
    then has [pmu_event_max] slots in both PMU arrays. *)
Lemma inference_create_at_outcome (pmu_event_max : Z) (current : Z)
  (env : inference_create_env) (net : Z)
  (uapi : ethosu_uapi_inference_create) (s s' : device_state) (ret : Z) :
  buffers_live (heap s) ->
  (forall n, heap s !! net = Some (ObjNetwork n) -> net_kref n <> 0) ->
  0 <= idr_next (msg_idr (mailbox s)) ->
  Forall leaves_objects_alone (ice_rounds env) ->
  ethosu_rpmsg_inference_create_at pmu_event_max current env net uapi s
  = Some (ret, s') ->
  (heap s' = heap s
   /\ files s' = files s
   /\ idr_rt (msg_idr (mailbox s')) = idr_rt (msg_idr (mailbox s)))
  \/ (ret = ice_fd env
      /\ 0 <= ret
      /\ to_u8 pmu_event_max = ETHOSU_RPMSG_PMU_MAX
      /\ exists o h,
           heap s' = <[heap_fresh (heap s) := ObjInference o]> h
           /\ length (inf_pmu_event_config o) = Z.to_nat pmu_event_max
           /\ length (inf_pmu_event_count o) = Z.to_nat pmu_event_max
           /\ inf_pmu_event_config o
              = map (fun k => to_u8 (nth k (pc_events (ic_pmu_config uapi)) 0))
                  (seq 0 (Z.to_nat pmu_event_max))).
Proof.
  intros Hlive Hnet Hnext Hq. unfold ethosu_rpmsg_inference_create_at.
  destruct (Z.ltb_spec ETHOSU_FD_MAX (ic_ifm_count uapi)) as [|Hic];
    [by intros [= <- <-]; left|].
  destruct (Z.ltb_spec ETHOSU_FD_MAX (ic_ofm_count uapi)) as [|Hoc];
    [by intros [= <- <-]; left|].
  cbn [orb].
  destruct (negb (ice_alloc_ok env)); [by intros [= <- <-]; left|].
  cbv zeta.
  set (inf := heap_fresh (heap s)).
  assert (Hnone : heap s !! inf = None) by apply heap_fresh_unused.
  set (o0 := mk_inference _ _ _ _ _ _ _ _ _ _ _ _ _ _).
  set (s1 := store inf (ObjInference o0) s).
  assert (H1 : heap s1 = <[inf := ObjInference o0]> (heap s)) by reflexivity.
  destruct (ethosu_rpmsg_mailbox_register (ice_gfp_ok env) inf s1)
    as [s2 r2] eqn:Hreg.
  destruct (Z.ltb_spec r2 0) as [Hr2|Hr2].
  { intros [= <- <-]. left.
    destruct (register_failure _ inf s1 _ _ Hnext Hreg ltac:(lia)) as [id ->].
    destruct (msg_update_slot (set_msg_id id) inf o0 (heap s) s1 H1)
      as (H2 & F2 & M2).
    unfold inference_create_kfree.
    cbn [heap files mailbox devm_kfree set_heap].
    rewrite H2, F2, M2. split; [|done]. by rewrite delete_insert_id. }
  assert (r2 = 0) as ->.
  { revert Hreg. unfold ethosu_rpmsg_mailbox_register.
    destruct (idr_alloc_cyclic _ _ _ _ _) as [i id].
    destruct (Z.ltb_spec id 0); intros [= _ <-]; lia. }
  destruct (register_success _ _ _ _ Hreg) as (id & Hid & Hfree & ->).
  clear Hreg.
  change (mailbox s1) with (mailbox s) in Hfree.
  set (m2 := set_mailbox _ s1).
  destruct (msg_update_slot (set_msg_id id) inf o0 (heap s) m2 H1)
    as (H2 & F2 & M2).
  set (s2 := msg_update (set_msg_id id) inf m2) in *.
  set (o2 := set_inf_msg (set_msg_id id (inf_msg o0)) o0) in *.
  set (rt := idr_rt (msg_idr (mailbox s))) in *.
  assert (T2 : idr_rt (msg_idr (mailbox s2)) = <[id := inf]> rt)
    by (by rewrite M2).
  assert (F2' : files s2 = files s) by (by rewrite F2).
  clearbody s2. clear H1 F2 M2. clear m2 s1.
  assert (Hlen : forall c,
             c <= ETHOSU_FD_MAX ->
             (Z.to_nat c <= length (repeat 0%Z (Z.to_nat ETHOSU_FD_MAX)))%nat).
  { intros c Hc. rewrite repeat_length. lia. }
  (* the inputs *)
  destruct (get_buffers _ 0 (ic_ifm_fd uapi) _ 0 s2)
    as [[[s3 ifm] ifm_count] r3] eqn:Hifm.
  destruct (get_buffers_put_buffers inf _ _ _ _ _ _ _ _ o2 (heap s)
              H2 Hnone Hlive (Hlen _ Hic) Hifm)
    as (h3 & H3 & Hnone3 & Hlive3 & F3 & M3 & Hnet3 & Hundo3).
  clear Hifm.
  destruct (inf_update_slot (set_inf_ifm ifm_count ifm) inf o2 h3 s3 H3)
    as (H4 & F4 & M4).
  set (s4 := inf_update _ inf s3) in *.
  set (o4 := set_inf_ifm ifm_count ifm o2) in *.
  assert (T4 : idr_rt (msg_idr (mailbox s4)) = <[id := inf]> rt)
    by (by rewrite M4, M3).
  assert (F4' : files s4 = files s) by congruence.
  clearbody s4. clear H3 F3 M3 F4 M4 s3 H2 T2 F2' s2.
  destruct (negb (r3 =? 0)).
  { intros [= <- <-]. left.
    destruct (put_ifm_unwinds inf o4 h3 (heap s) rt s4 H4 Hnone T4 Hfree
                Hundo3) as (R1 & R2 & R3).
    split; [done|]. split; [congruence|done]. }
  (* the outputs *)
  destruct (get_buffers _ 0 (ic_ofm_fd uapi) _ 0 s4)
    as [[[s5 ofm] ofm_count] r5] eqn:Hofm.
  destruct (get_buffers_put_buffers inf _ _ _ _ _ _ _ _ o4 h3
              H4 Hnone3 Hlive3 (Hlen _ Hoc) Hofm)
    as (h5 & H5 & Hnone5 & Hlive5 & F5 & M5 & Hnet5 & Hundo5).
  clear Hofm.
  destruct (inf_update_slot (set_inf_ofm ofm_count ofm) inf o4 h5 s5 H5)
    as (H6 & F6 & M6).
  set (s6 := inf_update _ inf s5) in *.
  set (o6 := set_inf_ofm ofm_count ofm o4) in *.
  assert (T6 : idr_rt (msg_idr (mailbox s6)) = <[id := inf]> rt)
    by (by rewrite M6, M5).
  assert (F6' : files s6 = files s) by congruence.
  clearbody s6. clear H5 F5 M5 F6 M6 s5 H4 T4 F4' s4.
  destruct (negb (r5 =? 0)).
  { intros [= <- <-]. left.
    destruct (put_ofm_unwinds inf o6 h5 h3 (heap s) rt s6 H6 Hnone T6 Hfree
                Hundo5 Hundo3) as (R1 & R2 & R3).
    split; [done|]. split; [congruence|done]. }
  (* the PMU configuration, the network and the send *)
  match goal with
  | |- context [ethosu_rpmsg_network_get net (inf_update ?f inf s6)] =>
      destruct (inf_update_slot f inf o6 h5 s6 H6) as (H7 & F7 & M7);
      set (o7 := f o6) in *;
      set (s7 := inf_update f inf s6) in *
  end.
  destruct (network_get_slot inf net o7 h5 s7 H7 Hnone5) as
    (h8 & H8 & Hnone8 & F8 & M8 & Hundo8).
  { intros n Hn. by apply Hnet, Hnet3, Hnet5. }
  set (s8 := ethosu_rpmsg_network_get net s7) in *.
  assert (T8 : idr_rt (msg_idr (mailbox s8)) = <[id := inf]> rt)
    by (by rewrite M8, M7).
  assert (F8' : files s8 = files s) by congruence.
  clearbody s8. clear H7 F7 M7 F8 M8 s7 H6 T6 F6' s6.
  destruct (ethosu_rpmsg_inference_send_at pmu_event_max current
              (ice_rounds env) inf s8)
    as [[r9 s9]|] eqn:Hsend; [|discriminate].
  destruct (inference_send_slot _ _ _ inf o7 h8 s8 r9 s9 H8 Hq Hsend)
    as (o9 & H9 & F9 & T9 & [= E1 E2 E3 E4 E5 E6] & Econfig & Ecount & Hpmu).
  assert (Hwind : forall x,
             Some (x, inference_create_put_net inf s9) = Some (ret, s') ->
             heap s' = heap s
             /\ files s' = files s
             /\ idr_rt (msg_idr (mailbox s')) = idr_rt (msg_idr (mailbox s))).
  { intros x [= _ <-].
    destruct (put_net_unwinds inf o9 h8 h5 h3 (heap s) rt s9 H9 Hnone)
      as (R1 & R2 & R3).
    - rewrite E6. cbn [o7 o6 o4 o2 inf_msg set_inf_msg set_msg_id msg_id
                         set_inf_ofm set_inf_ifm set_inf_pmu_cycle_counter
                         set_inf_pmu_event_count set_inf_pmu_event_config].
      congruence.
    - rewrite E6. by cbn.
    - rewrite E5. exact Hundo8.
    - rewrite E3, E4. exact Hundo5.
    - rewrite E1, E2. exact Hundo3.
    - split; [done|]. split; [congruence|done]. }
  destruct (Z.eqb_spec r9 0) as [Hr9|Hr9]; cbn [negb];
    [|intros Hres; left; by eapply Hwind].
  unfold anon_inode_getfd.
  destruct (Z.ltb_spec (ice_fd env) 0) as [Hfd|Hfd].
  - destruct (Z.ltb_spec (ice_fd env) 0); [|lia].
    intros Hres; left; by eapply Hwind.
  - destruct (Z.ltb_spec (ice_fd env) 0); [lia|].
    intros [= <- <-]. right. split; [done|]. split; [done|].
    split; [by apply Hpmu|].
    exists o9, h8. split; [exact H9|].
    rewrite Econfig, Ecount.
    cbn [o7 inf_pmu_event_config inf_pmu_event_count
           set_inf_pmu_cycle_counter set_inf_pmu_event_count
           set_inf_pmu_event_config].
    by rewrite length_map, length_seq, repeat_length.
Qed.


(** X20.  A failed inference creation leaves nothing behind.  Whatever
    makes the call fail (too many descriptors, no memory, no free id,
    an input or output descriptor that is no buffer, a number of PMU
    events that is not the firmware's, a send that fails, no free
    file descriptor), every reference taken on the way is given back,
    the request leaves the table and the inference is freed: the
    objects, their reference counts, the descriptors and the entries
    of the table are as before the call.  This holds for every value
    [pmu_event_max] of ETHOSU_PMU_EVENT_MAX, the one that lets the
    request reach the transport included, for live buffers and a live
    network, as far as the other tasks leave the objects alone while
    the sender sleeps. *)
Theorem inference_create_rolls_back (pmu_event_max : Z) (current : Z)
  (env : inference_create_env) (net : Z)
  (uapi : ethosu_uapi_inference_create) (s s' : device_state) (ret : Z) :
  buffers_live (heap s) ->
  (forall n, heap s !! net = Some (ObjNetwork n) -> net_kref n <> 0) ->
  0 <= idr_next (msg_idr (mailbox s)) ->
  Forall leaves_objects_alone (ice_rounds env) ->
  ethosu_rpmsg_inference_create_at pmu_event_max current env net uapi s
  = Some (ret, s') ->
  ret < 0 ->
  heap s' = heap s
  /\ files s' = files s
  /\ idr_rt (msg_idr (mailbox s')) = idr_rt (msg_idr (mailbox s)).
Proof.
  intros Hlive Hnet Hnext Hq Hcreate Hret.
  destruct (inference_create_at_outcome pmu_event_max current env net uapi
              s s' ret Hlive Hnet Hnext Hq Hcreate)
    as [Hback|(_ & Hpos & _)]; [exact Hback | lia].
Qed.

Lemma inference_pending_live : buffers_live (heap inference_pending).
Proof.
  intros p b Hp. unfold inference_pending in Hp. cbn [heap] in Hp.
  apply lookup_insert_Some in Hp as [[<- Hp]|[_ Hp]];
    [injection Hp as <-; by split|].
  apply lookup_insert_Some in Hp as [[<- Hp]|[_ Hp]];
    [injection Hp as <-; by split|].
  apply lookup_insert_Some in Hp as [[<- Hp]|[_ Hp]]; [discriminate|].
  apply lookup_singleton_Some in Hp as [_ Hp]. discriminate.
Qed.

Lemma inference_sent_live : buffers_live (heap inference_sent).
Proof.
  intros p b Hp. unfold inference_sent in Hp. cbn [heap store set_heap] in Hp.
  apply lookup_insert_Some in Hp as [[_ Hp]|[_ Hp]]; [discriminate|].
  by apply (inference_pending_live p b).
Qed.


(** ** The PMU slots of an inference that was sent *)




(** ** Creation that fails *)

(** The request reaches the transport, and then the process has no
    descriptor left: the packet is out, everything else is undone. *)
Lemma inference_create_rolls_back_witness :
  exists s',
    ethosu_rpmsg_inference_create_at ETHOSU_RPMSG_PMU_MAX 7
      (mk_inference_create_env true true [sending_round] (- EMFILE))
      20 pmu_request inference_sent
    = Some (- EMFILE, s')
    /\ length (tx s') = 1%nat
    /\ heap s' = heap inference_sent
    /\ files s' = files inference_sent
    /\ idr_rt (msg_idr (mailbox s')) = idr_rt (msg_idr (mailbox inference_sent)).
Proof.
  eexists. split; [vm_compute; reflexivity|]. split; [reflexivity|].
  apply (inference_create_rolls_back ETHOSU_RPMSG_PMU_MAX 7
           (mk_inference_create_env true true [sending_round] (- EMFILE))
           20 pmu_request inference_sent _ (- EMFILE)).
  - exact inference_sent_live.
  - intros n [= <-]. done.
  - done.
  - repeat constructor.
  - vm_compute. reflexivity.
  - done.
Defined.

